(** * mdtraj.formats.pdb.pdbstructure: a shallow embedding

    The parser of [pdbstructure.py] is a single forward pass over the lines
    of a PDB file that builds the tree

      PdbStructure > Model > Chain > Residue > Atom > Location

    and resolves overflowed atom and residue numbers on the way.  Python
    objects become records, a reference to an object that is owned by a list
    ([_current_model], [atoms_by_name[...]], ...) becomes the index of the
    object in that list, exceptions become the [Raise] branch of [result], and
    [warnings.warn] appends to a log threaded by the monad [M]. *)

From Stdlib Require Import ZArith String Ascii List Bool Lia DecimalString
  DecimalPos.
From Stdlib Require DecimalZ.
From stdpp Require Import base option list gmap strings.

Local Open Scope string_scope.
Local Open Scope list_scope.
Local Open Scope Z_scope.

(** ** Exceptions and the result monad *)

Inductive exn : Set :=
  | AssertionError | AttributeError | IndexError | KeyError
  | OverflowError | ReferenceError | TypeError | ValueError.

#[global] Instance exn_eq_dec : EqDecision exn.
Proof. solve_decision. Defined.

Inductive result (A : Type) : Type :=
  | Ok (a : A)
  | Raise (e : exn).
Arguments Ok {A} a.
Arguments Raise {A} e.

#[global] Instance result_ret : MRet result := @Ok.
#[global] Instance result_bind : MBind result :=
  λ A B f m, match m with Ok a => f a | Raise e => Raise e end.

Definition is_Ok {A} (r : result A) : bool :=
  match r with Ok _ => true | Raise _ => false end.

(** [try: body except (caught): handler] *)
Definition try_except {A} (body : result A) (caught : list exn)
    (handler : result A) : result A :=
  match body with
  | Ok a => Ok a
  | Raise e => if bool_decide (e ∈ caught) then handler else Raise e
  end.

(** [obj.attr] on an object that may be [None]. *)
Definition attr {A} (o : option A) : result A :=
  match o with Some a => Ok a | None => Raise AttributeError end.

(** [d[k]] on a dict. *)
Definition getitem {A} (o : option A) : result A :=
  match o with Some a => Ok a | None => Raise KeyError end.

(** Following a reference held as an index into the owning list.  Every
    index the parser stores is in range, so [ReferenceError] marks states
    that no run of the program reaches. *)
Definition deref {A} (l : list A) (i : nat) : result A :=
  match l !! i with Some a => Ok a | None => Raise ReferenceError end.

(** ** Python strings

    A [str] is modelled as a [string] of code points below 256. *)

Definition ord (c : ascii) : Z := Z.of_N (N_of_ascii c).

(** [str.isspace] on one character (Py_UNICODE_ISSPACE, Latin-1 range). *)
Definition isspace (c : ascii) : bool :=
  match c with
  | "009" | "010" | "011" | "012" | "013"
  | "028" | "029" | "030" | "031" | " "
  | "133" | "160" => true
  | _ => false
  end%char.

(** The white space that [int] and [float] skip around a number:
    Py_ISSPACE, together with the non-ASCII white space that the
    conversion turns into a blank first.  The separators 0x1c to 0x1f are
    white space for [str.isspace], [str.strip] and [str.split], but not
    here. *)
Definition number_space (c : ascii) : bool :=
  match c with
  | "009" | "010" | "011" | "012" | "013" | " "
  | "133" | "160" => true
  | _ => false
  end%char.

(** [s[a:b]] and [s[a:]] for non-negative bounds. *)
Definition slice (s : string) (a b : nat) : string := substring a (b - a) s.
Definition slice_from (s : string) (a : nat) : string :=
  substring a (String.length s) s.

(** [s[i]], raising IndexError when out of range. *)
Definition index (s : string) (i : nat) : result ascii :=
  match String.get i s with Some c => Ok c | None => Raise IndexError end.

(** [s.find(p) == 0] *)
Definition find_at_0 (s p : string) : bool := String.prefix p s.

Fixpoint lstrip_by (f : ascii → bool) (s : string) : string :=
  match s with
  | String c s' => if f c then lstrip_by f s' else s
  | EmptyString => EmptyString
  end.
Definition rstrip_by (f : ascii → bool) (s : string) : string :=
  String.rev (lstrip_by f (String.rev s)).

Definition strip (s : string) : string := rstrip_by isspace (lstrip_by isspace s).

Fixpoint in_chars (c : ascii) (chars : string) : bool :=
  match chars with
  | String d r => if Ascii.eqb c d then true else in_chars c r
  | EmptyString => false
  end.
Definition lstrip_chars (s chars : string) : string :=
  lstrip_by (λ c, in_chars c chars) s.
Definition rstrip_chars (s chars : string) : string :=
  rstrip_by (λ c, in_chars c chars) s.

Fixpoint take_while (f : ascii → bool) (s : string) : string :=
  match s with
  | String c s' => if f c then String c (take_while f s') else EmptyString
  | EmptyString => EmptyString
  end.

(** [s.split()[0]] *)
Definition split_0 (s : string) : result string :=
  match lstrip_by isspace s with
  | EmptyString => Raise IndexError
  | t => Ok (take_while (λ c, negb (isspace c)) t)
  end.

Definition len (s : string) : Z := Z.of_nat (String.length s).

(** ** [int(s, base)]

    The value of a digit character, as in [_PyLong_DigitValue]. *)
Definition digit_value (c : ascii) : option Z :=
  let n := ord c in
  if (48 <=? n) && (n <=? 57) then Some (n - 48)
  else if (97 <=? n) && (n <=? 122) then Some (n - 87)
  else if (65 <=? n) && (n <=? 90) then Some (n - 55)
  else None.

Definition digit_in (base : Z) (c : ascii) : option Z :=
  match digit_value c with
  | Some d => if d <? base then Some d else None
  | None => None
  end.

(** The scan of the digit run: digits, single underscores between them.
    [prev_us] tells whether the previous character was an underscore, [n]
    counts the digits read.  Returns the value, the number of digits and
    the unread rest, or [None] on a doubled or trailing underscore. *)
Fixpoint scan_digits (base : Z) (prev_us : bool) (acc : Z) (n : nat)
    (s : string) : option (Z * nat * string) :=
  match s with
  | String c s' =>
      if Ascii.eqb c "_" then
        if prev_us then None else scan_digits base true acc n s'
      else
        match digit_in base c with
        | Some d => scan_digits base false (acc * base + d) (S n) s'
        | None => if prev_us then None else Some (acc, n, s)
        end
  | EmptyString => if prev_us then None else Some (acc, n, s)
  end.

Definition skip_prefix (base : Z) (s : string) : string :=
  match s with
  | String "0" (String x r) =>
      if (base =? 16) && (Ascii.eqb x "x" || Ascii.eqb x "X") then
        match r with String "_" r' => r' | _ => r end
      else s
  | _ => s
  end.

(** The cap on the number of digits of a conversion
    ([sys.get_int_max_str_digits()], 4300 unless it is set otherwise); it
    does not apply when the base is a power of two. *)
Definition int_max_str_digits : Z := 4300.
Definition binary_base (base : Z) : bool := Z.land base (base - 1) =? 0.

Definition py_int (s : string) (base : Z) : result Z :=
  let s1 := lstrip_by number_space s in
  let '(sign, s2) :=
    match s1 with
    | String "+" r => (1, r)
    | String "-" r => (-1, r)
    | _ => (1, s1)
    end in
  let s3 := skip_prefix base s2 in
  match s3 with
  | String "_" _ => Raise ValueError
  | _ =>
      match scan_digits base false 0 0 s3 with
      | Some (v, S k, rest) =>
          if negb (binary_base base)
             && (int_max_str_digits <? Z.of_nat (S k))
          then Raise ValueError
          else
            match lstrip_by number_space rest with
            | EmptyString => Ok (sign * v)
            | _ => Raise ValueError
            end
      | _ => Raise ValueError
      end
  end.

(** [str(n)] and the [%d] conversions of the write path. *)
Definition str_of_Z (n : Z) : string :=
  DecimalString.NilZero.string_of_int (Z.to_int n).

Fixpoint spaces (n : nat) : string :=
  match n with O => EmptyString | S k => String " " (spaces k) end.
(** [%Ns] and [%-Ns] *)
Definition rjust (w : nat) (s : string) : string :=
  spaces (w - String.length s) +:+ s.
Definition ljust (w : nat) (s : string) : string :=
  s +:+ spaces (w - String.length s).
(** [%Nd] and [%+Nd] *)
Definition fmt_d (w : nat) (n : Z) : string := rjust w (str_of_Z n).
Definition fmt_plus_d (w : nat) (n : Z) : string :=
  rjust w (if n <? 0 then str_of_Z n else "+" +:+ str_of_Z n).

(** ** What the module imports

    [float] and numpy on one side, [mdtraj.core.element] on the other, are
    not part of this file of the repository: they are taken as parameters.
    [py_float s] is [float(s)], with [None] for ValueError;
    [get_by_symbol s] is [element.get_by_symbol(s)], with [None] for
    KeyError. *)
Class Externals := {
  float : Type;
  py_float : string → option float;
  float_1_0 : float;
  float_0_0 : float;
  format_f : nat → nat → float → string;
  Element : Type;
  get_by_symbol : string → option Element;
  hydrogen : Element;
}.

Definition to_float `{Externals} (s : string) : result float :=
  match py_float s with Some x => Ok x | None => Raise ValueError end.

(** ** Diagnostics and the parser monad *)

Inductive warning : Set :=
  | NeedGuessAtomNumber (num_str : string) (next_atom_number : Z)
  | NeedGuessResidueNumber (num_str : string)
      (next_residue_number next_atom_number : Z)
  | CouldNotParseCharge
  | ConsecutiveResiduesSameNumber.

(** A computation that may raise and may call [warnings.warn]. *)
Definition M (A : Type) : Type := list warning → result (A * list warning).

#[global] Instance M_ret : MRet M := λ A a w, Ok (a, w).
#[global] Instance M_bind : MBind M :=
  λ A B f m w, match m w with Ok (a, w') => f a w' | Raise e => Raise e end.

Definition warn (x : warning) : M unit := λ w, Ok (tt, w ++ [x]).
Definition lift {A} (r : result A) : M A :=
  λ w, match r with Ok a => Ok (a, w) | Raise e => Raise e end.
Definition raise {A} (e : exn) : M A := λ _, Raise e.

(** ** The data model *)

(** The three decoders that the tables [_atom_num_initial_nondecimal_functions]
    and [_residue_num_initial_nondecimal_functions] hold as lambdas. *)
Inductive nondec_function : Set := hex | chimera | overflow.

#[global] Instance nondec_function_eq_dec : EqDecision nondec_function.
Proof. solve_decision. Defined.

(** An insertion-ordered dict keyed by one-character strings. *)
Section odict.
Context {V : Type}.
Definition odict := list (ascii * V).
Fixpoint od_get (k : ascii) (d : list (ascii * V)) : option V :=
  match d with
  | (k', v) :: r => if Ascii.eqb k k' then Some v else od_get k r
  | [] => None
  end.
Definition od_mem (k : ascii) (d : list (ascii * V)) : bool :=
  match od_get k d with Some _ => true | None => false end.
Fixpoint od_set (k : ascii) (v : V) (d : list (ascii * V)) : list (ascii * V) :=
  match d with
  | (k', v') :: r =>
      if Ascii.eqb k k' then (k', v) :: r else (k', v') :: od_set k v r
  | [] => [(k, v)]
  end.
Definition od_keys (d : list (ascii * V)) : list ascii := map fst d.
End odict.

(** ** The write path: output stream and serial-number cell

    [Model.AtomSerialNumber] is a mutable cell handed by reference to every
    [write] below one Model; the output stream is written by [print].  Both
    are the state of the monad [W], which keeps what was already printed
    when an exception is raised. *)
Record wstate : Type := { val : Z; out : list string }.

Definition W (A : Type) : Type := wstate → result A * wstate.

#[global] Instance W_ret : MRet W := λ A a s, (Ok a, s).
#[global] Instance W_bind : MBind W :=
  λ A B f m s, match m s with (Ok a, s') => f a s' | (Raise e, s') => (Raise e, s') end.

Definition print (line : string) : W unit :=
  λ s, (Ok tt, {| val := val s; out := out s ++ [line] |}).
(** [AtomSerialNumber(v)], [.val] and [.increment()] *)
Definition AtomSerialNumber (v : Z) : W unit :=
  λ s, (Ok tt, {| val := v; out := out s |}).
Definition get_val : W Z := λ s, (Ok (val s), s).
Definition increment : W unit :=
  λ s, (Ok tt, {| val := val s + 1; out := out s |}).
Definition wlift {A} (r : result A) : W A := λ s, (r, s).

Fixpoint for_ {A} (l : list A) (body : A → W unit) : W unit :=
  match l with
  | [] => mret tt
  | x :: r => _ ← body x; for_ r body
  end.

(** [locs = self.locations.keys(); locs.sort()]: [dict.keys()] is a
    dict_keys view, which has no attribute [sort]. *)
Definition dict_keys_sort {A} (keys : list A) : result (list A) :=
  Raise AttributeError.

Definition assert (b : bool) : result unit :=
  if b then Ok tt else Raise AssertionError.

(** [l[-1]] *)
Definition last_item {A} (l : list A) : result A :=
  match last l with Some a => Ok a | None => Raise IndexError end.

Module Atom.
Module Location.
Record t `{Externals} := {
  alternate_location_indicator : ascii;
  position : float * float * float;
  occupancy : float;
  temperature_factor : float;
  residue_name : string;
}.
End Location.

Record t `{Externals} := {
  is_first_atom_in_chain : bool;
  is_final_atom_in_chain : bool;
  is_first_residue_in_chain : bool;
  is_final_residue_in_chain : bool;
  record_name : string;
  serial_number : Z;
  name_with_spaces : string;
  name : string;
  residue_name_with_spaces : string;
  residue_name : string;
  chain_id : ascii;
  residue_number : Z;
  insertion_code : ascii;
  locations : list (ascii * Location.t);
  default_location_id : ascii;
  segment_id : string;
  element_symbol : string;
  formal_charge : option Z;
  element : option Element;
  model_number : option Z;
}.


Section methods.
Context `{Externals}.

Definition set_locations (l : list (ascii * Location.t)) (a : t) : t :=
  {| is_first_atom_in_chain := is_first_atom_in_chain a;
     is_final_atom_in_chain := is_final_atom_in_chain a;
     is_first_residue_in_chain := is_first_residue_in_chain a;
     is_final_residue_in_chain := is_final_residue_in_chain a;
     record_name := record_name a; serial_number := serial_number a;
     name_with_spaces := name_with_spaces a; name := name a;
     residue_name_with_spaces := residue_name_with_spaces a;
     residue_name := residue_name a; chain_id := chain_id a;
     residue_number := residue_number a; insertion_code := insertion_code a;
     locations := l; default_location_id := default_location_id a;
     segment_id := segment_id a; element_symbol := element_symbol a;
     formal_charge := formal_charge a; element := element a;
     model_number := model_number a |}.

Definition set_model_number (n : Z) (a : t) : t :=
  {| is_first_atom_in_chain := is_first_atom_in_chain a;
     is_final_atom_in_chain := is_final_atom_in_chain a;
     is_first_residue_in_chain := is_first_residue_in_chain a;
     is_final_residue_in_chain := is_final_residue_in_chain a;
     record_name := record_name a; serial_number := serial_number a;
     name_with_spaces := name_with_spaces a; name := name a;
     residue_name_with_spaces := residue_name_with_spaces a;
     residue_name := residue_name a; chain_id := chain_id a;
     residue_number := residue_number a; insertion_code := insertion_code a;
     locations := locations a; default_location_id := default_location_id a;
     segment_id := segment_id a; element_symbol := element_symbol a;
     formal_charge := formal_charge a; element := element a;
     model_number := Some n |}.

(** The four first/final flags, assigned by the _finalize methods. *)
Definition set_flags (fa la fr lr : bool) (a : t) : t :=
  {| is_first_atom_in_chain := fa;
     is_final_atom_in_chain := la;
     is_first_residue_in_chain := fr;
     is_final_residue_in_chain := lr;
     record_name := record_name a; serial_number := serial_number a;
     name_with_spaces := name_with_spaces a; name := name a;
     residue_name_with_spaces := residue_name_with_spaces a;
     residue_name := residue_name a; chain_id := chain_id a;
     residue_number := residue_number a; insertion_code := insertion_code a;
     locations := locations a; default_location_id := default_location_id a;
     segment_id := segment_id a; element_symbol := element_symbol a;
     formal_charge := formal_charge a; element := element a;
     model_number := model_number a |}.

Definition get_location (self : t) (location_id : option ascii)
    : result Location.t :=
  let id := default (default_location_id self) location_id in
  getitem (od_get id (locations self)).

Definition location (self : t) : result Location.t := get_location self None.

Definition get_position (self : t) : result (float * float * float) :=
  l ← location self; mret (Location.position l).

Definition get_alternate_location_indicator (self : t) : result ascii :=
  l ← location self; mret (Location.alternate_location_indicator l).

Definition get_occupancy (self : t) : result float :=
  l ← location self; mret (Location.occupancy l).

Definition get_temperature_factor (self : t) : result float :=
  l ← location self; mret (Location.temperature_factor l).

Definition get_x (self : t) : result float :=
  p ← get_position self; mret (p.1.1).
Definition get_y (self : t) : result float :=
  p ← get_position self; mret (p.1.2).
Definition get_z (self : t) : result float :=
  p ← get_position self; mret (p.2).

Definition _pdb_string (self : t) (serial_number : option Z)
    (alternate_location_indicator : option ascii) : result string :=
  let serial_number := default (Atom.serial_number self) serial_number in
  alternate_location_indicator ←
    match alternate_location_indicator with
    | Some c => Ok c
    | None => get_alternate_location_indicator self
    end;
  let long_res_name := residue_name_with_spaces self in
  let long_res_name :=
    if len long_res_name =? 3 then long_res_name +:+ " " else long_res_name in
  _ ← assert (len long_res_name =? 4);
  let names :=
    ljust 6 (record_name self) +:+ fmt_d 5 serial_number +:+ " "
    +:+ rjust 4 (name_with_spaces self)
    +:+ rjust 1 (String alternate_location_indicator "")
    +:+ rjust 4 long_res_name
    +:+ rjust 1 (String (chain_id self) "")
    +:+ fmt_d 4 (residue_number self)
    +:+ rjust 1 (String (insertion_code self) "") +:+ "   " in
  x ← get_x self; y ← get_y self; z ← get_z self;
  occ ← get_occupancy self; tf ← get_temperature_factor self;
  let numbers :=
    format_f 8 3 x +:+ format_f 8 3 y +:+ format_f 8 3 z
    +:+ format_f 6 2 occ +:+ format_f 6 2 tf +:+ "      " in
  let end_ := ljust 4 (segment_id self) +:+ rjust 2 (element_symbol self) in
  let formal_charge :=
    match formal_charge self with
    | Some q => fmt_plus_d 2 q
    | None => "  "
    end in
  mret (names +:+ numbers +:+ end_ +:+ formal_charge).

Definition __str__ (self : t) : result string :=
  ali ← get_alternate_location_indicator self;
  _pdb_string self (Some (Atom.serial_number self)) (Some ali).

(** [alt_loc] is [None], or a string: ["*"] for all locations, [""] for
    the primary one, or the location ids to write. *)
Definition write (self : t) (alt_loc : option string) : W unit :=
  locs ←
    match alt_loc with
    | None => mret [default_location_id self]
    | Some s =>
        if String.eqb s "" then mret [default_location_id self]
        else if String.eqb s "*" then
          wlift (dict_keys_sort (od_keys (locations self)))
        else mret (list_ascii_of_string s)
    end;
  for_ locs (λ loc_id,
    v ← get_val;
    line ← wlift (_pdb_string self (Some v) (Some loc_id));
    _ ← print line;
    increment).

(** [for alt_loc in self.locations: yield self.locations[alt_loc]] *)
Definition iter_locations (self : t) : result (list Location.t) :=
  mapM (λ alt_loc, getitem (od_get alt_loc (locations self)))
    (od_keys (locations self)).

Definition iter_positions (self : t) : result (list (float * float * float)) :=
  l ← iter_locations self;
  mret (Location.position <$> (l : list Location.t)).

Definition set_location (self : t) (new_location : Location.t)
    (location_id : option ascii) : t :=
  let id := default (default_location_id self) location_id in
  set_locations (od_set id new_location (locations self)) self.
End methods.
End Atom.

Module Residue.
(** The attributes [name_with_spaces] and [name] are added to a Location
    by [set_name_with_spaces]; a Location built by the constructor alone
    does not have them. *)
Module Location.
Record t := {
  alternate_location_indicator : ascii;
  residue_name_with_spaces : string;
  name_with_spaces : option string;
  name : option string;
}.
Definition __init__ (alternate_location_indicator : ascii)
    (residue_name_with_spaces : string) : t :=
  {| alternate_location_indicator := alternate_location_indicator;
     residue_name_with_spaces := residue_name_with_spaces;
     name_with_spaces := None; name := None |}.
End Location.

Record t `{Externals} := {
  primary_location_id : ascii;
  segment_id : string;
  locations : gmap ascii Location.t;
  number : Z;
  insertion_code : ascii;
  atoms : list Atom.t;
  atoms_by_name : gmap string nat;
  is_first_in_chain : bool;
  is_final_in_chain : bool;
  _current_atom : option nat;
}.

Section methods.
Context `{Externals}.

Definition set_locations (l : gmap ascii Location.t) (r : t) : t :=
  {| primary_location_id := primary_location_id r; segment_id := segment_id r;
     locations := l; number := number r; insertion_code := insertion_code r;
     atoms := atoms r; atoms_by_name := atoms_by_name r;
     is_first_in_chain := is_first_in_chain r;
     is_final_in_chain := is_final_in_chain r;
     _current_atom := _current_atom r |}.

Definition set_atoms (l : list Atom.t) (r : t) : t :=
  {| primary_location_id := primary_location_id r; segment_id := segment_id r;
     locations := locations r; number := number r;
     insertion_code := insertion_code r;
     atoms := l; atoms_by_name := atoms_by_name r;
     is_first_in_chain := is_first_in_chain r;
     is_final_in_chain := is_final_in_chain r;
     _current_atom := _current_atom r |}.

Definition set_is_first_in_chain (b : bool) (r : t) : t :=
  {| primary_location_id := primary_location_id r; segment_id := segment_id r;
     locations := locations r; number := number r;
     insertion_code := insertion_code r;
     atoms := atoms r; atoms_by_name := atoms_by_name r;
     is_first_in_chain := b;
     is_final_in_chain := is_final_in_chain r;
     _current_atom := _current_atom r |}.

Definition set_is_final_in_chain (b : bool) (r : t) : t :=
  {| primary_location_id := primary_location_id r; segment_id := segment_id r;
     locations := locations r; number := number r;
     insertion_code := insertion_code r;
     atoms := atoms r; atoms_by_name := atoms_by_name r;
     is_first_in_chain := is_first_in_chain r;
     is_final_in_chain := b;
     _current_atom := _current_atom r |}.

Definition set_name_with_spaces (self : t) (name : string)
    (alt_loc : option ascii) : result t :=
  let alt_loc := default (primary_location_id self) alt_loc in
  loc ← getitem (locations self !! alt_loc);
  let loc :=
    {| Location.alternate_location_indicator :=
         Location.alternate_location_indicator loc;
       Location.residue_name_with_spaces :=
         Location.residue_name_with_spaces loc;
       Location.name_with_spaces := Some name;
       Location.name := Some (strip name) |} in
  mret (set_locations (<[alt_loc := loc]> (locations self)) self).

Definition get_name_with_spaces (self : t) (alt_loc : option ascii)
    : result string :=
  let alt_loc := default (primary_location_id self) alt_loc in
  loc ← getitem (locations self !! alt_loc);
  attr (Location.name_with_spaces loc).

(** The property [name_with_spaces]. *)
Definition name_with_spaces (self : t) : result string :=
  get_name_with_spaces self None.

Definition __init__ (name : string) (number : Z) (insertion_code : ascii)
    (primary_alternate_location_indicator : ascii) (segment_id : string)
    : result t :=
  let alt_loc := primary_alternate_location_indicator in
  set_name_with_spaces
    {| primary_location_id := alt_loc;
       segment_id := segment_id;
       locations := {[ alt_loc := Location.__init__ alt_loc name ]};
       number := number;
       insertion_code := insertion_code;
       atoms := [];
       atoms_by_name := ∅;
       is_first_in_chain := false;
       is_final_in_chain := false;
       _current_atom := None |}
    name None.

(** The tail of [_add_atom] under the comment "actually use new atom". *)
Definition use_new_atom (self : t) (atom : Atom.t) : t :=
  let i := length (atoms self) in
  {| primary_location_id := primary_location_id self;
     segment_id := segment_id self;
     locations := locations self; number := number self;
     insertion_code := insertion_code self;
     atoms := atoms self ++ [atom];
     atoms_by_name :=
       <[Atom.name_with_spaces atom := i]>
         (<[Atom.name atom := i]> (atoms_by_name self));
     is_first_in_chain := is_first_in_chain self;
     is_final_in_chain := is_final_in_chain self;
     _current_atom := Some i |}.

Definition _add_atom (self : t) (atom : Atom.t) : result t :=
  alt_loc ← Atom.get_alternate_location_indicator atom;
  let self :=
    match locations self !! alt_loc with
    | None =>
        set_locations
          (<[alt_loc :=
               Location.__init__ alt_loc (Atom.residue_name_with_spaces atom)]>
             (locations self)) self
    | Some _ => self
    end in
  _ ← assert (Atom.residue_number atom =? number self);
  _ ← assert (Ascii.eqb (Atom.insertion_code atom) (insertion_code self));
  match atoms_by_name self !! Atom.name_with_spaces atom with
  | Some i =>
      old_atom ← deref (atoms self) i;
      ali ← Atom.get_alternate_location_indicator atom;
      if od_mem ali (Atom.locations old_atom) then
        mret (use_new_atom self atom)
      else
        let old_atom :=
          fold_left
            (λ o kv, Atom.set_locations (od_set kv.1 kv.2 (Atom.locations o)) o)
            (Atom.locations atom) old_atom in
        mret (set_atoms (<[i := old_atom]> (atoms self)) self)
  | None => mret (use_new_atom self atom)
  end.

Definition write (self : t) (alt_loc : option string) : W unit :=
  for_ (atoms self) (λ atom, Atom.write atom alt_loc).

Definition _finalize (self : t) : t :=
  match atoms self with
  | [] => self
  | _ =>
      let first := is_first_in_chain self in
      let final := is_final_in_chain self in
      let l := atoms self in
      let l := alter (λ a, Atom.set_flags first
                 (Atom.is_final_atom_in_chain a)
                 (Atom.is_first_residue_in_chain a)
                 (Atom.is_final_residue_in_chain a) a) 0%nat l in
      let l := alter (λ a, Atom.set_flags
                 (Atom.is_first_atom_in_chain a) final
                 (Atom.is_first_residue_in_chain a)
                 (Atom.is_final_residue_in_chain a) a) (pred (length l)) l in
      let l := (λ a, Atom.set_flags
                 (Atom.is_first_atom_in_chain a)
                 (Atom.is_final_atom_in_chain a) first final a) <$> l in
      set_atoms l self
  end.

Definition __len__ (self : t) : nat := length (atoms self).

Definition get_name (self : t) (alt_loc : option ascii) : result string :=
  let alt_loc := default (primary_location_id self) alt_loc in
  loc ← getitem (locations self !! alt_loc);
  attr (Location.name loc).

Definition get_atom (self : t) (atom_name : string) : result Atom.t :=
  i ← getitem (atoms_by_name self !! atom_name); deref (atoms self) i.

Definition __contains__ (self : t) (atom_name : string) : bool :=
  bool_decide (is_Some (atoms_by_name self !! atom_name)).

Definition __getitem__ (self : t) (atom_name : string) : result Atom.t :=
  i ← getitem (atoms_by_name self !! atom_name); deref (atoms self) i.

(** [alt_loc] is [None], or a string: [""] for the primary location,
    ["*"] for all locations, or the location ids wanted.  An atom is
    yielded when one of its location ids is wanted. *)
Definition iter_atoms (self : t) (alt_loc : option string) : list Atom.t :=
  let locs : option (list ascii) :=
    match alt_loc with
    | None => Some [primary_location_id self]
    | Some s =>
        if String.eqb s "" then Some [primary_location_id self]
        else if String.eqb s "*" then None
        else Some (list_ascii_of_string s)
    end in
  List.filter
    (λ atom,
       existsb (λ loc2, match locs with
                        | None => true
                        | Some l => bool_decide (loc2 ∈ l)
                        end)
         (od_keys (Atom.locations atom)))
    (atoms self).

Definition __iter__ (self : t) : list Atom.t := iter_atoms self None.

Definition iter_positions (self : t) (include_alt_loc : bool)
    : result (list (float * float * float)) :=
  l ← mapM (λ atom,
              if include_alt_loc then Atom.iter_positions atom
              else p ← Atom.get_position atom; mret [p])
         (__iter__ self);
  mret (concat l).
End methods.
End Residue.

Module Chain.
Record t `{Externals} := {
  chain_id : ascii;
  residues : list Residue.t;
  has_ter_record : bool;
  _current_residue : option nat;
  residues_by_num_icode : gmap string nat;
  residues_by_number : gmap Z nat;
}.

Section methods.
Context `{Externals}.

Definition __init__ (chain_id : ascii) : t :=
  {| chain_id := chain_id; residues := []; has_ter_record := false;
     _current_residue := None; residues_by_num_icode := ∅;
     residues_by_number := ∅ |}.

Definition set_residues (l : list Residue.t) (c : t) : t :=
  {| chain_id := chain_id c; residues := l;
     has_ter_record := has_ter_record c;
     _current_residue := _current_residue c;
     residues_by_num_icode := residues_by_num_icode c;
     residues_by_number := residues_by_number c |}.

Definition set_has_ter_record (b : bool) (c : t) : t :=
  {| chain_id := chain_id c; residues := residues c;
     has_ter_record := b;
     _current_residue := _current_residue c;
     residues_by_num_icode := residues_by_num_icode c;
     residues_by_number := residues_by_number c |}.

Definition _add_residue (self : t) (residue : Residue.t) : t :=
  let residue :=
    match residues self with
    | [] => Residue.set_is_first_in_chain true residue
    | _ => residue
    end in
  let i := length (residues self) in
  let key := str_of_Z (Residue.number residue)
             +:+ String (Residue.insertion_code residue) "" in
  {| chain_id := chain_id self;
     residues := residues self ++ [residue];
     has_ter_record := has_ter_record self;
     _current_residue := Some i;
     residues_by_num_icode :=
       match residues_by_num_icode self !! key with
       | None => <[key := i]> (residues_by_num_icode self)
       | Some _ => residues_by_num_icode self
       end;
     residues_by_number :=
       match residues_by_number self !! Residue.number residue with
       | None => <[Residue.number residue := i]> (residues_by_number self)
       | Some _ => residues_by_number self
       end |}.

(** [self._current_residue], as an object. *)
Definition current_residue (self : t) : result Residue.t :=
  i ← attr (_current_residue self); deref (residues self) i.

Definition new_residue (atom : Atom.t) : result Residue.t :=
  ali ← Atom.get_alternate_location_indicator atom;
  Residue.__init__ (Atom.residue_name_with_spaces atom)
    (Atom.residue_number atom) (Atom.insertion_code atom) ali
    (Atom.segment_id atom).

Definition _add_atom (self : t) (atom : Atom.t) : M t :=
  self ←
    match residues self with
    | [] => r ← lift (new_residue atom); mret (_add_residue self r)
    | _ =>
        cr ← lift (current_residue self);
        if negb (Residue.number cr =? Atom.residue_number atom) then
          r ← lift (new_residue atom); mret (_add_residue self r)
        else if negb (Ascii.eqb (Residue.insertion_code cr)
                        (Atom.insertion_code atom)) then
          r ← lift (new_residue atom); mret (_add_residue self r)
        else
          nm ← lift (Residue.name_with_spaces cr);
          if String.eqb nm (Atom.residue_name_with_spaces atom) then
            mret self
          else
            ali ← lift (Atom.get_alternate_location_indicator atom);
            if negb (Ascii.eqb ali " ") then mret self
            else
              _ ← lift (Atom.__str__ atom);
              prev ← lift (last_item (Residue.atoms cr));
              _ ← lift (Atom.__str__ prev);
              _ ← warn ConsecutiveResiduesSameNumber;
              r ← lift (new_residue atom); mret (_add_residue self r)
    end;
  i ← lift (attr (_current_residue self));
  cr ← lift (deref (residues self) i);
  cr ← lift (Residue._add_atom cr atom);
  mret (set_residues (<[i := cr]> (residues self)) self).

Definition _finalize (self : t) : result t :=
  match residues self with
  | [] => Raise IndexError
  | l =>
      let l := alter (Residue.set_is_first_in_chain true) 0%nat l in
      let l := alter (Residue.set_is_final_in_chain true) (pred (length l)) l in
      mret (set_residues (Residue._finalize <$> l) self)
  end.

Definition _add_ter_record (self : t) : result t :=
  _finalize (set_has_ter_record true self).

Definition write (self : t) : W unit :=
  _ ← for_ (residues self) (λ residue, Residue.write residue (Some "*"));
  if has_ter_record self then
    r ← wlift (last_item (residues self));
    v ← get_val;
    nm ← wlift (Residue.name_with_spaces r);
    _ ← print ("TER   " +:+ fmt_d 5 v +:+ "      " +:+ rjust 3 nm +:+ " "
               +:+ rjust 1 (String (chain_id self) "")
               +:+ fmt_d 4 (Residue.number r `mod` 10000)
               +:+ rjust 1 (String (Residue.insertion_code r) ""));
    increment
  else mret tt.

Definition __len__ (self : t) : nat := length (residues self).

Definition get_residue (self : t) (residue_number : Z)
    (insertion_code : ascii) : result Residue.t :=
  i ← getitem (residues_by_num_icode self
                 !! (str_of_Z residue_number +:+ String insertion_code ""));
  deref (residues self) i.

Definition __contains__ (self : t) (residue_number : Z) : bool :=
  bool_decide (is_Some (residues_by_number self !! residue_number)).

Definition __getitem__ (self : t) (residue_number : Z) : result Residue.t :=
  i ← getitem (residues_by_number self !! residue_number);
  deref (residues self) i.

Definition __iter__ (self : t) : list Residue.t := residues self.
Definition iter_residues (self : t) : list Residue.t := __iter__ self.
Definition iter_atoms (self : t) : list Atom.t :=
  res ← __iter__ self; Residue.__iter__ res.
Definition iter_positions (self : t) (include_alt_loc : bool)
    : result (list (float * float * float)) :=
  l ← mapM (λ res, Residue.iter_positions res include_alt_loc) (__iter__ self);
  mret (concat l).
End methods.
End Chain.

Module Model.
Record t `{Externals} := {
  number : Z;
  chains : list Chain.t;
  _current_chain : option nat;
  chains_by_id : gmap ascii nat;
  connects : list (list Z);
}.

Section methods.
Context `{Externals}.

Definition __init__ (model_number : Z) : t :=
  {| number := model_number; chains := []; _current_chain := None;
     chains_by_id := ∅; connects := [] |}.

Definition set_chains (l : list Chain.t) (m : t) : t :=
  {| number := number m; chains := l; _current_chain := _current_chain m;
     chains_by_id := chains_by_id m; connects := connects m |}.

Definition set_connects (l : list (list Z)) (m : t) : t :=
  {| number := number m; chains := chains m;
     _current_chain := _current_chain m;
     chains_by_id := chains_by_id m; connects := l |}.

Definition _add_chain (self : t) (chain : Chain.t) : t :=
  let i := length (chains self) in
  {| number := number self;
     chains := chains self ++ [chain];
     _current_chain := Some i;
     chains_by_id :=
       match chains_by_id self !! Chain.chain_id chain with
       | None => <[Chain.chain_id chain := i]> (chains_by_id self)
       | Some _ => chains_by_id self
       end;
     connects := connects self |}.

(** [self._current_chain], as an object. *)
Definition current_chain (self : t) : result Chain.t :=
  i ← attr (_current_chain self); deref (chains self) i.

Definition _add_atom (self : t) (atom : Atom.t) : M t :=
  let self :=
    match chains self with
    | [] => _add_chain self (Chain.__init__ (Atom.chain_id atom))
    | _ => self
    end in
  cc ← lift (current_chain self);
  let self :=
    if negb (Ascii.eqb (Chain.chain_id cc) (Atom.chain_id atom)) then
      _add_chain self (Chain.__init__ (Atom.chain_id atom))
    else if Chain.has_ter_record cc then
      _add_chain self (Chain.__init__ (Atom.chain_id atom))
    else self in
  i ← lift (attr (_current_chain self));
  cc ← lift (deref (chains self) i);
  cc ← Chain._add_atom cc atom;
  mret (set_chains (<[i := cc]> (chains self)) self).

Definition write (self : t) : W unit :=
  _ ← AtomSerialNumber 1;
  for_ (chains self) Chain.write.

Definition _finalize (self : t) : result t :=
  l ← mapM Chain._finalize (chains self);
  mret (set_chains l self).

Definition __len__ (self : t) : nat := length (chains self).

Definition get_chain (self : t) (chain_id : ascii) : result Chain.t :=
  i ← getitem (chains_by_id self !! chain_id); deref (chains self) i.

Definition __contains__ (self : t) (chain_id : ascii) : bool :=
  bool_decide (is_Some (chains_by_id self !! chain_id)).

Definition __getitem__ (self : t) (chain_id : ascii) : result Chain.t :=
  i ← getitem (chains_by_id self !! chain_id); deref (chains self) i.

Definition __iter__ (self : t) : list Chain.t := chains self.
Definition iter_chains (self : t) : list Chain.t := __iter__ self.
Definition iter_residues (self : t) : list Residue.t :=
  chain ← __iter__ self; Chain.iter_residues chain.
Definition iter_atoms (self : t) : list Atom.t :=
  chain ← __iter__ self; Chain.iter_atoms chain.
Definition iter_positions (self : t) (include_alt_loc : bool)
    : result (list (float * float * float)) :=
  l ← mapM (λ chain, Chain.iter_positions chain include_alt_loc)
         (__iter__ self);
  mret (concat l).
End methods.
End Model.

Module PdbStructure.
Record t `{Externals} := {
  _atom_num_nondec_mode : option nondec_function;
  _residue_num_nondec_mode : option nondec_function;
  _next_atom_number : Z;
  _next_residue_number : Z;
  load_all_models : bool;
  models : list Model.t;
  _current_model : option nat;
  default_model : option nat;
  models_by_number : gmap Z nat;
  _unit_cell_lengths : option (float * float * float);
  _unit_cell_angles : option (float * float * float);
}.

Section methods.
Context `{Externals}.

(** Assignment to the two attributes of the atom-number resolver. *)
Definition set_atom_numbers (mode : option nondec_function) (next : Z)
    (s : t) : t :=
  {| _atom_num_nondec_mode := mode;
     _residue_num_nondec_mode := _residue_num_nondec_mode s;
     _next_atom_number := next;
     _next_residue_number := _next_residue_number s;
     load_all_models := load_all_models s; models := models s;
     _current_model := _current_model s; default_model := default_model s;
     models_by_number := models_by_number s;
     _unit_cell_lengths := _unit_cell_lengths s;
     _unit_cell_angles := _unit_cell_angles s |}.

(** Assignment to the two attributes of the residue-number resolver. *)
Definition set_residue_numbers (mode : option nondec_function) (next : Z)
    (s : t) : t :=
  {| _atom_num_nondec_mode := _atom_num_nondec_mode s;
     _residue_num_nondec_mode := mode;
     _next_atom_number := _next_atom_number s;
     _next_residue_number := next;
     load_all_models := load_all_models s; models := models s;
     _current_model := _current_model s; default_model := default_model s;
     models_by_number := models_by_number s;
     _unit_cell_lengths := _unit_cell_lengths s;
     _unit_cell_angles := _unit_cell_angles s |}.

Definition set_models (l : list Model.t) (s : t) : t :=
  {| _atom_num_nondec_mode := _atom_num_nondec_mode s;
     _residue_num_nondec_mode := _residue_num_nondec_mode s;
     _next_atom_number := _next_atom_number s;
     _next_residue_number := _next_residue_number s;
     load_all_models := load_all_models s; models := l;
     _current_model := _current_model s; default_model := default_model s;
     models_by_number := models_by_number s;
     _unit_cell_lengths := _unit_cell_lengths s;
     _unit_cell_angles := _unit_cell_angles s |}.

Definition set_unit_cell (lengths angles : float * float * float)
    (s : t) : t :=
  {| _atom_num_nondec_mode := _atom_num_nondec_mode s;
     _residue_num_nondec_mode := _residue_num_nondec_mode s;
     _next_atom_number := _next_atom_number s;
     _next_residue_number := _next_residue_number s;
     load_all_models := load_all_models s; models := models s;
     _current_model := _current_model s; default_model := default_model s;
     models_by_number := models_by_number s;
     _unit_cell_lengths := Some lengths;
     _unit_cell_angles := Some angles |}.

Definition _reset_atom_numbers (self : t) : t :=
  set_atom_numbers None 1 self.

Definition _reset_residue_numbers (self : t) : t :=
  set_residue_numbers None 1 self.

Definition _add_model (self : t) (model : Model.t) : t :=
  let i := length (models self) in
  {| _atom_num_nondec_mode := _atom_num_nondec_mode self;
     _residue_num_nondec_mode := _residue_num_nondec_mode self;
     _next_atom_number := _next_atom_number self;
     _next_residue_number := _next_residue_number self;
     load_all_models := load_all_models self;
     models := models self ++ [model];
     _current_model := Some i;
     default_model :=
       match default_model self with None => Some i | Some d => Some d end;
     models_by_number :=
       match models_by_number self !! Model.number model with
       | None => <[Model.number model := i]> (models_by_number self)
       | Some _ => models_by_number self
       end;
     _unit_cell_lengths := _unit_cell_lengths self;
     _unit_cell_angles := _unit_cell_angles self |}.

(** [self._current_model], as an object. *)
Definition current_model (self : t) : result Model.t :=
  i ← attr (_current_model self); deref (models self) i.

Definition _add_atom (self : t) (atom : Atom.t) : M t :=
  let self :=
    match _current_model self with
    | None => _add_model self (Model.__init__ 0)
    | Some _ => self
    end in
  i ← lift (attr (_current_model self));
  cm ← lift (deref (models self) i);
  let atom := Atom.set_model_number (Model.number cm) atom in
  cm ← Model._add_atom cm atom;
  mret (set_models (<[i := cm]> (models self)) self).

Definition _finalize (self : t) : result t :=
  l ← mapM Model._finalize (models self);
  mret (set_models l self).

Definition __len__ (self : t) : nat := length (models self).

Definition write (self : t) : W unit :=
  _ ← for_ (models self) (λ model,
        match Model.chains model with
        | [] => mret tt
        | _ =>
            _ ← (if 1 <? Z.of_nat (length (models self)) then
                   print ("MODEL     " +:+ fmt_d 4 (Model.number model))
                 else mret tt);
            _ ← Model.write model;
            if 1 <? Z.of_nat (length (models self)) then print "ENDMDL"
            else mret tt
        end);
  print "END".

Definition get_model (self : t) (model_number : Z) : result Model.t :=
  i ← getitem (models_by_number self !! model_number); deref (models self) i.

Definition __contains__ (self : t) (model_number : Z) : bool :=
  bool_decide (is_Some (models_by_number self !! model_number)).

Definition __getitem__ (self : t) (model_number : Z) : result Model.t :=
  i ← getitem (models_by_number self !! model_number); deref (models self) i.

Definition __iter__ (self : t) : list Model.t := models self.

(** All the models, or the first one. *)
Definition iter_models (self : t) (use_all_models : bool) : list Model.t :=
  if use_all_models then __iter__ self
  else match models self with
       | m :: _ => [m]
       | [] => []
       end.

Definition iter_chains (self : t) (use_all_models : bool) : list Chain.t :=
  model ← iter_models self use_all_models; Model.iter_chains model.
Definition iter_residues (self : t) (use_all_models : bool)
    : list Residue.t :=
  model ← iter_models self use_all_models; Model.iter_residues model.
Definition iter_atoms (self : t) (use_all_models : bool) : list Atom.t :=
  model ← iter_models self use_all_models; Model.iter_atoms model.
Definition iter_positions (self : t) (use_all_models include_alt_loc : bool)
    : result (list (float * float * float)) :=
  l ← mapM (λ model, Model.iter_positions model include_alt_loc)
         (iter_models self use_all_models);
  mret (concat l).

Definition get_unit_cell_lengths (self : t)
    : option (float * float * float) := _unit_cell_lengths self.
Definition get_unit_cell_angles (self : t)
    : option (float * float * float) := _unit_cell_angles self.
End methods.
End PdbStructure.

(** ** The numbering-overflow resolver *)

Section resolver.
Context `{Externals}.
Import PdbStructure.

Definition _overflow_residue_check (num_str : string)
    (pdbstructure : option PdbStructure.t) (curr_atom : option Atom.t)
    : result Z :=
  y ← attr pdbstructure;
  match _current_model y with
  | None => mret (_next_residue_number y)
  | Some i =>
      m ← deref (models y) i;
      match Model._current_chain m with
      | None => mret (_next_residue_number y)
      | Some j =>
          c ← deref (Model.chains m) j;
          match Chain._current_residue c with
          | None => mret (_next_residue_number y)
          | Some k =>
              currentRes ← deref (Chain.residues c) k;
              nm ← Residue.name_with_spaces currentRes;
              a ← attr curr_atom;
              if negb (String.eqb nm (Atom.residue_name_with_spaces a)) then
                mret (_next_residue_number y)
              else if bool_decide (is_Some
                        (Residue.atoms_by_name currentRes
                           !! Atom.name_with_spaces a)) then
                mret (_next_residue_number y)
              else mret (Residue.number currentRes)
          end
      end
  end.

Definition _atom_num_initial_nondecimal_functions
    : list (string * nondec_function) :=
  [("186a0", hex); ("A0000", chimera); ("*****", overflow)].

Definition _residue_num_initial_nondecimal_functions
    : list (string * nondec_function) :=
  [("2710", hex); ("A000", chimera); ("****", overflow)].

Fixpoint table_get (k : string) (d : list (string * nondec_function))
    : option nondec_function :=
  match d with
  | (k', v) :: r => if String.eqb k k' then Some v else table_get k r
  | [] => None
  end.

(** The hybrid scheme of both tables:
    [int(s[0], base=36) * 10**k + int(s[1:], base=36)]. *)
Definition hybrid36 (k : Z) (s : string) : result Z :=
  c ← index s 0;
  high ← py_int (String c "") 36;
  low ← py_int (slice_from s 1) 36;
  mret (high * 10 ^ k + low).

(** Calling an entry of [_atom_num_initial_nondecimal_functions]. *)
Definition atom_num_function (f : nondec_function) (s : string)
    (y : option PdbStructure.t) : result Z :=
  match f with
  | hex => py_int s 16
  | chimera => hybrid36 4 s
  | overflow => y ← attr y; mret (_next_atom_number y)
  end.

(** Calling an entry of [_residue_num_initial_nondecimal_functions]. *)
Definition residue_num_function (f : nondec_function) (s : string)
    (y : option PdbStructure.t) (z : option Atom.t) : result Z :=
  match f with
  | hex => py_int s 16
  | chimera => hybrid36 3 s
  | overflow => _overflow_residue_check s y z
  end.

(** [mode(...)] where [mode] may still be [None]. *)
Definition call {A} (mode : option nondec_function)
    (f : nondec_function → result A) : result A :=
  match mode with Some g => f g | None => Raise TypeError end.

Definition is_upper (c : ascii) : bool := (65 <=? ord c) && (ord c <=? 90).

Definition _check_overflow_eligibility (num_str : string) (str_type : string)
    : result bool :=
  let in_table :=
    if String.eqb str_type "atom" then
      bool_decide (is_Some
        (table_get num_str _atom_num_initial_nondecimal_functions))
    else if String.eqb str_type "residue" then
      bool_decide (is_Some
        (table_get num_str _residue_num_initial_nondecimal_functions))
    else false in
  if in_table then mret true
  else c ← index num_str 0; mret (is_upper c).

Definition _read_atom_number (num_str : string)
    (pdbstructure : option PdbStructure.t) : M (Z * option PdbStructure.t) :=
  let body : result Z :=
    y ← attr pdbstructure;
    match _atom_num_nondec_mode y with
    | Some f => atom_num_function f num_str pdbstructure
    | None =>
        b ← (if 99999 <? _next_atom_number y
             then _check_overflow_eligibility num_str "atom"
             else mret false);
        if (b : bool) then Raise OverflowError else py_int num_str 10
    end in
  match body with
  | Ok n => mret (n, pdbstructure)
  | Raise e =>
      if bool_decide (e ∈ [AttributeError; ValueError; OverflowError; KeyError])
      then
        match pdbstructure with
        | None =>
            lift (n ← try_except (py_int num_str 10) [ValueError] (Ok 0);
                  mret (n, None))
        | Some y =>
            y ← lift
              (match _atom_num_nondec_mode y with
               | None =>
                   match table_get num_str
                           _atom_num_initial_nondecimal_functions with
                   | Some f =>
                       mret (set_atom_numbers (Some f) (_next_atom_number y) y)
                   | None =>
                       c ← index num_str 0;
                       if is_upper c then
                         mret (set_atom_numbers (Some chimera)
                                 (_next_atom_number y) y)
                       else mret y
                   end
               | Some _ => mret y
               end);
            match call (_atom_num_nondec_mode y)
                    (λ f, atom_num_function f num_str (Some y)) with
            | Ok n => mret (n, Some y)
            | Raise e =>
                if bool_decide (e ∈ [ValueError; KeyError; TypeError]) then
                  let y := set_atom_numbers (Some overflow)
                             (_next_atom_number y) y in
                  _ ← warn (NeedGuessAtomNumber num_str (_next_atom_number y));
                  n ← lift (atom_num_function overflow num_str (Some y));
                  mret (n, Some y)
                else raise e
            end
        end
      else raise e
  end.

Definition _read_residue_number (num_str : string)
    (pdbstructure : option PdbStructure.t) (curr_atom : option Atom.t)
    : M (Z * option PdbStructure.t) :=
  let body : result Z :=
    y ← attr pdbstructure;
    match _residue_num_nondec_mode y with
    | Some f => residue_num_function f num_str pdbstructure curr_atom
    | None =>
        b ← (if 9999 <? _next_residue_number y
             then _check_overflow_eligibility num_str "residue"
             else mret false);
        if (b : bool) then Raise OverflowError else py_int num_str 10
    end in
  match body with
  | Ok n => mret (n, pdbstructure)
  | Raise e =>
      if bool_decide (e ∈ [AttributeError; OverflowError; KeyError; ValueError])
      then
        match pdbstructure with
        | None =>
            lift (n ← try_except (py_int num_str 10) [ValueError] (Ok 0);
                  mret (n, None))
        | Some y =>
            y ← lift
              (match _residue_num_nondec_mode y with
               | None =>
                   match table_get num_str
                           _residue_num_initial_nondecimal_functions with
                   | Some f =>
                       mret (set_residue_numbers (Some f)
                               (_next_residue_number y) y)
                   | None =>
                       c ← index num_str 0;
                       if is_upper c then
                         mret (set_residue_numbers (Some chimera)
                                 (_next_residue_number y) y)
                       else mret y
                   end
               | Some _ => mret y
               end);
            match call (_residue_num_nondec_mode y)
                    (λ f, residue_num_function f num_str (Some y) curr_atom)
            with
            | Ok n => mret (n, Some y)
            | Raise e =>
                if bool_decide (e ∈ [ValueError; KeyError; TypeError]) then
                  let y := set_residue_numbers (Some overflow)
                             (_next_residue_number y) y in
                  _ ← warn (NeedGuessResidueNumber num_str
                              (_next_residue_number y) (_next_atom_number y));
                  n ← lift (residue_num_function overflow num_str (Some y)
                              curr_atom);
                  mret (n, Some y)
                else raise e
            end
        end
      else raise e
  end.
End resolver.

(** ** Parsing one coordinate record: [Atom.__init__] *)

Section atom_init.
Context `{Externals}.

(** [s[:-1]] *)
Definition drop_last (s : string) : string :=
  substring 0 (String.length s - 1) s.

Definition Atom__init__ (pdb_line : string)
    (pdbstructure : option PdbStructure.t)
    : M (Atom.t * option PdbStructure.t) :=
  let record_name := strip (slice pdb_line 0 6) in
  '(serial_number, pdbstructure) ←
    _read_atom_number (slice pdb_line 6 11) pdbstructure;
  let name_with_spaces := slice pdb_line 12 16 in
  _ ← lift (assert (len name_with_spaces =? 4));
  let name := strip name_with_spaces in
  alternate_location_indicator ← lift (index pdb_line 16);
  let residue_name_with_spaces := slice pdb_line 17 20 in
  let possible_fourth_character := slice pdb_line 20 21 in
  residue_name_with_spaces ←
    (if negb (String.eqb possible_fourth_character " ") then
       if negb (len (strip residue_name_with_spaces) =? 3)
       then raise ValueError
       else mret (residue_name_with_spaces +:+ possible_fourth_character)
     else mret residue_name_with_spaces);
  let residue_name := strip residue_name_with_spaces in
  chain_id ← lift (index pdb_line 21);
  (* the object as it is when it is handed to _read_residue_number: the
     attributes assigned further down do not exist yet *)
  let self :=
    {| Atom.is_first_atom_in_chain := false;
       Atom.is_final_atom_in_chain := false;
       Atom.is_first_residue_in_chain := false;
       Atom.is_final_residue_in_chain := false;
       Atom.record_name := record_name;
       Atom.serial_number := serial_number;
       Atom.name_with_spaces := name_with_spaces;
       Atom.name := name;
       Atom.residue_name_with_spaces := residue_name_with_spaces;
       Atom.residue_name := residue_name;
       Atom.chain_id := chain_id;
       Atom.residue_number := 0;
       Atom.insertion_code := " ";
       Atom.locations := [];
       Atom.default_location_id := " ";
       Atom.segment_id := "";
       Atom.element_symbol := "";
       Atom.formal_charge := None;
       Atom.element := None;
       Atom.model_number := None |} in
  '(residue_number, pdbstructure) ←
    _read_residue_number (slice pdb_line 22 26) pdbstructure (Some self);
  insertion_code ← lift (index pdb_line 26);
  x ← lift (to_float (slice pdb_line 30 38));
  y ← lift (to_float (slice pdb_line 38 46));
  z ← lift (to_float (slice pdb_line 46 54));
  occupancy ←
    lift (try_except (to_float (slice pdb_line 54 60)) [ValueError]
            (Ok float_1_0));
  temperature_factor ←
    lift (try_except (to_float (slice pdb_line 60 66)) [ValueError]
            (Ok float_0_0));
  let loc :=
    {| Atom.Location.alternate_location_indicator :=
         alternate_location_indicator;
       Atom.Location.position := (x, y, z);
       Atom.Location.occupancy := occupancy;
       Atom.Location.temperature_factor := temperature_factor;
       Atom.Location.residue_name := residue_name_with_spaces |} in
  let segment_id := strip (slice pdb_line 72 76) in
  let element_symbol := strip (slice pdb_line 76 78) in
  let self (formal_charge : option Z) (element : option Element) :=
    {| Atom.is_first_atom_in_chain := false;
       Atom.is_final_atom_in_chain := false;
       Atom.is_first_residue_in_chain := false;
       Atom.is_final_residue_in_chain := false;
       Atom.record_name := record_name;
       Atom.serial_number := serial_number;
       Atom.name_with_spaces := name_with_spaces;
       Atom.name := name;
       Atom.residue_name_with_spaces := residue_name_with_spaces;
       Atom.residue_name := residue_name;
       Atom.chain_id := chain_id;
       Atom.residue_number := residue_number;
       Atom.insertion_code := insertion_code;
       Atom.locations := [(alternate_location_indicator, loc)];
       Atom.default_location_id := alternate_location_indicator;
       Atom.segment_id := segment_id;
       Atom.element_symbol := element_symbol;
       Atom.formal_charge := formal_charge;
       Atom.element := element;
       Atom.model_number := None |} in
  let charge_string := strip (slice pdb_line 78 80) in
  formal_charge ←
    (if negb (String.eqb charge_string "") then
       match py_int charge_string 10 with
       | Ok q => mret (Some q)
       | Raise ValueError =>
           match py_int (String.rev charge_string) 10 with
           | Ok q => mret (Some q)
           | Raise ValueError =>
               _ ← lift (Atom._pdb_string (self None None) None None);
               _ ← warn CouldNotParseCharge;
               mret None
           | Raise e => raise e
           end
       | Raise e => raise e
       end
     else mret None);
  let element :=
    match get_by_symbol element_symbol with
    | Some e => Some e
    | None =>
        let symbol :=
          lstrip_chars (strip (slice name_with_spaces 0 2)) "0123456789" in
        if (len name =? 4) && String.eqb (slice name 0 1) "H"
        then Some hydrogen
        else get_by_symbol symbol
    end in
  let pdbstructure :=
    match pdbstructure with
    | Some y =>
        Some (PdbStructure.set_residue_numbers
                (PdbStructure._residue_num_nondec_mode y)
                (residue_number + 1)
                (PdbStructure.set_atom_numbers
                   (PdbStructure._atom_num_nondec_mode y)
                   (serial_number + 1) y))
    | None => None
    end in
  mret (self formal_charge element, pdbstructure).
End atom_init.

(** ** The loader: [PdbStructure._load] and [PdbStructure.__init__] *)

Section loader.
Context `{Externals}.
Import PdbStructure.

(** The local variable [state] of [_load] is [None] or ["NEW_MODEL"]. *)
Inductive load_state : Set := NEW_MODEL.

(** How the body of the [for] loop leaves: falling through to the next
    line, or by [break]. *)
Inductive control : Set := Continue | Break.

(** The coordinate-record branch up to the call of [Atom]: opening the
    model that an earlier ENDMDL or END left pending. *)
Definition open_pending_model (self : PdbStructure.t)
    (state : option load_state) : result PdbStructure.t :=
  match state with
  | Some NEW_MODEL =>
      cm ← current_model self;
      let new_number := Model.number cm + 1 in
      mret (_add_model self (Model.__init__ new_number))
  | None => mret self
  end.

Definition finalize_current_model (self : PdbStructure.t)
    : result PdbStructure.t :=
  i ← attr (_current_model self);
  cm ← deref (models self) i;
  cm ← Model._finalize cm;
  mret (set_models (<[i := cm]> (models self)) self).

(** [for pos in [...]: atoms.append(_read_atom_number(...))] *)
Fixpoint read_connect (pdb_line : string) (positions : list nat)
    (self : PdbStructure.t) : M (list Z * PdbStructure.t) :=
  match positions with
  | [] => mret ([], self)
  | pos :: r =>
      '(n, y) ← _read_atom_number (slice pdb_line pos (pos + 5)) (Some self);
      self ← lift (attr y);
      '(l, self) ← read_connect pdb_line r self;
      mret (n :: l, self)
  end.

Definition is_atom_line (pdb_line : string) : bool :=
  find_at_0 pdb_line "ATOM  " || find_at_0 pdb_line "HETATM".

(** [pdb_line.find("TER") == 0 and pdb_line.split()[0] == "TER"]; a line
    that starts with TER has a first token, so the index cannot fail. *)
Definition is_ter_line (pdb_line : string) : bool :=
  find_at_0 pdb_line "TER"
  && match split_0 pdb_line with
     | Ok tok => String.eqb tok "TER"
     | Raise _ => false
     end.

(** The body of the [for] loop of [_load]. *)
Definition loop_body (self : PdbStructure.t) (state : option load_state)
    (pdb_line : string)
    : M (PdbStructure.t * option load_state * control) :=
  if is_atom_line pdb_line then
    self ← lift (open_pending_model self state);
    '(atom, y) ← Atom__init__ pdb_line (Some self);
    self ← lift (attr y);
    self ← _add_atom self atom;
    mret (self, None, Continue)
  else if find_at_0 pdb_line "MODEL" then
    let new_number :=
      match _current_model self with
      | None => Ok 0
      | Some _ => cm ← current_model self; mret (Model.number cm + 1)
      end in
    new_number ← lift new_number;
    let self := _add_model self (Model.__init__ new_number) in
    let self := _reset_atom_numbers self in
    let self := _reset_residue_numbers self in
    mret (self, None, Continue)
  else if find_at_0 pdb_line "ENDMDL" then
    self ← lift (finalize_current_model self);
    if load_all_models self then mret (self, Some NEW_MODEL, Continue)
    else mret (self, state, Break)
  else if find_at_0 pdb_line "END" then
    self ← lift (finalize_current_model self);
    if load_all_models self then mret (self, Some NEW_MODEL, Continue)
    else mret (self, state, Break)
  else if is_ter_line pdb_line then
    i ← lift (attr (_current_model self));
    cm ← lift (deref (models self) i);
    j ← lift (attr (Model._current_chain cm));
    cc ← lift (deref (Model.chains cm) j);
    cc ← lift (Chain._add_ter_record cc);
    let cm := Model.set_chains (<[j := cc]> (Model.chains cm)) cm in
    let self := set_models (<[i := cm]> (models self)) self in
    let self := _reset_residue_numbers self in
    mret (self, state, Continue)
  else if find_at_0 pdb_line "CRYST1" then
    a ← lift (to_float (slice pdb_line 6 15));
    b ← lift (to_float (slice pdb_line 15 24));
    c ← lift (to_float (slice pdb_line 24 33));
    alpha ← lift (to_float (slice pdb_line 33 40));
    beta ← lift (to_float (slice pdb_line 40 47));
    gamma ← lift (to_float (slice pdb_line 47 54));
    mret (set_unit_cell (a, b, c) (alpha, beta, gamma) self, state, Continue)
  else if find_at_0 pdb_line "CONECT" then
    let ll := len (rstrip_chars (drop_last pdb_line) " ") - 5 in
    let positions :=
      filter (λ p : nat, Z.of_nat p ≤ ll) [6; 11; 16; 21; 26]%nat in
    '(atoms, self) ← read_connect pdb_line positions self;
    i ← lift (attr (_current_model self));
    cm ← lift (deref (models self) i);
    let cm := Model.set_connects (Model.connects cm ++ [atoms]) cm in
    mret (set_models (<[i := cm]> (models self)) self, state, Continue)
  else mret (self, state, Continue).

(** The [for] loop over the input stream; the second component of the
    result is what the loop has not consumed. *)
Fixpoint for_lines (self : PdbStructure.t) (state : option load_state)
    (input_stream : list string) : M (PdbStructure.t * list string) :=
  match input_stream with
  | [] => mret (self, [])
  | pdb_line :: rest =>
      '(self, state, ctl) ← loop_body self state pdb_line;
      match ctl with
      | Continue => for_lines self state rest
      | Break => mret (self, rest)
      end
  end.

Definition _load (self : PdbStructure.t) (input_stream : list string)
    : M (PdbStructure.t * list string) :=
  let state : option load_state := None in
  let self := _reset_atom_numbers self in
  let self := _reset_residue_numbers self in
  '(self, rest) ← for_lines self state input_stream;
  self ← lift (_finalize self);
  mret (self, rest).

Definition PdbStructure__init__ (input_stream : list string)
    (load_all_models : bool) : M (PdbStructure.t * list string) :=
  _load
    {| _atom_num_nondec_mode := None;
       _residue_num_nondec_mode := None;
       (* the two counters are first assigned by the resets of _load *)
       _next_atom_number := 0;
       _next_residue_number := 0;
       PdbStructure.load_all_models := load_all_models;
       models := [];
       _current_model := None;
       default_model := None;
       models_by_number := ∅;
       _unit_cell_lengths := None;
       _unit_cell_angles := None |}
    input_stream.
End loader.

(** ** A concrete reading of the imports, for closed examples

    Floats are kept as the text of their literal: [float] accepts here the
    fixed-point literals ([-12.5], [3], [.5], [1.]) that coordinate files
    use, and an element is its symbol. *)
Module Plain.
Definition is_digit (c : ascii) : bool :=
  match c with
  | "0" | "1" | "2" | "3" | "4" | "5" | "6" | "7" | "8" | "9" => true
  | _ => false
  end%char.

Fixpoint all_digits (s : string) : bool :=
  match s with
  | String c r => is_digit c && all_digits r
  | EmptyString => true
  end.

Fixpoint before_dot (s : string) : string :=
  match s with
  | String c r => if Ascii.eqb c "." then EmptyString else String c (before_dot r)
  | EmptyString => EmptyString
  end.

Fixpoint after_dot (s : string) : string :=
  match s with
  | String c r => if Ascii.eqb c "." then r else after_dot r
  | EmptyString => EmptyString
  end.

Definition fixed_point (s : string) : option string :=
  let t := rstrip_by number_space (lstrip_by number_space s) in
  let u := match t with
           | String "+" r => r
           | String "-" r => r
           | _ => t
           end in
  let i := before_dot u in
  let f := after_dot u in
  if all_digits i && all_digits f
     && (0 <? len i + len f)
  then Some t else None.

Definition symbols : list string :=
  ["H"; "C"; "N"; "O"; "P"; "S"; "FE"; "ZN"; "MG"; "CA"; "NA"; "CL"].

#[export] Instance externals : Externals := {|
  float := string;
  py_float := fixed_point;
  float_1_0 := "1.0";
  float_0_0 := "0.0";
  format_f := λ w _ x, rjust w x;
  Element := string;
  get_by_symbol := λ s, if existsb (String.eqb s) symbols then Some s else None;
  hydrogen := "H";
|}.
End Plain.

(** ** Vocabulary of the statements *)

(** A token read as a base-36 number, digit by digit from the left. *)
Fixpoint base36_from (acc : Z) (s : string) : option Z :=
  match s with
  | String c r =>
      match digit_value c with
      | Some d => base36_from (acc * 36 + d) r
      | None => None
      end
  | EmptyString => Some acc
  end.

Definition base36_number (s : string) : option Z :=
  match s with
  | EmptyString => None
  | _ => base36_from 0 s
  end.

Definition is_digit36 (c : ascii) : bool :=
  match digit_value c with Some _ => true | None => false end.

Section vocabulary.
Context `{Externals}.
Import PdbStructure.

(** The residue currently open: the current residue of the current chain
    of the current model, [None] when one of the three is absent. *)
Definition open_residue (y : PdbStructure.t) : result (option Residue.t) :=
  match _current_model y with
  | None => Ok None
  | Some i =>
      m ← deref (models y) i;
      match Model._current_chain m with
      | None => Ok None
      | Some j =>
          c ← deref (Model.chains m) j;
          match Chain._current_residue c with
          | None => Ok None
          | Some k => r ← deref (Chain.residues c) k; Ok (Some r)
          end
      end
  end.

(** The state of the two resolvers: counters and locked modes. *)
Definition atom_resolver (y : PdbStructure.t) : Z * option nondec_function :=
  (_next_atom_number y, _atom_num_nondec_mode y).
Definition residue_resolver (y : PdbStructure.t)
    : Z * option nondec_function :=
  (_next_residue_number y, _residue_num_nondec_mode y).

(** The initial state of a resolver: counter 1, no mode locked. *)
Definition fresh : Z * option nondec_function := (1, None).

(** The chain currently open. *)
Definition open_chain (y : PdbStructure.t) : result Chain.t :=
  m ← current_model y; Model.current_chain m.

(** All atoms of a structure, in file order. *)
Definition all_atoms (y : PdbStructure.t) : list Atom.t :=
  m ← models y; c ← Model.chains m; r ← Chain.residues c; Residue.atoms r.


(** Two structures hold the same tree: the resolvers (and the unit cell)
    may differ. *)
Definition same_tree (st st' : PdbStructure.t) : Prop :=
  models st' = models st ∧ _current_model st' = _current_model st
  ∧ load_all_models st' = load_all_models st.

(** What the length of a structure and the loop of [_load] depend on:
    the number of models, the current model and the loading mode. *)
Definition shape (st : PdbStructure.t) : nat * option nat * bool :=
  (length (models st), _current_model st, load_all_models st).

(** No chain is open: there is no current model, or the current model
    has no current chain. *)
Definition no_chain (st : PdbStructure.t) : Prop :=
  match _current_model st with
  | None => True
  | Some i =>
      ∃ cm, models st !! i = Some cm ∧ Model._current_chain cm = None
  end.

(** The object that [__init__] hands to [_load], after the two resets
    that open [_load]. *)
Definition at_start (load_all : bool) : PdbStructure.t :=
  _reset_residue_numbers (_reset_atom_numbers
    {| _atom_num_nondec_mode := None;
       _residue_num_nondec_mode := None;
       _next_atom_number := 0;
       _next_residue_number := 0;
       PdbStructure.load_all_models := load_all;
       models := [];
       _current_model := None;
       default_model := None;
       models_by_number := ∅;
       _unit_cell_lengths := None;
       _unit_cell_angles := None |}).

(** [reaches self state pre w self' state' w']: the loop of [_load],
    started on [self] and [state], consumes the lines [pre] one after the
    other, without exception and without [break], and is then in
    [self'] and [state']. *)
Inductive reaches : PdbStructure.t → option load_state → list string →
    list warning → PdbStructure.t → option load_state → list warning →
    Prop :=
  | reaches_nil self state w : reaches self state [] w self state w
  | reaches_cons self state pdb_line w self1 state1 w1 pre self' state' w' :
      loop_body self state pdb_line w = Ok (self1, state1, Continue, w1) →
      reaches self1 state1 pre w1 self' state' w' →
      reaches self state (pdb_line :: pre) w self' state' w'.


(** Whether the open chain has seen its terminator. *)
Definition chain_terminated (y : PdbStructure.t) : bool :=
  match open_chain y with
  | Ok c => Chain.has_ter_record c
  | Raise _ => false
  end.

(** All residues of a structure, in file order. *)
Definition all_residues (y : PdbStructure.t) : list Residue.t :=
  m ← models y; c ← Model.chains m; Chain.residues c.

(** The structure after [__init__], or an empty one when it raised. *)
Definition loaded (input_stream : list string) (load_all_models : bool)
    : option PdbStructure.t :=
  match PdbStructure__init__ input_stream load_all_models [] with
  | Ok (s, _, _) => Some s
  | Raise _ => None
  end.

End vocabulary.

(** ** Well-formed lines and structures *)

Section well_formed.
Context `{Externals}.
Import PdbStructure.

(** [float(s)] returns. *)
Definition parses (s : string) : bool :=
  match py_float s with Some _ => true | None => false end.

(** A coordinate record that [Atom.__init__] reads without exception: it
    reaches column 27, a fourth residue-name character follows a residue
    name of three letters, and the three coordinates are numbers. *)
Definition wf_record (pdb_line : string) : bool :=
  is_atom_line pdb_line
  && (27 <=? len pdb_line)
  && (String.eqb (slice pdb_line 20 21) " "
      || (len (strip (slice pdb_line 17 20)) =? 3))
  && parses (slice pdb_line 30 38)
  && parses (slice pdb_line 38 46)
  && parses (slice pdb_line 46 54).

(** The lines of a coordinate file with models: coordinate records,
    model-start markers and end markers. *)
Definition wf_line (pdb_line : string) : bool :=
  wf_record pdb_line || find_at_0 pdb_line "MODEL"
  || find_at_0 pdb_line "END".

(** An Atom holds the Location of its default id, and a residue name of
    three or four characters. *)
Definition wf_atom (a : Atom.t) : Prop :=
  is_Some (od_get (Atom.default_location_id a) (Atom.locations a))
  ∧ (len (Atom.residue_name_with_spaces a) = 3
     ∨ len (Atom.residue_name_with_spaces a) = 4).

(** A Residue whose primary Location is named and whose by-name table
    points into its atoms. *)
Definition wf_residue_slots (r : Residue.t) : Prop :=
  (∃ nm, Residue.name_with_spaces r = Ok nm)
  ∧ (∀ k i, Residue.atoms_by_name r !! k = Some i →
        (i < length (Residue.atoms r))%nat)
  ∧ Forall wf_atom (Residue.atoms r).

Definition wf_residue (r : Residue.t) : Prop :=
  wf_residue_slots r ∧ Residue.atoms r ≠ [].

Definition wf_chain (c : Chain.t) : Prop :=
  (∃ k, Chain._current_residue c = Some k
        ∧ (k < length (Chain.residues c))%nat)
  ∧ Forall wf_residue (Chain.residues c).

Definition wf_model (m : Model.t) : Prop :=
  (∀ j, Model._current_chain m = Some j →
     (j < length (Model.chains m))%nat)
  ∧ (Model.chains m ≠ [] → is_Some (Model._current_chain m))
  ∧ Forall wf_chain (Model.chains m).

Definition wf_structure (st : PdbStructure.t) : Prop :=
  (∀ i, _current_model st = Some i → (i < length (models st))%nat)
  ∧ Forall wf_model (models st).
End well_formed.

(** ** Vocabulary of the further properties *)

Section loader_vocabulary.
Context `{Externals}.
Import PdbStructure.

(** What a load leaves to its caller: the Structure and the diagnostics,
    or the exception.  (The unread lines are dropped.) *)
Definition outcome (r : result (PdbStructure.t * list string * list warning))
    : result (PdbStructure.t * list warning) :=
  match r with
  | Ok (s, _, w) => Ok (s, w)
  | Raise e => Raise e
  end.

(** A line that no branch of the loop of [_load] recognizes. *)
Definition ignored_line (pdb_line : string) : bool :=
  negb (is_atom_line pdb_line) && negb (find_at_0 pdb_line "MODEL")
  && negb (find_at_0 pdb_line "ENDMDL") && negb (find_at_0 pdb_line "END")
  && negb (is_ter_line pdb_line) && negb (find_at_0 pdb_line "CRYST1")
  && negb (find_at_0 pdb_line "CONECT").
End loader_vocabulary.

(** ** Tables and placement in a loaded Structure *)

(** The index of the first, and of the last, element that satisfies
    [f]. *)
Fixpoint find_first {A} (f : A → bool) (l : list A) : option nat :=
  match l with
  | [] => None
  | x :: r => if f x then Some 0%nat else S <$> find_first f r
  end.

Fixpoint find_last {A} (f : A → bool) (l : list A) : option nat :=
  match l with
  | [] => None
  | x :: r =>
      match find_last f r with
      | Some j => Some (S j)
      | None => if f x then Some 0%nat else None
      end
  end.

Section consistency.
Context `{Externals}.
Import PdbStructure.

(** An atom is called by its name and by its name with spaces. *)
Definition called (k : string) (a : Atom.t) : bool :=
  String.eqb (Atom.name a) k || String.eqb (Atom.name_with_spaces a) k.

(** The key of a residue in [residues_by_num_icode]. *)
Definition num_icode (r : Residue.t) : string :=
  str_of_Z (Residue.number r) +:+ String (Residue.insertion_code r) "".

(** The four tables: [atoms_by_name] holds the last atom of a name, the
    other three the first object of a key. *)
Definition atoms_by_name_ok (r : Residue.t) : Prop :=
  ∀ k, Residue.atoms_by_name r !! k = find_last (called k) (Residue.atoms r).

Definition residues_by_number_ok (c : Chain.t) : Prop :=
  ∀ n, Chain.residues_by_number c !! n
       = find_first (λ r, Residue.number r =? n) (Chain.residues c).

Definition residues_by_num_icode_ok (c : Chain.t) : Prop :=
  ∀ k, Chain.residues_by_num_icode c !! k
       = find_first (λ r, String.eqb (num_icode r) k) (Chain.residues c).

Definition chains_by_id_ok (m : Model.t) : Prop :=
  ∀ id, Model.chains_by_id m !! id
        = find_first (λ c, Ascii.eqb (Chain.chain_id c) id) (Model.chains m).

Definition models_by_number_ok (s : PdbStructure.t) : Prop :=
  ∀ n, models_by_number s !! n
       = find_first (λ m, Model.number m =? n) (models s).

(** An atom carries the number of its model, the id of its chain, and
    the number and insertion code of its residue. *)
Definition atom_placed (mnum : Z) (cid : ascii) (r : Residue.t)
    (a : Atom.t) : Prop :=
  Atom.model_number a = Some mnum ∧ Atom.chain_id a = cid
  ∧ Atom.residue_number a = Residue.number r
  ∧ Atom.insertion_code a = Residue.insertion_code r.

Definition consistent_residue (mnum : Z) (cid : ascii) (r : Residue.t)
    : Prop :=
  Forall (atom_placed mnum cid r) (Residue.atoms r) ∧ atoms_by_name_ok r.

Definition consistent_chain (mnum : Z) (c : Chain.t) : Prop :=
  Forall (consistent_residue mnum (Chain.chain_id c)) (Chain.residues c)
  ∧ residues_by_number_ok c ∧ residues_by_num_icode_ok c.

Definition consistent_model (m : Model.t) : Prop :=
  Forall (consistent_chain (Model.number m)) (Model.chains m)
  ∧ chains_by_id_ok m.

(** The models are numbered from 0 in the order of the file, and the
    current model is the last one. *)
Definition numbered (s : PdbStructure.t) : Prop :=
  Model.number <$> models s = Z.of_nat <$> seq 0 (length (models s))
  ∧ _current_model s
    = match length (models s) with
      | O => None
      | S n => Some n
      end.

Definition consistent (s : PdbStructure.t) : Prop :=
  Forall consistent_model (models s) ∧ models_by_number_ok s ∧ numbered s.
End consistency.

(** ** Counting what a load stores *)

Section counting.
Context `{Externals}.

(** An Atom as [Atom.__init__] leaves it: one Location, held under the
    alternate location indicator of the record. *)
Definition single_location (a : Atom.t) : Prop :=
  ∃ loc, Atom.locations a = [(Atom.default_location_id a, loc)]
         ∧ Atom.Location.alternate_location_indicator loc
           = Atom.default_location_id a.

(** The Locations held by the atoms of a list of residues, chains,
    models. *)
Definition residue_locations (r : Residue.t) : list (ascii * Atom.Location.t) :=
  a ← Residue.atoms r; Atom.locations a.
Definition chain_locations (c : Chain.t) : list (ascii * Atom.Location.t) :=
  r ← Chain.residues c; residue_locations r.
Definition model_locations (m : Model.t) : list (ascii * Atom.Location.t) :=
  c ← Model.chains m; chain_locations c.
Definition all_locations (s : PdbStructure.t)
    : list (ascii * Atom.Location.t) :=
  m ← PdbStructure.models s; model_locations m.
End counting.

(** ** The unit cell *)

Section unit_cell.
Context `{Externals}.

(** The two halves of the unit cell of a Structure. *)
Definition unit_cell (s : PdbStructure.t)
    : option (float * float * float) * option (float * float * float) :=
  (PdbStructure.get_unit_cell_lengths s, PdbStructure.get_unit_cell_angles s).
End unit_cell.

(** ** Residues of a loaded Structure *)

Section residue_vocabulary.
Context `{Externals}.

(** All the residues of all the chains of a model have the property. *)
Definition residues_of_model (P : Residue.t → Prop) (m : Model.t) : Prop :=
  Forall (λ c, Forall P (Chain.residues c)) (Model.chains m).

Definition residues_of_structure (P : Residue.t → Prop) (s : PdbStructure.t)
    : Prop :=
  Forall (residues_of_model P) (PdbStructure.models s).
End residue_vocabulary.

Section residue_names.
Context `{Externals}.

(** A residue that has the residue name of its first atom, and whose
    first atom holds a location under the primary id of the residue. *)
Definition named_after_first_atom (r : Residue.t) : Prop :=
  ∃ a0, head (Residue.atoms r) = Some a0
    ∧ Residue.get_name_with_spaces r None
      = Ok (Atom.residue_name_with_spaces a0)
    ∧ Residue.get_name r None = Ok (strip (Atom.residue_name_with_spaces a0))
    ∧ is_Some (od_get (Residue.primary_location_id r) (Atom.locations a0)).
End residue_names.

(** ** The CONECT records *)

Section connects.
Context `{Externals}.

(** The entries that the CONECT records have left in the models. *)
Definition all_connects (s : PdbStructure.t) : list (list Z) :=
  m ← PdbStructure.models s; Model.connects m.
End connects.
(** ** Input lines used by the closed examples

    Coordinate records are 78 columns wide: the charge field is absent. *)
Module Inputs.
Import Plain.

Definition atom_N_ALA_1 : string :=
  "ATOM      1  N   ALA A   1      11.104   6.134  -6.504  1.00  0.00           N".
Definition atom_CA_ALA_5 : string :=
  "ATOM      5  CA  ALA A   1      11.104   6.134  -6.504  1.00  0.00           C".
Definition atom_C_ALA_9 : string :=
  "ATOM      9  C   ALA A   1      11.104   6.134  -6.504  1.00  0.00           C".
Definition atom_CA_GLY_blank : string :=
  "ATOM      2  CA  GLY A   1      11.104   6.134  -6.504  1.00  0.00           C".
Definition atom_N_ALA_altA : string :=
  "ATOM      1  N  AALA A   1      11.104   6.134  -6.504  1.00  0.00           N".
Definition atom_CA_GLY_altB : string :=
  "ATOM      2  CA BGLY A   1      11.104   6.134  -6.504  1.00  0.00           C".
Definition atom_CA_GLY_altA : string :=
  "ATOM      2  CA AGLY A   1      11.104   6.134  -6.504  1.00  0.00           C".
Definition atom_CA_ALA_altA : string :=
  "ATOM      1  CA AALA A   1      11.104   6.134  -6.504  1.00  0.00           C".
Definition atom_CA_ALA_altB : string :=
  "ATOM      2  CA BALA A   1      11.504   6.134  -6.504  1.00  0.00           C".
Definition atom_CA_ALA_altA_again : string :=
  "ATOM      3  CA AALA A   1      12.000   6.134  -6.504  1.00  0.00           C".
Definition atom_99999 : string :=
  "ATOM  99999  N   ALA A   1      11.104   6.134  -6.504  1.00  0.00           N".
Definition atom_186a0 : string :=
  "ATOM  186a0  CA  ALA A   1      11.104   6.134  -6.504  1.00  0.00           C".
Definition atom_10 : string :=
  "ATOM     10  N   ALA A   1      11.104   6.134  -6.504  1.00  0.00           N".
Definition atom_res_9999 : string :=
  "ATOM      1  N   ALA A9999      11.104   6.134  -6.504  1.00  0.00           N".
Definition atom_res_A000 : string :=
  "ATOM      2  N   GLY AA000      11.104   6.134  -6.504  1.00  0.00           N".
Definition atom_res_2710 : string :=
  "ATOM      2  N   SER A2710      11.104   6.134  -6.504  1.00  0.00           N".

(** A single-model file whose serial numbers have gaps. *)
Definition gapped_file : list string :=
  [atom_N_ALA_1; atom_CA_ALA_5; atom_C_ALA_9; "END"].

(** A first model that ends in base-16 serial numbers, then a second
    model: opened by the coordinate record itself, or by a MODEL line. *)
Definition implicit_second_model : list string :=
  [atom_99999; atom_186a0; "ENDMDL"; atom_10].
Definition explicit_second_model : list string :=
  [atom_99999; atom_186a0; "ENDMDL"; "MODEL        2"; atom_10].

Definition two_models : list string :=
  ["MODEL        1"; atom_N_ALA_1; atom_CA_ALA_5; "ENDMDL";
   "MODEL        2"; atom_N_ALA_1; atom_CA_ALA_5; "ENDMDL"; "END"].

Definition ter_with_fields : string := "TER       2      ALA A   1".

(** A structure whose residue counter has passed 9999 and that has not
    locked a residue decoder. *)
Definition past_9999 : PdbStructure.t :=
  {| PdbStructure._atom_num_nondec_mode := None;
     PdbStructure._residue_num_nondec_mode := None;
     PdbStructure._next_atom_number := 2;
     PdbStructure._next_residue_number := 10000;
     PdbStructure.load_all_models := true;
     PdbStructure.models := [];
     PdbStructure._current_model := None;
     PdbStructure.default_model := None;
     PdbStructure.models_by_number := ∅;
     PdbStructure._unit_cell_lengths := None;
     PdbStructure._unit_cell_angles := None |}.

(** The structure built from the given lines ([past_9999] if the load
    raises), and the Atom built from one line on its own. *)
Definition structure_of (lines : list string) : PdbStructure.t :=
  default past_9999 (loaded lines true).

Definition no_atom : Atom.t :=
  {| Atom.is_first_atom_in_chain := false;
     Atom.is_final_atom_in_chain := false;
     Atom.is_first_residue_in_chain := false;
     Atom.is_final_residue_in_chain := false;
     Atom.record_name := ""; Atom.serial_number := 0;
     Atom.name_with_spaces := ""; Atom.name := "";
     Atom.residue_name_with_spaces := ""; Atom.residue_name := "";
     Atom.chain_id := " "; Atom.residue_number := 0;
     Atom.insertion_code := " "; Atom.locations := [];
     Atom.default_location_id := " "; Atom.segment_id := "";
     Atom.element_symbol := ""; Atom.formal_charge := None;
     Atom.element := None; Atom.model_number := None |}.

Definition atom_of (pdb_line : string) : Atom.t :=
  match Atom__init__ pdb_line None [] with
  | Ok (a, _, _) => a
  | Raise _ => no_atom
  end.

(** The loader state after the given lines, before the closing
    [_finalize] of [_load], and its open chain. *)
Definition state_after (lines : list string) : PdbStructure.t :=
  match for_lines (at_start true) None lines [] with
  | Ok (s, _, _) => s
  | Raise _ => past_9999
  end.

Definition chain_of (s : PdbStructure.t) : Chain.t :=
  match open_chain s with
  | Ok c => c
  | Raise _ => Chain.__init__ " "
  end.

(** Structures and atoms of the examples, evaluated once. *)
Definition one_atom_structure : PdbStructure.t :=
  Eval vm_compute in structure_of [atom_N_ALA_1].
Definition gapped_structure : PdbStructure.t :=
  Eval vm_compute in structure_of gapped_file.
Definition the_N_ALA_1 : Atom.t := Eval vm_compute in atom_of atom_N_ALA_1.
Definition the_CA_ALA_5 : Atom.t := Eval vm_compute in atom_of atom_CA_ALA_5.
Definition the_CA_GLY_blank : Atom.t :=
  Eval vm_compute in atom_of atom_CA_GLY_blank.
Definition the_CA_GLY_altB : Atom.t :=
  Eval vm_compute in atom_of atom_CA_GLY_altB.
Definition the_CA_ALA_altB : Atom.t :=
  Eval vm_compute in atom_of atom_CA_ALA_altB.

Definition one_atom_state : PdbStructure.t :=
  Eval vm_compute in state_after [atom_N_ALA_1].
Definition chain_N_ALA_blank : Chain.t :=
  Eval vm_compute in chain_of (state_after [atom_N_ALA_1]).
Definition chain_N_ALA_altA : Chain.t :=
  Eval vm_compute in chain_of (state_after [atom_N_ALA_altA]).

Definition same_indicator_structure : PdbStructure.t :=
  Eval vm_compute in structure_of [atom_N_ALA_altA; atom_CA_GLY_altA].
Definition duplicate_atom_structure : PdbStructure.t :=
  Eval vm_compute in structure_of [atom_CA_ALA_altA; atom_CA_ALA_altA_again].
Definition hex_locked_state : PdbStructure.t :=
  Eval vm_compute in state_after [atom_res_9999; atom_res_2710].
Definition hex_locked_structure : PdbStructure.t :=
  Eval vm_compute in
    structure_of [atom_res_9999; atom_res_2710; atom_res_A000].
Definition terminated_structure : PdbStructure.t :=
  Eval vm_compute in structure_of [atom_N_ALA_1; ter_with_fields].
Definition implicit_structure : PdbStructure.t :=
  Eval vm_compute in structure_of implicit_second_model.
Definition explicit_structure : PdbStructure.t :=
  Eval vm_compute in structure_of explicit_second_model.
Definition before_second_model : PdbStructure.t :=
  Eval vm_compute in state_after [atom_99999; atom_186a0; "ENDMDL"].
(** The line that the first atom of the examples writes under the serial
    number 7. *)
Definition line_7_of_N_ALA_1 : string :=
  Eval vm_compute in
    match Atom._pdb_string Inputs.the_N_ALA_1 (Some 7) (Some " "%char) with
    | Ok l => l
    | Raise _ => ""
    end.

(** The residues of the examples, evaluated once. *)
Definition first_residue (c : Chain.t) : Residue.t :=
  match Chain.residues c with
  | r :: _ => r
  | [] =>
      {| Residue.primary_location_id := " "; Residue.segment_id := "";
         Residue.locations := ∅; Residue.number := 0;
         Residue.insertion_code := " "; Residue.atoms := [];
         Residue.atoms_by_name := ∅; Residue.is_first_in_chain := false;
         Residue.is_final_in_chain := false; Residue._current_atom := None |}
  end.
Definition residue_N_ALA_altA : Residue.t :=
  Eval vm_compute in first_residue chain_N_ALA_altA.

(** Loaded structures of the examples: two models; one chain id on both
    sides of a TER record; two consecutive residues of one number. *)
Definition two_models_structure : PdbStructure.t :=
  Eval vm_compute in structure_of two_models.
Definition split_chain_file : list string :=
  [atom_N_ALA_1; ter_with_fields; atom_CA_ALA_5].
Definition split_chain_structure : PdbStructure.t :=
  Eval vm_compute in structure_of split_chain_file.
Definition renamed_residue_file : list string :=
  [atom_N_ALA_1; atom_CA_GLY_blank].
Definition renamed_residue_structure : PdbStructure.t :=
  Eval vm_compute in structure_of renamed_residue_file.

(** Two records of one atom at two alternate locations, and a record
    after the END line; a file that opens with a CRYST1 record. *)
Definition merged_locations_file : list string :=
  [atom_CA_ALA_altA; atom_CA_ALA_altB; "END"; atom_N_ALA_1].
Definition merged_locations_structure : PdbStructure.t :=
  Eval vm_compute in structure_of merged_locations_file.
Definition cryst1 : string :=
  "CRYST1   50.000   60.000   70.000  90.00  90.00  90.00 P 1           1".
Definition cell_file : list string := [cryst1; atom_N_ALA_1].
Definition cell_structure : PdbStructure.t :=
  Eval vm_compute in structure_of cell_file.

(** A model without atoms; two residues of one number that differ in
    their insertion code. *)
Definition empty_model_file : list string := ["MODEL        1"; "ENDMDL"].
Definition empty_model_structure : PdbStructure.t :=
  Eval vm_compute in structure_of empty_model_file.
Definition atom_N_GLY_1A : string :=
  "ATOM      2  N   GLY A   1A     11.104   6.134  -6.504  1.00  0.00           N".
Definition insertion_code_file : list string :=
  [atom_N_ALA_1; atom_N_GLY_1A].
Definition insertion_code_structure : PdbStructure.t :=
  Eval vm_compute in structure_of insertion_code_file.

(** Two atoms and the CONECT record that bonds them. *)
Definition bonded_file : list string :=
  [atom_N_ALA_1; atom_CA_GLY_blank; "CONECT    1    2 "].
Definition bonded_structure : PdbStructure.t :=
  Eval vm_compute in structure_of bonded_file.
End Inputs.
(** * Theorems *)

(** ** Strings *)

Lemma substring_0_all (s : string) (n : nat) :
  (String.length s ≤ n)%nat → substring 0 n s = s.
Proof.
  revert n. induction s as [|c s IH]; intros [|n] Hn; simpl in *;
    try reflexivity; try lia.
  f_equal. apply IH. lia.
Qed.

Lemma slice_from_1 (c : ascii) (r : string) : slice_from (String c r) 1 = r.
Proof. unfold slice_from. simpl. apply substring_0_all. lia. Qed.

Lemma prefix_cons_inv (a : ascii) (p : string) (s : string) :
  String.prefix (String a p) s = true →
  ∃ s', s = String a s' ∧ String.prefix p s' = true.
Proof.
  destruct s as [|b s']; simpl; [discriminate|].
  destruct (ascii_dec a b); [subst; eauto | discriminate].
Qed.

Lemma prefix_cons_ne (a b : ascii) (p s : string) :
  a ≠ b → String.prefix (String a p) (String b s) = false.
Proof. intros Hne. simpl. destruct (ascii_dec a b); congruence. Qed.

Lemma prefix_cons_eq (a : ascii) (p s : string) :
  String.prefix (String a p) (String a s) = String.prefix p s.
Proof. simpl. destruct (ascii_dec a a); congruence. Qed.

(** The keyword tests of the loop body exclude one another by the first
    letter of the line. *)
Lemma model_not_atom (l : string) :
  find_at_0 l "MODEL" = true → is_atom_line l = false.
Proof.
  unfold find_at_0, is_atom_line. intros (s & -> & _)%prefix_cons_inv.
  unfold find_at_0. rewrite !prefix_cons_ne; [reflexivity | discriminate..].
Qed.

Lemma end_not_atom_model (l : string) :
  find_at_0 l "END" = true →
  is_atom_line l = false ∧ find_at_0 l "MODEL" = false.
Proof.
  unfold find_at_0, is_atom_line. intros (s & -> & _)%prefix_cons_inv.
  unfold find_at_0. rewrite !prefix_cons_ne; [split; reflexivity | discriminate..].
Qed.

Lemma endmdl_end (l : string) :
  find_at_0 l "ENDMDL" = true → find_at_0 l "END" = true.
Proof.
  unfold find_at_0.
  intros (s1 & -> & (s2 & -> & (s3 & -> & _)%prefix_cons_inv)
            %prefix_cons_inv)%prefix_cons_inv.
  rewrite !prefix_cons_eq. by destruct s3.
Qed.

Lemma ter_not_earlier (l : string) :
  find_at_0 l "TER" = true →
  is_atom_line l = false ∧ find_at_0 l "MODEL" = false
  ∧ find_at_0 l "ENDMDL" = false ∧ find_at_0 l "END" = false
  ∧ find_at_0 l "CRYST1" = false ∧ find_at_0 l "CONECT" = false.
Proof.
  unfold find_at_0, is_atom_line. intros (s & -> & _)%prefix_cons_inv.
  unfold find_at_0. rewrite !prefix_cons_ne; [done | discriminate..].
Qed.

(** A line whose first token is a keyword that does not begin the line
    begins with white space, and then no keyword test of the loop body
    succeeds. *)
Lemma take_while_prefix (f : ascii → bool) (s : string) :
  String.prefix (take_while f s) s = true.
Proof.
  induction s as [|d s IH]; [done|].
  simpl. destruct (f d); [|done]. simpl. by destruct (ascii_dec d d).
Qed.

Lemma first_token_not_first (l p : string) :
  find_at_0 l p = false → split_0 l = Ok p →
  ∃ c r, l = String c r ∧ isspace c = true.
Proof.
  unfold find_at_0, split_0. destruct l as [|c r]; [discriminate|].
  destruct (isspace c) eqn:Hc; [by eauto|].
  intros Hp Htok. exfalso.
  assert (p = take_while (λ c, negb (isspace c)) (String c r)) as ->.
  { unfold lstrip_by in Htok. rewrite Hc in Htok.
    injection Htok as Htok. symmetry. exact Htok. }
  by rewrite take_while_prefix in Hp.
Qed.

Lemma space_not_keyword (c : ascii) (r : string) :
  isspace c = true →
  is_atom_line (String c r) = false ∧ find_at_0 (String c r) "MODEL" = false
  ∧ find_at_0 (String c r) "ENDMDL" = false
  ∧ find_at_0 (String c r) "END" = false
  ∧ find_at_0 (String c r) "CRYST1" = false
  ∧ find_at_0 (String c r) "CONECT" = false.
Proof.
  intros Hc. unfold is_atom_line, find_at_0.
  destruct c as [[] [] [] [] [] [] [] []];
    try (vm_compute in Hc; discriminate Hc);
    rewrite !prefix_cons_ne; done.
Qed.

(** ** [int(s, 36)] on a plain run of digits and letters *)

Lemma digit_value_lt_36 (c : ascii) (d : Z) :
  digit_value c = Some d → (d <? 36) = true.
Proof.
  unfold digit_value. intros Hd. apply Z.ltb_lt.
  repeat case_match; simplify_eq; lia.
Qed.

Lemma digit36_not_underscore (c : ascii) :
  is_digit36 c = true → Ascii.eqb c "_" = false.
Proof. destruct c as [[] [] [] [] [] [] [] []]; vm_compute; congruence. Qed.

Lemma scan_digits_base36 (s : string) :
  ∀ acc n v, base36_from acc s = Some v →
    scan_digits 36 false acc n s = Some (v, (n + String.length s)%nat, "").
Proof.
  induction s as [|c r IH]; intros acc n v Hv; simpl in *.
  - simplify_eq. by rewrite Nat.add_0_r.
  - destruct (digit_value c) as [d|] eqn:Hd; [|discriminate].
    rewrite digit36_not_underscore by (unfold is_digit36; by rewrite Hd).
    unfold digit_in. rewrite Hd, (digit_value_lt_36 _ _ Hd).
    rewrite (IH _ (S n) _ Hv). do 3 f_equal. lia.
Qed.

Lemma py_int_36_head (c : ascii) (r : string) :
  is_digit36 c = true →
  py_int (String c r) 36 =
    match scan_digits 36 false 0 0 (String c r) with
    | Some (v, S k, rest) =>
        if int_max_str_digits <? Z.of_nat (S k) then Raise ValueError
        else
          match lstrip_by number_space rest with
          | EmptyString => Ok (1 * v)
          | _ => Raise ValueError
          end
    | _ => Raise ValueError
    end.
Proof.
  destruct c as [[] [] [] [] [] [] [] []]; intros Hd;
    try (vm_compute in Hd; discriminate Hd); destruct r; reflexivity.
Qed.

Lemma py_int_base36_number (s : string) (v : Z) :
  base36_number s = Some v → Z.of_nat (String.length s) ≤ int_max_str_digits →
  py_int s 36 = Ok v.
Proof.
  destruct s as [|c r]; [discriminate|]. unfold base36_number.
  intros Hv Hlen. rewrite py_int_36_head.
  - rewrite (scan_digits_base36 _ _ _ _ Hv).
    change (0 + String.length (String c r))%nat with (S (String.length r)).
    change (String.length (String c r)) with (S (String.length r)) in Hlen.
    cbv beta iota.
    destruct (_ <? _) eqn:Hcap; [apply Z.ltb_lt in Hcap; lia|].
    simpl. by rewrite Z.mul_1_l.
  - unfold is_digit36. simpl in Hv. by destruct (digit_value c).
Qed.

Lemma py_int_base36_digit (c : ascii) (d : Z) :
  digit_value c = Some d → py_int (String c "") 36 = Ok d.
Proof.
  intros Hd. apply py_int_base36_number; [|done]. simpl. by rewrite Hd.
Qed.

Lemma hybrid36_value (k : Z) (c : ascii) (rest : string) (high low : Z) :
  digit_value c = Some high → base36_number rest = Some low →
  Z.of_nat (String.length rest) ≤ int_max_str_digits →
  hybrid36 k (String c rest) = Ok (high * 10 ^ k + low).
Proof.
  intros Hh Hl Hlen. unfold hybrid36. simpl.
  rewrite (py_int_base36_digit _ _ Hh). simpl.
  rewrite slice_from_1, (py_int_base36_number _ _ Hl Hlen). reflexivity.
Qed.

(** ** The resolver *)

Section resolver_facts.
Context `{Externals}.
Import PdbStructure.

(** C7 (amended). The hybrid alphanumeric decoder of both tables computes
    [high * 10^k + low], where [high] is the first character read as a
    base-36 digit and [low] the remaining characters read as a base-36
    number, with [k = 4] for atom numbers and [k = 3] for residue numbers
    (the remaining characters within the digit cap of [int]).
    What the residue token ["A000"] resolves to when the residue counter
    is past 9999 depends on the decoder that is locked: with none or the
    hybrid one, exactly 10000, and the hybrid decoder is locked
    afterwards; with the base-16 decoder, the token read in base 16,
    40960; with the sequential-guess decoder, the guess of
    [_overflow_residue_check], which does not read the token. *)
Theorem C7_hybrid_decoder :
  (∀ (c : ascii) (rest : string) (high low : Z)
     (y : option PdbStructure.t) (z : option Atom.t),
      digit_value c = Some high → base36_number rest = Some low →
      Z.of_nat (String.length rest) ≤ int_max_str_digits →
      atom_num_function chimera (String c rest) y = Ok (high * 10 ^ 4 + low)
      ∧ residue_num_function chimera (String c rest) y z
        = Ok (high * 10 ^ 3 + low))
  ∧ table_get "A0000" _atom_num_initial_nondecimal_functions = Some chimera
  ∧ table_get "A000" _residue_num_initial_nondecimal_functions = Some chimera
  ∧ (∀ (y : PdbStructure.t) (curr_atom : option Atom.t) (w : list warning),
      9999 < _next_residue_number y →
      (_residue_num_nondec_mode y = None
       ∨ _residue_num_nondec_mode y = Some chimera →
       ∃ y', _read_residue_number "A000" (Some y) curr_atom w
             = Ok ((10000, Some y'), w)
             ∧ _residue_num_nondec_mode y' = Some chimera
             ∧ _next_residue_number y' = _next_residue_number y)
      ∧ (_residue_num_nondec_mode y = Some hex →
         _read_residue_number "A000" (Some y) curr_atom w
         = Ok ((40960, Some y), w))
      ∧ (_residue_num_nondec_mode y = Some overflow →
         ∀ n : Z,
           _overflow_residue_check "A000" (Some y) curr_atom = Ok n →
           _read_residue_number "A000" (Some y) curr_atom w
           = Ok ((n, Some y), w))).
Proof.
  split; [|split; [reflexivity|split; [reflexivity|]]].
  - intros c rest high low y z Hh Hl Hlen. simpl.
    by rewrite !(hybrid36_value _ _ _ _ _ Hh Hl Hlen).
  - intros y curr_atom w Hnext. split; [|split].
    + intros [Hmode|Hmode].
      * exists (set_residue_numbers (Some chimera) (_next_residue_number y) y).
        split; [|done].
        unfold _read_residue_number. simpl. rewrite Hmode.
        apply Z.ltb_lt in Hnext. rewrite Hnext. reflexivity.
      * exists y. split; [|done].
        unfold _read_residue_number. simpl. rewrite Hmode. reflexivity.
    + intros Hmode. unfold _read_residue_number. simpl. rewrite Hmode.
      reflexivity.
    + intros Hmode n Hn. unfold _read_residue_number. simpl.
      rewrite Hmode. simpl. rewrite Hn. reflexivity.
Qed.

(** C4. The sequential-guess residue decoder, given an owning Structure
    and the current atom: the next-expected residue counter when no
    residue is open, when the open residue's name differs from the atom's
    residue name, or when the atom's name is already in the open residue's
    atom table; the open residue's number otherwise. *)
Theorem C4_sequential_guess_residue (num_str : string)
    (y : PdbStructure.t) (curr_atom : Atom.t) :
  residue_num_function overflow num_str (Some y) (Some curr_atom)
    = _overflow_residue_check num_str (Some y) (Some curr_atom)
  ∧ (open_residue y = Ok None →
     _overflow_residue_check num_str (Some y) (Some curr_atom)
       = Ok (_next_residue_number y))
  ∧ (∀ (r : Residue.t) (nm : string),
       open_residue y = Ok (Some r) →
       Residue.name_with_spaces r = Ok nm →
       (nm ≠ Atom.residue_name_with_spaces curr_atom →
        _overflow_residue_check num_str (Some y) (Some curr_atom)
          = Ok (_next_residue_number y))
       ∧ (nm = Atom.residue_name_with_spaces curr_atom →
          is_Some (Residue.atoms_by_name r !! Atom.name_with_spaces curr_atom) →
          _overflow_residue_check num_str (Some y) (Some curr_atom)
            = Ok (_next_residue_number y))
       ∧ (nm = Atom.residue_name_with_spaces curr_atom →
          Residue.atoms_by_name r !! Atom.name_with_spaces curr_atom = None →
          _overflow_residue_check num_str (Some y) (Some curr_atom)
            = Ok (Residue.number r))).
Proof.
  split; [reflexivity|].
  unfold open_residue, _overflow_residue_check. simpl.
  destruct (_current_model y) as [i|]; [|split; [done|intros; discriminate]].
  destruct (deref (models y) i) as [m|e]; simpl;
    [|split; intros; discriminate].
  destruct (Model._current_chain m) as [j|];
    [|split; [done|intros; discriminate]].
  destruct (deref (Model.chains m) j) as [c|e]; simpl;
    [|split; intros; discriminate].
  destruct (Chain._current_residue c) as [k|];
    [|split; [done|intros; discriminate]].
  destruct (deref (Chain.residues c) k) as [r0|e]; simpl;
    [|split; intros; discriminate].
  split; [intros; discriminate|].
  intros r nm [= <-] ->. simpl.
  repeat split.
  - intros Hne. apply String.eqb_neq in Hne. by rewrite Hne.
  - intros <- Hin. rewrite String.eqb_refl. simpl.
    by rewrite bool_decide_eq_true_2.
  - intros <- Hnone. rewrite String.eqb_refl. simpl.
    rewrite bool_decide_eq_false_2; [done|].
    rewrite Hnone. by intros [? ?].
Qed.
End resolver_facts.

(** ** The write path *)

Section write_facts.
Context `{Externals}.

(** The loop of [Atom.write] over the selected ids: one line per id, the
    serial-number cell incremented after each line. *)
Lemma Atom_write_loop (self : Atom.t) (locs : list ascii) :
  (∀ v c, is_Ok (Atom._pdb_string self (Some v) (Some c)) = true) →
  ∀ st, ∃ lines,
    for_ locs (λ loc_id,
      v ← get_val;
      line ← wlift (Atom._pdb_string self (Some v) (Some loc_id));
      _ ← print line;
      increment) st
      = (Ok tt, {| val := val st + Z.of_nat (length locs);
                   out := out st ++ lines |})
    ∧ length lines = length locs.
Proof.
  intros Hstr. induction locs as [|c locs IH]; intros st.
  - exists []. simpl. unfold mret, W_ret. rewrite Z.add_0_r, app_nil_r.
    by destruct st.
  - specialize (Hstr (val st) c).
    destruct (Atom._pdb_string self (Some (val st)) (Some c)) as [line|] eqn:Hl;
      [|discriminate].
    destruct (IH {| val := val st + 1; out := out st ++ [line] |})
      as (lines & Hrun & Hlen).
    exists (line :: lines). split; [|simpl; by rewrite Hlen].
    simpl. unfold mbind, W_bind, get_val, wlift, print, increment in *.
    simpl in *. rewrite Hl, Hrun.
    rewrite <- app_assoc. simpl. f_equal. f_equal. lia.
Qed.

(** C2. Writing an Atom with the default alternate-location selector
    ["*"] does not emit one line per location: the call raises
    AttributeError before anything is printed, because the selector is
    answered by [self.locations.keys()] followed by [.sort()], and a
    dict_keys view has no such method.  Output stream and serial-number
    cell are left untouched.  With the location ids spelled out in the
    selector, the same method prints one line per id and increments the
    serial-number cell after each line. *)
Theorem C2_default_selector_raises (self : Atom.t) (st : wstate) :
  Atom.write self (Some "*") st = (Raise AttributeError, st)
  ∧ (∀ ids : string,
       ids ≠ "" → ids ≠ "*" →
       (∀ v c, is_Ok (Atom._pdb_string self (Some v) (Some c)) = true) →
       ∃ lines,
         Atom.write self (Some ids) st
           = (Ok tt, {| val := val st + len ids; out := out st ++ lines |})
         ∧ length lines = String.length ids).
Proof.
  split; [reflexivity|].
  intros ids Hne Hstar Hstr. unfold Atom.write.
  apply String.eqb_neq in Hne, Hstar. rewrite Hne, Hstar.
  destruct (Atom_write_loop self (list_ascii_of_string ids) Hstr st)
    as (lines & Hrun & Hlen).
  exists lines. unfold mbind at 1. unfold W_bind at 1. unfold mret, W_ret.
  rewrite Hrun.
  assert (length (list_ascii_of_string ids) = String.length ids) as Hl.
  { clear. induction ids as [|c ids IH]; simpl; [done|]. by rewrite IH. }
  unfold len. by rewrite Hlen, Hl.
Qed.

(** C3. Serializing a single-model Structure that holds at least one atom
    writes no line at all and assigns no serial number: the first
    [Atom.write], called with the default selector, raises AttributeError
    right after the serial-number cell was set to 1. *)
Theorem C3_serialization_raises (s : PdbStructure.t) (m : Model.t)
    (c : Chain.t) (cs : list Chain.t) (r : Residue.t) (rs : list Residue.t)
    (a : Atom.t) (l : list Atom.t) (st : wstate) :
  PdbStructure.models s = [m] →
  Model.chains m = c :: cs →
  Chain.residues c = r :: rs →
  Residue.atoms r = a :: l →
  PdbStructure.write s st = (Raise AttributeError, {| val := 1; out := out st |}).
Proof.
  intros Hs Hm Hc Hr. unfold PdbStructure.write. rewrite Hs. simpl.
  rewrite Hm. simpl. unfold Model.write. rewrite Hm. simpl.
  unfold Chain.write. rewrite Hc. simpl.
  unfold Residue.write. rewrite Hr. reflexivity.
Qed.
End write_facts.


(** ** The loader *)

(** Unfolding the operations of the monad [M]. *)
Ltac unfold_M :=
  unfold mbind, mret, M_bind, M_ret, result_bind, result_ret, lift, warn, raise,
    attr, try_except in *.

Section loader_facts.
Context `{Externals}.
Import PdbStructure.

Lemma same_tree_refl (st : PdbStructure.t) : same_tree st st.
Proof. done. Qed.

Lemma same_tree_trans (a b c : PdbStructure.t) :
  same_tree a b → same_tree b c → same_tree a c.
Proof. unfold same_tree. intros (-> & -> & ->) (-> & -> & ->). done. Qed.

Lemma same_tree_set_atom_numbers mode next (st : PdbStructure.t) :
  same_tree st (set_atom_numbers mode next st).
Proof. done. Qed.

Lemma same_tree_set_residue_numbers mode next (st : PdbStructure.t) :
  same_tree st (set_residue_numbers mode next st).
Proof. done. Qed.

#[local] Opaque py_int hybrid36 _overflow_residue_check
  _check_overflow_eligibility table_get index.

Lemma _read_atom_number_tree num_str st w n y w' :
  _read_atom_number num_str (Some st) w = Ok (n, y, w') →
  ∃ st', y = Some st' ∧ same_tree st st'.
Proof.
  unfold _read_atom_number, call. unfold_M. intros Hr.
  repeat (case_match; simplify_eq/=);
    by (eexists; split; [reflexivity|]).
Qed.

Lemma _read_residue_number_tree num_str st a w n y w' :
  _read_residue_number num_str (Some st) a w = Ok (n, y, w') →
  ∃ st', y = Some st' ∧ same_tree st st'.
Proof.
  unfold _read_residue_number, call. unfold_M. intros Hr.
  repeat (case_match; simplify_eq/=);
    by (eexists; split; [reflexivity|]).
Qed.
#[local] Opaque _read_atom_number _read_residue_number to_float strip
  slice Atom._pdb_string String.rev assert get_by_symbol.

Lemma Atom__init___tree pdb_line st w a y w' :
  Atom__init__ pdb_line (Some st) w = Ok (a, y, w') →
  ∃ st', y = Some st' ∧ same_tree st st'.
Proof.
  unfold Atom__init__. unfold_M. intros Hr.
  destruct (_read_atom_number _ _ _) as [[[n1 y1] w1]|] eqn:H1;
    [|discriminate].
  apply _read_atom_number_tree in H1 as (st1 & -> & Ht1).
  repeat (case_match; simplify_eq/=; try done);
    match goal with
    | Hq : _read_residue_number _ (Some _) _ _ = Ok _ |- _ =>
        apply _read_residue_number_tree in Hq as (st2 & ? & Ht2)
    end; simplify_eq;
    (eexists; split; [reflexivity|]);
    (eapply same_tree_trans; [exact Ht1|]);
    (eapply same_tree_trans; [exact Ht2|]); done.
Qed.

#[local] Transparent py_int hybrid36 _overflow_residue_check
  _check_overflow_eligibility table_get index
  _read_atom_number _read_residue_number to_float strip
  slice Atom._pdb_string String.rev assert get_by_symbol.

Lemma same_tree_shape (st st' : PdbStructure.t) :
  same_tree st st' → shape st' = shape st.
Proof. unfold same_tree, shape. by intros (-> & -> & ->). Qed.

Lemma mapM_result_length {A B} (f : A → result B) (l : list A) (l' : list B) :
  mapM f l = Ok l' → length l' = length l.
Proof.
  revert l'. induction l as [|x l IH]; intros l' Hl; simpl in *.
  - unfold_M. by simplify_eq.
  - unfold_M. destruct (f x); [|discriminate].
    destruct (mapM f l) as [k|]; [|discriminate].
    simplify_eq. simpl. f_equal. by apply IH.
Qed.

Lemma _add_atom_shape st a w st' w' :
  is_Some (_current_model st) →
  PdbStructure._add_atom st a w = Ok (st', w') →
  shape st' = shape st.
Proof.
  intros [i Hi]. unfold PdbStructure._add_atom. rewrite Hi. unfold_M.
  unfold deref. intros Hr.
  repeat (case_match; simplify_eq/=; try done).
  unfold shape. simpl. by rewrite length_insert.
Qed.

Lemma finalize_current_model_shape st st' :
  finalize_current_model st = Ok st' →
  shape st' = shape st ∧ is_Some (_current_model st).
Proof.
  unfold finalize_current_model, deref. unfold_M. intros Hr.
  repeat (case_match; simplify_eq/=; try done).
  unfold shape. simpl. rewrite length_insert. eauto.
Qed.

Lemma _finalize_shape st st' :
  PdbStructure._finalize st = Ok st' → shape st' = shape st.
Proof.
  unfold PdbStructure._finalize. unfold_M. intros Hr.
  destruct (mapM _ _) as [l|] eqn:Hl; [|discriminate]. simplify_eq.
  unfold shape. simpl. by rewrite (mapM_result_length _ _ _ Hl).
Qed.

(** A coordinate record read while no model is pending keeps the number
    of models, once a model is open. *)
Lemma loop_body_atom_shape pdb_line st w st' state' ctl w' :
  is_atom_line pdb_line = true →
  is_Some (_current_model st) →
  loop_body st None pdb_line w = Ok (st', state', ctl, w') →
  shape st' = shape st ∧ state' = None ∧ ctl = Continue.
Proof.
  intros Hl Hcur. unfold loop_body. rewrite Hl. simpl. unfold_M.
  intros Hr.
  destruct (Atom__init__ _ _ _) as [[[a y] w1]|] eqn:Ha; [|discriminate].
  apply Atom__init___tree in Ha as (st1 & -> & Ht%same_tree_shape).
  destruct (PdbStructure._add_atom _ _ _) as [[st2 w2]|] eqn:Hadd;
    [|discriminate].
  assert (is_Some (_current_model st1)) as Hcur1.
  { unfold shape in Ht. injection Ht as _ Hc _. by rewrite Hc. }
  injection Hr as <- <- <- <-. split; [|done].
  rewrite <- Ht. by eapply _add_atom_shape.
Qed.

(** A MODEL line appends one model, which becomes the current one. *)
Lemma loop_body_model_shape pdb_line st state w st' state' ctl w' :
  find_at_0 pdb_line "MODEL" = true →
  loop_body st state pdb_line w = Ok (st', state', ctl, w') →
  shape st' = (S (length (models st)), Some (length (models st)),
               load_all_models st)
  ∧ atom_resolver st' = fresh ∧ residue_resolver st' = fresh
  ∧ state' = None ∧ ctl = Continue.
Proof.
  intros Hl. unfold loop_body. rewrite (model_not_atom _ Hl), Hl.
  unfold_M. unfold current_model, deref. unfold_M. intros Hr.
  repeat (case_match; simplify_eq/=; try done);
    unfold shape; simpl; rewrite length_app; simpl;
    (split; [do 2 f_equal; lia | done]).
Qed.

(** An ENDMDL or END line finalizes the current model; it continues
    with a model pending when all models are loaded, and breaks
    otherwise. *)
Lemma loop_body_end_shape pdb_line st state w st' state' ctl w' :
  find_at_0 pdb_line "END" = true →
  loop_body st state pdb_line w = Ok (st', state', ctl, w') →
  shape st' = shape st ∧ is_Some (_current_model st)
  ∧ (if load_all_models st then state' = Some NEW_MODEL ∧ ctl = Continue
     else ctl = Break).
Proof.
  intros Hl. destruct (end_not_atom_model _ Hl) as [Ha Hm].
  unfold loop_body. rewrite Ha, Hm, Hl. unfold_M.
  intros Hr.
  assert (∃ st1, finalize_current_model st = Ok st1
                 ∧ (if load_all_models st1
                    then (st', state', ctl, w') = (st1, Some NEW_MODEL, Continue, w)
                    else (st', state', ctl, w') = (st1, state, Break, w)))
    as (st1 & Hf & Hres).
  { destruct (find_at_0 pdb_line "ENDMDL");
      destruct (finalize_current_model st) as [st1|]; try discriminate;
      exists st1; (split; [done|]);
      destruct (load_all_models st1); by simplify_eq. }
  apply finalize_current_model_shape in Hf as [Hs Hc].
  assert (load_all_models st1 = load_all_models st) as Hla
    by (unfold shape in Hs; by simplify_eq).
  rewrite Hla in Hres.
  destruct (load_all_models st); injection Hres as -> -> -> ->; auto.
Qed.

Lemma for_lines_cons st state pdb_line rest w :
  for_lines st state (pdb_line :: rest) w =
    match loop_body st state pdb_line w with
    | Ok (st', state', Continue, w') => for_lines st' state' rest w'
    | Ok (st', _, Break, w') => Ok (st', rest, w')
    | Raise e => Raise e
    end.
Proof.
  simpl. unfold_M.
  by destruct (loop_body st state pdb_line w) as [[[[? ?] []] ?]|].
Qed.

Lemma for_lines_atoms (atoms rest : list string) :
  ∀ st w res,
    Forall (λ l, is_atom_line l = true) atoms →
    is_Some (_current_model st) →
    for_lines st None (atoms ++ rest) w = Ok res →
    ∃ st1 w1, shape st1 = shape st ∧ for_lines st1 None rest w1 = Ok res.
Proof.
  induction atoms as [|l atoms IH]; intros st w res Hall Hcur Hr.
  - by exists st, w.
  - apply Forall_cons in Hall as [Hl Hall].
    rewrite <- app_comm_cons, for_lines_cons in Hr.
    destruct (loop_body st None l w) as [[[[st' state'] ctl] w']|] eqn:Hb;
      [|discriminate].
    apply loop_body_atom_shape in Hb as (Hs & -> & ->); [|done..].
    assert (is_Some (_current_model st')) as Hcur'.
    { unfold shape in Hs. injection Hs as _ Hc _. by rewrite Hc. }
    destruct (IH st' w' res Hall Hcur' Hr) as (st1 & w1 & Hs1 & Hr1).
    exists st1, w1. split; [congruence|done].
Qed.

Lemma load_inv input load_all w s rest w' :
  PdbStructure__init__ input load_all w = Ok (s, rest, w') →
  ∃ s1, for_lines (at_start load_all) None input w = Ok (s1, rest, w')
        ∧ shape s = shape s1.
Proof.
  unfold PdbStructure__init__, _load. fold (at_start load_all). unfold_M.
  destruct (for_lines _ _ _ _) as [[[s1 rest1] w1]|]; [|discriminate].
  destruct (PdbStructure._finalize s1) as [s2|] eqn:Hf; [|discriminate].
  intros [= <- <- <-]. exists s1. split; [done|].
  by apply _finalize_shape.
Qed.

(** What a load of a two-model input (model-start, atoms, model-end,
    model-start, atoms, model-end, end-of-structure) returns, when it
    returns: two models and nothing unread with all models requested, one
    model and every line after the first end-of-model marker unread
    otherwise. *)
Lemma two_model_file_shape (model1 endmdl1 model2 endmdl2 end_ : string)
    (atoms1 atoms2 : list string) :
  find_at_0 model1 "MODEL" = true → find_at_0 model2 "MODEL" = true →
  find_at_0 endmdl1 "ENDMDL" = true → find_at_0 endmdl2 "ENDMDL" = true →
  find_at_0 end_ "END" = true →
  Forall (λ l, is_atom_line l = true) atoms1 →
  Forall (λ l, is_atom_line l = true) atoms2 →
  let input :=
    model1 :: atoms1 ++ endmdl1 :: model2 :: atoms2 ++ [endmdl2; end_] in
  (∀ s rest w, PdbStructure__init__ input true [] = Ok (s, rest, w) →
     PdbStructure.__len__ s = 2%nat ∧ rest = [])
  ∧ (∀ s rest w, PdbStructure__init__ input false [] = Ok (s, rest, w) →
       PdbStructure.__len__ s = 1%nat
       ∧ rest = model2 :: atoms2 ++ [endmdl2; end_]).
Proof.
  intros Hm1 Hm2 He1%endmdl_end He2%endmdl_end He Ha1 Ha2 input.
  assert (∀ b s rest w,
    PdbStructure__init__ input b [] = Ok (s, rest, w) →
    if b then PdbStructure.__len__ s = 2%nat ∧ rest = []
    else PdbStructure.__len__ s = 1%nat
         ∧ rest = model2 :: atoms2 ++ [endmdl2; end_]) as Hboth.
  { intros b s rest w (s1 & Hr & Hs)%load_inv. subst input.
    rewrite for_lines_cons in Hr.
    destruct (loop_body _ _ model1 _) as [[[[st1 state1] ctl1] w1]|] eqn:Hb1;
      [|discriminate].
    apply loop_body_model_shape in Hb1 as (Hs1 & _ & _ & -> & ->); [|done].
    apply for_lines_atoms in Hr as (st2 & w2 & Hs2 & Hr); [|done|];
      [|unfold shape in Hs1; injection Hs1 as _ Hc _; by rewrite Hc].
    rewrite for_lines_cons in Hr.
    destruct (loop_body _ _ endmdl1 _) as [[[[st3 state3] ctl3] w3]|] eqn:Hb3;
      [|discriminate].
    apply loop_body_end_shape in Hb3 as (Hs3 & _ & Hctl3); [|done].
    assert (load_all_models st2 = b) as Hb.
    { unfold shape in Hs1, Hs2. simpl in Hs1. congruence. }
    rewrite Hb in Hctl3. destruct b.
    - destruct Hctl3 as [-> ->].
      rewrite for_lines_cons in Hr.
      destruct (loop_body _ _ model2 _) as [[[[st4 state4] ctl4] w4]|] eqn:Hb4;
        [|discriminate].
      apply loop_body_model_shape in Hb4 as (Hs4 & _ & _ & -> & ->); [|done].
      apply for_lines_atoms in Hr as (st5 & w5 & Hs5 & Hr); [|done|];
        [|unfold shape in Hs4; injection Hs4 as _ Hc _; by rewrite Hc].
      rewrite for_lines_cons in Hr.
      destruct (loop_body _ _ endmdl2 _) as [[[[st6 state6] ctl6] w6]|] eqn:Hb6;
        [|discriminate].
      apply loop_body_end_shape in Hb6 as (Hs6 & _ & Hctl6); [|done].
      assert (load_all_models st5 = true) as Hla5.
      { unfold shape in *. simpl in *. congruence. }
      rewrite Hla5 in Hctl6. destruct Hctl6 as [-> ->].
      rewrite for_lines_cons in Hr.
      destruct (loop_body _ _ end_ _) as [[[[st7 state7] ctl7] w7]|] eqn:Hb7;
        [|discriminate].
      apply loop_body_end_shape in Hb7 as (Hs7 & _ & Hctl7); [|done].
      assert (load_all_models st6 = true) as Hla6.
      { unfold shape in *. simpl in *. congruence. }
      rewrite Hla6 in Hctl7. destruct Hctl7 as [-> ->].
      simpl in Hr. unfold_M. injection Hr as <- <- <-.
      split; [|done]. unfold PdbStructure.__len__.
      assert (length (models st4) = 2%nat) as Hlen4.
      { unfold shape in *. simpl in *. congruence. }
      unfold shape in *. congruence.
    - subst ctl3. injection Hr as <- <- <-. split; [|done].
      unfold PdbStructure.__len__. unfold shape in *. simpl in *. congruence.
  }
  split; intros s rest w Hr.
  - exact (Hboth true s rest w Hr).
  - exact (Hboth false s rest w Hr).
Qed.

(** *** Lines that are not coordinate records *)

Lemma read_connect_tree pdb_line positions :
  ∀ st w l st' w',
    read_connect pdb_line positions st w = Ok (l, st', w') →
    same_tree st st'.
Proof.
  induction positions as [|pos r IH]; intros st w l st' w' Hr; simpl in Hr.
  - unfold_M. by simplify_eq.
  - unfold_M.
    destruct (_read_atom_number _ _ _) as [[[n y] w1]|] eqn:H1; [|discriminate].
    apply _read_atom_number_tree in H1 as (st1 & -> & Ht1).
    destruct (read_connect _ _ _ _) as [[[l2 st2] w2]|] eqn:H2; [|discriminate].
    apply IH in H2. simplify_eq. by eapply same_tree_trans.
Qed.

Lemma Model_finalize_current_chain (cm cm' : Model.t) :
  Model._finalize cm = Ok cm' →
  Model._current_chain cm' = Model._current_chain cm.
Proof.
  unfold Model._finalize. unfold_M.
  destruct (mapM _ _); [|discriminate]. by intros [= <-].
Qed.

(** An ENDMDL or END line read while there is no current model. *)
Lemma loop_body_end_no_model pdb_line st state w :
  find_at_0 pdb_line "END" = true →
  _current_model st = None →
  loop_body st state pdb_line w = Raise AttributeError.
Proof.
  intros Hl Hcur. destruct (end_not_atom_model _ Hl) as [Ha Hm].
  unfold loop_body, finalize_current_model. rewrite Ha, Hm, Hl, Hcur.
  by destruct (find_at_0 pdb_line "ENDMDL").
Qed.

(** A TER line read while no chain is open. *)
Lemma loop_body_ter_no_chain pdb_line st state w :
  is_ter_line pdb_line = true →
  no_chain st →
  loop_body st state pdb_line w = Raise AttributeError.
Proof.
  intros Hl Hnc.
  assert (find_at_0 pdb_line "TER" = true) as Hp
    by (unfold is_ter_line in Hl; by apply andb_prop in Hl as [? _]).
  destruct (ter_not_earlier _ Hp) as (Ha & Hm & He1 & He2 & _).
  unfold loop_body. rewrite Ha, Hm, He1, He2, Hl. unfold_M.
  unfold no_chain in Hnc. destruct (_current_model st) as [i|]; [|done].
  destruct Hnc as (cm & Hcm & Hch). unfold deref. by rewrite Hcm, Hch.
Qed.

Lemma loop_body_not_atom pdb_line st state w st' state' ctl w' :
  is_atom_line pdb_line = false →
  loop_body st state pdb_line w = Ok (st', state', ctl, w') →
  no_chain st →
  no_chain st'
  ∧ (find_at_0 pdb_line "MODEL" = false → _current_model st = None →
     _current_model st' = None).
Proof.
  intros Ha Hr Hnc. unfold loop_body in Hr. rewrite Ha in Hr.
  destruct (find_at_0 pdb_line "MODEL") eqn:Hm.
  { (* MODEL *)
    split; [|done]. unfold_M.
    destruct (match _current_model st with
              | Some _ => _ | None => _ end) as [n|]; [|discriminate].
    injection Hr as <- <- <- <-. unfold no_chain. simpl.
    exists (Model.__init__ n). split; [|done].
    by rewrite lookup_app_r, Nat.sub_diag. }
  destruct (find_at_0 pdb_line "END") eqn:He.
  { (* ENDMDL, END *)
    assert (∃ st1, finalize_current_model st = Ok st1 ∧ st' = st1)
      as (st1 & Hf & ->).
    { unfold_M.
      destruct (find_at_0 pdb_line "ENDMDL");
        destruct (finalize_current_model st) as [st1|]; try discriminate;
        exists st1; (split; [done|]);
        destruct (load_all_models st1); by simplify_eq. }
    unfold finalize_current_model, deref in Hf. unfold_M.
    unfold no_chain in Hnc.
    destruct (_current_model st) as [i|] eqn:Hcur; [|discriminate].
    destruct Hnc as (cm & Hcm & Hch). rewrite Hcm in Hf.
    destruct (Model._finalize cm) as [cm'|] eqn:Hfin; [|discriminate].
    injection Hf as <-. split; [|done].
    unfold no_chain. simpl. rewrite Hcur. exists cm'. split.
    - apply list_lookup_insert_eq. by eapply lookup_lt_Some.
    - by rewrite (Model_finalize_current_chain _ _ Hfin). }
  assert (find_at_0 pdb_line "ENDMDL" = false) as He1.
  { destruct (find_at_0 pdb_line "ENDMDL") eqn:E; [|done].
    apply endmdl_end in E. congruence. }
  rewrite He1 in Hr.
  destruct (is_ter_line pdb_line) eqn:Ht.
  { unfold_M. unfold no_chain in Hnc.
    destruct (_current_model st) as [i|]; [|discriminate].
    destruct Hnc as (cm & Hcm & Hch). unfold deref in Hr.
    rewrite Hcm, Hch in Hr. discriminate. }
  destruct (find_at_0 pdb_line "CRYST1").
  { unfold_M. repeat (case_match; simplify_eq/=; try done). }
  destruct (find_at_0 pdb_line "CONECT").
  { unfold_M.
    destruct (read_connect _ _ _ _) as [[[l st1] w1]|] eqn:Hc; [|discriminate].
    apply read_connect_tree in Hc as (Hmod & Hcur & _).
    unfold no_chain in Hnc. rewrite <- Hcur, <- Hmod in Hnc. unfold deref in Hr.
    destruct (_current_model st1) as [i|] eqn:Hcur1; [|discriminate].
    destruct Hnc as (cm & Hcm & Hch). rewrite Hcm in Hr.
    injection Hr as <- <- <- <-. split; [|intros; congruence].
    unfold no_chain. simpl. rewrite Hcur1. eexists. split.
    - apply list_lookup_insert_eq. by eapply lookup_lt_Some.
    - done. }
  unfold_M. injection Hr as <- <- <- <-. done.
Qed.

Lemma for_lines_reaches pre rest st state w st' state' w' :
  reaches st state pre w st' state' w' →
  for_lines st state (pre ++ rest) w = for_lines st' state' rest w'.
Proof.
  induction 1 as [|st state l w st1 state1 w1 pre st' state' w' Hb _ IH];
    [done|].
  rewrite <- app_comm_cons, for_lines_cons, Hb. exact IH.
Qed.

Lemma reaches_not_atom pre st state w st' state' w' :
  reaches st state pre w st' state' w' →
  Forall (λ l, is_atom_line l = false) pre →
  no_chain st →
  no_chain st'
  ∧ (Forall (λ l, find_at_0 l "MODEL" = false) pre →
     _current_model st = None → _current_model st' = None).
Proof.
  induction 1 as [|st state l w st1 state1 w1 pre st' state' w' Hb _ IH];
    intros Hall Hnc; [done|].
  apply Forall_cons in Hall as [Hl Hall].
  destruct (loop_body_not_atom _ _ _ _ _ _ _ _ Hl Hb Hnc) as [Hnc1 Hcur1].
  destruct (IH Hall Hnc1) as [Hnc' Hcur']. split; [done|].
  intros [Hm Hms]%Forall_cons Hcur. auto.
Qed.

(** C10 (amended). When the loader comes to an end-of-model or
    end-of-structure marker and no model has been opened before it,
    neither by a model-start marker nor by a coordinate record, or comes
    to a chain-terminator marker and no coordinate record precedes it,
    the dereference of the absent current model (respectively chain)
    raises AttributeError, which nothing handles: the load is aborted. *)
Theorem C10_marker_without_model_or_chain (load_all : bool)
    (pre rest : list string) (marker : string) (w w' : list warning)
    (st : PdbStructure.t) (state : option load_state) :
  reaches (at_start load_all) None pre w st state w' →
  Forall (λ l, is_atom_line l = false) pre →
  (find_at_0 marker "END" = true
   ∧ Forall (λ l, find_at_0 l "MODEL" = false) pre)
  ∨ is_ter_line marker = true →
  PdbStructure__init__ (pre ++ marker :: rest) load_all w
    = Raise AttributeError.
Proof.
  intros Hreach Hpre Hmarker.
  destruct (reaches_not_atom _ _ _ _ _ _ _ Hreach Hpre) as [Hnc Hcur];
    [done|].
  unfold PdbStructure__init__, _load. fold (at_start load_all). unfold_M.
  rewrite (for_lines_reaches _ _ _ _ _ _ _ _ Hreach), for_lines_cons.
  destruct Hmarker as [[Hend Hmodel]|Hter].
  - by rewrite loop_body_end_no_model; [|done|apply Hcur].
  - by rewrite loop_body_ter_no_chain.
Qed.

(** *** Where the resolvers are reset *)

Lemma at_start_fresh (load_all : bool) :
  atom_resolver (at_start load_all) = fresh
  ∧ residue_resolver (at_start load_all) = fresh.
Proof. done. Qed.

Lemma _load_at_start (self : PdbStructure.t) input_stream w :
  ∃ st, _load self input_stream w
        = ('(self, rest) ← for_lines st None input_stream;
           self ← lift (PdbStructure._finalize self);
           mret (self, rest)) w
        ∧ atom_resolver st = fresh ∧ residue_resolver st = fresh.
Proof. by eexists. Qed.

(** The model that a coordinate record opens after an end-of-model
    marker inherits the resolvers as the previous model left them. *)
Lemma open_pending_model_resolvers st state st' :
  open_pending_model st state = Ok st' →
  atom_resolver st' = atom_resolver st
  ∧ residue_resolver st' = residue_resolver st.
Proof.
  unfold open_pending_model, current_model, deref. unfold_M. intros Hr.
  repeat (case_match; simplify_eq/=; try done).
Qed.

(** *** The chain terminator *)

Lemma Chain_finalize_has_ter_record (cc cc' : Chain.t) :
  Chain._finalize cc = Ok cc' →
  Chain.has_ter_record cc' = Chain.has_ter_record cc.
Proof.
  unfold Chain._finalize. unfold_M.
  destruct (Chain.residues cc); [discriminate|]. by intros [= <-].
Qed.

(** C9 (amended). A line is acted upon as a chain terminator when it
    begins with the terminator keyword, at its first column, and the
    keyword is its first whitespace-delimited token, whatever follows that
    token on the line: the current chain is marked terminated and
    finalized, and the residue-number resolver is reset.  A line that
    begins with the keyword letters but whose first token is longer than
    the keyword, and a line whose first token is the keyword but does not
    begin the line (white space comes first), are ignored. *)
Theorem C9_terminator_first_token (st : PdbStructure.t)
    (state : option load_state) (pdb_line : string) (w : list warning) :
  (find_at_0 pdb_line "TER" = true → split_0 pdb_line = Ok "TER" →
   ∀ i cm j cc cc',
     _current_model st = Some i → models st !! i = Some cm →
     Model._current_chain cm = Some j → Model.chains cm !! j = Some cc →
     Chain._finalize (Chain.set_has_ter_record true cc) = Ok cc' →
     loop_body st state pdb_line w
       = Ok (_reset_residue_numbers
               (set_models
                  (<[i := Model.set_chains (<[j := cc']> (Model.chains cm)) cm]>
                     (models st)) st),
             state, Continue, w)
     ∧ Chain.has_ter_record cc' = true)
  ∧ (find_at_0 pdb_line "TER" = true → split_0 pdb_line ≠ Ok "TER" →
     loop_body st state pdb_line w = Ok (st, state, Continue, w))
  ∧ (find_at_0 pdb_line "TER" = false → split_0 pdb_line = Ok "TER" →
     loop_body st state pdb_line w = Ok (st, state, Continue, w)).
Proof.
  split; [|split].
  - intros Hp Htok i cm j cc cc' Hi Hcm Hj Hcc Hfin.
    destruct (ter_not_earlier _ Hp) as (Ha & Hm & He1 & He2 & Hc & Hn).
    unfold loop_body, is_ter_line.
    rewrite Ha, Hm, He1, He2, Hp, Htok. simpl. unfold_M. unfold deref.
    rewrite Hi, Hcm, Hj, Hcc. unfold Chain._add_ter_record. rewrite Hfin.
    split; [done|]. by rewrite (Chain_finalize_has_ter_record _ _ Hfin).
  - intros Hp Htok.
    destruct (ter_not_earlier _ Hp) as (Ha & Hm & He1 & He2 & Hc & Hn).
    unfold loop_body, is_ter_line.
    rewrite Ha, Hm, He1, He2, Hp. simpl.
    destruct (split_0 pdb_line) as [tok|e].
    + destruct (String.eqb_spec tok "TER") as [->|Hne]; [done|].
      by rewrite Hc, Hn.
    + by rewrite Hc, Hn.
  - intros Hp Htok.
    destruct (first_token_not_first _ _ Hp Htok) as (c & r & -> & Hc).
    destruct (space_not_keyword c r Hc) as (Ha & Hm & He1 & He2 & Hc1 & Hn).
    unfold loop_body, is_ter_line.
    by rewrite Ha, Hm, He1, He2, Hp, Hc1, Hn.
Qed.
End loader_facts.

(** ** The hierarchy builder *)

Section hierarchy_facts.
Context `{Externals}.





Lemma Residue_add_atom_locations (self self' : Residue.t) (atom : Atom.t)
    (ali : ascii) :
  Atom.get_alternate_location_indicator atom = Ok ali →
  Residue._add_atom self atom = Ok self' →
  Residue.locations self'
    = match Residue.locations self !! ali with
      | None =>
          <[ali := Residue.Location.__init__ ali
                     (Atom.residue_name_with_spaces atom)]>
            (Residue.locations self)
      | Some _ => Residue.locations self
      end.
Proof.
  intros Hali. unfold Residue._add_atom. rewrite Hali. unfold_M. simpl.
  unfold assert, deref.
  destruct (Residue.locations self !! ali); simpl; intros Hr;
    repeat (case_match; simplify_eq/=; try done).
Qed.




End hierarchy_facts.

(** ** The loader returns on well-formed input *)

Lemma length_substring (s : string) : ∀ a n,
  (a + n ≤ String.length s)%nat → String.length (substring a n s) = n.
Proof.
  induction s as [|c s IH]; intros a n Hle; simpl in *.
  - destruct a, n; simpl in *; lia.
  - destruct a; [destruct n; simpl; [done|f_equal; apply IH; lia]|].
    apply IH. lia.
Qed.

Lemma length_slice (s : string) (a b : nat) :
  (a ≤ b)%nat → (b ≤ String.length s)%nat →
  String.length (slice s a b) = (b - a)%nat.
Proof. intros Hab Hb. unfold slice. apply length_substring. lia. Qed.

Lemma length_append (s t : string) :
  String.length (s +:+ t) = (String.length s + String.length t)%nat.
Proof. induction s; simpl; [done|by f_equal]. Qed.

Lemma index_lt (s : string) (i : nat) :
  (i < String.length s)%nat → ∃ c, index s i = Ok c.
Proof.
  unfold index. revert i. induction s as [|c s IH]; intros i Hi; simpl in *.
  - lia.
  - destruct i; [by eexists|]. apply IH. lia.
Qed.

Lemma py_int_raises (s : string) (base : Z) (e : exn) :
  py_int s base = Raise e → e = ValueError.
Proof. unfold py_int. intros Hr. repeat (case_match; simplify_eq); done. Qed.

Lemma hybrid36_raises (k : Z) (s : string) (e : exn) :
  (0 < String.length s)%nat → hybrid36 k s = Raise e → e = ValueError.
Proof.
  intros Hs. unfold hybrid36. destruct (index_lt s 0 Hs) as [c ->].
  unfold mbind, result_bind, mret, result_ret.
  destruct (py_int (String c "") 36) eqn:H1;
    [|intros [= <-]; by eapply py_int_raises].
  destruct (py_int (slice_from s 1) 36) eqn:H2; [done|].
  intros [= <-]. by eapply py_int_raises.
Qed.

Lemma _check_overflow_eligibility_returns (s t : string) :
  (0 < String.length s)%nat → ∃ b, _check_overflow_eligibility s t = Ok b.
Proof.
  intros Hs. unfold _check_overflow_eligibility.
  destruct (index_lt s 0 Hs) as [c ->].
  case_match; by eexists.
Qed.

Section returns.
Context `{Externals}.
Import PdbStructure.

Lemma deref_lt {A} (l : list A) (i : nat) :
  (i < length l)%nat → ∃ x, l !! i = Some x ∧ deref l i = Ok x.
Proof.
  intros Hi. destruct (lookup_lt_is_Some_2 l i Hi) as [x Hx].
  exists x. unfold deref. by rewrite Hx.
Qed.

Lemma _overflow_residue_check_returns s (st : PdbStructure.t) (a : Atom.t) :
  wf_structure st → ∃ n, _overflow_residue_check s (Some st) (Some a) = Ok n.
Proof.
  intros [Hcur Hall]. unfold _overflow_residue_check. simpl.
  destruct (_current_model st) as [i|] eqn:Hi; [|by eexists].
  destruct (deref_lt _ _ (Hcur i eq_refl)) as (m & Hm & ->). simpl.
  destruct (Forall_lookup_1 _ _ _ _ Hall Hm) as (Hj & _ & Hchains).
  destruct (Model._current_chain m) as [j|] eqn:Hcj; [|by eexists].
  destruct (deref_lt _ _ (Hj j eq_refl)) as (c & Hc & ->). simpl.
  destruct (Forall_lookup_1 _ _ _ _ Hchains Hc) as ((k & Hk & Hlt) & Hres).
  rewrite Hk.
  destruct (deref_lt _ _ Hlt) as (r & Hr & ->). simpl.
  destruct (Forall_lookup_1 _ _ _ _ Hres Hr) as (((nm & ->) & _) & _). simpl.
  repeat case_match; by eexists.
Qed.

#[local] Opaque py_int hybrid36 _overflow_residue_check
  _check_overflow_eligibility table_get.

Lemma _read_atom_number_returns num_str (st : PdbStructure.t) w :
  (0 < String.length num_str)%nat →
  ∃ n st' w', _read_atom_number num_str (Some st) w = Ok (n, Some st', w')
              ∧ same_tree st st'.
Proof.
  intros Hs.
  assert (∃ res, _read_atom_number num_str (Some st) w = Ok res)
    as [[[n y] w'] Hr].
  { destruct (index_lt num_str 0 Hs) as [c Hc].
    destruct (_check_overflow_eligibility_returns num_str "atom" Hs)
      as [b Hb].
    unfold _read_atom_number, call, atom_num_function. rewrite Hb, Hc.
    unfold_M. simpl.
    repeat first
      [ match goal with
        | Hq : py_int _ _ = Raise ?e |- _ =>
            is_var e; pose proof (py_int_raises _ _ _ Hq); subst e
        | Hq : hybrid36 _ _ = Raise ?e |- _ =>
            is_var e; pose proof (hybrid36_raises _ _ _ Hs Hq); subst e
        end
      | progress simplify_eq/=
      | case_match ];
      by eexists. }
  destruct (_read_atom_number_tree _ _ _ _ _ _ Hr) as (st' & -> & Ht).
  by exists n, st', w'.
Qed.

Lemma _read_residue_number_returns num_str (st : PdbStructure.t)
    (a : Atom.t) w :
  (0 < String.length num_str)%nat → wf_structure st →
  ∃ n st' w',
    _read_residue_number num_str (Some st) (Some a) w = Ok (n, Some st', w')
    ∧ same_tree st st'.
Proof.
  intros Hs Hwf.
  assert (∃ res, _read_residue_number num_str (Some st) (Some a) w = Ok res)
    as [[[n y] w'] Hr].
  { destruct (index_lt num_str 0 Hs) as [c Hc].
    destruct (_check_overflow_eligibility_returns num_str "residue" Hs)
      as [b Hb].
    assert (∀ y, same_tree st y →
      ∃ n, _overflow_residue_check num_str (Some y) (Some a) = Ok n) as Hov.
    { intros y (Hm & Hc' & _). apply _overflow_residue_check_returns.
      unfold wf_structure. by rewrite Hm, Hc'. }
    unfold _read_residue_number, call, residue_num_function.
    rewrite Hb, Hc. unfold_M. simpl.
    repeat first
      [ match goal with
        | Hq : py_int _ _ = Raise ?e |- _ =>
            is_var e; pose proof (py_int_raises _ _ _ Hq); subst e
        | Hq : hybrid36 _ _ = Raise ?e |- _ =>
            is_var e; pose proof (hybrid36_raises _ _ _ Hs Hq); subst e
        | Hq : _overflow_residue_check _ (Some ?y) _ = Raise _ |- _ =>
            exfalso; destruct (Hov y) as [? Hn]; [done|];
            rewrite Hn in Hq; discriminate
        end
      | progress simplify_eq/=
      | case_match ];
      by eexists. }
  destruct (_read_residue_number_tree _ _ _ _ _ _ _ Hr) as (st' & -> & Ht).
  by exists n, st', w'.
Qed.

Lemma wf_atom_indicator (a : Atom.t) :
  wf_atom a → ∃ loc,
    od_get (Atom.default_location_id a) (Atom.locations a) = Some loc
    ∧ Atom.location a = Ok loc
    ∧ Atom.get_alternate_location_indicator a
      = Ok (Atom.Location.alternate_location_indicator loc).
Proof.
  intros [[loc Hloc] _]. exists loc.
  unfold Atom.get_alternate_location_indicator, Atom.location,
    Atom.get_location. simpl. by rewrite Hloc.
Qed.

Lemma _pdb_string_returns (a : Atom.t) sn ali :
  wf_atom a → ∃ s, Atom._pdb_string a sn ali = Ok s.
Proof.
  intros Hwf. destruct (wf_atom_indicator a Hwf) as (loc & _ & Hl & Ha).
  destruct Hwf as [_ Hlen].
  unfold Atom._pdb_string, Atom.get_x, Atom.get_y, Atom.get_z,
    Atom.get_position, Atom.get_occupancy, Atom.get_temperature_factor.
  rewrite Ha, Hl.
  assert (assert (len (if len (Atom.residue_name_with_spaces a) =? 3
                       then Atom.residue_name_with_spaces a +:+ " "
                       else Atom.residue_name_with_spaces a) =? 4) = Ok tt)
    as ->.
  { destruct Hlen as [Hlen|Hlen]; rewrite Hlen; simpl.
    - assert ((len (Atom.residue_name_with_spaces a +:+ " ") =? 4) = true)
        as ->; [|done].
      apply Z.eqb_eq. unfold len in *. rewrite length_append. simpl. lia.
    - by rewrite Hlen. }
  destruct ali; simpl; by eexists.
Qed.

Lemma Atom_str_returns (a : Atom.t) :
  wf_atom a → ∃ s, Atom.__str__ a = Ok s.
Proof.
  intros Hwf. destruct (wf_atom_indicator a Hwf) as (loc & _ & _ & Ha).
  unfold Atom.__str__. rewrite Ha. simpl. by apply _pdb_string_returns.
Qed.

Lemma to_float_parses s : parses s = true → ∃ x, to_float s = Ok x.
Proof. unfold parses, to_float. destruct (py_float s); [by eexists|done]. Qed.

Lemma to_float_default s (d : float) :
  ∃ x, try_except (to_float s) [ValueError] (Ok d) = Ok x.
Proof. unfold to_float. destruct (py_float s); by eexists. Qed.

Lemma wf_structure_same_tree (st st' : PdbStructure.t) :
  same_tree st st' → wf_structure st → wf_structure st'.
Proof. intros (Hm & Hc & _). unfold wf_structure. by rewrite Hm, Hc. Qed.

#[local] Opaque _read_atom_number _read_residue_number to_float strip
  Atom._pdb_string String.rev get_by_symbol slice index.

Lemma Atom__init___returns pdb_line (st : PdbStructure.t) w :
  wf_record pdb_line = true → wf_structure st →
  ∃ a st' w', Atom__init__ pdb_line (Some st) w = Ok (a, Some st', w')
              ∧ wf_atom a ∧ same_tree st st'.
Proof.
  unfold wf_record. intros Hrec Hwf.
  repeat (apply andb_true_iff in Hrec as [Hrec ?]).
  assert (27 ≤ String.length pdb_line)%nat as Hlen by (unfold len in *; lia).
  assert (∀ a b, (a ≤ b)%nat → (b ≤ 27)%nat →
            String.length (slice pdb_line a b) = (b - a)%nat) as Hsl.
  { intros a b ? ?. apply length_slice; lia. }
  destruct (index_lt pdb_line 16) as [c16 H16]; [lia|].
  destruct (index_lt pdb_line 21) as [c21 H21]; [lia|].
  destruct (index_lt pdb_line 26) as [c26 H26]; [lia|].
  destruct (to_float_parses _ H2) as [x Hx].
  destruct (to_float_parses _ H1) as [y Hy].
  destruct (to_float_parses _ H0) as [z Hz].
  destruct (to_float_default (slice pdb_line 54 60) float_1_0) as [occ Hocc].
  destruct (to_float_default (slice pdb_line 60 66) float_0_0) as [tf Htf].
  destruct (_read_atom_number_returns (slice pdb_line 6 11) st w)
    as (n1 & st1 & w1 & Hr1 & Ht1); [rewrite Hsl; lia|].
  assert ((len (slice pdb_line 12 16) =? 4) = true) as H12.
  { apply Z.eqb_eq. unfold len. rewrite Hsl; lia. }
  unfold Atom__init__. unfold mbind, M_bind. rewrite Hr1. simpl.
  rewrite H12, H16, H21, H26, Hx, Hy, Hz, Hocc, Htf. simpl.
  assert (∃ rn,
    (if negb (slice pdb_line 20 21 =? " ")%string
     then if negb (len (strip (slice pdb_line 17 20)) =? 3)
          then raise ValueError
          else mret (slice pdb_line 17 20 +:+ slice pdb_line 20 21)
     else mret (slice pdb_line 17 20)) w1 = Ok (rn, w1)
    ∧ (len rn = 3 ∨ len rn = 4)) as (rn & -> & Hrn).
  { destruct (slice pdb_line 20 21 =? " ")%string eqn:H4th; simpl in *.
    - eexists. split; [done|]. left. unfold len. rewrite Hsl; lia.
    - rewrite H3. simpl. eexists. split; [done|]. right.
      unfold len. rewrite length_append, !Hsl; lia. }
  match goal with
  | |- context [_read_residue_number ?s (Some ?y) (Some ?a) ?w] =>
      destruct (_read_residue_number_returns s y a w)
        as (n2 & st2 & w2 & Hr2 & Ht2);
        [rewrite Hsl; lia | by eapply wf_structure_same_tree |];
        rewrite Hr2
  end.
  assert (∀ a : Atom.t,
    Atom.locations a = [(Atom.default_location_id a,
                         {| Atom.Location.alternate_location_indicator := c16;
                            Atom.Location.position := (x, y, z);
                            Atom.Location.occupancy := occ;
                            Atom.Location.temperature_factor := tf;
                            Atom.Location.residue_name := rn |})] →
    Atom.residue_name_with_spaces a = rn → wf_atom a) as Hatom.
  { intros a Hl Hn. split; [|by rewrite Hn].
    rewrite Hl. simpl. by rewrite Ascii.eqb_refl. }
  assert (same_tree st st2) as Ht by (by eapply same_tree_trans).
  destruct (negb (strip (slice pdb_line 78 80) =? "")%string).
  - destruct (py_int (strip (slice pdb_line 78 80)) 10) as [q|e] eqn:Hq.
    + unfold mret, M_ret. do 3 eexists. split; [reflexivity|].
      split; [by apply Hatom|done].
    + apply py_int_raises in Hq as Hq'. subst e.
      destruct (py_int (String.rev _) 10) as [q|e] eqn:Hq2.
      * unfold mret, M_ret. do 3 eexists. split; [reflexivity|].
        split; [by apply Hatom|done].
      * apply py_int_raises in Hq2 as Hq'. subst e.
        match goal with
        | |- context [Atom._pdb_string ?a None None] =>
            destruct (_pdb_string_returns a None None) as [str ->];
              [by apply Hatom|]
        end.
        unfold_M. simpl. do 3 eexists. split; [reflexivity|].
        split; [by apply Hatom|done].
  - unfold mret, M_ret. do 3 eexists. split; [reflexivity|].
    split; [by apply Hatom|done].
Qed.

#[local] Transparent slice index.

Lemma od_set_keeps {V} (k k' : ascii) (v : V) (d : list (ascii * V)) :
  is_Some (od_get k d) → is_Some (od_get k (od_set k' v d)).
Proof.
  induction d as [|[k0 v0] d IH]; simpl; [by intros [? ?]|].
  destruct (Ascii.eqb k' k0) eqn:Hk'; simpl.
  - destruct (Ascii.eqb k k0); [by eexists|done].
  - destruct (Ascii.eqb k k0); [by eexists|done].
Qed.

Lemma wf_atom_merge (locs : list (ascii * Atom.Location.t)) :
  ∀ old : Atom.t, wf_atom old →
    wf_atom (fold_left
      (λ o kv, Atom.set_locations (od_set kv.1 kv.2 (Atom.locations o)) o)
      locs old).
Proof.
  induction locs as [|[k v] locs IH]; intros old Hold; simpl; [done|].
  apply IH. destruct Hold as [Hd Hn]. split; [|done].
  simpl. by apply od_set_keeps.
Qed.

Lemma wf_residue_use_new_atom (self : Residue.t) (atom : Atom.t) :
  wf_residue_slots self → wf_atom atom →
  wf_residue (Residue.use_new_atom self atom).
Proof.
  intros (Hnm & Hby & Hall) Ha. split; [split; [done|split]|]; simpl.
  - intros k i. rewrite length_app. simpl.
    intros [[_ <-]|[_ [[_ <-]|[_ Hi]]%lookup_insert_Some]]%lookup_insert_Some;
      [lia..|].
    apply Hby in Hi. lia.
  - apply Forall_app. split; [done|]. by constructor.
  - by destruct (Residue.atoms self).
Qed.

Lemma Residue_add_atom_returns (self : Residue.t) (atom : Atom.t) :
  wf_residue_slots self → wf_atom atom →
  Atom.residue_number atom = Residue.number self →
  Atom.insertion_code atom = Residue.insertion_code self →
  ∃ self', Residue._add_atom self atom = Ok self' ∧ wf_residue self'.
Proof.
  intros Hself Ha Hnum Hic.
  destruct (wf_atom_indicator atom Ha) as (loc & _ & _ & Hali).
  set (ali := Atom.Location.alternate_location_indicator loc) in *.
  set (self1 := match Residue.locations self !! ali with
                | None =>
                    Residue.set_locations
                      (<[ali := Residue.Location.__init__ ali
                                  (Atom.residue_name_with_spaces atom)]>
                         (Residue.locations self)) self
                | Some _ => self
                end).
  assert (wf_residue_slots self1) as Hself1.
  { subst self1. destruct (Residue.locations self !! ali) eqn:Hl; [done|].
    destruct Hself as ((nm & Hnm) & Hby & Hall).
    split; [|done]. exists nm. revert Hnm.
    unfold Residue.name_with_spaces, Residue.get_name_with_spaces. simpl.
    destruct (decide (ali = Residue.primary_location_id self)) as [<-|Hne].
    - by rewrite Hl.
    - by rewrite lookup_insert_ne. }
  assert (Residue.number self1 = Residue.number self
          ∧ Residue.insertion_code self1 = Residue.insertion_code self)
    as [Hnum1 Hic1].
  { subst self1. by destruct (Residue.locations self !! ali). }
  unfold Residue._add_atom. rewrite Hali. simpl. fold self1.
  rewrite Hnum1, Hic1, Hnum, Hic, Z.eqb_refl, Ascii.eqb_refl. simpl.
  destruct (Residue.atoms_by_name self1 !! Atom.name_with_spaces atom)
    as [i|] eqn:Hi.
  - destruct Hself1 as (Hnm & Hby & Hall).
    destruct (deref_lt _ _ (Hby _ _ Hi)) as (old & Hold & ->). simpl.
    destruct (od_mem ali (Atom.locations old)).
    + eexists. split; [done|]. by apply wf_residue_use_new_atom.
    + eexists. split; [done|].
      split; [split; [done|split]|]; simpl.
      * intros k j Hj. rewrite length_insert. by eapply Hby.
      * apply Forall_insert; [done|]. apply wf_atom_merge.
        by eapply Forall_lookup_1.
      * intros Hnil. apply (f_equal length) in Hnil.
        rewrite length_insert in Hnil. apply lookup_lt_Some in Hold.
        simpl in Hnil. lia.
  - eexists. split; [done|]. by apply wf_residue_use_new_atom.
Qed.

Lemma new_residue_returns (atom : Atom.t) :
  wf_atom atom →
  ∃ r, Chain.new_residue atom = Ok r ∧ wf_residue_slots r
       ∧ Residue.number r = Atom.residue_number atom
       ∧ Residue.insertion_code r = Atom.insertion_code atom.
Proof.
  intros Ha. destruct (wf_atom_indicator atom Ha) as (loc & _ & _ & Hali).
  unfold Chain.new_residue, Residue.__init__, Residue.set_name_with_spaces.
  rewrite Hali. simpl. rewrite lookup_singleton_eq. simpl.
  eexists. split; [done|]. split; [|done].
  split; [|split]; simpl; [|done|done].
  unfold Residue.name_with_spaces, Residue.get_name_with_spaces. simpl.
  rewrite lookup_insert_eq. simpl. by eexists.
Qed.

Lemma Forall_insert_at {A} (P : A → Prop) (l : list A) (i : nat) (x : A) :
  (∀ j y, j ≠ i → l !! j = Some y → P y) → P x → Forall P (<[i := x]> l).
Proof.
  intros Hl Hx. apply Forall_lookup. intros j y.
  intros [(_ & <- & _)|[Hne Hj]]%list_lookup_insert_Some; [done|].
  by eapply Hl.
Qed.

(** The second half of [Chain._add_atom]: the atom goes to the current
    residue. *)
Lemma Chain_add_atom_tail (c : Chain.t) (k : nat) (cr : Residue.t)
    (atom : Atom.t) w :
  Chain._current_residue c = Some k → Chain.residues c !! k = Some cr →
  wf_residue_slots cr → wf_atom atom →
  Atom.residue_number atom = Residue.number cr →
  Atom.insertion_code atom = Residue.insertion_code cr →
  (∀ j r, j ≠ k → Chain.residues c !! j = Some r → wf_residue r) →
  ∃ c',
    (i ← lift (attr (Chain._current_residue c));
     cr ← lift (deref (Chain.residues c) i);
     cr ← lift (Residue._add_atom cr atom);
     mret (Chain.set_residues (<[i := cr]> (Chain.residues c)) c)) w
    = Ok (c', w)
    ∧ wf_chain c'.
Proof.
  intros Hk Hcr Hslots Ha Hnum Hic Hothers.
  destruct (Residue_add_atom_returns cr atom) as (cr' & Hadd & Hcr');
    [done..|].
  rewrite Hk. unfold deref. unfold_M. simpl. rewrite Hcr, Hadd.
  eexists. split; [done|]. split; simpl.
  - exists k. split; [done|]. rewrite length_insert.
    by eapply lookup_lt_Some.
  - by apply Forall_insert_at.
Qed.

Lemma Chain_add_atom_new (c : Chain.t) (r : Residue.t) (atom : Atom.t) w :
  Forall wf_residue (Chain.residues c) →
  wf_residue_slots r → wf_atom atom →
  Residue.number r = Atom.residue_number atom →
  Residue.insertion_code r = Atom.insertion_code atom →
  ∃ c',
    (i ← lift (attr (Chain._current_residue (Chain._add_residue c r)));
     cr ← lift (deref (Chain.residues (Chain._add_residue c r)) i);
     cr ← lift (Residue._add_atom cr atom);
     mret (Chain.set_residues
             (<[i := cr]> (Chain.residues (Chain._add_residue c r)))
             (Chain._add_residue c r))) w
    = Ok (c', w)
    ∧ wf_chain c'.
Proof.
  intros Hall Hr Ha Hnum Hic.
  set (r' := match Chain.residues c with
             | [] => Residue.set_is_first_in_chain true r
             | _ => r
             end).
  assert (wf_residue_slots r' ∧ Residue.number r' = Residue.number r
          ∧ Residue.insertion_code r' = Residue.insertion_code r)
    as (Hr' & Hnum' & Hic').
  { subst r'. by destruct (Chain.residues c). }
  eapply (Chain_add_atom_tail _ (length (Chain.residues c)) r').
  - done.
  - simpl. fold r'. by rewrite lookup_app_r, Nat.sub_diag.
  - done.
  - done.
  - congruence.
  - congruence.
  - simpl. fold r'. intros j x Hne [[_ Hx]|[? _]]%lookup_snoc_Some; [|done].
    by eapply Forall_lookup_1.
Qed.

Lemma match_nonempty {A B} (l : list A) (x y : B) :
  l ≠ [] → match l with [] => x | _ :: _ => y end = y.
Proof. by destruct l. Qed.

Lemma Chain_add_atom_returns (c : Chain.t) (atom : Atom.t) w :
  Chain.residues c = [] ∨ wf_chain c → wf_atom atom →
  ∃ c' w', Chain._add_atom c atom w = Ok (c', w') ∧ wf_chain c'.
Proof.
  intros Hc Ha.
  destruct (new_residue_returns atom Ha) as (r & Hnew & Hr & Hnum & Hic).
  assert (Forall wf_residue (Chain.residues c)) as Hall.
  { destruct Hc as [->|[_ ?]]; [constructor|done]. }
  pose proof (λ w, Chain_add_atom_new c r atom w Hall Hr Ha Hnum Hic)
    as Hfresh.
  unfold Chain._add_atom.
  destruct Hc as [Hnil|((k & Hk & Hlt) & _)].
  - rewrite Hnil. unfold mbind at 1. unfold M_bind at 1.
    unfold mbind at 1. unfold M_bind at 1. rewrite Hnew. simpl.
    destruct (Hfresh w) as (c' & Hc' & Hwf). by exists c', w.
  - rewrite match_nonempty by (intros Hnil; rewrite Hnil in Hlt; simpl in Hlt; lia).
    destruct (deref_lt _ _ Hlt) as (cr & Hcr & Hderef).
    destruct (Forall_lookup_1 _ _ _ _ Hall Hcr) as [Hslots Hne].
    pose proof Hslots as ((nm & Hnm) & _ & Hatoms).
    assert (Atom.residue_number atom = Residue.number cr →
            Atom.insertion_code atom = Residue.insertion_code cr →
      ∀ w, ∃ c', (i ← lift (attr (Chain._current_residue c));
       cr ← lift (deref (Chain.residues c) i);
       cr ← lift (Residue._add_atom cr atom);
       mret (Chain.set_residues (<[i := cr]> (Chain.residues c)) c)) w
      = Ok (c', w) ∧ wf_chain c') as Hsame.
    { intros ? ? w0. eapply Chain_add_atom_tail; try done.
      intros j x _ Hx. by eapply Forall_lookup_1. }
    destruct (wf_atom_indicator atom Ha) as (loc & _ & _ & Hali).
    destruct (Atom_str_returns atom Ha) as [str Hstr].
    assert (∃ prev, last_item (Residue.atoms cr) = Ok prev ∧ wf_atom prev)
      as (prev & Hprev & Hwfprev).
    { unfold last_item. destruct (last (Residue.atoms cr)) as [prev|] eqn:Hl.
      - exists prev. split; [done|].
        apply last_Some in Hl as [l' Hl]. rewrite Hl in Hatoms.
        by apply Forall_app in Hatoms as [_ [? _]%Forall_cons].
      - by apply last_None in Hl. }
    destruct (Atom_str_returns prev Hwfprev) as [str' Hstr'].
    unfold Chain.current_residue. rewrite Hk.
    unfold_M. simpl. rewrite Hderef, Hnew, Hnm, Hali, Hstr, Hprev, Hstr'.
    destruct (Residue.number cr =? Atom.residue_number atom) eqn:Hn; simpl;
      [apply Z.eqb_eq in Hn|];
      [destruct (Ascii.eqb (Residue.insertion_code cr)
                  (Atom.insertion_code atom)) eqn:Hi; simpl;
       [apply Ascii.eqb_eq in Hi|]|];
      [destruct (nm =? Atom.residue_name_with_spaces atom)%string; simpl;
         [|destruct (Ascii.eqb _ " "); simpl]|..];
      first
        [ destruct (Hsame (eq_sym Hn) (eq_sym Hi) w) as (c' & Hc' & Hwf);
          exists c', w; split; [exact Hc'|done]
        | destruct (Hfresh w) as (c' & Hc' & Hwf);
          exists c', w; split; [exact Hc'|done]
        | destruct (Hfresh (w ++ [ConsecutiveResiduesSameNumber]))
            as (c' & Hc' & Hwf);
          exists c', (w ++ [ConsecutiveResiduesSameNumber]);
          split; [exact Hc'|done] ].
Qed.

Lemma Model_add_atom_returns (m : Model.t) (atom : Atom.t) w :
  wf_model m → wf_atom atom →
  ∃ m' w', Model._add_atom m atom w = Ok (m', w') ∧ wf_model m'.
Proof.
  intros Hm Ha.
  (* the model once the chain of the atom is open *)
  assert (∀ m1 j cc,
    Model._current_chain m1 = Some j → Model.chains m1 !! j = Some cc →
    Chain.residues cc = [] ∨ wf_chain cc →
    (∀ i x, i ≠ j → Model.chains m1 !! i = Some x → wf_chain x) →
    ∀ w, ∃ m' w',
      (i ← lift (attr (Model._current_chain m1));
       cc ← lift (deref (Model.chains m1) i);
       cc ← Chain._add_atom cc atom;
       mret (Model.set_chains (<[i := cc]> (Model.chains m1)) m1)) w
      = Ok (m', w') ∧ wf_model m') as Htail.
  { intros m1 j cc Hj Hcc Hwf Hothers w0.
    destruct (Chain_add_atom_returns cc atom w0 Hwf Ha) as (cc' & w' & Hadd & Hcc').
    rewrite Hj. unfold deref. unfold_M. simpl. rewrite Hcc, Hadd.
    exists (Model.set_chains (<[j := cc']> (Model.chains m1)) m1), w'.
    split; [done|].
    assert (j < length (Model.chains m1))%nat by by eapply lookup_lt_Some.
    split; [|split]; simpl.
    - intros j' Hj'. rewrite length_insert. congruence.
    - done.
    - by apply Forall_insert_at. }
  assert (∀ m1, Forall wf_chain (Model.chains m1) → ∀ w, ∃ m' w',
    (i ← lift (attr (Model._current_chain
         (Model._add_chain m1 (Chain.__init__ (Atom.chain_id atom)))));
     cc ← lift (deref (Model.chains
         (Model._add_chain m1 (Chain.__init__ (Atom.chain_id atom)))) i);
     cc ← Chain._add_atom cc atom;
     mret (Model.set_chains (<[i := cc]> (Model.chains
         (Model._add_chain m1 (Chain.__init__ (Atom.chain_id atom)))))
         (Model._add_chain m1 (Chain.__init__ (Atom.chain_id atom))))) w
    = Ok (m', w') ∧ wf_model m') as Hfresh.
  { intros m1 Hall w0.
    apply (Htail _ (length (Model.chains m1))
             (Chain.__init__ (Atom.chain_id atom))).
    - done.
    - simpl. by rewrite lookup_app_r, Nat.sub_diag.
    - by left.
    - simpl. intros i x Hne [[_ Hx]|[? _]]%lookup_snoc_Some; [|done].
      by eapply Forall_lookup_1. }
  destruct Hm as (Hcur & Hsome & Hall).
  assert (Model.chains m = [] ∨ Model.chains m ≠ []) as [Hnil|Hne]
    by (destruct (Model.chains m); [by left|by right]).
  - destruct (Hfresh m Hall w) as (m' & w' & Hr & Hwf).
    exists m', w'. split; [|done]. rewrite <- Hr.
    unfold Model._add_atom. rewrite Hnil. unfold Model.current_chain.
    unfold_M. unfold deref. simpl. rewrite Hnil. simpl.
    rewrite Ascii.eqb_refl. simpl. by rewrite ?Hnil.
  - destruct (Hsome Hne) as [j Hj].
    destruct (deref_lt _ _ (Hcur j Hj)) as (cc & Hcc & Hderef).
    pose proof (Forall_lookup_1 _ _ _ _ Hall Hcc) as Hwfcc.
    unfold Model._add_atom. rewrite match_nonempty by done.
    unfold Model.current_chain. rewrite Hj.
    unfold mbind at 1. unfold M_bind at 1. unfold_M. simpl. rewrite Hderef.
    destruct (negb (Ascii.eqb (Chain.chain_id cc) (Atom.chain_id atom)));
      [|destruct (Chain.has_ter_record cc)];
      first
        [ destruct (Hfresh m Hall w) as (m' & w' & Hr & Hwf);
          exists m', w'; split; [exact Hr|done]
        | destruct (Htail m j cc Hj Hcc (or_intror Hwfcc)
                      (λ i x _ Hx, Forall_lookup_1 _ _ _ _ Hall Hx) w)
            as (m' & w' & Hr & Hwf);
          exists m', w'; split; [exact Hr|done] ].
Qed.

Lemma wf_atom_set_model_number (n : Z) (a : Atom.t) :
  wf_atom a → wf_atom (Atom.set_model_number n a).
Proof. done. Qed.

Lemma PdbStructure_add_atom_returns (st : PdbStructure.t) (atom : Atom.t) w :
  wf_structure st → wf_atom atom →
  ∃ st' w', PdbStructure._add_atom st atom w = Ok (st', w')
            ∧ wf_structure st' ∧ is_Some (_current_model st').
Proof.
  intros [Hcur Hall] Ha.
  assert (∀ st1 i cm,
    _current_model st1 = Some i → models st1 !! i = Some cm → wf_model cm →
    (∀ j x, j ≠ i → models st1 !! j = Some x → wf_model x) →
    ∃ st' w',
      (i ← lift (attr (_current_model st1));
       cm ← lift (deref (models st1) i);
       let atom := Atom.set_model_number (Model.number cm) atom in
       cm ← Model._add_atom cm atom;
       mret (set_models (<[i := cm]> (models st1)) st1)) w
      = Ok (st', w') ∧ wf_structure st' ∧ is_Some (_current_model st'))
    as Htail.
  { intros st1 i cm Hi Hcm Hwf Hothers.
    destruct (Model_add_atom_returns cm
                (Atom.set_model_number (Model.number cm) atom) w Hwf)
      as (cm' & w' & Hadd & Hcm'); [done|].
    rewrite Hi. unfold deref. unfold_M. simpl. rewrite Hcm, Hadd.
    eexists _, w'. split; [done|].
    assert (i < length (models st1))%nat by by eapply lookup_lt_Some.
    split; [split|]; simpl.
    - intros i' Hi'. rewrite length_insert. congruence.
    - by apply Forall_insert_at.
    - by eexists. }
  unfold PdbStructure._add_atom.
  destruct (_current_model st) as [i|] eqn:Hi.
  - destruct (deref_lt _ _ (Hcur i eq_refl)) as (cm & Hcm & _).
    destruct (Htail st i cm Hi Hcm) as (st' & w' & Hr & Hwf).
    + by eapply Forall_lookup_1.
    + intros j x _ Hx. by eapply Forall_lookup_1.
    + exists st', w'. split; [|done]. rewrite <- Hr. by rewrite Hi.
  - destruct (Htail (_add_model st (Model.__init__ 0))
                (length (models st)) (Model.__init__ 0))
      as (st' & w' & Hr & Hwf).
    + done.
    + simpl. by rewrite lookup_app_r, Nat.sub_diag.
    + split; [|split]; simpl; [done|done|constructor].
    + simpl. intros j x Hne [[_ Hx]|[? _]]%lookup_snoc_Some; [|done].
      by eapply Forall_lookup_1.
    + exists st', w'. split; [exact Hr|done].
Qed.

Lemma wf_residue_finalize (r : Residue.t) :
  wf_residue r → wf_residue (Residue._finalize r).
Proof.
  intros [(Hnm & Hby & Hall) Hne]. unfold Residue._finalize.
  rewrite match_nonempty by done.
  split; [split; [done|split]|]; unfold Residue.set_atoms;
    cbn [Residue.atoms Residue.atoms_by_name].
  - intros k i Hi.
    rewrite length_fmap, length_alter, length_alter. by eapply Hby.
  - apply Forall_fmap, Forall_alter; [apply Forall_alter|];
      [|done..].
    eapply Forall_impl; [exact Hall|]. done.
  - intros Hnil. apply (f_equal length) in Hnil.
    rewrite length_fmap, length_alter, length_alter in Hnil.
    by destruct (Residue.atoms r).
Qed.

Lemma Chain_finalize_returns (c : Chain.t) :
  wf_chain c → ∃ c', Chain._finalize c = Ok c' ∧ wf_chain c'.
Proof.
  intros [(k & Hk & Hlt) Hall]. unfold Chain._finalize.
  destruct (Chain.residues c) as [|r l] eqn:Hres; [simpl in Hlt; lia|].
  eexists. split; [done|]. split; unfold Chain.set_residues;
    cbn [Chain.residues Chain._current_residue].
  - exists k. split; [done|].
    by rewrite length_fmap, length_alter, length_alter.
  - apply Forall_fmap.
    apply (Forall_impl wf_residue); [|by apply wf_residue_finalize].
    apply Forall_alter; [apply Forall_alter|]; [done|by intros x _ Hx..].
Qed.

Lemma mapM_returns {A B} (f : A → result B) (P : A → Prop) (Q : B → Prop)
    (l : list A) :
  (∀ x, P x → ∃ y, f x = Ok y ∧ Q y) → Forall P l →
  ∃ l', mapM f l = Ok l' ∧ Forall Q l'.
Proof.
  intros Hf. induction 1 as [|x l Hx Hl (l' & IH & Hl')]; simpl.
  - by exists [].
  - destruct (Hf x Hx) as (y & Hy & HQ). exists (y :: l').
    unfold_M. rewrite Hy, IH. split; [done|by constructor].
Qed.

Lemma Model_finalize_returns (m : Model.t) :
  wf_model m → ∃ m', Model._finalize m = Ok m' ∧ wf_model m'.
Proof.
  intros (Hcur & Hsome & Hall). unfold Model._finalize.
  destruct (mapM_returns Chain._finalize wf_chain wf_chain _
              Chain_finalize_returns Hall) as (l' & Hl' & Hwf).
  rewrite Hl'. eexists. split; [done|].
  pose proof (mapM_result_length _ _ _ Hl') as Hlen.
  split; [|split]; simpl; [| |done].
  - intros j Hj. rewrite Hlen. by apply Hcur.
  - intros Hne. apply Hsome. intros Hnil. rewrite Hnil in Hlen.
    by destruct l'.
Qed.

Lemma finalize_current_model_returns (st : PdbStructure.t) :
  wf_structure st → is_Some (_current_model st) →
  ∃ st', finalize_current_model st = Ok st' ∧ wf_structure st'
         ∧ is_Some (_current_model st')
         ∧ load_all_models st' = load_all_models st.
Proof.
  intros [Hcur Hall] [i Hi]. unfold finalize_current_model. rewrite Hi.
  destruct (deref_lt _ _ (Hcur i Hi)) as (cm & Hcm & Hderef).
  destruct (Model_finalize_returns cm) as (cm' & Hfin & Hwf);
    [by eapply Forall_lookup_1|].
  simpl. rewrite Hderef. simpl. rewrite Hfin. eexists. split; [done|].
  split; [split|]; simpl.
  - intros i' Hi'. rewrite length_insert. by apply Hcur.
  - by apply Forall_insert.
  - split; [by eexists|done].
Qed.

Lemma PdbStructure_finalize_returns (st : PdbStructure.t) :
  wf_structure st → ∃ st', PdbStructure._finalize st = Ok st'.
Proof.
  intros [_ Hall]. unfold PdbStructure._finalize.
  destruct (mapM_returns Model._finalize wf_model wf_model _
              Model_finalize_returns Hall) as (l' & -> & _).
  by eexists.
Qed.

Lemma wf_structure_add_model (st : PdbStructure.t) (n : Z) :
  wf_structure st → wf_structure (_add_model st (Model.__init__ n)).
Proof.
  intros [Hcur Hall]. split; simpl.
  - intros i [= <-]. rewrite length_app. simpl. lia.
  - apply Forall_app. split; [done|]. repeat constructor; done.
Qed.

Lemma wf_record_atom_line l : wf_record l = true → is_atom_line l = true.
Proof.
  unfold wf_record. intros Hl.
  by repeat (apply andb_true_iff in Hl as [Hl _]).
Qed.

(** One line of a coordinate file is read without exception, once a
    model is open. *)
Lemma loop_body_returns (st : PdbStructure.t) state pdb_line w :
  wf_line pdb_line = true → wf_structure st →
  is_Some (_current_model st) →
  ∃ st' state' ctl w',
    loop_body st state pdb_line w = Ok (st', state', ctl, w')
    ∧ wf_structure st' ∧ is_Some (_current_model st').
Proof.
  intros Hl Hwf Hcur.
  assert (∃ cm, current_model st = Ok cm) as [cm Hcm].
  { destruct Hcur as [i Hi]. unfold current_model. rewrite Hi. simpl.
    destruct (deref_lt _ _ (proj1 Hwf i Hi)) as (cm & _ & ->). by eexists. }
  unfold wf_line in Hl.
  apply orb_true_iff in Hl as [[Hl|Hl]%orb_true_iff|Hl].
  - unfold loop_body. rewrite (wf_record_atom_line _ Hl).
    assert (∃ st0, open_pending_model st state = Ok st0 ∧ wf_structure st0
                   ∧ is_Some (_current_model st0)) as (st0 & Hop & Hwf0 & _).
    { unfold open_pending_model. destruct state as [[]|].
      - rewrite Hcm. simpl. eexists. split; [done|]. split.
        + by apply wf_structure_add_model.
        + by eexists.
      - by exists st. }
    destruct (Atom__init___returns pdb_line st0 w Hl Hwf0)
      as (a & st1 & w1 & Hr1 & Ha & Ht).
    destruct (PdbStructure_add_atom_returns st1 a w1)
      as (st2 & w2 & Hr2 & Hwf2 & Hcur2);
      [by eapply wf_structure_same_tree|done|].
    unfold mbind, M_bind. rewrite Hop. simpl. rewrite Hr1. simpl.
    rewrite Hr2. simpl. by exists st2, None, Continue, w2.
  - unfold loop_body. rewrite (model_not_atom _ Hl), Hl.
    destruct Hcur as [i Hi]. rewrite Hi, Hcm. unfold_M. simpl.
    eexists _, _, _, _. split; [done|]. split; [|by eexists].
    by apply (wf_structure_add_model st).
  - destruct (end_not_atom_model _ Hl) as [Ha Hm].
    destruct (finalize_current_model_returns st Hwf Hcur)
      as (st' & Hfin & Hwf' & Hcur' & Hla).
    unfold loop_body. rewrite Ha, Hm, Hl, Hfin. unfold_M. simpl.
    destruct (find_at_0 pdb_line "ENDMDL"), (load_all_models st');
      eexists _, _, _, _; (split; [done|]); done.
Qed.

Lemma for_lines_returns (lines : list string) :
  ∀ (st : PdbStructure.t) state w,
    Forall (λ l, wf_line l = true) lines → wf_structure st →
    is_Some (_current_model st) →
    ∃ st' rest w', for_lines st state lines w = Ok (st', rest, w')
                   ∧ wf_structure st'.
Proof.
  induction lines as [|l lines IH]; intros st state w Hall Hwf Hcur.
  - by exists st, [], w.
  - apply Forall_cons in Hall as [Hl Hall].
    destruct (loop_body_returns st state l w Hl Hwf Hcur)
      as (st1 & state1 & ctl & w1 & Hr & Hwf1 & Hcur1).
    rewrite for_lines_cons, Hr. destruct ctl.
    + by apply IH.
    + by exists st1, lines, w1.
Qed.

(** The loader returns on every file that opens with a model-start marker
    and holds well-formed coordinate records, model-start markers and end
    markers. *)
Lemma load_returns (first : string) (lines : list string) (load_all : bool) w :
  find_at_0 first "MODEL" = true →
  Forall (λ l, wf_line l = true) lines →
  ∃ s rest w', PdbStructure__init__ (first :: lines) load_all w
               = Ok (s, rest, w').
Proof.
  intros Hfirst Hall.
  unfold PdbStructure__init__, _load. fold (at_start load_all).
  unfold mbind at 1. unfold M_bind at 1.
  rewrite for_lines_cons.
  unfold loop_body at 1. rewrite (model_not_atom _ Hfirst), Hfirst.
  unfold_M. simpl.
  match goal with
  | |- context [for_lines ?st ?state lines ?w] =>
      destruct (for_lines_returns lines st state w Hall)
        as (st' & rest & w' & Hr & Hwf)
  end.
  - split; simpl; [intros i [= <-]; lia|]. repeat constructor; done.
  - by eexists.
  - rewrite Hr.
    destruct (PdbStructure_finalize_returns st' Hwf) as [s ->].
    by eexists _, _, _.
Qed.

(** C8. A two-model input (model-start, well-formed coordinate records,
    model-end, model-start, records, model-end, end-of-structure): loaded
    with all models requested, the loader returns a Structure of length 2
    and has consumed the whole input; loaded with the first model only, it
    returns a Structure of length 1 and has stopped at the first
    end-of-model marker, leaving every line after it unread. *)
Theorem C8_two_model_file (model1 endmdl1 model2 endmdl2 end_ : string)
    (atoms1 atoms2 : list string) :
  find_at_0 model1 "MODEL" = true → find_at_0 model2 "MODEL" = true →
  find_at_0 endmdl1 "ENDMDL" = true → find_at_0 endmdl2 "ENDMDL" = true →
  find_at_0 end_ "END" = true →
  Forall (λ l, wf_record l = true) atoms1 →
  Forall (λ l, wf_record l = true) atoms2 →
  let input :=
    model1 :: atoms1 ++ endmdl1 :: model2 :: atoms2 ++ [endmdl2; end_] in
  (∃ s w, PdbStructure__init__ input true [] = Ok (s, [], w)
          ∧ PdbStructure.__len__ s = 2%nat)
  ∧ (∃ s w, PdbStructure__init__ input false []
            = Ok (s, model2 :: atoms2 ++ [endmdl2; end_], w)
            ∧ PdbStructure.__len__ s = 1%nat).
Proof.
  intros Hm1 Hm2 He1 He2 He Ha1 Ha2 input.
  assert (∀ atoms, Forall (λ l, wf_record l = true) atoms →
            Forall (λ l, wf_line l = true) atoms) as Hrec.
  { intros atoms Hatoms. eapply Forall_impl; [exact Hatoms|].
    intros l Hl. unfold wf_line. by rewrite Hl. }
  assert (∀ l, find_at_0 l "END" = true → wf_line l = true) as Hend.
  { intros l Hl. unfold wf_line. rewrite Hl. by rewrite !orb_true_r. }
  assert (Forall (λ l, wf_line l = true)
            (atoms1 ++ endmdl1 :: model2 :: atoms2 ++ [endmdl2; end_]))
    as Hlines.
  { apply Forall_app. split; [by apply Hrec|].
    constructor; [by apply Hend, endmdl_end|].
    constructor; [unfold wf_line; rewrite Hm2; by rewrite orb_true_r|].
    apply Forall_app. split; [by apply Hrec|].
    constructor; [by apply Hend, endmdl_end|].
    constructor; [by apply Hend|constructor]. }
  assert (Forall (λ l, is_atom_line l = true) atoms1
          ∧ Forall (λ l, is_atom_line l = true) atoms2) as [Hl1 Hl2].
  { split; (eapply Forall_impl; [eassumption|]);
      apply wf_record_atom_line. }
  destruct (two_model_file_shape model1 endmdl1 model2 endmdl2 end_
              atoms1 atoms2 Hm1 Hm2 He1 He2 He Hl1 Hl2) as [Hall Hfirst].
  split.
  - destruct (load_returns model1 _ true [] Hm1 Hlines) as (s & rest & w & Hr).
    destruct (Hall s rest w Hr) as [Hlen ->]. by exists s, w.
  - destruct (load_returns model1 _ false [] Hm1 Hlines) as (s & rest & w & Hr).
    destruct (Hfirst s rest w Hr) as [Hlen ->]. by exists s, w.
Qed.
End returns.

(** * Further properties of the code *)

(** ** More on the numbering resolver *)

Lemma is_upper_not_decimal (c : ascii) (r : string) :
  is_upper c = true → py_int (String c r) 10 = Raise ValueError.
Proof.
  destruct c as [[] [] [] [] [] [] [] []]; intros Hc;
    first [discriminate Hc | reflexivity].
Qed.

Lemma eligible_atom_not_decimal (num_str : string) :
  _check_overflow_eligibility num_str "atom" = Ok true →
  py_int num_str 10 = Raise ValueError.
Proof.
  unfold _check_overflow_eligibility. simpl.
  destruct (String.eqb num_str "186a0") eqn:E1;
    [apply String.eqb_eq in E1 as ->; reflexivity|].
  destruct (String.eqb num_str "A0000") eqn:E2;
    [apply String.eqb_eq in E2 as ->; reflexivity|].
  destruct (String.eqb num_str "*****") eqn:E3;
    [apply String.eqb_eq in E3 as ->; reflexivity|].
  simpl. unfold index. destruct num_str as [|c r]; simpl; [done|].
  intros [= Hc]. by apply is_upper_not_decimal.
Qed.

Lemma eligible_residue_not_decimal (num_str : string) :
  _check_overflow_eligibility num_str "residue" = Ok true →
  num_str ≠ "2710" →
  py_int num_str 10 = Raise ValueError.
Proof.
  unfold _check_overflow_eligibility. simpl.
  destruct (String.eqb num_str "2710") eqn:E1;
    [apply String.eqb_eq in E1 as ->; done|].
  destruct (String.eqb num_str "A000") eqn:E2;
    [apply String.eqb_eq in E2 as ->; reflexivity|].
  destruct (String.eqb num_str "****") eqn:E3;
    [apply String.eqb_eq in E3 as ->; reflexivity|].
  simpl. unfold index. destruct num_str as [|c r]; simpl; [done|].
  intros [= Hc] _. by apply is_upper_not_decimal.
Qed.

Lemma py_int_nonempty (s : string) (base n : Z) :
  py_int s base = Ok n → (0 < String.length s)%nat.
Proof. destruct s; [done|simpl; lia]. Qed.

Section resolver_more.
Context `{Externals}.
Import PdbStructure.

Lemma _read_atom_number_decimal (num_str : string) (n : Z)
    (st : PdbStructure.t) (w : list warning) :
  _atom_num_nondec_mode st = None →
  py_int num_str 10 = Ok n →
  _read_atom_number num_str (Some st) w = Ok (n, Some st, w).
Proof.
  intros Hmode Hn. pose proof (py_int_nonempty _ _ _ Hn) as Hne.
  destruct (_check_overflow_eligibility_returns num_str "atom" Hne)
    as [b Hb].
  assert (b = false) as ->.
  { destruct b; [|done]. apply eligible_atom_not_decimal in Hb. congruence. }
  unfold _read_atom_number. simpl. rewrite Hmode, Hb, Hn.
  by destruct (99999 <? _next_atom_number st).
Qed.


(** While no decoder is locked, a serial-number token that [int] reads is
    resolved to that integer, whatever the counter: the tokens that
    [_check_overflow_eligibility] accepts for atoms are all unreadable in
    base 10, so the threshold 99999 never diverts a readable token.  The
    Structure is left as it was and nothing is warned about. *)
Theorem decimal_atom_token (num_str : string) (n : Z) (st : PdbStructure.t)
    (w : list warning) :
  _atom_num_nondec_mode st = None →
  py_int num_str 10 = Ok n →
  _read_atom_number num_str (Some st) w = Ok (n, Some st, w).
Proof. apply _read_atom_number_decimal. Qed.

(** For residue numbers the threshold matters for one token: ["2710"] is
    the table key of the base-16 decoder and also a decimal number.  While
    no decoder is locked a token that [int] reads is resolved to that
    integer, unless it is ["2710"] and the counter has passed 9999: then
    it is read in base 16, as 10000, and the base-16 decoder is locked. *)
Theorem decimal_residue_token (num_str : string) (n : Z)
    (st : PdbStructure.t) (a : option Atom.t) (w : list warning) :
  _residue_num_nondec_mode st = None →
  py_int num_str 10 = Ok n →
  _read_residue_number num_str (Some st) a w =
    if (9999 <? _next_residue_number st) && String.eqb num_str "2710"
    then Ok (10000,
             Some (set_residue_numbers (Some hex) (_next_residue_number st) st),
             w)
    else Ok (n, Some st, w).
Proof.
  intros Hmode Hn. pose proof (py_int_nonempty _ _ _ Hn) as Hne.
  destruct (String.eqb num_str "2710") eqn:E.
  - apply String.eqb_eq in E as ->.
    assert (n = 2710) as -> by (vm_compute in Hn; congruence).
    unfold _read_residue_number. simpl. rewrite Hmode.
    destruct (9999 <? _next_residue_number st); simpl.
    + reflexivity.
    + reflexivity.
  - rewrite andb_false_r.
    destruct (_check_overflow_eligibility_returns num_str "residue" Hne)
      as [b Hb].
    assert (b = false) as ->.
    { destruct b; [|done]. apply eligible_residue_not_decimal in Hb.
      - congruence.
      - intros ->. discriminate E. }
    unfold _read_residue_number. simpl. rewrite Hmode, Hb, Hn.
    by destruct (9999 <? _next_residue_number st).
Qed.

(** Without a Structure both resolvers read the token in base 10 and fall
    back to 0 when it is unreadable; they never raise and never warn. *)
Theorem read_number_without_structure (num_str : string)
    (a : option Atom.t) (w : list warning) :
  let n := match py_int num_str 10 with Ok n => n | Raise _ => 0 end in
  _read_atom_number num_str None w = Ok (n, None, w)
  ∧ _read_residue_number num_str None a w = Ok (n, None, w).
Proof.
  unfold _read_atom_number, _read_residue_number. simpl.
  destruct (py_int num_str 10) as [n|e] eqn:Hn; simpl; [done|].
  apply py_int_raises in Hn as ->. done.
Qed.
End resolver_more.

(** ** More on [Atom.__init__] *)

Lemma index_Ok_lt (s : string) (i : nat) (c : ascii) :
  index s i = Ok c → (i < String.length s)%nat.
Proof.
  unfold index. revert i. induction s as [|d s IH]; intros i; simpl.
  - by destruct i.
  - destruct i; [lia|]. intros Hi. apply IH in Hi. lia.
Qed.

Section atom_init_more.
Context `{Externals}.
Import PdbStructure.

Lemma to_float_Ok_parses (s : string) (x : float) :
  to_float s = Ok x → parses s = true.
Proof. unfold to_float, parses. by destruct (py_float s). Qed.

Lemma wf_record_intro (l : string) (c : ascii) (x y z : float) :
  is_atom_line l = true → index l 26 = Ok c →
  negb (String.eqb (slice l 20 21) " ") = false
  ∨ negb (len (strip (slice l 17 20)) =? 3) = false →
  to_float (slice l 30 38) = Ok x → to_float (slice l 38 46) = Ok y →
  to_float (slice l 46 54) = Ok z →
  wf_record l = true.
Proof.
  intros Ha Hi Hres Hx%to_float_Ok_parses Hy%to_float_Ok_parses
    Hz%to_float_Ok_parses.
  apply index_Ok_lt in Hi. unfold wf_record.
  rewrite Ha, Hx, Hy, Hz. simpl. rewrite !andb_true_r.
  apply andb_true_iff. split.
  - apply Z.leb_le. unfold len. lia.
  - destruct Hres as [Hres|Hres]; apply negb_false_iff in Hres;
      rewrite Hres; by rewrite ?orb_true_r.
Qed.

Lemma _read_atom_number_overflow (num_str : string) (st : PdbStructure.t) w :
  _atom_num_nondec_mode st = Some overflow →
  _read_atom_number num_str (Some st) w = Ok (_next_atom_number st, Some st, w).
Proof. intros Hm. unfold _read_atom_number. simpl. by rewrite Hm. Qed.

#[local] Opaque py_int hybrid36 _overflow_residue_check
  _check_overflow_eligibility table_get index.

Lemma _read_residue_number_atom_numbers num_str st a w n st' w' :
  _read_residue_number num_str (Some st) a w = Ok (n, Some st', w') →
  _atom_num_nondec_mode st' = _atom_num_nondec_mode st
  ∧ _next_atom_number st' = _next_atom_number st.
Proof.
  unfold _read_residue_number, call. unfold_M. intros Hr.
  repeat (case_match; simplify_eq/=); done.
Qed.

#[local] Opaque _read_atom_number _read_residue_number to_float strip
  slice Atom._pdb_string String.rev assert get_by_symbol.

Lemma Atom__init___Ok_wf_record pdb_line y0 w a y w' :
  is_atom_line pdb_line = true →
  Atom__init__ pdb_line y0 w = Ok (a, y, w') → wf_record pdb_line = true.
Proof.
  intros Hatom. unfold Atom__init__. unfold_M. intros Hr.
  repeat (case_match; simplify_eq/=; try done);
    eapply wf_record_intro; eauto.
Qed.

(** [Atom.__init__] returns exactly on the well-formed records: a record
    shorter than 27 columns, one whose fourth residue-name character
    follows a short residue name, or one whose coordinates are not
    numbers, raises. *)
Theorem Atom__init___returns_iff (pdb_line : string) (st : PdbStructure.t)
    (w : list warning) :
  is_atom_line pdb_line = true → wf_structure st →
  is_Ok (Atom__init__ pdb_line (Some st) w) = true
  ↔ wf_record pdb_line = true.
Proof.
  intros Hatom Hwf. split.
  - destruct (Atom__init__ pdb_line (Some st) w) as [[[a y] w']|] eqn:Hr;
      [intros _|done].
    by eapply Atom__init___Ok_wf_record.
  - intros Hrec.
    destruct (Atom__init___returns pdb_line st w Hrec Hwf)
      as (a & st' & w' & -> & _). done.
Qed.

(** After [Atom.__init__] the two counters of the Structure follow the
    atom just read; and once the sequential-guess decoder for atoms is
    locked, the serial column is not read any more: the atom takes the
    counter as its serial number and the decoder stays locked, so that the
    atoms that follow are numbered consecutively. *)
Theorem Atom__init___counters (pdb_line : string) (st : PdbStructure.t)
    (w : list warning) (a : Atom.t) (y : option PdbStructure.t)
    (w' : list warning) :
  Atom__init__ pdb_line (Some st) w = Ok (a, y, w') →
  ∃ st', y = Some st'
    ∧ _next_atom_number st' = Atom.serial_number a + 1
    ∧ _next_residue_number st' = Atom.residue_number a + 1
    ∧ (_atom_num_nondec_mode st = Some overflow →
       Atom.serial_number a = _next_atom_number st
       ∧ _atom_num_nondec_mode st' = Some overflow).
Proof.
  unfold Atom__init__. unfold_M. intros Hr.
  destruct (_read_atom_number _ _ _) as [[[n1 y1] w1]|] eqn:H1;
    [|discriminate].
  assert (∃ st1, y1 = Some st1
          ∧ (_atom_num_nondec_mode st = Some overflow →
             n1 = _next_atom_number st
             ∧ _atom_num_nondec_mode st1 = Some overflow))
    as (st1 & -> & Hov).
  { destruct (_read_atom_number_tree _ _ _ _ _ _ H1) as (st1 & -> & _).
    exists st1. split; [done|]. intros Hm.
    rewrite (_read_atom_number_overflow _ _ _ Hm) in H1. by simplify_eq. }
  repeat (case_match; simplify_eq/=; try done);
    match goal with
    | Hq : _read_residue_number _ (Some _) _ _ = Ok _ |- _ =>
        pose proof Hq as Hq';
        apply _read_residue_number_tree in Hq' as (st2 & ? & _);
        simplify_eq;
        apply _read_residue_number_atom_numbers in Hq as [Hm2 _]
    end;
    (eexists; split; [reflexivity|]); simpl;
    (split; [done|]); (split; [done|]);
    intros Hm; destruct (Hov Hm) as [-> Hm1]; split; congruence.
Qed.
End atom_init_more.
(** ** More on the loop of [_load] *)

Section loader_more.
Context `{Externals}.
Import PdbStructure.

Lemma loop_body_ignored (st : PdbStructure.t) state pdb_line w :
  ignored_line pdb_line = true →
  loop_body st state pdb_line w = Ok (st, state, Continue, w).
Proof.
  unfold ignored_line. intros Hl.
  repeat (apply andb_true_iff in Hl as [Hl ?%negb_true_iff]).
  apply negb_true_iff in Hl.
  unfold loop_body.
  repeat match goal with Hq : _ = false |- _ => rewrite Hq; clear Hq end.
  done.
Qed.

Lemma PdbStructure_add_atom_load_all st a w st' w' :
  PdbStructure._add_atom st a w = Ok (st', w') →
  load_all_models st' = load_all_models st.
Proof.
  unfold PdbStructure._add_atom. unfold_M. intros Hr.
  repeat (case_match; simplify_eq/=; try done).
Qed.

Lemma loop_body_load_all st state pdb_line w st' state' ctl w' :
  loop_body st state pdb_line w = Ok (st', state', ctl, w') →
  load_all_models st' = load_all_models st.
Proof.
  unfold loop_body. intros Hr.
  destruct (is_atom_line pdb_line).
  { revert Hr. unfold mbind, M_bind. 
    destruct (lift (open_pending_model st state) w) as [[st0 w0]|] eqn:H0;
      [|discriminate].
    assert (load_all_models st0 = load_all_models st) as <-.
    { revert H0. unfold open_pending_model. unfold_M.
      intros H0. repeat (case_match; simplify_eq/=; try done). }
    destruct (Atom__init__ _ _ _) as [[[a y] w1]|] eqn:Ha; [|discriminate].
    apply Atom__init___tree in Ha as (st1 & -> & _ & _ & <-).
    unfold lift at 1. simpl.
    destruct (PdbStructure._add_atom _ _ _) as [[st2 w2]|] eqn:Hadd;
      [|discriminate].
    apply PdbStructure_add_atom_load_all in Hadd as <-.
    unfold mret, M_ret. by intros [= <- _ _ _]. }
  destruct (find_at_0 pdb_line "MODEL").
  { revert Hr. unfold_M. intros Hr.
    repeat (case_match; simplify_eq/=; try done). }
  assert (∀ st1, finalize_current_model st = Ok st1 →
            load_all_models st1 = load_all_models st) as Hfin.
  { unfold finalize_current_model. unfold_M. intros st1 Hf.
    repeat (case_match; simplify_eq/=; try done). }
  destruct (find_at_0 pdb_line "ENDMDL").
  { revert Hr. unfold_M. intros Hr.
    destruct (finalize_current_model st) as [st1|] eqn:Hf; [|discriminate].
    rewrite <- (Hfin _ eq_refl).
    destruct (load_all_models st1) eqn:E; by simplify_eq. }
  destruct (find_at_0 pdb_line "END").
  { revert Hr. unfold_M. intros Hr.
    destruct (finalize_current_model st) as [st1|] eqn:Hf; [|discriminate].
    rewrite <- (Hfin _ eq_refl).
    destruct (load_all_models st1) eqn:E; by simplify_eq. }
  destruct (is_ter_line pdb_line).
  { revert Hr. unfold_M. intros Hr.
    repeat (case_match; simplify_eq/=; try done). }
  destruct (find_at_0 pdb_line "CRYST1").
  { revert Hr. unfold_M. intros Hr.
    repeat (case_match; simplify_eq/=; try done). }
  destruct (find_at_0 pdb_line "CONECT").
  { revert Hr. unfold_M. intros Hr.
    destruct (read_connect _ _ _ _) as [[[l st1] w1]|] eqn:Hc; [|discriminate].
    apply read_connect_tree in Hc as (_ & _ & <-).
    repeat (case_match; simplify_eq/=; try done). }
  revert Hr. unfold_M. by intros [= <- _ _ _].
Qed.

Lemma outcome_load (st : PdbStructure.t) input1 input2 w :
  outcome (for_lines (_reset_residue_numbers (_reset_atom_numbers st))
             None input1 w)
  = outcome (for_lines (_reset_residue_numbers (_reset_atom_numbers st))
               None input2 w) →
  outcome (_load st input1 w) = outcome (_load st input2 w).
Proof.
  unfold _load. unfold_M. 
  destruct (for_lines _ _ input1 _) as [[[s1 r1] w1]|];
    destruct (for_lines _ _ input2 _) as [[[s2 r2] w2]|]; simpl;
    try discriminate; [|done].
  intros [= -> ->]. by destruct (PdbStructure._finalize s2).
Qed.

Lemma for_lines_ignored (l : string) (pre post : list string) :
  ignored_line l = true →
  ∀ st state w,
    outcome (for_lines st state (pre ++ l :: post) w)
    = outcome (for_lines st state (pre ++ post) w).
Proof.
  intros Hl. induction pre as [|x pre IH]; intros st state w.
  - simpl app. by rewrite for_lines_cons, loop_body_ignored.
  - rewrite <- !app_comm_cons, !for_lines_cons.
    destruct (loop_body st state x w) as [[[[st1 state1] []] w1]|];
      [apply IH|done|done].
Qed.

(** A line that the loop of [_load] does not recognize (a REMARK, say)
    may be inserted anywhere in the input: the Structure, the diagnostics
    and the exception, if any, are those of the input without it. *)
Theorem unrecognized_line_ignored (l : string) (pre post : list string)
    (load_all : bool) (w : list warning) :
  ignored_line l = true →
  outcome (PdbStructure__init__ (pre ++ l :: post) load_all w)
  = outcome (PdbStructure__init__ (pre ++ post) load_all w).
Proof.
  intros Hl. unfold PdbStructure__init__. apply outcome_load.
  by apply for_lines_ignored.
Qed.

Lemma for_lines_first_only (e : string) (pre post : list string) :
  find_at_0 e "END" = true →
  ∀ st state w, load_all_models st = false →
    outcome (for_lines st state (pre ++ e :: post) w)
    = outcome (for_lines st state (pre ++ [e]) w).
Proof.
  intros He. induction pre as [|x pre IH]; intros st state w Hla.
  - simpl app. rewrite !for_lines_cons.
    destruct (loop_body st state e w) as [[[[st1 state1] ctl] w1]|] eqn:Hb;
      [|done].
    apply loop_body_end_shape in Hb as (_ & _ & Hctl); [|done].
    rewrite Hla in Hctl. by subst ctl.
  - rewrite <- !app_comm_cons, !for_lines_cons.
    destruct (loop_body st state x w) as [[[[st1 state1] []] w1]|] eqn:Hb;
      [|done|done].
    apply IH. apply loop_body_load_all in Hb. congruence.
Qed.

(** Loaded with the first model only, a file is read up to its first
    ENDMDL or END line: whatever follows that line has no influence on
    the Structure, on the diagnostics or on the exception raised. *)
Theorem first_model_only_reads_to_first_end (e : string)
    (pre post : list string) (w : list warning) :
  find_at_0 e "END" = true →
  outcome (PdbStructure__init__ (pre ++ e :: post) false w)
  = outcome (PdbStructure__init__ (pre ++ [e]) false w).
Proof.
  intros He. unfold PdbStructure__init__. apply outcome_load.
  by apply for_lines_first_only.
Qed.
End loader_more.

(** ** Writing and reading back the number columns *)

Lemma scan_digits_step (c : ascii) (k acc : Z) (n : nat) (s : string) :
  Ascii.eqb c "_" = false → digit_in 10 c = Some k →
  scan_digits 10 false acc n (String c s)
  = scan_digits 10 false (acc * 10 + k) (S n) s.
Proof. intros Hc Hk. simpl. by rewrite Hc, Hk. Qed.

Lemma scan_uint_acc (d : Decimal.uint) : ∀ (acc : positive) (n : nat),
  scan_digits 10 false (Z.pos acc) n (NilEmpty.string_of_uint d)
  = Some (Z.pos (Pos.of_uint_acc d acc), (n + Decimal.nb_digits d)%nat, "").
Proof.
  induction d; intros acc n; cbn [NilEmpty.string_of_uint Pos.of_uint_acc
                                  Decimal.nb_digits];
    [simpl; by rewrite Nat.add_0_r
    | erewrite scan_digits_step; [|vm_compute; reflexivity..];
      match goal with
      | |- scan_digits _ _ ?a _ _ = Some (Z.pos (Pos.of_uint_acc _ ?b), _, _) =>
          replace a with (Z.pos b) by lia
      end;
      rewrite IHd, Nat.add_succ_r; reflexivity ..].
Qed.

Lemma scan_uint (d : Decimal.uint) : ∀ (n : nat),
  scan_digits 10 false 0 n (NilEmpty.string_of_uint d)
  = Some (Z.of_N (Pos.of_uint d), (n + Decimal.nb_digits d)%nat, "").
Proof.
  induction d; intros n; cbn [NilEmpty.string_of_uint Pos.of_uint
                              Decimal.nb_digits];
    [simpl; by rewrite Nat.add_0_r
    | erewrite scan_digits_step; [|vm_compute; reflexivity..];
      first
        [ change (0 * 10 + 0) with 0; rewrite IHd, Nat.add_succ_r; reflexivity
        | match goal with
          | |- scan_digits _ _ ?a _ _
               = Some (Z.of_N (N.pos (Pos.of_uint_acc _ ?b)), _, _) =>
              change a with (Z.pos b)
          end;
          rewrite scan_uint_acc, Nat.add_succ_r; reflexivity ] ..].
Qed.

Lemma skip_prefix_10 (s : string) : skip_prefix 10 s = s.
Proof. unfold skip_prefix. repeat case_match; done. Qed.

#[local] Opaque scan_digits skip_prefix.

Lemma py_int_digit_head (c : ascii) (k : Z) (s : string) (v : Z) (m : nat) :
  digit_in 10 c = Some k →
  scan_digits 10 false 0 0 (String c s) = Some (v, S m, "") →
  Z.of_nat (S m) ≤ int_max_str_digits →
  py_int (String c s) 10 = Ok v
  ∧ py_int (String "-" (String c s)) 10 = Ok (- v).
Proof.
  intros Hc Hscan Hcap. apply Z.ltb_ge in Hcap.
  destruct c as [[] [] [] [] [] [] [] []]; try discriminate Hc;
    unfold py_int; simpl; rewrite skip_prefix_10, Hscan;
    cbv beta iota; rewrite Hcap; simpl;
    (split; f_equal; lia).
Qed.

#[local] Transparent scan_digits skip_prefix.

Lemma py_int_uint (d : Decimal.uint) :
  d ≠ Decimal.Nil →
  Z.of_nat (Decimal.nb_digits d) ≤ int_max_str_digits →
  py_int (NilEmpty.string_of_uint d) 10 = Ok (Z.of_N (Pos.of_uint d))
  ∧ py_int (String "-" (NilEmpty.string_of_uint d)) 10
    = Ok (- Z.of_N (Pos.of_uint d)).
Proof.
  intros Hd Hcap. pose proof (scan_uint d 0) as Hscan.
  destruct d; [done|..];
    cbn [NilEmpty.string_of_uint Decimal.nb_digits Nat.add] in *;
    (eapply py_int_digit_head;
     [vm_compute; reflexivity|exact Hscan|exact Hcap]).
Qed.

Lemma lstrip_spaces (k : nat) (s : string) :
  lstrip_by number_space (spaces k +:+ s) = lstrip_by number_space s.
Proof. induction k; simpl; done. Qed.

Lemma py_int_spaces (k : nat) (s : string) (base : Z) :
  py_int (spaces k +:+ s) base = py_int s base.
Proof. unfold py_int. by rewrite lstrip_spaces. Qed.

Lemma length_string_of_uint (d : Decimal.uint) :
  String.length (NilEmpty.string_of_uint d) = Decimal.nb_digits d.
Proof. induction d; simpl; congruence. Qed.

(** [str] and [int] are inverse on the integers that [int] accepts: those
    of at most [int_max_str_digits] digits. *)
Lemma py_int_str_of_Z (n : Z) :
  Z.of_nat (String.length (str_of_Z n)) ≤ int_max_str_digits →
  py_int (str_of_Z n) 10 = Ok n.
Proof.
  unfold str_of_Z. destruct n as [|p|p]; [reflexivity|..];
    cbn [Z.to_int NilZero.string_of_int]; intros Hcap.
  - assert (Pos.to_uint p ≠ Decimal.Nil) as Hne.
    { intros Hnil. pose proof (DecimalPos.Unsigned.of_to p) as Hp.
      rewrite Hnil in Hp. discriminate Hp. }
    assert (NilZero.string_of_uint (Pos.to_uint p)
            = NilEmpty.string_of_uint (Pos.to_uint p)) as Hs
      by (by destruct (Pos.to_uint p)).
    rewrite Hs in *. rewrite length_string_of_uint in Hcap.
    destruct (py_int_uint _ Hne Hcap) as [Hpos _].
    rewrite DecimalPos.Unsigned.of_to in Hpos. exact Hpos.
  - assert (Pos.to_uint p ≠ Decimal.Nil) as Hne.
    { intros Hnil. pose proof (DecimalPos.Unsigned.of_to p) as Hp.
      rewrite Hnil in Hp. discriminate Hp. }
    assert (NilZero.string_of_uint (Pos.to_uint p)
            = NilEmpty.string_of_uint (Pos.to_uint p)) as Hs
      by (by destruct (Pos.to_uint p)).
    rewrite Hs in *.
    change (String.length (String "-" ?s)) with (S (String.length s)) in Hcap.
    rewrite length_string_of_uint in Hcap.
    destruct (py_int_uint _ Hne ltac:(lia)) as [_ Hneg].
    rewrite DecimalPos.Unsigned.of_to in Hneg. exact Hneg.
Qed.

(** The [%Nd] conversion and [int] are inverse: an integer written in a
    right-justified field of any width is read back by [int] as itself,
    as long as its digits are within the cap of [int]. *)
Lemma py_int_fmt_d (w : nat) (n : Z) :
  Z.of_nat (String.length (str_of_Z n)) ≤ int_max_str_digits →
  py_int (fmt_d w n) 10 = Ok n.
Proof.
  intros Hcap. unfold fmt_d, rjust. rewrite py_int_spaces.
  by apply py_int_str_of_Z.
Qed.

Lemma length_spaces (k : nat) : String.length (spaces k) = k.
Proof. induction k; simpl; [done|by f_equal]. Qed.

Lemma length_rjust (w : nat) (s : string) :
  (String.length s ≤ w)%nat → String.length (rjust w s) = w.
Proof. intros Hs. unfold rjust. rewrite length_append, length_spaces. lia. Qed.

Lemma length_ljust (w : nat) (s : string) :
  (String.length s ≤ w)%nat → String.length (ljust w s) = w.
Proof. intros Hs. unfold ljust. rewrite length_append, length_spaces. lia. Qed.

Lemma rjust_exact (w : nat) (s : string) :
  String.length s = w → rjust w s = s.
Proof. intros <-. unfold rjust. by rewrite Nat.sub_diag. Qed.

(** The columns of a line made of fields of the widths 6, 5, 1, 4, 1, 4,
    1, 4, 1. *)
Lemma columns (f0 f1 f2 f4 f6 tail : string) (c3 c5 c7 : ascii) :
  String.length f0 = 6%nat → String.length f1 = 5%nat →
  String.length f2 = 4%nat → String.length f4 = 4%nat →
  String.length f6 = 4%nat →
  let line :=
    (f0 +:+ f1 +:+ " " +:+ f2 +:+ String c3 "" +:+ f4 +:+ String c5 ""
     +:+ f6 +:+ String c7 "" +:+ "   ") +:+ tail in
  slice line 6 11 = f1 ∧ slice line 12 16 = f2 ∧ index line 16 = Ok c3
  ∧ slice line 17 21 = f4 ∧ index line 21 = Ok c5
  ∧ slice line 22 26 = f6 ∧ index line 26 = Ok c7
  ∧ slice line 17 20 = slice f4 0 3 ∧ slice line 20 21 = slice f4 3 4.
Proof.
  intros H0 H1 H2 H4 H6.
  destruct f0 as [|? [|? [|? [|? [|? [|? [|? ?]]]]]]]; try discriminate H0.
  destruct f1 as [|? [|? [|? [|? [|? [|? ?]]]]]]; try discriminate H1.
  destruct f2 as [|? [|? [|? [|? [|? ?]]]]]; try discriminate H2.
  destruct f4 as [|? [|? [|? [|? [|? ?]]]]]; try discriminate H4.
  destruct f6 as [|? [|? [|? [|? [|? ?]]]]]; try discriminate H6.
  repeat split; reflexivity.
Qed.

Section read_back.
Context `{Externals}.
Import PdbStructure.

Lemma _pdb_string_columns (a : Atom.t) (sn : Z) (ali : ascii)
    (line : string) :
  Atom._pdb_string a (Some sn) (Some ali) = Ok line →
  (String.length (Atom.record_name a) ≤ 6)%nat →
  (String.length (str_of_Z sn) ≤ 5)%nat →
  String.length (Atom.name_with_spaces a) = 4%nat →
  (String.length (str_of_Z (Atom.residue_number a)) ≤ 4)%nat →
  ∃ long,
    (long = Atom.residue_name_with_spaces a +:+ " "
     ∧ String.length (Atom.residue_name_with_spaces a) = 3%nat
     ∨ long = Atom.residue_name_with_spaces a ∧ String.length long = 4%nat)
    ∧ slice line 6 11 = fmt_d 5 sn
    ∧ slice line 12 16 = Atom.name_with_spaces a
    ∧ index line 16 = Ok ali
    ∧ slice line 17 21 = long
    ∧ index line 21 = Ok (Atom.chain_id a)
    ∧ slice line 22 26 = fmt_d 4 (Atom.residue_number a)
    ∧ index line 26 = Ok (Atom.insertion_code a)
    ∧ slice line 17 20 = slice long 0 3
    ∧ slice line 20 21 = slice long 3 4.
Proof.
  intros Hline Hrec Hsn Hname Hres.
  unfold Atom._pdb_string in Hline. simpl in Hline.
  set (long := if len (Atom.residue_name_with_spaces a) =? 3
               then Atom.residue_name_with_spaces a +:+ " "
               else Atom.residue_name_with_spaces a) in *.
  destruct (len long =? 4) eqn:Hlong; [|discriminate Hline].
  apply Z.eqb_eq in Hlong. unfold len in Hlong.
  simpl in Hline.
  destruct (Atom.get_x a) as [x|]; [|discriminate Hline].
  destruct (Atom.get_y a) as [y|]; [|discriminate Hline].
  destruct (Atom.get_z a) as [z|]; [|discriminate Hline].
  destruct (Atom.get_occupancy a) as [occ|]; [|discriminate Hline].
  destruct (Atom.get_temperature_factor a) as [tf|]; [|discriminate Hline].
  simpl in Hline. injection Hline as <-.
  exists long. split.
  - subst long. destruct (len (Atom.residue_name_with_spaces a) =? 3) eqn:E.
    + left. split; [done|]. apply Z.eqb_eq in E. unfold len in E. lia.
    + right. split; [done|]. lia.
  - rewrite (rjust_exact 4 (Atom.name_with_spaces a)) by done.
    rewrite (rjust_exact 4 long) by lia.
    apply columns.
    + by apply length_ljust.
    + by apply length_rjust.
    + done.
    + lia.
    + by apply length_rjust.
Qed.

Lemma _read_residue_number_small (num_str : string) (n : Z)
    (st : PdbStructure.t) (a : option Atom.t) (w : list warning) :
  _residue_num_nondec_mode st = None → _next_residue_number st ≤ 9999 →
  py_int num_str 10 = Ok n →
  _read_residue_number num_str (Some st) a w = Ok (n, Some st, w).
Proof.
  intros Hmode Hnext Hn. unfold _read_residue_number. simpl.
  rewrite Hmode. replace (9999 <? _next_residue_number st) with false
    by (symmetry; apply Z.ltb_ge; lia).
  simpl. by rewrite Hn.
Qed.

Lemma slice_long_3 (rn : string) :
  String.length rn = 3%nat →
  slice (rn +:+ " ") 0 3 = rn ∧ slice (rn +:+ " ") 3 4 = " ".
Proof.
  intros Hrn. destruct rn as [|? [|? [|? [|? ?]]]]; try discriminate Hrn.
  done.
Qed.

Lemma slice_long_4 (rn : string) :
  String.length rn = 4%nat → slice rn 0 3 +:+ slice rn 3 4 = rn.
Proof.
  intros Hrn. destruct rn as [|? [|? [|? [|? [|? ?]]]]]; try discriminate Hrn.
  done.
Qed.

#[local] Opaque _read_atom_number _read_residue_number to_float strip
  slice Atom._pdb_string String.rev assert get_by_symbol index py_int fmt_d.

(** Reading back a line written by [_pdb_string]: when the fields fit
    their columns and the Structure reads numbers in base 10, the Atom
    that [Atom.__init__] builds from the line has the serial number that
    was written, and the atom name, location id, chain id, residue number
    and insertion code of the Atom that wrote it; the residue name too,
    unless it has four characters of which the last is blank. *)
Theorem Atom_read_back (a : Atom.t) (sn : Z) (ali : ascii) (line : string)
    (st : PdbStructure.t) (w : list warning) (a' : Atom.t)
    (y : option PdbStructure.t) (w' : list warning) :
  Atom._pdb_string a (Some sn) (Some ali) = Ok line →
  (String.length (Atom.record_name a) ≤ 6)%nat →
  (String.length (str_of_Z sn) ≤ 5)%nat →
  String.length (Atom.name_with_spaces a) = 4%nat →
  (String.length (str_of_Z (Atom.residue_number a)) ≤ 4)%nat →
  _atom_num_nondec_mode st = None →
  _residue_num_nondec_mode st = None →
  _next_residue_number st ≤ 9999 →
  Atom__init__ line (Some st) w = Ok (a', y, w') →
  Atom.serial_number a' = sn
  ∧ Atom.name_with_spaces a' = Atom.name_with_spaces a
  ∧ Atom.default_location_id a' = ali
  ∧ Atom.chain_id a' = Atom.chain_id a
  ∧ Atom.residue_number a' = Atom.residue_number a
  ∧ Atom.insertion_code a' = Atom.insertion_code a
  ∧ (String.length (Atom.residue_name_with_spaces a) = 3%nat
     ∨ slice (Atom.residue_name_with_spaces a) 3 4 ≠ " " →
     Atom.residue_name_with_spaces a' = Atom.residue_name_with_spaces a).
Proof.
  intros Hline Hrec Hsn Hname Hres Hma Hmr Hnext Hr.
  destruct (_pdb_string_columns a sn ali line Hline Hrec Hsn Hname Hres)
    as (long & Hlong & H6 & H12 & H16 & _ & H21 & H22 & H26 & H17 & H20).
  assert (∃ r3 r4, slice line 17 20 = r3 ∧ slice line 20 21 = r4
            ∧ (String.length (Atom.residue_name_with_spaces a) = 3%nat
               ∧ r3 = Atom.residue_name_with_spaces a ∧ r4 = " "
               ∨ String.length (Atom.residue_name_with_spaces a) = 4%nat
                 ∧ r3 +:+ r4 = Atom.residue_name_with_spaces a
                 ∧ r4 = slice (Atom.residue_name_with_spaces a) 3 4))
    as (r3 & r4 & H17' & H20' & Hrn).
  { exists (slice long 0 3), (slice long 3 4). split; [done|]. split; [done|].
    destruct Hlong as [[-> Hl3]|[-> Hl4]].
    - left. by destruct (slice_long_3 _ Hl3).
    - right. split; [done|]. split; [by apply slice_long_4|done]. }
  clear long Hlong H17 H20.
  revert Hr. unfold Atom__init__. unfold mbind, M_bind.
  rewrite H6, H12, H16, H21, H22, H26, H17', H20'.
  assert (Z.of_nat (String.length (str_of_Z sn)) ≤ int_max_str_digits)
    as Hsn' by (unfold int_max_str_digits; lia).
  assert (Z.of_nat (String.length (str_of_Z (Atom.residue_number a)))
          ≤ int_max_str_digits)
    as Hres' by (unfold int_max_str_digits; lia).
  rewrite (_read_atom_number_decimal _ sn st w Hma (py_int_fmt_d 5 sn Hsn')).
  unfold_M. simpl. intros Hr.
  assert (∀ (x : Atom.t) res,
    _read_residue_number (fmt_d 4 (Atom.residue_number a)) (Some st)
      (Some x) w = Ok res →
    res = (Atom.residue_number a, Some st, w)) as Hrr.
  { intros x res Hx.
    rewrite (_read_residue_number_small _ (Atom.residue_number a) st
               (Some x) w Hmr Hnext (py_int_fmt_d 4 _ Hres')) in Hx.
    congruence. }
  assert (∀ rn' : string,
    (if negb (String.eqb r4 " ") then rn' = r3 +:+ r4 else rn' = r3) →
    String.length (Atom.residue_name_with_spaces a) = 3%nat
    ∨ slice (Atom.residue_name_with_spaces a) 3 4 ≠ " " →
    rn' = Atom.residue_name_with_spaces a) as Hname'.
  { intros rn' Hrn' Hcase.
    destruct Hrn as [(Hl3 & -> & ->)|(Hl4 & Hrn & ->)].
    - simpl in Hrn'. done.
    - destruct Hcase as [Hl3|Hne]; [lia|].
      destruct (negb _) eqn:E in Hrn'; [congruence|].
      apply negb_false_iff, String.eqb_eq in E. done. }
  clear Hrn.
  repeat (case_match; simplify_eq/=; try done);
    repeat match goal with
    | Hq : _read_residue_number _ _ _ _ = Ok _ |- _ =>
        apply Hrr in Hq; simplify_eq/=
    end;
    (repeat split; try done);
    by apply Hname'.
Qed.
End read_back.

(** ** Names of the locations of a Residue *)

Section residue_more.
Context `{Externals}.

(** A Location that [Residue._add_atom] adds for a new alternate-location
    id is built by [Residue.Location.__init__] alone: it holds the residue
    name of the atom under [residue_name_with_spaces], but not the
    attributes [name_with_spaces] and [name] that the getters read, so
    that both getters raise AttributeError for that id. *)
Theorem Residue_added_location_has_no_name (self self' : Residue.t)
    (atom : Atom.t) (ali : ascii) :
  Atom.get_alternate_location_indicator atom = Ok ali →
  Residue.locations self !! ali = None →
  Residue._add_atom self atom = Ok self' →
  Residue.get_name_with_spaces self' (Some ali) = Raise AttributeError
  ∧ Residue.get_name self' (Some ali) = Raise AttributeError
  ∧ Residue.Location.residue_name_with_spaces
      <$> Residue.locations self' !! ali
    = Some (Atom.residue_name_with_spaces atom).
Proof.
  intros Hali Hnone Hadd.
  pose proof (Residue_add_atom_locations _ _ _ _ Hali Hadd) as Hlocs.
  rewrite Hnone in Hlocs.
  unfold Residue.get_name_with_spaces, Residue.get_name. simpl.
  rewrite Hlocs, lookup_insert_eq. done.
Qed.
End residue_more.

(** ** Finalizing *)

Section finalize_more.
Context `{Externals}.
Import PdbStructure.

Lemma set_flags_id (a : Atom.t) :
  Atom.set_flags (Atom.is_first_atom_in_chain a)
    (Atom.is_final_atom_in_chain a) (Atom.is_first_residue_in_chain a)
    (Atom.is_final_residue_in_chain a) a = a.
Proof. by destruct a. Qed.

Lemma Residue_finalize_atom (r : Residue.t) (i : nat) :
  Residue.atoms (Residue._finalize r) !! i
  = (λ a, Atom.set_flags
       (if decide (i = 0%nat) then Residue.is_first_in_chain r
        else Atom.is_first_atom_in_chain a)
       (if decide (i = pred (length (Residue.atoms r)))
        then Residue.is_final_in_chain r
        else Atom.is_final_atom_in_chain a)
       (Residue.is_first_in_chain r) (Residue.is_final_in_chain r) a)
    <$> Residue.atoms r !! i.
Proof.
  unfold Residue._finalize.
  destruct (Residue.atoms r) as [|a0 l] eqn:Hatoms.
  - rewrite Hatoms. done.
  - unfold Residue.set_atoms. cbn [Residue.atoms].
    rewrite list_lookup_fmap, length_alter.
    destruct (decide (i = pred (length (a0 :: l)))) as [->|Hlast].
    + rewrite list_lookup_alter_eq.
      destruct (decide (pred (length (a0 :: l)) = 0%nat)) as [Hz|Hnz].
      * rewrite Hz, list_lookup_alter_eq.
        by destruct ((a0 :: l) !! 0%nat).
      * rewrite list_lookup_alter_ne by done.
        by destruct ((a0 :: l) !! pred (length (a0 :: l))).
    + rewrite list_lookup_alter_ne by done.
      destruct (decide (i = 0%nat)) as [->|Hnz].
      * rewrite list_lookup_alter_eq. by destruct ((a0 :: l) !! 0%nat).
      * rewrite list_lookup_alter_ne by done.
        by destruct ((a0 :: l) !! i) as [a|].
Qed.

Lemma Residue_finalize_set_atoms (r : Residue.t) :
  Residue._finalize r
  = Residue.set_atoms (Residue.atoms (Residue._finalize r)) r.
Proof.
  unfold Residue._finalize. destruct (Residue.atoms r) eqn:Hatoms; [|done].
  destruct r. simpl in *. by subst.
Qed.

Lemma Residue_finalize_flags (r : Residue.t) :
  Residue.is_first_in_chain (Residue._finalize r)
  = Residue.is_first_in_chain r
  ∧ Residue.is_final_in_chain (Residue._finalize r)
    = Residue.is_final_in_chain r
  ∧ length (Residue.atoms (Residue._finalize r)) = length (Residue.atoms r).
Proof.
  unfold Residue._finalize. destruct (Residue.atoms r) eqn:Hatoms.
  - by rewrite Hatoms.
  - unfold Residue.set_atoms. cbn [Residue.is_first_in_chain
      Residue.is_final_in_chain Residue.atoms].
    by rewrite length_fmap, !length_alter.
Qed.

Lemma set_atoms_id (r : Residue.t) : Residue.set_atoms (Residue.atoms r) r = r.
Proof. by destruct r. Qed.

Lemma Residue_finalize_idempotent (r : Residue.t) :
  Residue._finalize (Residue._finalize r) = Residue._finalize r.
Proof.
  destruct (Residue_finalize_flags r) as (Hf & Hl & Hlen).
  rewrite (Residue_finalize_set_atoms (Residue._finalize r)).
  assert (Residue.atoms (Residue._finalize (Residue._finalize r))
          = Residue.atoms (Residue._finalize r)) as ->.
  { apply list_eq. intros i.
    rewrite (Residue_finalize_atom (Residue._finalize r)), Hf, Hl, Hlen.
    rewrite (Residue_finalize_atom r).
    destruct (Residue.atoms r !! i) as [a|]; [|done]. simpl.
    by destruct (decide (i = 0%nat)),
      (decide (i = pred (length (Residue.atoms r)))). }
  apply set_atoms_id.
Qed.

Lemma Chain_finalize_Ok (c c' : Chain.t) :
  Chain._finalize c = Ok c' →
  Chain.residues c ≠ []
  ∧ c' = Chain.set_residues
           (Residue._finalize
              <$> alter (Residue.set_is_final_in_chain true)
                    (pred (length (Chain.residues c)))
                    (alter (Residue.set_is_first_in_chain true) 0%nat
                       (Chain.residues c))) c.
Proof.
  unfold Chain._finalize.
  destruct (Chain.residues c) as [|r0 l] eqn:Hres; [done|].
  intros [= <-]. split; [done|]. done.
Qed.

Lemma Chain_finalize_residue (c c' : Chain.t) (i : nat) :
  Chain._finalize c = Ok c' →
  Chain.residues c' !! i
  = (λ r, Residue._finalize
       (if decide (i = pred (length (Chain.residues c)))
        then Residue.set_is_final_in_chain true
               (if decide (i = 0%nat)
                then Residue.set_is_first_in_chain true r else r)
        else if decide (i = 0%nat)
             then Residue.set_is_first_in_chain true r else r))
    <$> Chain.residues c !! i
  ∧ c' = Chain.set_residues (Chain.residues c') c
  ∧ length (Chain.residues c') = length (Chain.residues c)
  ∧ Chain.residues c ≠ [].
Proof.
  intros [Hne ->]%Chain_finalize_Ok.
  unfold Chain.set_residues. cbn [Chain.residues].
  split; [|split; [done|split; [|done]]].
  - rewrite list_lookup_fmap.
    destruct (decide (i = pred (length (Chain.residues c)))) as [->|Hlast].
    + rewrite list_lookup_alter_eq.
      destruct (decide (pred (length (Chain.residues c)) = 0%nat))
        as [Hz|Hnz].
      * rewrite Hz, list_lookup_alter_eq.
        by destruct (Chain.residues c !! 0%nat).
      * rewrite list_lookup_alter_ne by done.
        by destruct (Chain.residues c !! pred (length (Chain.residues c))).
    + rewrite list_lookup_alter_ne by done.
      destruct (decide (i = 0%nat)) as [->|Hnz].
      * rewrite list_lookup_alter_eq. by destruct (Chain.residues c !! 0%nat).
      * rewrite list_lookup_alter_ne by done.
        by destruct (Chain.residues c !! i).
  - by rewrite length_fmap, !length_alter.
Qed.

Lemma set_is_first_in_chain_id (r : Residue.t) :
  Residue.is_first_in_chain r = true →
  Residue.set_is_first_in_chain true r = r.
Proof. destruct r. simpl. by intros ->. Qed.

Lemma set_is_final_in_chain_id (r : Residue.t) :
  Residue.is_final_in_chain r = true →
  Residue.set_is_final_in_chain true r = r.
Proof. destruct r. simpl. by intros ->. Qed.

Lemma set_first_finalize (r : Residue.t) :
  Residue.is_first_in_chain r = true →
  Residue.set_is_first_in_chain true (Residue._finalize r)
  = Residue._finalize r.
Proof.
  intros Hr. apply set_is_first_in_chain_id.
  by rewrite (proj1 (Residue_finalize_flags r)).
Qed.

Lemma set_final_finalize (r : Residue.t) :
  Residue.is_final_in_chain r = true →
  Residue.set_is_final_in_chain true (Residue._finalize r)
  = Residue._finalize r.
Proof.
  intros Hr. apply set_is_final_in_chain_id.
  by rewrite (proj1 (proj2 (Residue_finalize_flags r))).
Qed.

Lemma Chain_finalize_idempotent (c c' : Chain.t) :
  Chain._finalize c = Ok c' → Chain._finalize c' = Ok c'.
Proof.
  intros Hc.
  destruct (Chain_finalize_residue c c' 0 Hc) as (_ & Hc' & Hlen & Hne).
  assert (Chain.residues c' ≠ []) as Hne'.
  { intros Hnil. rewrite Hnil in Hlen. by destruct (Chain.residues c). }
  destruct (Chain._finalize c') as [c''|e] eqn:Hc''.
  - f_equal.
    destruct (Chain_finalize_residue c' c'' 0 Hc'') as (_ & Hc2 & _ & _).
    assert (Chain.residues c'' = Chain.residues c') as Hres.
    { apply list_eq. intros i.
      destruct (Chain_finalize_residue c' c'' i Hc'') as (-> & _).
      destruct (Chain_finalize_residue c c' i Hc) as (-> & _).
      rewrite Hlen.
      destruct (Chain.residues c !! i) as [r|]; [|done]. simpl. f_equal.
      destruct (decide (i = pred (length (Chain.residues c)))),
        (decide (i = 0%nat)).
      * rewrite set_first_finalize, set_final_finalize by done.
        apply Residue_finalize_idempotent.
      * rewrite set_final_finalize by done.
        apply Residue_finalize_idempotent.
      * rewrite set_first_finalize by done.
        apply Residue_finalize_idempotent.
      * apply Residue_finalize_idempotent. }
    rewrite Hc2, Hres. by destruct c'.
  - exfalso. unfold Chain._finalize in Hc''.
    by destruct (Chain.residues c').
Qed.

Lemma mapM_idempotent {A} (f : A → result A) (l l' : list A) :
  (∀ x y, f x = Ok y → f y = Ok y) →
  mapM f l = Ok l' → mapM f l' = Ok l'.
Proof.
  intros Hf. revert l'. induction l as [|x l IH]; intros l'; simpl.
  - by intros [= <-].
  - unfold_M. destruct (f x) as [y|] eqn:Hy; [|done].
    destruct (mapM f l) as [k|] eqn:Hk; [|done].
    intros [= <-]. simpl. unfold_M. by rewrite (Hf _ _ Hy), (IH _ eq_refl).
Qed.

Lemma Model_finalize_idempotent (m m' : Model.t) :
  Model._finalize m = Ok m' → Model._finalize m' = Ok m'.
Proof.
  unfold Model._finalize.
  destruct (mapM Chain._finalize (Model.chains m)) as [l|] eqn:Hl;
    [|done].
  intros [= <-]. change (Model.chains (Model.set_chains l m)) with l.
  by rewrite (mapM_idempotent _ _ _ Chain_finalize_idempotent Hl).
Qed.

(** Finalizing is idempotent: the loader finalizes a model at its ENDMDL
    line, again at an END line and once more when the input is exhausted,
    and the second and third time change nothing. *)
Theorem finalize_idempotent (s s' : PdbStructure.t) :
  PdbStructure._finalize s = Ok s' → PdbStructure._finalize s' = Ok s'.
Proof.
  unfold PdbStructure._finalize.
  destruct (mapM Model._finalize (models s)) as [l|] eqn:Hl; [|done].
  intros [= <-]. change (models (set_models l s)) with l.
  by rewrite (mapM_idempotent _ _ _ Model_finalize_idempotent Hl).
Qed.

(** What [Chain._finalize] leaves: the first residue is flagged first and
    the last one final; in every residue the first atom carries the
    residue's first flag as [is_first_atom_in_chain], the last atom its
    final flag as [is_final_atom_in_chain], and every atom carries both
    flags of its residue. *)
Theorem Chain_finalize_flags (c c' : Chain.t) :
  Chain._finalize c = Ok c' →
  (∃ r, head (Chain.residues c') = Some r
        ∧ Residue.is_first_in_chain r = true)
  ∧ (∃ r, last (Chain.residues c') = Some r
          ∧ Residue.is_final_in_chain r = true)
  ∧ ∀ r, r ∈ Chain.residues c' →
      (∀ a, head (Residue.atoms r) = Some a →
         Atom.is_first_atom_in_chain a = Residue.is_first_in_chain r)
      ∧ (∀ a, last (Residue.atoms r) = Some a →
           Atom.is_final_atom_in_chain a = Residue.is_final_in_chain r)
      ∧ (∀ a, a ∈ Residue.atoms r →
           Atom.is_first_residue_in_chain a = Residue.is_first_in_chain r
           ∧ Atom.is_final_residue_in_chain a
             = Residue.is_final_in_chain r).
Proof.
  intros Hc.
  destruct (Chain_finalize_residue c c' 0 Hc) as (H0 & _ & Hlen & Hne).
  destruct (Chain_finalize_residue c c' (pred (length (Chain.residues c))) Hc)
    as (Hlast & _).
  assert (∃ r0, Chain.residues c !! 0%nat = Some r0) as [r0 Hr0].
  { destruct (Chain.residues c); [done|by eexists]. }
  assert (∃ rl, Chain.residues c !! pred (length (Chain.residues c))
                = Some rl) as [rl Hrl].
  { apply lookup_lt_is_Some_2. destruct (Chain.residues c); [done|simpl; lia]. }
  split; [|split].
  - rewrite head_lookup, H0, Hr0. simpl. eexists. split; [done|].
    rewrite (proj1 (Residue_finalize_flags _)).
    by destruct (decide (0%nat = _)).
  - rewrite last_lookup, Hlen, Hlast, Hrl. simpl. eexists. split; [done|].
    rewrite (proj1 (proj2 (Residue_finalize_flags _))).
    rewrite decide_True by done. done.
  - intros r [i Hi]%list_elem_of_lookup.
    destruct (Chain_finalize_residue c c' i Hc) as (Hri & _).
    rewrite Hri in Hi. destruct (Chain.residues c !! i) as [x|]; [|done].
    simpl in Hi. injection Hi as <-.
    set (y := if decide (i = pred (length (Chain.residues c))) then _ else _).
    destruct (Residue_finalize_flags y) as (Hf & Hl & Hn).
    rewrite Hf, Hl. split; [|split].
    + intros a. rewrite head_lookup, Residue_finalize_atom.
      destruct (Residue.atoms y !! 0%nat); [|done]. by intros [= <-].
    + intros a. rewrite last_lookup, Residue_finalize_atom, Hn.
      destruct (Residue.atoms y !! _); [|done]. intros [= <-]. simpl.
      by rewrite decide_True.
    + intros a [j Hj]%list_elem_of_lookup.
      rewrite Residue_finalize_atom in Hj.
      destruct (Residue.atoms y !! j); [|done]. by injection Hj as <-.
Qed.
End finalize_more.

(** ** Every loaded Structure is consistent *)

Lemma find_first_app {A} (f : A → bool) (l : list A) (x : A) :
  find_first f (l ++ [x])
  = match find_first f l with
    | Some i => Some i
    | None => if f x then Some (length l) else None
    end.
Proof.
  induction l as [|y l IH]; simpl; [by destruct (f x)|].
  destruct (f y); [done|]. rewrite IH.
  destruct (find_first f l); [done|]. by destruct (f x).
Qed.

Lemma find_last_app {A} (f : A → bool) (l : list A) (x : A) :
  find_last f (l ++ [x])
  = if f x then Some (length l) else find_last f l.
Proof.
  induction l as [|y l IH]; simpl; [by destruct (f x)|].
  rewrite IH. by destruct (f x).
Qed.

Lemma find_first_ext {A} (f : A → bool) (l l' : list A) :
  Forall2 (λ x y, f x = f y) l l' → find_first f l = find_first f l'.
Proof.
  induction 1 as [|x y l l' Hxy _ IH]; simpl; [done|].
  by rewrite Hxy, IH.
Qed.

Lemma find_last_ext {A} (f : A → bool) (l l' : list A) :
  Forall2 (λ x y, f x = f y) l l' → find_last f l = find_last f l'.
Proof.
  induction 1 as [|x y l l' Hxy _ IH]; simpl; [done|].
  by rewrite Hxy, IH.
Qed.

Lemma find_first_lt {A} (f : A → bool) (l : list A) (i : nat) :
  find_first f l = Some i → ∃ x, l !! i = Some x ∧ f x = true.
Proof.
  revert i. induction l as [|y l IH]; intros i; simpl; [done|].
  destruct (f y) eqn:Hy.
  - intros [= <-]. by exists y.
  - destruct (find_first f l) as [j|]; [|done]. intros [= <-].
    by apply IH.
Qed.

Lemma find_last_lt {A} (f : A → bool) (l : list A) (i : nat) :
  find_last f l = Some i → ∃ x, l !! i = Some x ∧ f x = true.
Proof.
  revert i. induction l as [|y l IH]; intros i; simpl; [done|].
  destruct (find_last f l) as [j|].
  - intros [= <-]. by apply IH.
  - destruct (f y) eqn:Hy; [|done]. intros [= <-]. by exists y.
Qed.

Lemma find_first_None {A} (f : A → bool) (l : list A) :
  find_first f l = None ↔ Forall (λ x, f x = false) l.
Proof.
  induction l as [|y l IH]; simpl; [by split; [constructor|]|].
  destruct (f y) eqn:Hy.
  - split; [done|]. intros [? _]%Forall_cons. congruence.
  - destruct (find_first f l); simpl.
    + split; [done|]. intros [_ Hl]%Forall_cons. by apply IH in Hl.
    + split; [|done]. intros _. constructor; [done|by apply IH].
Qed.

Lemma find_first_Some {A} (f : A → bool) (l : list A) (i : nat) :
  find_first f l = Some i
  ↔ ∃ x, l !! i = Some x ∧ f x = true
         ∧ ∀ j y, (j < i)%nat → l !! j = Some y → f y = false.
Proof.
  revert i. induction l as [|z l IH]; intros i; simpl.
  - split; [done|]. by intros (x & Hx & _).
  - destruct (f z) eqn:Hz.
    + split.
      * intros [= <-]. exists z. split; [done|]. split; [done|]. lia.
      * intros (x & Hx & Hfx & Hlt). destruct i as [|i]; [done|].
        specialize (Hlt 0%nat z). rewrite Hz in Hlt.
        by discriminate Hlt; [lia|].
    + split.
      * destruct (find_first f l) as [k|] eqn:Hk; [|done]. intros [= <-].
        destruct (proj1 (IH k) eq_refl) as (x & Hx & Hfx & Hlt).
        exists x. split; [done|]. split; [done|].
        intros [|j] y Hj Hy; simpl in Hy; [by simplify_eq|].
        apply (Hlt j); [lia|done].
      * intros (x & Hx & Hfx & Hlt). destruct i as [|i];
          simpl in Hx; [by simplify_eq; congruence|].
        rewrite (proj2 (IH i)); [done|]. exists x. split; [done|].
        split; [done|]. intros j y Hj Hy. apply (Hlt (S j)); [lia|done].
Qed.

Lemma find_last_Some {A} (f : A → bool) (l : list A) (i : nat) :
  find_last f l = Some i
  ↔ ∃ x, l !! i = Some x ∧ f x = true
         ∧ ∀ j y, (i < j)%nat → l !! j = Some y → f y = false.
Proof.
  revert i. induction l as [|z l IH]; intros i; simpl.
  - split; [done|]. by intros (x & Hx & _).
  - destruct (find_last f l) as [k|] eqn:Hk.
    + destruct (proj1 (IH k) eq_refl) as (x & Hx & Hfx & Hlt). split.
      * intros [= <-]. exists x. split; [done|]. split; [done|].
        intros [|j] y Hj Hy; [lia|]. apply (Hlt j); [lia|done].
      * intros (x' & Hx' & Hfx' & Hlt'). destruct i as [|i].
        -- specialize (Hlt' (S k) x). rewrite Hfx in Hlt'.
           by discriminate Hlt'; [lia|].
        -- assert (Some k = Some i) as [= ->]; [|done]. apply IH.
           exists x'. split; [done|]. split; [done|].
           intros j y Hj Hy. apply (Hlt' (S j)); [lia|done].
    + assert (Forall (λ x, f x = false) l) as Hall.
      { clear IH. induction l as [|y l IHl]; [constructor|].
        simpl in Hk. destruct (find_last f l); [done|].
        destruct (f y) eqn:Hy; [done|]. constructor; [done|by apply IHl]. }
      destruct (f z) eqn:Hz.
      * split.
        -- intros [= <-]. exists z. split; [done|]. split; [done|].
           intros [|j] y Hj Hy; [lia|]. simpl in Hy.
           by eapply (Forall_lookup_1 _ _ _ _ Hall).
        -- intros (x & Hx & Hfx & _). destruct i as [|i]; [done|].
           simpl in Hx.
           pose proof (Forall_lookup_1 _ _ _ _ Hall Hx). congruence.
      * split; [done|]. intros (x & Hx & Hfx & _).
        destruct i as [|i]; simpl in Hx; [by simplify_eq; congruence|].
        pose proof (Forall_lookup_1 _ _ _ _ Hall Hx). congruence.
Qed.

(** A table of indices read through [getitem] and [deref]. *)
Lemma table_get_Ok {A} (l : list A) (o : option nat) (x : A) :
  (i ← getitem o; deref l i) = Ok x ↔ ∃ i, o = Some i ∧ l !! i = Some x.
Proof.
  unfold getitem, deref. destruct o as [i|]; simpl.
  - destruct (l !! i) as [y|] eqn:Hy.
    + split; [intros [= <-]; by exists i|]. intros (? & [= <-] & ?).
      congruence.
    + split; [done|]. intros (? & [= <-] & ?). congruence.
  - split; [done|]. by intros (? & ? & _).
Qed.

Lemma table_get_KeyError {A} (l : list A) (o : option nat) :
  (∀ i, o = Some i → is_Some (l !! i)) →
  (i ← getitem o; deref l i) = Raise KeyError ↔ o = None.
Proof.
  unfold getitem, deref. intros Hin. destruct o as [i|]; simpl; [|done].
  destruct (Hin i eq_refl) as [x ->]. done.
Qed.

(** Replacing an element by one that [R] relates to it. *)
Lemma Forall2_insert_related {A} (R : A → A → Prop) (l : list A) (i : nat)
    (x y : A) :
  (∀ z, R z z) → l !! i = Some x → R x y → Forall2 R l (<[i := y]> l).
Proof.
  intros Hrefl Hi Hxy. apply Forall2_same_length_lookup.
  split; [by rewrite length_insert|].
  intros j a b Ha Hb. destruct (decide (i = j)) as [->|Hne].
  - rewrite list_lookup_insert_eq in Hb by (by eapply lookup_lt_Some).
    by simplify_eq.
  - rewrite list_lookup_insert_ne in Hb by done. by simplify_eq.
Qed.

Lemma Forall2_alter_related {A} (R : A → A → Prop) (l : list A) (i : nat)
    (g : A → A) :
  (∀ z, R z z) → (∀ z, R z (g z)) → Forall2 R l (alter g i l).
Proof.
  intros Hrefl Hg. apply Forall2_same_length_lookup.
  split; [by rewrite length_alter|].
  intros j a b Ha Hb. destruct (decide (i = j)) as [->|Hne].
  - rewrite list_lookup_alter_eq, Ha in Hb. by simplify_eq/=.
  - rewrite list_lookup_alter_ne in Hb by done. by simplify_eq.
Qed.

Lemma Forall2_fmap_related {A} (R : A → A → Prop) (l : list A) (g : A → A) :
  (∀ z, R z (g z)) → Forall2 R l (g <$> l).
Proof.
  intros Hg. apply Forall2_fmap_r, Forall_Forall2_diag, Forall_forall.
  intros x _. apply Hg.
Qed.

Lemma fmap_Forall2_related {A B} (f : A → B) (l l' : list A) :
  Forall2 (λ x y, f x = f y) l l' → f <$> l = f <$> l'.
Proof.
  induction 1 as [|x y l l' Hxy _ IH]; [done|]. rewrite !fmap_cons.
  by rewrite Hxy, IH.
Qed.

Lemma mapM_Forall2 {A B} (f : A → result B) (l : list A) (l' : list B) :
  mapM f l = Ok l' → Forall2 (λ x y, f x = Ok y) l l'.
Proof.
  revert l'. induction l as [|x l IH]; intros l'; simpl.
  - intros [= <-]. constructor.
  - unfold mbind, result_bind at 1.
    destruct (f x) as [y|] eqn:Hy; [|done].
    unfold mbind, result_bind at 1.
    destruct (mapM f l) as [k|]; [|done]. intros [= <-].
    constructor; [done|by apply IH].
Qed.

Section consistency_facts.
Context `{Externals}.
Import PdbStructure.

(** *** Residues *)

Lemma merge_set_locations (locs : list (ascii * Atom.Location.t)) :
  ∀ old : Atom.t, ∃ l,
    fold_left
      (λ o kv, Atom.set_locations (od_set kv.1 kv.2 (Atom.locations o)) o)
      locs old = Atom.set_locations l old.
Proof.
  induction locs as [|kv locs IH]; intros old; simpl.
  - exists (Atom.locations old). by destruct old.
  - destruct (IH (Atom.set_locations
                    (od_set kv.1 kv.2 (Atom.locations old)) old)) as [l ->].
    by exists l.
Qed.

(** What [Residue._add_atom] does to the atoms and their table: the atom
    is appended and takes both its names in the table, or its locations
    go to the atom of index [i] and the table is left alone. *)
Lemma Residue_add_atom_shape (r r' : Residue.t) (a : Atom.t) :
  Residue._add_atom r a = Ok r' →
  Residue.number r' = Residue.number r
  ∧ Residue.insertion_code r' = Residue.insertion_code r
  ∧ Atom.residue_number a = Residue.number r
  ∧ Atom.insertion_code a = Residue.insertion_code r
  ∧ (Residue.atoms r' = Residue.atoms r ++ [a]
     ∧ Residue.atoms_by_name r'
       = <[Atom.name_with_spaces a := length (Residue.atoms r)]>
           (<[Atom.name a := length (Residue.atoms r)]>
              (Residue.atoms_by_name r))
     ∨ ∃ i old l,
         Residue.atoms r !! i = Some old
         ∧ Residue.atoms r' = <[i := Atom.set_locations l old]> (Residue.atoms r)
         ∧ Residue.atoms_by_name r' = Residue.atoms_by_name r).
Proof.
  unfold Residue._add_atom, assert, deref. unfold_M. intros Hr.
  repeat (case_match; simplify_eq/=; try done);
    repeat match goal with
    | Hq : (_ =? _) = true |- _ => apply Z.eqb_eq in Hq
    | Hq : Ascii.eqb _ _ = true |- _ => apply Ascii.eqb_eq in Hq
    end;
    (do 4 (split; [done|]));
    first
      [ by left
      | right;
        match goal with
        | |- context [fold_left ?f ?locs ?old] =>
            destruct (merge_set_locations locs old) as [l Hl]; rewrite Hl;
            eexists _, _, _; split; [eassumption|split; reflexivity]
        end ].
Qed.

Lemma called_set_locations k l (a : Atom.t) :
  called k (Atom.set_locations l a) = called k a.
Proof. done. Qed.

Lemma atom_placed_set_locations mnum cid r l (a : Atom.t) :
  atom_placed mnum cid r a → atom_placed mnum cid r (Atom.set_locations l a).
Proof. done. Qed.

Lemma atom_placed_residue mnum cid (r r' : Residue.t) (a : Atom.t) :
  Residue.number r' = Residue.number r →
  Residue.insertion_code r' = Residue.insertion_code r →
  atom_placed mnum cid r a → atom_placed mnum cid r' a.
Proof. unfold atom_placed. intros -> ->. done. Qed.

Lemma Residue_add_atom_consistent mnum cid (r r' : Residue.t) (a : Atom.t) :
  consistent_residue mnum cid r →
  Atom.model_number a = Some mnum → Atom.chain_id a = cid →
  Residue._add_atom r a = Ok r' →
  consistent_residue mnum cid r'.
Proof.
  intros [Hplaced Htable] Hm Hc
    (Hnum & Hic & Hanum & Haic & Hshape)%Residue_add_atom_shape.
  assert (Forall (atom_placed mnum cid r') (Residue.atoms r)) as Hplaced'.
  { eapply Forall_impl; [exact Hplaced|]. intros x.
    by apply atom_placed_residue. }
  destruct Hshape as [[Hatoms Hby]|(i & old & l & Hold & Hatoms & Hby)].
  - split.
    + rewrite Hatoms. apply Forall_app. split; [done|].
      constructor; [|done]. unfold atom_placed. by rewrite Hnum, Hic.
    + intros k. rewrite Hby, Hatoms, find_last_app.
      unfold called at 1.
      destruct (String.eqb (Atom.name_with_spaces a) k) eqn:E2.
      * apply String.eqb_eq in E2 as <-.
        by rewrite orb_true_r, lookup_insert_eq.
      * apply String.eqb_neq in E2. rewrite lookup_insert_ne by done.
        rewrite orb_false_r.
        destruct (String.eqb (Atom.name a) k) eqn:E1.
        -- apply String.eqb_eq in E1 as <-. by rewrite lookup_insert_eq.
        -- apply String.eqb_neq in E1. rewrite lookup_insert_ne by done.
           apply Htable.
  - split.
    + rewrite Hatoms. apply Forall_insert; [done|].
      apply atom_placed_set_locations.
      by eapply (Forall_lookup_1 _ _ _ _ Hplaced').
    + intros k. rewrite Hby, Hatoms, Htable. apply find_last_ext.
      eapply Forall2_insert_related; [done|exact Hold|done].
Qed.

Lemma new_residue_consistent mnum cid (a : Atom.t) (r : Residue.t) :
  Chain.new_residue a = Ok r →
  consistent_residue mnum cid r
  ∧ Residue.number r = Atom.residue_number a
  ∧ Residue.insertion_code r = Atom.insertion_code a.
Proof.
  unfold Chain.new_residue, Residue.__init__, Residue.set_name_with_spaces.
  unfold_M. intros Hr.
  repeat (case_match; simplify_eq/=; try done).
Qed.

Lemma Residue_finalize_consistent mnum cid (r : Residue.t) :
  consistent_residue mnum cid r →
  consistent_residue mnum cid (Residue._finalize r).
Proof.
  intros [Hplaced Htable].
  assert (Forall2 (λ x y, Atom.name y = Atom.name x
                          ∧ Atom.name_with_spaces y = Atom.name_with_spaces x
                          ∧ ∀ r0, atom_placed mnum cid r0 x →
                                  atom_placed mnum cid r0 y)
            (Residue.atoms r) (Residue.atoms (Residue._finalize r))) as Hrel.
  { apply Forall2_same_length_lookup. split.
    - symmetry. apply Residue_finalize_flags.
    - intros i x y Hx Hy. rewrite Residue_finalize_atom, Hx in Hy.
      by simplify_eq/=. }
  assert (Residue.number (Residue._finalize r) = Residue.number r
          ∧ Residue.insertion_code (Residue._finalize r)
            = Residue.insertion_code r
          ∧ Residue.atoms_by_name (Residue._finalize r)
            = Residue.atoms_by_name r) as (Hnum & Hic & Hby).
  { unfold Residue._finalize. by destruct (Residue.atoms r). }
  split.
  - apply Forall_lookup. intros i y Hy.
    destruct (Forall2_lookup_r _ _ _ _ _ Hrel Hy) as (x & Hx & _ & _ & Hp).
    apply Hp. apply atom_placed_residue with r; [done..|].
    by eapply (Forall_lookup_1 _ _ _ _ Hplaced).
  - intros k. rewrite Hby, Htable. apply find_last_ext.
    eapply Forall2_impl; [exact Hrel|]. intros x y (Hn & Hw & _).
    unfold called. by rewrite Hn, Hw.
Qed.

(** *** First-wins tables *)

Lemma first_wins_insert {K} `{Countable K} {A} (key : A → K)
    (eqb : K → K → bool) (tbl : gmap K nat) (l : list A) (x : A) :
  (∀ a b, eqb a b = true ↔ a = b) →
  (∀ k, tbl !! k = find_first (λ y, eqb (key y) k) l) →
  ∀ k, match tbl !! key x with
       | None => <[key x := length l]> tbl
       | Some _ => tbl
       end !! k
       = find_first (λ y, eqb (key y) k) (l ++ [x]).
Proof.
  intros Heqb Htbl k. rewrite find_first_app, <- Htbl.
  destruct (decide (key x = k)) as [<-|Hne].
  - rewrite (proj2 (Heqb _ _) eq_refl).
    destruct (tbl !! key x) eqn:E; [by rewrite E|by rewrite lookup_insert_eq].
  - assert (eqb (key x) k = false) as ->.
    { destruct (eqb (key x) k) eqn:E; [|done]. by apply Heqb in E. }
    destruct (tbl !! key x); [|rewrite lookup_insert_ne by done];
      by destruct (tbl !! k).
Qed.

Lemma Z_eqb_iff (a b : Z) : (a =? b) = true ↔ a = b.
Proof. apply Z.eqb_eq. Qed.

(** *** Chains *)

Lemma consistent_residue_flags mnum cid (r r' : Residue.t) :
  Residue.atoms r' = Residue.atoms r →
  Residue.atoms_by_name r' = Residue.atoms_by_name r →
  Residue.number r' = Residue.number r →
  Residue.insertion_code r' = Residue.insertion_code r →
  consistent_residue mnum cid r → consistent_residue mnum cid r'.
Proof.
  intros Ha Hb Hn Hi [Hp Ht]. split.
  - rewrite Ha. eapply Forall_impl; [exact Hp|].
    intros x. by apply atom_placed_residue.
  - intros k. rewrite Hb, Ha. apply Ht.
Qed.

Lemma add_residue_consistent mnum (c : Chain.t) (r0 : Residue.t) :
  consistent_chain mnum c →
  consistent_residue mnum (Chain.chain_id c) r0 →
  consistent_chain mnum (Chain._add_residue c r0).
Proof.
  intros (Hres & Hnum & Hkey) Hr0.
  set (r1 := match Chain.residues c with
             | [] => Residue.set_is_first_in_chain true r0
             | _ => r0
             end).
  assert (consistent_residue mnum (Chain.chain_id c) r1) as Hr1.
  { subst r1. destruct (Chain.residues c); [|done].
    by apply (consistent_residue_flags _ _ r0). }
  split; [|split]; [|intros n..]; unfold Chain._add_residue;
    cbn [Chain.residues Chain.chain_id Chain.residues_by_number
         Chain.residues_by_num_icode]; fold r1.
  - apply Forall_app. split; [done|]. by constructor.
  - apply (first_wins_insert Residue.number Z.eqb); [apply Z_eqb_iff|done].
  - apply (first_wins_insert num_icode String.eqb); [apply String.eqb_eq|done].
Qed.

Lemma insert_residue_consistent mnum (c : Chain.t) (k : nat)
    (cr cr' : Residue.t) :
  consistent_chain mnum c → Chain.residues c !! k = Some cr →
  consistent_residue mnum (Chain.chain_id c) cr' →
  Residue.number cr' = Residue.number cr →
  Residue.insertion_code cr' = Residue.insertion_code cr →
  consistent_chain mnum
    (Chain.set_residues (<[k := cr']> (Chain.residues c)) c).
Proof.
  intros (Hres & Hnum & Hkey) Hcr Hcr' Hn Hi.
  split; [|split]; [|intros n..]; unfold Chain.set_residues;
    cbn [Chain.residues Chain.chain_id Chain.residues_by_number
         Chain.residues_by_num_icode].
  - by apply Forall_insert.
  - rewrite Hnum. apply find_first_ext.
    eapply Forall2_insert_related; [done|exact Hcr|]. simpl. by rewrite Hn.
  - rewrite Hkey. apply find_first_ext.
    eapply Forall2_insert_related; [done|exact Hcr|]. simpl.
    unfold num_icode. by rewrite Hn, Hi.
Qed.

Lemma M_bind_Ok {A B} (m : M A) (f : A → M B) w r :
  (x ← m; f x) w = Ok r → ∃ x w1, m w = Ok (x, w1) ∧ f x w1 = Ok r.
Proof.
  unfold mbind, M_bind. destruct (m w) as [[x w1]|]; [eauto|done].
Qed.

Lemma Chain_add_atom_shape (c c' : Chain.t) (a : Atom.t) w w' :
  Chain._add_atom c a w = Ok (c', w') →
  ∃ c1 k cr cr',
    (c1 = c ∨ ∃ r0, Chain.new_residue a = Ok r0
                    ∧ c1 = Chain._add_residue c r0)
    ∧ Chain._current_residue c1 = Some k
    ∧ Chain.residues c1 !! k = Some cr
    ∧ Residue._add_atom cr a = Ok cr'
    ∧ c' = Chain.set_residues (<[k := cr']> (Chain.residues c1)) c1.
Proof.
  unfold Chain._add_atom. intros (c1 & w1 & Hsel & Htail)%M_bind_Ok.
  exists c1.
  assert (∃ k cr cr', Chain._current_residue c1 = Some k
            ∧ Chain.residues c1 !! k = Some cr
            ∧ Residue._add_atom cr a = Ok cr'
            ∧ c' = Chain.set_residues (<[k := cr']> (Chain.residues c1)) c1)
    as (k & cr & cr' & Hcur & Hk & Hadd & ->).
  { clear Hsel. revert Htail. unfold deref. unfold_M. intros Htail.
    repeat (case_match; simplify_eq; try done). eauto 10. }
  exists k, cr, cr'. split; [|done].
  revert Hsel. unfold Chain.current_residue, deref. unfold_M. intros Hsel.
  repeat (case_match; simplify_eq; try done); eauto 10.
Qed.

Lemma Chain_add_atom_consistent mnum (c c' : Chain.t) (a : Atom.t) w w' :
  consistent_chain mnum c →
  Atom.model_number a = Some mnum → Atom.chain_id a = Chain.chain_id c →
  Chain._add_atom c a w = Ok (c', w') →
  consistent_chain mnum c' ∧ Chain.chain_id c' = Chain.chain_id c.
Proof.
  intros Hc Hm Hid
    (c1 & k & cr & cr' & Hc1 & _ & Hcr & Hadd & ->)%Chain_add_atom_shape.
  assert (consistent_chain mnum c1 ∧ Chain.chain_id c1 = Chain.chain_id c)
    as [Hcons1 Hid1].
  { destruct Hc1 as [->|(r0 & Hnew & ->)]; [done|]. split; [|done].
    apply add_residue_consistent; [done|].
    by apply new_residue_consistent with a. }
  split; [|done].
  pose proof (Residue_add_atom_shape _ _ _ Hadd) as (Hn & Hi & _).
  apply insert_residue_consistent with cr; try done.
  eapply Residue_add_atom_consistent; [|exact Hm|by rewrite Hid1|exact Hadd].
  destruct Hcons1 as (Hres & _). by eapply (Forall_lookup_1 _ _ _ _ Hres).
Qed.

Lemma Chain_finalize_consistent mnum (c c' : Chain.t) :
  consistent_chain mnum c → Chain._finalize c = Ok c' →
  consistent_chain mnum c' ∧ Chain.chain_id c' = Chain.chain_id c.
Proof.
  intros (Hres & Hnum & Hkey) Hfin.
  destruct (Chain_finalize_Ok _ _ Hfin) as [_ Hc'].
  assert (Forall2 (λ x y, Residue.number y = Residue.number x
                          ∧ Residue.insertion_code y = Residue.insertion_code x
                          ∧ (consistent_residue mnum (Chain.chain_id c) x →
                             consistent_residue mnum (Chain.chain_id c) y))
            (Chain.residues c) (Chain.residues c')) as Hrel.
  { apply Forall2_same_length_lookup. split.
    - symmetry. by apply (Chain_finalize_residue c c' 0).
    - intros i x y Hx Hy.
      destruct (Chain_finalize_residue c c' i Hfin) as (Hi & _).
      rewrite Hi, Hx in Hy. injection Hy as <-.
      set (z := if decide (i = pred (length (Chain.residues c)))
                then _ else _).
      assert (Residue.atoms z = Residue.atoms x
              ∧ Residue.atoms_by_name z = Residue.atoms_by_name x
              ∧ Residue.number z = Residue.number x
              ∧ Residue.insertion_code z = Residue.insertion_code x)
        as (Ha & Hb & Hn & Hic).
      { subst z. by repeat case_match. }
      assert (Residue.number (Residue._finalize z) = Residue.number z
              ∧ Residue.insertion_code (Residue._finalize z)
                = Residue.insertion_code z) as [Hn' Hic'].
      { unfold Residue._finalize. by destruct (Residue.atoms z). }
      split; [congruence|]. split; [congruence|]. intros Hcons.
      apply Residue_finalize_consistent.
      by apply (consistent_residue_flags _ _ x). }
  assert (Chain.chain_id c' = Chain.chain_id c
          ∧ Chain.residues_by_number c' = Chain.residues_by_number c
          ∧ Chain.residues_by_num_icode c' = Chain.residues_by_num_icode c)
    as (Hid & Hbn & Hbk) by (by rewrite Hc').
  split; [|done]. split; [|split].
  - rewrite Hid. apply Forall_lookup. intros i y Hy.
    destruct (Forall2_lookup_r _ _ _ _ _ Hrel Hy) as (x & Hx & _ & _ & Hp).
    apply Hp. by eapply (Forall_lookup_1 _ _ _ _ Hres).
  - intros n. rewrite Hbn, Hnum. apply find_first_ext.
    eapply Forall2_impl; [exact Hrel|]. intros x y (-> & _). done.
  - intros n. rewrite Hbk, Hkey. apply find_first_ext.
    eapply Forall2_impl; [exact Hrel|]. intros x y (Hn & Hi & _).
    unfold num_icode. by rewrite Hn, Hi.
Qed.

(** *** Models *)

Lemma Chain_init_consistent mnum (id : ascii) :
  consistent_chain mnum (Chain.__init__ id).
Proof. split; [constructor|]. by split; intros k. Qed.

Lemma add_chain_consistent (m : Model.t) (ch : Chain.t) :
  consistent_model m → consistent_chain (Model.number m) ch →
  consistent_model (Model._add_chain m ch).
Proof.
  intros [Hall Htbl] Hch. split; [|intros id]; unfold Model._add_chain;
    cbn [Model.chains Model.number Model.chains_by_id].
  - apply Forall_app. split; [done|]. by constructor.
  - apply (first_wins_insert Chain.chain_id Ascii.eqb);
      [apply Ascii.eqb_eq|done].
Qed.

Lemma insert_chain_consistent (m : Model.t) (j : nat) (cc cc' : Chain.t) :
  consistent_model m → Model.chains m !! j = Some cc →
  consistent_chain (Model.number m) cc' →
  Chain.chain_id cc' = Chain.chain_id cc →
  consistent_model (Model.set_chains (<[j := cc']> (Model.chains m)) m).
Proof.
  intros [Hall Htbl] Hcc Hcc' Hid. split; [|intros id];
    unfold Model.set_chains;
    cbn [Model.chains Model.number Model.chains_by_id].
  - by apply Forall_insert.
  - rewrite Htbl. apply find_first_ext.
    eapply Forall2_insert_related; [done|exact Hcc|]. simpl. by rewrite Hid.
Qed.

Lemma add_chain_current (m : Model.t) (ch cc : Chain.t) (j : nat) :
  Model._current_chain (Model._add_chain m ch) = Some j →
  Model.chains (Model._add_chain m ch) !! j = Some cc → cc = ch.
Proof.
  simpl. intros [= <-]. rewrite lookup_app_r, Nat.sub_diag by done.
  by intros [= <-].
Qed.

Lemma Model_add_atom_shape (m m' : Model.t) (a : Atom.t) w w' :
  Model._add_atom m a w = Ok (m', w') →
  ∃ m1 j cc cc' w1,
    (m1 = m ∨ m1 = Model._add_chain m (Chain.__init__ (Atom.chain_id a)))
    ∧ Model._current_chain m1 = Some j
    ∧ Model.chains m1 !! j = Some cc
    ∧ Chain.chain_id cc = Atom.chain_id a
    ∧ Chain._add_atom cc a w1 = Ok (cc', w')
    ∧ m' = Model.set_chains (<[j := cc']> (Model.chains m1)) m1.
Proof.
  unfold Model._add_atom, Model.current_chain, deref. unfold_M. intros Hr.
  repeat (case_match; simplify_eq; try done).
  all: repeat match goal with
    | Hc : Model._current_chain (Model._add_chain ?m ?ch) = Some ?j,
      Hl : Model.chains (Model._add_chain ?m ?ch) !! ?j = Some ?cc |- _ =>
        is_var cc; pose proof (add_chain_current _ _ _ _ Hc Hl); subst cc
    end.
  all: cbn [Chain.chain_id Chain.has_ter_record Chain.__init__] in *.
  all: rewrite ?Ascii.eqb_refl in *; try done.
  all: eexists _, _, _, _, _.
  all: (split; [|split; [eassumption|split; [eassumption|split; [|split; [eassumption|reflexivity]]]]]).
  all: try (by left); try (by right).
  all: try match goal with
    | Hn : negb (_ =? _)%char = false |- _ =>
        apply negb_false_iff, Ascii.eqb_eq in Hn
    end; try done.
Qed.

Lemma Model_add_atom_consistent (m m' : Model.t) (a : Atom.t) w w' :
  consistent_model m → Atom.model_number a = Some (Model.number m) →
  Model._add_atom m a w = Ok (m', w') →
  consistent_model m' ∧ Model.number m' = Model.number m.
Proof.
  intros Hm Hnum
    (m1 & j & cc & cc' & w1 & Hm1 & _ & Hcc & Hid & Hadd & ->)%Model_add_atom_shape.
  assert (consistent_model m1 ∧ Model.number m1 = Model.number m)
    as [Hcons1 Hnum1].
  { destruct Hm1 as [->| ->]; [done|]. split; [|done].
    apply add_chain_consistent; [done|]. apply Chain_init_consistent. }
  split; [|done].
  assert (consistent_chain (Model.number m1) cc) as Hwcc.
  { destruct Hcons1 as [Hall _]. by eapply (Forall_lookup_1 _ _ _ _ Hall). }
  destruct (Chain_add_atom_consistent (Model.number m1) cc cc' a w1 w')
    as [Hcc' Hid']; try done; [congruence|].
  by apply insert_chain_consistent with cc.
Qed.

Lemma Model_finalize_consistent (m m' : Model.t) :
  consistent_model m → Model._finalize m = Ok m' →
  consistent_model m' ∧ Model.number m' = Model.number m.
Proof.
  intros [Hall Htbl]. unfold Model._finalize.
  destruct (mapM Chain._finalize (Model.chains m)) as [l|] eqn:Hl; [|done].
  intros [= <-]. split; [|done].
  apply mapM_Forall2 in Hl.
  split; [|intros id]; unfold Model.set_chains;
    cbn [Model.chains Model.number Model.chains_by_id].
  - apply Forall_lookup. intros i y Hy.
    destruct (Forall2_lookup_r _ _ _ _ _ Hl Hy) as (x & Hx & Hfin).
    eapply Chain_finalize_consistent; [|exact Hfin].
    by eapply (Forall_lookup_1 _ _ _ _ Hall).
  - rewrite Htbl. apply find_first_ext.
    eapply Forall2_impl; [exact Hl|]. intros x y Hfin. simpl.
    destruct (Chain_finalize_Ok _ _ Hfin) as [_ ->]. done.
Qed.

(** *** Structures *)

Lemma numbered_lookup (s : PdbStructure.t) (i : nat) (m : Model.t) :
  numbered s → models s !! i = Some m → Model.number m = Z.of_nat i.
Proof.
  intros [Hnum _] Hm.
  assert ((Model.number <$> models s) !! i = Some (Model.number m)) as Hi
    by (by rewrite list_lookup_fmap, Hm).
  rewrite Hnum, list_lookup_fmap in Hi.
  destruct (seq 0 (length (models s)) !! i) as [k|] eqn:Hk; [|done].
  apply lookup_seq in Hk as [-> _]. by injection Hi as <-.
Qed.

Lemma numbered_current (s : PdbStructure.t) (cm : Model.t) :
  numbered s → current_model s = Ok cm →
  Model.number cm + 1 = Z.of_nat (length (models s)).
Proof.
  intros Hs. pose proof Hs as [_ Hcur].
  unfold current_model, attr, deref. rewrite Hcur.
  destruct (length (models s)) as [|n] eqn:Hlen; [done|]. simpl.
  destruct (models s !! n) as [x|] eqn:Hx; [|done]. intros [= <-].
  rewrite (numbered_lookup s n x Hs Hx). lia.
Qed.

Lemma consistent_ext (s s' : PdbStructure.t) :
  models s' = models s → _current_model s' = _current_model s →
  models_by_number s' = models_by_number s →
  consistent s → consistent s'.
Proof.
  intros Hm Hc Ht (Hall & Htbl & Hnum & Hcur). unfold consistent, numbered,
    models_by_number_ok. rewrite Hm, Hc, Ht. done.
Qed.

Lemma add_model_consistent (s : PdbStructure.t) (n : Z) :
  consistent s → n = Z.of_nat (length (models s)) →
  consistent (_add_model s (Model.__init__ n)).
Proof.
  intros (Hall & Htbl & Hnum & Hcur) ->. split; [|split; [|split]];
    [|intros k|..]; unfold _add_model;
    cbn [models models_by_number _current_model].
  - apply Forall_app. split; [done|]. constructor; [|done].
    split; [constructor|]. by intros id.
  - apply (first_wins_insert Model.number Z.eqb); [apply Z_eqb_iff|done].
  - rewrite fmap_app, length_app, Nat.add_1_r, seq_S, fmap_app, Hnum. done.
  - by rewrite length_app, Nat.add_1_r.
Qed.

Lemma insert_model_consistent (s : PdbStructure.t) (i : nat)
    (cm cm' : Model.t) :
  consistent s → models s !! i = Some cm → consistent_model cm' →
  Model.number cm' = Model.number cm →
  consistent (set_models (<[i := cm']> (models s)) s).
Proof.
  intros (Hall & Htbl & Hnum & Hcur) Hcm Hcm' Hn.
  assert (Forall2 (λ x y, Model.number x = Model.number y) (models s)
            (<[i := cm']> (models s))) as Hrel.
  { eapply Forall2_insert_related; [done|exact Hcm|done]. }
  split; [|split; [|split]]; [|intros k|..]; unfold set_models;
    cbn [models models_by_number _current_model].
  - by apply Forall_insert.
  - rewrite Htbl. apply find_first_ext.
    eapply Forall2_impl; [exact Hrel|]. intros x y Hxy. simpl.
    by rewrite Hxy.
  - rewrite length_insert, <- Hnum. symmetry.
    by apply fmap_Forall2_related.
  - by rewrite length_insert.
Qed.

Lemma PdbStructure_add_atom_shape (s s' : PdbStructure.t) (a : Atom.t) w w' :
  PdbStructure._add_atom s a w = Ok (s', w') →
  ∃ s1 i cm cm',
    (s1 = s ∨ _current_model s = None
              ∧ s1 = _add_model s (Model.__init__ 0))
    ∧ _current_model s1 = Some i
    ∧ models s1 !! i = Some cm
    ∧ Model._add_atom cm (Atom.set_model_number (Model.number cm) a) w
      = Ok (cm', w')
    ∧ s' = set_models (<[i := cm']> (models s1)) s1.
Proof.
  unfold PdbStructure._add_atom, deref. unfold_M. intros Hr.
  repeat (case_match; simplify_eq; try done);
    eexists _, _, _, _;
    (split; [|split; [eassumption|split; [eassumption|split;
       [eassumption|reflexivity]]]]); [by left|right; by split].
Qed.

Lemma PdbStructure_add_atom_consistent (s s' : PdbStructure.t) (a : Atom.t)
    w w' :
  consistent s → PdbStructure._add_atom s a w = Ok (s', w') →
  consistent s'.
Proof.
  intros Hs
    (s1 & i & cm & cm' & Hs1 & _ & Hcm & Hadd & ->)%PdbStructure_add_atom_shape.
  assert (consistent s1) as Hs1'.
  { destruct Hs1 as [->|[Hnone ->]]; [done|].
    apply add_model_consistent; [done|].
    destruct Hs as (_ & _ & _ & Hcur). rewrite Hnone in Hcur.
    by destruct (length (models s)). }
  assert (consistent_model cm) as Hwcm.
  { destruct Hs1' as [Hall _]. by eapply (Forall_lookup_1 _ _ _ _ Hall). }
  destruct (Model_add_atom_consistent cm cm'
              (Atom.set_model_number (Model.number cm) a) w w' Hwcm)
    as [Hcm' Hn]; [done|exact Hadd|].
  by apply insert_model_consistent with cm.
Qed.

Lemma finalize_current_model_consistent (s s' : PdbStructure.t) :
  consistent s → finalize_current_model s = Ok s' → consistent s'.
Proof.
  intros Hs. unfold finalize_current_model, attr, deref.
  destruct (_current_model s) as [i|]; [|done]. simpl.
  destruct (models s !! i) as [cm|] eqn:Hcm; [|done]. simpl.
  destruct (Model._finalize cm) as [cm'|] eqn:Hfin; [|done].
  intros [= <-].
  assert (consistent_model cm) as Hwcm.
  { destruct Hs as [Hall _]. by eapply (Forall_lookup_1 _ _ _ _ Hall). }
  destruct (Model_finalize_consistent cm cm' Hwcm Hfin) as [Hcm' Hn].
  by apply insert_model_consistent with cm.
Qed.

Lemma PdbStructure_finalize_consistent (s s' : PdbStructure.t) :
  consistent s → PdbStructure._finalize s = Ok s' → consistent s'.
Proof.
  intros (Hall & Htbl & Hnum & Hcur). unfold PdbStructure._finalize.
  destruct (mapM Model._finalize (models s)) as [l|] eqn:Hl; [|done].
  intros [= <-]. apply mapM_Forall2 in Hl.
  assert (Forall2 (λ x y, Model.number x = Model.number y) (models s) l)
    as Hrel.
  { eapply Forall2_impl; [exact Hl|]. intros x y Hfin. simpl in Hfin.
    revert Hfin. unfold Model._finalize.
    destruct (mapM Chain._finalize (Model.chains x)); [|done].
    by intros [= <-]. }
  pose proof (Forall2_length _ _ _ Hrel) as Hlen.
  split; [|split; [|split]]; [|intros k|..]; unfold set_models;
    cbn [models models_by_number _current_model].
  - apply Forall_lookup. intros i y Hy.
    destruct (Forall2_lookup_r _ _ _ _ _ Hl Hy) as (x & Hx & Hfin).
    eapply Model_finalize_consistent; [|exact Hfin].
    by eapply (Forall_lookup_1 _ _ _ _ Hall).
  - rewrite Htbl. apply find_first_ext.
    eapply Forall2_impl; [exact Hrel|]. intros x y Hxy. simpl.
    by rewrite Hxy.
  - rewrite <- Hlen, <- Hnum. symmetry. by apply fmap_Forall2_related.
  - by rewrite <- Hlen.
Qed.

(** *** The loop of the loader *)

#[local] Opaque py_int hybrid36 _overflow_residue_check
  _check_overflow_eligibility table_get index.

Lemma _read_atom_number_table num_str st w n y w' :
  _read_atom_number num_str (Some st) w = Ok (n, y, w') →
  ∃ st', y = Some st' ∧ models_by_number st' = models_by_number st.
Proof.
  unfold _read_atom_number, call. unfold_M. intros Hr.
  repeat (case_match; simplify_eq/=);
    by (eexists; split; [reflexivity|]).
Qed.

Lemma _read_residue_number_table num_str st a w n y w' :
  _read_residue_number num_str (Some st) a w = Ok (n, y, w') →
  ∃ st', y = Some st' ∧ models_by_number st' = models_by_number st.
Proof.
  unfold _read_residue_number, call. unfold_M. intros Hr.
  repeat (case_match; simplify_eq/=);
    by (eexists; split; [reflexivity|]).
Qed.

#[local] Opaque _read_atom_number _read_residue_number to_float strip
  slice Atom._pdb_string String.rev assert get_by_symbol.

Lemma Atom__init___table pdb_line st w a y w' :
  Atom__init__ pdb_line (Some st) w = Ok (a, y, w') →
  ∃ st', y = Some st' ∧ models_by_number st' = models_by_number st.
Proof.
  unfold Atom__init__. unfold_M. intros Hr.
  destruct (_read_atom_number _ _ _) as [[[n1 y1] w1]|] eqn:H1;
    [|discriminate].
  apply _read_atom_number_table in H1 as (st1 & -> & Ht1).
  repeat (case_match; simplify_eq/=; try done);
    match goal with
    | Hq : _read_residue_number _ (Some _) _ _ = Ok _ |- _ =>
        apply _read_residue_number_table in Hq as (st2 & ? & Ht2)
    end; simplify_eq;
    (eexists; split; [reflexivity|]); simpl; congruence.
Qed.

Lemma read_connect_table pdb_line positions :
  ∀ st w l st' w',
    read_connect pdb_line positions st w = Ok (l, st', w') →
    models_by_number st' = models_by_number st.
Proof.
  induction positions as [|pos r IH]; intros st w l st' w' Hr; simpl in Hr.
  - unfold_M. by simplify_eq.
  - unfold_M.
    destruct (_read_atom_number _ _ _) as [[[n y] w1]|] eqn:H1; [|discriminate].
    apply _read_atom_number_table in H1 as (st1 & -> & Ht1).
    destruct (read_connect _ _ _ _) as [[[l2 st2] w2]|] eqn:H2; [|discriminate].
    apply IH in H2. simplify_eq. congruence.
Qed.

Lemma consistent_same_tree (st st' : PdbStructure.t) :
  same_tree st st' → models_by_number st' = models_by_number st →
  consistent st → consistent st'.
Proof. intros (Hm & Hc & _) Ht. by apply consistent_ext. Qed.

Lemma open_pending_model_consistent st state st' :
  consistent st → open_pending_model st state = Ok st' → consistent st'.
Proof.
  intros Hs. unfold open_pending_model. destruct state as [[]|].
  - destruct (current_model st) as [cm|] eqn:Hcm; [|done]. intros [= <-].
    apply add_model_consistent; [done|]. apply numbered_current; [|done].
    apply Hs.
  - by intros [= <-].
Qed.

Lemma Chain_add_ter_record_consistent mnum (cc cc' : Chain.t) :
  consistent_chain mnum cc → Chain._add_ter_record cc = Ok cc' →
  consistent_chain mnum cc' ∧ Chain.chain_id cc' = Chain.chain_id cc.
Proof.
  intros Hcc Hter.
  by apply (Chain_finalize_consistent mnum
              (Chain.set_has_ter_record true cc)).
Qed.

Lemma set_connects_consistent (cm : Model.t) (l : list (list Z)) :
  consistent_model cm → consistent_model (Model.set_connects l cm).
Proof. done. Qed.

#[local] Opaque open_pending_model Atom__init__ PdbStructure._add_atom
  finalize_current_model Chain._add_ter_record read_connect.

Lemma loop_body_consistent st state pdb_line w st' state' ctl w' :
  consistent st →
  loop_body st state pdb_line w = Ok (st', state', ctl, w') →
  consistent st'.
Proof.
  intros Hs. unfold loop_body.
  destruct (is_atom_line pdb_line).
  { unfold_M. intros Hr.
    destruct (open_pending_model st state) as [st0|] eqn:Hop; [|done].
    destruct (Atom__init__ _ _ _) as [[[a y] w1]|] eqn:Ha; [|done].
    pose proof (Atom__init___tree _ _ _ _ _ _ Ha) as (st1 & -> & Htree).
    pose proof (Atom__init___table _ _ _ _ _ _ Ha) as (st1' & [= <-] & Htbl).
    simpl in Hr.
    destruct (PdbStructure._add_atom st1 a w1) as [[st2 w2]|] eqn:Hadd;
      [|done].
    simplify_eq. eapply PdbStructure_add_atom_consistent; [|exact Hadd].
    eapply consistent_same_tree; [exact Htree|exact Htbl|].
    by eapply open_pending_model_consistent. }
  destruct (find_at_0 pdb_line "MODEL").
  { unfold_M. intros Hr.
    assert (∀ n, n = Z.of_nat (length (models st)) →
              consistent (_reset_residue_numbers (_reset_atom_numbers
                (_add_model st (Model.__init__ n))))) as Hnew.
    { intros n Hn. eapply consistent_ext;
        [..|by apply (add_model_consistent st n)]; done. }
    destruct (_current_model st) as [i|] eqn:Hi.
    - destruct (current_model st) as [cm|] eqn:Hcm; [|done].
      simpl in Hr. simplify_eq. apply Hnew. apply numbered_current; [|done].
      apply Hs.
    - simpl in Hr. simplify_eq. apply Hnew.
      destruct Hs as (_ & _ & _ & Hcur). rewrite Hi in Hcur.
      by destruct (length (models st)). }
  assert (∀ (k : PdbStructure.t → M (PdbStructure.t * option load_state * control)),
    (∀ s0 w0, k s0 w0 = Ok (st', state', ctl, w') → s0 = st') →
    (self ← lift (finalize_current_model st); k self) w
    = Ok (st', state', ctl, w') → consistent st') as Hend.
  { intros k Hk. unfold_M.
    destruct (finalize_current_model st) as [s0|] eqn:Hfin; [|done].
    intros <-%Hk. by eapply finalize_current_model_consistent. }
  destruct (find_at_0 pdb_line "ENDMDL").
  { apply Hend. intros s0 w0. unfold_M.
    destruct (load_all_models s0); by intros [= <-]. }
  destruct (find_at_0 pdb_line "END").
  { apply Hend. intros s0 w0. unfold_M.
    destruct (load_all_models s0); by intros [= <-]. }
  clear Hend.
  destruct (is_ter_line pdb_line).
  { unfold deref. unfold_M. intros Hr.
    repeat (case_match; simplify_eq/=; try done).
    match goal with
    | Hm : models st !! ?i = Some ?cm, Hc : Model.chains ?cm !! ?j = Some ?cc,
      Ht : Chain._add_ter_record ?cc = Ok ?cc' |- _ =>
        assert (consistent_model cm) as Hcm
          by (destruct Hs as [Hall _];
              by eapply (Forall_lookup_1 _ _ _ _ Hall));
        assert (consistent_chain (Model.number cm) cc) as Hcc
          by (destruct Hcm as [Hall _];
              by eapply (Forall_lookup_1 _ _ _ _ Hall));
        destruct (Chain_add_ter_record_consistent _ _ _ Hcc Ht)
          as [Hcc' Hid];
        eapply consistent_ext;
          [..|apply (insert_model_consistent st i cm); [exact Hs|exact Hm| |]];
          [done|done|done| |done];
        by apply insert_chain_consistent with cc
    end. }
  destruct (find_at_0 pdb_line "CRYST1").
  { unfold_M. intros Hr.
    repeat (case_match; simplify_eq/=; try done).
    all: by eapply consistent_ext; [..|exact Hs]. }
  destruct (find_at_0 pdb_line "CONECT").
  { unfold deref. unfold_M. intros Hr.
    destruct (read_connect _ _ _ _) as [[[atoms st1] w1]|] eqn:Hrc; [|done].
    pose proof (read_connect_tree _ _ _ _ _ _ _ Hrc) as Htree.
    pose proof (read_connect_table _ _ _ _ _ _ _ Hrc) as Htbl.
    assert (consistent st1) as Hs1 by by eapply consistent_same_tree.
    repeat (case_match; simplify_eq/=; try done).
    match goal with
    | Hm : models st1 !! ?i = Some ?cm |- _ =>
        apply (insert_model_consistent st1 i cm); [done|done| |done];
        apply set_connects_consistent;
        destruct Hs1 as [Hall _]; by eapply (Forall_lookup_1 _ _ _ _ Hall)
    end. }
  unfold_M. by intros [= <-].
Qed.

Lemma for_lines_consistent (lines : list string) :
  ∀ st state w st' rest w',
    consistent st → for_lines st state lines w = Ok (st', rest, w') →
    consistent st'.
Proof.
  induction lines as [|l lines IH]; intros st state w st' rest w' Hs.
  - simpl. unfold_M. by intros [= <-].
  - rewrite for_lines_cons.
    destruct (loop_body st state l w) as [[[[st1 state1] ctl] w1]|] eqn:Hb;
      [|done].
    apply loop_body_consistent in Hb; [|done].
    destruct ctl; [by apply IH|]. by intros [= <-].
Qed.

Lemma load_consistent input load_all w s rest w' :
  PdbStructure__init__ input load_all w = Ok (s, rest, w') → consistent s.
Proof.
  unfold PdbStructure__init__, _load. intros Hr.
  apply M_bind_Ok in Hr as ([st1 rest1] & w1 & Hfor & Hfin).
  apply for_lines_consistent in Hfor.
  - revert Hfin. unfold_M.
    destruct (PdbStructure._finalize st1) as [s1|] eqn:Hf; [|done].
    intros [= <-]. by eapply PdbStructure_finalize_consistent.
  - split; [constructor|]. split; [by intros k|]. done.
Qed.

(** *** What a loaded Structure guarantees *)

Lemma consistent_chain_in (s : PdbStructure.t) (k j : nat) (m : Model.t)
    (c : Chain.t) :
  consistent s → models s !! k = Some m → Model.chains m !! j = Some c →
  consistent_model m ∧ Model.number m = Z.of_nat k
  ∧ consistent_chain (Z.of_nat k) c.
Proof.
  intros (Hall & _ & Hnum) Hm Hc.
  pose proof (Forall_lookup_1 _ _ _ _ Hall Hm) as Hcm.
  pose proof (numbered_lookup s k m Hnum Hm) as Hk.
  split; [done|]. split; [done|]. rewrite <- Hk.
  destruct Hcm as [Hchains _]. by eapply (Forall_lookup_1 _ _ _ _ Hchains).
Qed.

(** The models of a loaded Structure are numbered 0, 1, 2, ... in the
    order of the file, whatever the MODEL records say, and [get_model]
    finds each of them under its number and raises KeyError for any other
    number. *)
Theorem loaded_models_numbered (input : list string) (load_all : bool)
    (w : list warning) (s : PdbStructure.t) (rest : list string)
    (w' : list warning) :
  PdbStructure__init__ input load_all w = Ok (s, rest, w') →
  (∀ k m, models s !! k = Some m →
     Model.number m = Z.of_nat k ∧ get_model s (Z.of_nat k) = Ok m)
  ∧ (∀ n, n < 0 ∨ Z.of_nat (length (models s)) ≤ n →
       get_model s n = Raise KeyError).
Proof.
  intros (Hall & Htbl & Hnum)%load_consistent. split.
  - intros k m Hm. split; [by apply (numbered_lookup s)|].
    unfold get_model. apply table_get_Ok. exists k. split; [|done].
    rewrite Htbl. apply find_first_Some. exists m. split; [done|]. split.
    + apply Z.eqb_eq. by apply (numbered_lookup s).
    + intros j y Hj Hy. apply Z.eqb_neq.
      rewrite (numbered_lookup s j y Hnum Hy). lia.
  - intros n Hn. unfold get_model.
    assert (models_by_number s !! n = None) as ->; [|done].
    rewrite Htbl. apply find_first_None, Forall_lookup. intros j y Hy.
    apply Z.eqb_neq. rewrite (numbered_lookup s j y Hnum Hy).
    apply lookup_lt_Some in Hy. lia.
Qed.

(** In a model of a loaded Structure, [get_chain] returns the first chain
    that carries the id (a model holds several chains of one id when a
    TER record or another chain came in between), and raises KeyError
    exactly when no chain carries it. *)
Theorem loaded_get_chain_first (input : list string) (load_all : bool)
    (w : list warning) (s : PdbStructure.t) (rest : list string)
    (w' : list warning) (k : nat) (m : Model.t) (id : ascii) :
  PdbStructure__init__ input load_all w = Ok (s, rest, w') →
  models s !! k = Some m →
  (∀ c, Model.get_chain m id = Ok c
        ↔ ∃ i, Model.chains m !! i = Some c ∧ Chain.chain_id c = id
               ∧ ∀ j c0, (j < i)%nat → Model.chains m !! j = Some c0 →
                   Chain.chain_id c0 ≠ id)
  ∧ (Model.get_chain m id = Raise KeyError
     ↔ ∀ c, c ∈ Model.chains m → Chain.chain_id c ≠ id).
Proof.
  intros (Hall & _)%load_consistent Hm.
  destruct (Forall_lookup_1 _ _ _ _ Hall Hm) as [_ Htbl].
  unfold Model.get_chain. split.
  - intros c. rewrite table_get_Ok. split.
    + intros (i & Hi & Hc). exists i. split; [done|].
      rewrite Htbl in Hi. apply find_first_Some in Hi as (x & Hx & Hfx & Hlt).
      simplify_eq. split; [by apply Ascii.eqb_eq|].
      intros j c0 Hj Hc0. apply Ascii.eqb_neq. by apply (Hlt j).
    + intros (i & Hc & Hid & Hlt). exists i. split; [|done].
      rewrite Htbl. apply find_first_Some. exists c. split; [done|].
      split; [by apply Ascii.eqb_eq|].
      intros j c0 Hj Hc0. apply Ascii.eqb_neq. by apply (Hlt j).
  - rewrite table_get_KeyError.
    + rewrite Htbl, find_first_None, Forall_forall.
      split; intros Hno c Hc; apply Ascii.eqb_neq; by apply Hno.
    + intros i Hi. rewrite Htbl in Hi.
      apply find_first_lt in Hi as (x & -> & _). by eexists.
Qed.

(** In a chain of a loaded Structure, indexing by a residue number
    returns the first residue of that number (a chain holds several when
    they differ in their insertion code, or when the numbering starts
    again), and raises KeyError exactly when no residue has it. *)
Theorem loaded_get_residue_first (input : list string) (load_all : bool)
    (w : list warning) (s : PdbStructure.t) (rest : list string)
    (w' : list warning) (k j : nat) (m : Model.t) (c : Chain.t) (n : Z) :
  PdbStructure__init__ input load_all w = Ok (s, rest, w') →
  models s !! k = Some m → Model.chains m !! j = Some c →
  (∀ r, Chain.__getitem__ c n = Ok r
        ↔ ∃ i, Chain.residues c !! i = Some r ∧ Residue.number r = n
               ∧ ∀ i0 r0, (i0 < i)%nat → Chain.residues c !! i0 = Some r0 →
                   Residue.number r0 ≠ n)
  ∧ (Chain.__getitem__ c n = Raise KeyError
     ↔ ∀ r, r ∈ Chain.residues c → Residue.number r ≠ n).
Proof.
  intros Hs%load_consistent Hm Hc.
  destruct (consistent_chain_in s k j m c Hs Hm Hc)
    as (_ & _ & _ & Htbl & _).
  unfold Chain.__getitem__. split.
  - intros r. rewrite table_get_Ok. split.
    + intros (i & Hi & Hr). exists i. split; [done|].
      rewrite Htbl in Hi. apply find_first_Some in Hi as (x & Hx & Hfx & Hlt).
      simplify_eq. split; [by apply Z.eqb_eq|].
      intros i0 r0 Hi0 Hr0. apply Z.eqb_neq. by apply (Hlt i0).
    + intros (i & Hr & Hid & Hlt). exists i. split; [|done].
      rewrite Htbl. apply find_first_Some. exists r. split; [done|].
      split; [by apply Z.eqb_eq|].
      intros i0 r0 Hi0 Hr0. apply Z.eqb_neq. by apply (Hlt i0).
  - rewrite table_get_KeyError.
    + rewrite Htbl, find_first_None, Forall_forall.
      split; intros Hno r Hr; apply Z.eqb_neq; by apply Hno.
    + intros i Hi. rewrite Htbl in Hi.
      apply find_first_lt in Hi as (x & -> & _). by eexists.
Qed.

(** In a residue of a loaded Structure, [get_atom] returns the last atom
    that has the name, with or without its spaces, and raises KeyError
    exactly when no atom has it. *)
Theorem loaded_get_atom_last (input : list string) (load_all : bool)
    (w : list warning) (s : PdbStructure.t) (rest : list string)
    (w' : list warning) (k j i : nat) (m : Model.t) (c : Chain.t)
    (r : Residue.t) (name : string) :
  PdbStructure__init__ input load_all w = Ok (s, rest, w') →
  models s !! k = Some m → Model.chains m !! j = Some c →
  Chain.residues c !! i = Some r →
  (∀ a, Residue.get_atom r name = Ok a
        ↔ ∃ p, Residue.atoms r !! p = Some a
               ∧ (Atom.name a = name ∨ Atom.name_with_spaces a = name)
               ∧ ∀ q b, (p < q)%nat → Residue.atoms r !! q = Some b →
                   Atom.name b ≠ name ∧ Atom.name_with_spaces b ≠ name)
  ∧ (Residue.get_atom r name = Raise KeyError
     ↔ ∀ a, a ∈ Residue.atoms r →
         Atom.name a ≠ name ∧ Atom.name_with_spaces a ≠ name).
Proof.
  intros Hs%load_consistent Hm Hc Hr.
  destruct (consistent_chain_in s k j m c Hs Hm Hc) as (_ & _ & Hres & _).
  destruct (Forall_lookup_1 _ _ _ _ Hres Hr) as [_ Htbl].
  assert (∀ a, called name a = true
               ↔ Atom.name a = name ∨ Atom.name_with_spaces a = name)
    as Hcalled.
  { intros a. unfold called. by rewrite orb_true_iff, !String.eqb_eq. }
  assert (∀ a, called name a = false
               ↔ Atom.name a ≠ name ∧ Atom.name_with_spaces a ≠ name)
    as Hnot.
  { intros a. unfold called. by rewrite orb_false_iff, !String.eqb_neq. }
  unfold Residue.get_atom. split.
  - intros a. rewrite table_get_Ok. split.
    + intros (p & Hp & Ha). exists p. split; [done|].
      rewrite Htbl in Hp. apply find_last_Some in Hp as (x & Hx & Hfx & Hlt).
      simplify_eq. split; [by apply Hcalled|].
      intros q b Hq Hb. apply Hnot. by apply (Hlt q).
    + intros (p & Ha & Hid & Hlt). exists p. split; [|done].
      rewrite Htbl. apply find_last_Some. exists a. split; [done|].
      split; [by apply Hcalled|].
      intros q b Hq Hb. apply Hnot. by apply (Hlt q).
  - rewrite table_get_KeyError.
    + rewrite Htbl. split.
      * intros Hnone a [q Ha]%list_elem_of_lookup. apply Hnot.
        destruct (called name a) eqn:Hca; [|done].
        assert (is_Some (find_last (called name) (Residue.atoms r)))
          as [? ?]; [|congruence].
        clear -Ha Hca. revert q Ha.
        induction (Residue.atoms r) as [|z l IH]; intros q Ha; [done|].
        simpl. destruct q as [|q]; simpl in Ha.
        -- simplify_eq. rewrite Hca. by destruct (find_last _ l).
        -- destruct (IH q Ha) as [? ->]. by eexists.
      * intros Hno. destruct (find_last _ _) as [p|] eqn:Hp; [|done].
        apply find_last_lt in Hp as (x & Hx & Hfx).
        assert (called name x = false); [|congruence].
        apply Hnot, Hno. by eapply list_elem_of_lookup_2.
    + intros p Hp. rewrite Htbl in Hp.
      apply find_last_lt in Hp as (x & -> & _). by eexists.
Qed.

(** Every atom of a loaded Structure carries the number of the model, the
    id of the chain, and the number and insertion code of the residue
    that hold it. *)
Theorem loaded_atoms_placed (input : list string) (load_all : bool)
    (w : list warning) (s : PdbStructure.t) (rest : list string)
    (w' : list warning) (k j i : nat) (m : Model.t) (c : Chain.t)
    (r : Residue.t) (a : Atom.t) :
  PdbStructure__init__ input load_all w = Ok (s, rest, w') →
  models s !! k = Some m → Model.chains m !! j = Some c →
  Chain.residues c !! i = Some r → a ∈ Residue.atoms r →
  Atom.model_number a = Some (Model.number m)
  ∧ Atom.chain_id a = Chain.chain_id c
  ∧ Atom.residue_number a = Residue.number r
  ∧ Atom.insertion_code a = Residue.insertion_code r.
Proof.
  intros Hs%load_consistent Hm Hc Hr Ha.
  destruct (consistent_chain_in s k j m c Hs Hm Hc) as (_ & -> & Hres & _).
  destruct (Forall_lookup_1 _ _ _ _ Hres Hr) as [Hatoms _].
  rewrite Forall_forall in Hatoms. by apply Hatoms.
Qed.
End consistency_facts.

(** ** Every loaded Structure is well formed *)

Section well_formed_facts.
Context `{Externals}.
Import PdbStructure.

#[local] Transparent open_pending_model Chain._add_ter_record.

Lemma Atom__init___wf_atom pdb_line st w a y w' :
  is_atom_line pdb_line = true → wf_structure st →
  Atom__init__ pdb_line (Some st) w = Ok (a, y, w') → wf_atom a.
Proof.
  intros Hatom Hwf Hr.
  pose proof (Atom__init___Ok_wf_record _ _ _ _ _ _ Hatom Hr) as Hrec.
  destruct (Atom__init___returns pdb_line st w Hrec Hwf)
    as (a2 & st2 & w2 & Hr2 & Ha & _).
  rewrite Hr in Hr2. by simplify_eq.
Qed.

Lemma PdbStructure_add_atom_wf st a w st' w' :
  wf_structure st → wf_atom a →
  PdbStructure._add_atom st a w = Ok (st', w') → wf_structure st'.
Proof.
  intros Hwf Ha Hr.
  destruct (PdbStructure_add_atom_returns st a w Hwf Ha)
    as (st2 & w2 & Hr2 & Hwf2 & _).
  rewrite Hr in Hr2. by simplify_eq.
Qed.

Lemma finalize_current_model_wf st st' :
  wf_structure st → finalize_current_model st = Ok st' → wf_structure st'.
Proof.
  intros Hwf Hr.
  destruct (finalize_current_model_shape _ _ Hr) as [_ Hcur].
  destruct (finalize_current_model_returns st Hwf Hcur)
    as (st2 & Hr2 & Hwf2 & _).
  rewrite Hr in Hr2. by simplify_eq.
Qed.

#[local] Transparent Chain._add_ter_record.

Lemma Chain_add_ter_record_wf (cc cc' : Chain.t) :
  wf_chain cc → Chain._add_ter_record cc = Ok cc' → wf_chain cc'.
Proof.
  intros Hwf. unfold Chain._add_ter_record. intros Hr.
  destruct (Chain_finalize_returns (Chain.set_has_ter_record true cc))
    as (c2 & Hr2 & Hwf2); [done|].
  rewrite Hr in Hr2. by simplify_eq.
Qed.

#[local] Opaque Chain._add_ter_record.

Lemma wf_model_insert_chain (cm : Model.t) (j : nat) (cc' : Chain.t) :
  wf_model cm → wf_chain cc' →
  wf_model (Model.set_chains (<[j := cc']> (Model.chains cm)) cm).
Proof.
  intros (Hcur & Hsome & Hall) Hcc'. split; [|split]; unfold Model.set_chains;
    cbn [Model.chains Model._current_chain].
  - intros i Hi. rewrite length_insert. by apply Hcur.
  - intros Hne. apply Hsome. intros Hnil. by rewrite Hnil in Hne.
  - by apply Forall_insert.
Qed.

Lemma wf_structure_insert_model (st : PdbStructure.t) (i : nat)
    (cm' : Model.t) :
  wf_structure st → wf_model cm' →
  wf_structure (set_models (<[i := cm']> (models st)) st).
Proof.
  intros (Hcur & Hall) Hcm'. split; unfold set_models;
    cbn [models _current_model].
  - intros k Hk. rewrite length_insert. by apply Hcur.
  - by apply Forall_insert.
Qed.

Lemma PdbStructure_finalize_wf st st' :
  wf_structure st → PdbStructure._finalize st = Ok st' → wf_structure st'.
Proof.
  intros [Hcur Hall]. unfold PdbStructure._finalize.
  destruct (mapM_returns Model._finalize wf_model wf_model _
              Model_finalize_returns Hall) as (l' & Hl' & Hwf).
  rewrite Hl'. intros [= <-].
  pose proof (mapM_result_length _ _ _ Hl') as Hlen.
  split; unfold set_models; cbn [models _current_model]; [|done].
  intros k Hk. rewrite Hlen. by apply Hcur.
Qed.

Lemma open_pending_model_wf st state st' :
  wf_structure st → open_pending_model st state = Ok st' → wf_structure st'.
Proof.
  intros Hwf. unfold open_pending_model. destruct state as [[]|].
  - destruct (current_model st) as [cm|]; [|done]. intros [= <-].
    by apply wf_structure_add_model.
  - by intros [= <-].
Qed.

#[local] Opaque open_pending_model PdbStructure._add_atom
  finalize_current_model read_connect.

Lemma loop_body_wf st state pdb_line w st' state' ctl w' :
  wf_structure st →
  loop_body st state pdb_line w = Ok (st', state', ctl, w') →
  wf_structure st'.
Proof.
  intros Hs. unfold loop_body.
  destruct (is_atom_line pdb_line) eqn:Hatom.
  { unfold_M. intros Hr.
    destruct (open_pending_model st state) as [st0|] eqn:Hop; [|done].
    apply open_pending_model_wf in Hop; [|done].
    destruct (Atom__init__ _ _ _) as [[[a y] w1]|] eqn:Ha; [|done].
    pose proof (Atom__init___tree _ _ _ _ _ _ Ha) as (st1 & -> & Htree).
    pose proof (Atom__init___wf_atom _ _ _ _ _ _ Hatom Hop Ha) as Hwfa.
    simpl in Hr.
    destruct (PdbStructure._add_atom st1 a w1) as [[st2 w2]|] eqn:Hadd;
      [|done].
    simplify_eq. eapply PdbStructure_add_atom_wf; [|exact Hwfa|exact Hadd].
    by eapply wf_structure_same_tree. }
  destruct (find_at_0 pdb_line "MODEL").
  { unfold_M. intros Hr.
    assert (∀ n, wf_structure (_reset_residue_numbers (_reset_atom_numbers
                   (_add_model st (Model.__init__ n))))) as Hnew.
    { intros n. eapply wf_structure_same_tree;
        [|by apply (wf_structure_add_model st n)]. done. }
    destruct (_current_model st) as [i|] eqn:Hi.
    - destruct (current_model st) as [cm|] eqn:Hcm; [|done].
      simpl in Hr. simplify_eq. apply Hnew.
    - simpl in Hr. simplify_eq. apply Hnew. }
  assert (∀ (k : PdbStructure.t → M (PdbStructure.t * option load_state * control)),
    (∀ s0 w0, k s0 w0 = Ok (st', state', ctl, w') → s0 = st') →
    (self ← lift (finalize_current_model st); k self) w
    = Ok (st', state', ctl, w') → wf_structure st') as Hend.
  { intros k Hk. unfold_M.
    destruct (finalize_current_model st) as [s0|] eqn:Hfin; [|done].
    intros <-%Hk. by eapply finalize_current_model_wf. }
  destruct (find_at_0 pdb_line "ENDMDL").
  { apply Hend. intros s0 w0. unfold_M.
    destruct (load_all_models s0); by intros [= <-]. }
  destruct (find_at_0 pdb_line "END").
  { apply Hend. intros s0 w0. unfold_M.
    destruct (load_all_models s0); by intros [= <-]. }
  clear Hend.
  destruct (is_ter_line pdb_line).
  { unfold deref. unfold_M. intros Hr.
    repeat (case_match; simplify_eq/=; try done).
    match goal with
    | Hm : models st !! ?i = Some ?cm, Hc : Model.chains ?cm !! ?j = Some ?cc,
      Ht : Chain._add_ter_record ?cc = Ok ?cc' |- _ =>
        assert (wf_model cm) as Hcm
          by (destruct Hs as [_ Hall];
              by eapply (Forall_lookup_1 _ _ _ _ Hall));
        assert (wf_chain cc) as Hcc
          by (destruct Hcm as (_ & _ & Hall);
              by eapply (Forall_lookup_1 _ _ _ _ Hall));
        pose proof (Chain_add_ter_record_wf _ _ Hcc Ht) as Hcc';
        eapply wf_structure_same_tree;
          [|apply (wf_structure_insert_model st i); [exact Hs|]];
          [done|];
        by apply wf_model_insert_chain
    end. }
  destruct (find_at_0 pdb_line "CRYST1").
  { unfold_M. intros Hr.
    repeat (case_match; simplify_eq/=; try done).
    all: by eapply wf_structure_same_tree; [|exact Hs]. }
  destruct (find_at_0 pdb_line "CONECT").
  { unfold deref. unfold_M. intros Hr.
    destruct (read_connect _ _ _ _) as [[[atoms st1] w1]|] eqn:Hrc; [|done].
    pose proof (read_connect_tree _ _ _ _ _ _ _ Hrc) as Htree.
    assert (wf_structure st1) as Hs1 by by eapply wf_structure_same_tree.
    repeat (case_match; simplify_eq/=; try done).
    match goal with
    | Hm : models st1 !! ?i = Some ?cm |- _ =>
        apply (wf_structure_insert_model st1 i); [done|];
        assert (wf_model cm) as Hcm
          by (destruct Hs1 as [_ Hall];
              by eapply (Forall_lookup_1 _ _ _ _ Hall));
        exact Hcm
    end. }
  unfold_M. by intros [= <-].
Qed.

Lemma for_lines_wf (lines : list string) :
  ∀ st state w st' rest w',
    wf_structure st → for_lines st state lines w = Ok (st', rest, w') →
    wf_structure st'.
Proof.
  induction lines as [|l lines IH]; intros st state w st' rest w' Hs.
  - simpl. unfold_M. by intros [= <-].
  - rewrite for_lines_cons.
    destruct (loop_body st state l w) as [[[[st1 state1] ctl] w1]|] eqn:Hb;
      [|done].
    apply loop_body_wf in Hb; [|done].
    destruct ctl; [by apply IH|]. by intros [= <-].
Qed.

Lemma load_wf input load_all w s rest w' :
  PdbStructure__init__ input load_all w = Ok (s, rest, w') → wf_structure s.
Proof.
  unfold PdbStructure__init__, _load. intros Hr.
  apply M_bind_Ok in Hr as ([st1 rest1] & w1 & Hfor & Hfin).
  apply for_lines_wf in Hfor.
  - revert Hfin. unfold_M.
    destruct (PdbStructure._finalize st1) as [s1|] eqn:Hf; [|done].
    intros [= <-]. by eapply PdbStructure_finalize_wf.
  - split; [by intros i|constructor].
Qed.

(** *** What a well-formed Structure guarantees *)

(** No chain of a loaded Structure is without residues, and no residue
    without atoms. *)
Theorem loaded_nothing_empty (input : list string) (load_all : bool)
    (w : list warning) (s : PdbStructure.t) (rest : list string)
    (w' : list warning) (k j : nat) (m : Model.t) (c : Chain.t) :
  PdbStructure__init__ input load_all w = Ok (s, rest, w') →
  models s !! k = Some m → Model.chains m !! j = Some c →
  Chain.residues c ≠ []
  ∧ ∀ r, r ∈ Chain.residues c → Residue.atoms r ≠ [].
Proof.
  intros [_ Hall]%load_wf Hm Hc.
  destruct (Forall_lookup_1 _ _ _ _ Hall Hm) as (_ & _ & Hchains).
  destruct (Forall_lookup_1 _ _ _ _ Hchains Hc) as [(i & _ & Hlt) Hres].
  split.
  - intros Hnil. rewrite Hnil in Hlt. simpl in Hlt. lia.
  - intros r Hr. rewrite Forall_forall in Hres. by apply Hres.
Qed.

Lemma mapM_app_Ok {A B} (f : A → result B) (l1 l2 : list A)
    (k1 k2 : list B) :
  mapM f l1 = Ok k1 → mapM f l2 = Ok k2 → mapM f (l1 ++ l2) = Ok (k1 ++ k2).
Proof.
  revert k1. induction l1 as [|x l1 IH]; intros k1; simpl.
  - by intros [= <-].
  - unfold mbind, result_bind at 1. destruct (f x) as [y|]; [|done].
    unfold mbind, result_bind at 1.
    destruct (mapM f l1) as [k|]; [|done]. intros [= <-] H2.
    unfold mbind, result_bind at 1. unfold mbind, result_bind at 1.
    by rewrite (IH k eq_refl H2).
Qed.

Lemma concat_bind_Ok {C} (m : result (list (list C))) (zs : list C) :
  (ls ← m; mret (concat ls)) = Ok zs ↔ ∃ ls, m = Ok ls ∧ concat ls = zs.
Proof.
  destruct m as [ls|e]; simpl.
  - split; [intros [= <-]; by exists ls|]. by intros (? & [= <-] & <-).
  - split; [done|]. by intros (? & ? & _).
Qed.

Lemma mapM_cons_Ok {A B} (f : A → result B) (x : A) (l : list A) (y : B)
    (k : list B) :
  f x = Ok y → mapM f l = Ok k → mapM f (x :: l) = Ok (y :: k).
Proof. intros Hy Hk. simpl. by rewrite Hy; simpl; rewrite Hk. Qed.

(** A generator that chains the generators of its members. *)
Lemma mapM_concat_bind {A B C} (f : B → result (list C)) (h : A → list B)
    (g : A → result (list C)) (P : A → Prop) (l : list A) :
  (∀ x, P x → ∃ ys, g x = Ok ys
                    ∧ (ls ← mapM f (h x); mret (concat ls)) = Ok ys) →
  Forall P l →
  ∃ zs, (ls ← mapM g l; mret (concat ls)) = Ok zs
        ∧ (ls ← mapM f (l ≫= h); mret (concat ls)) = Ok zs.
Proof.
  intros Hg. induction 1 as [|x l Hx _ (zs & IH1 & IH2)].
  - by exists [].
  - destruct (Hg x Hx) as (ys & Hgx & Hys). exists (ys ++ zs).
    apply concat_bind_Ok in IH1 as (k & Hk & <-).
    apply concat_bind_Ok in IH2 as (k2 & Hk2 & Hc2).
    apply concat_bind_Ok in Hys as (k1 & Hk1 & <-).
    split; apply concat_bind_Ok.
    + exists (concat k1 :: k). split; [by apply mapM_cons_Ok|done].
    + exists (k1 ++ k2). split.
      * change ((x :: l) ≫= h) with (h x ++ (l ≫= h)).
        by apply mapM_app_Ok.
      * by rewrite concat_app, Hc2.
Qed.

Lemma od_get_keys {V} (d : list (ascii * V)) :
  ∃ l, mapM (λ k, getitem (od_get k d)) (od_keys d) = Ok l
       ∧ length l = length d.
Proof.
  unfold od_keys.
  assert (∀ d0 : list (ascii * V),
    (∀ k, k ∈ map fst d0 → is_Some (od_get k d)) →
    ∃ l, mapM (λ k, getitem (od_get k d)) (map fst d0) = Ok l
         ∧ length l = length d0) as Hgen.
  { induction d0 as [|[k v] d0 IH]; intros Hin; simpl; [by exists []|].
    destruct (Hin k) as [x Hx]; [by left|].
    destruct IH as (l & Hl & Hlen); [intros k' Hk'; apply Hin; by right|].
    exists (x :: l). split; [|simpl; by rewrite Hlen].
    apply (mapM_cons_Ok (λ k, getitem (od_get k d))); [by rewrite Hx|done]. }
  apply Hgen. clear Hgen. induction d as [|[k v] d IH]; simpl.
  - by intros k Hk%elem_of_nil.
  - intros k' [->|Hk']%elem_of_cons.
    + rewrite Ascii.eqb_refl. by eexists.
    + destruct (Ascii.eqb k' k); [by eexists|by apply IH].
Qed.

Lemma Atom_positions_return (include_alt_loc : bool) (a : Atom.t) :
  wf_atom a →
  ∃ ps, (if include_alt_loc then Atom.iter_positions a
         else p ← Atom.get_position a; mret [p]) = Ok ps.
Proof.
  intros [[loc Hloc] _]. destruct include_alt_loc.
  - unfold Atom.iter_positions, Atom.iter_locations.
    destruct (od_get_keys (Atom.locations a)) as (l & -> & _). by eexists.
  - unfold Atom.get_position, Atom.location, Atom.get_location. simpl.
    rewrite Hloc. by eexists.
Qed.

Lemma Forall_List_filter {A} (P : A → Prop) (f : A → bool) (l : list A) :
  Forall P l → Forall P (List.filter f l).
Proof.
  induction 1 as [|x l Hx _ IH]; simpl; [constructor|].
  destruct (f x); [by constructor|done].
Qed.

Lemma Residue_positions (include_alt_loc : bool) (r : Residue.t) :
  wf_residue r →
  ∃ ys, Residue.iter_positions r include_alt_loc = Ok ys
    ∧ (ls ← mapM (λ a, if include_alt_loc then Atom.iter_positions a
                       else p ← Atom.get_position a; mret [p])
              (Residue.__iter__ r);
       mret (concat ls)) = Ok ys.
Proof.
  intros [(_ & _ & Hall) _]. unfold Residue.iter_positions.
  destruct (mapM_returns
              (λ a, if include_alt_loc then Atom.iter_positions a
                    else p ← Atom.get_position a; mret [p])
              wf_atom (λ _, True) (Residue.__iter__ r))
    as (l & Hl & _).
  - intros a Ha.
    destruct (Atom_positions_return include_alt_loc a Ha) as [ps Hps].
    by exists ps.
  - by apply Forall_List_filter.
  - rewrite Hl. by eexists.
Qed.

Lemma Chain_positions (include_alt_loc : bool) (c : Chain.t) :
  wf_chain c →
  ∃ ys, Chain.iter_positions c include_alt_loc = Ok ys
    ∧ (ls ← mapM (λ a, if include_alt_loc then Atom.iter_positions a
                       else p ← Atom.get_position a; mret [p])
              (Chain.iter_atoms c);
       mret (concat ls)) = Ok ys.
Proof.
  intros [_ Hall].
  apply (mapM_concat_bind _ Residue.__iter__
           (λ r, Residue.iter_positions r include_alt_loc) wf_residue);
    [|done].
  intros r Hr. by apply Residue_positions.
Qed.

Lemma Model_positions (include_alt_loc : bool) (m : Model.t) :
  wf_model m →
  ∃ ys, Model.iter_positions m include_alt_loc = Ok ys
    ∧ (ls ← mapM (λ a, if include_alt_loc then Atom.iter_positions a
                       else p ← Atom.get_position a; mret [p])
              (Model.iter_atoms m);
       mret (concat ls)) = Ok ys.
Proof.
  intros (_ & _ & Hall).
  apply (mapM_concat_bind _ Chain.iter_atoms
           (λ c, Chain.iter_positions c include_alt_loc) wf_chain);
    [|done].
  intros c Hc. by apply Chain_positions.
Qed.

Lemma mapM_singletons {A B} (f : A → result B) (l : list A) (k : list B) :
  (ls ← mapM (λ a, p ← f a; mret [p]) l; mret (concat ls)) = Ok k →
  mapM f l = Ok k.
Proof.
  intros (ls & Hls%mapM_Forall2 & <-)%concat_bind_Ok.
  induction Hls as [|x ps l ls Hx _ IH]; [done|].
  destruct (f x) as [y|] eqn:Hy; [|done]. injection Hx as <-.
  by apply mapM_cons_Ok.
Qed.

(** On a loaded Structure [iter_positions] does not raise.  It yields the
    position of each atom that [iter_atoms] yields, in the same order;
    asked for the alternate locations too, it yields for each of these
    atoms the positions of all its locations. *)
Theorem loaded_positions (input : list string) (load_all : bool)
    (w : list warning) (s : PdbStructure.t) (rest : list string)
    (w' : list warning) (use_all_models : bool) :
  PdbStructure__init__ input load_all w = Ok (s, rest, w') →
  (∃ l, PdbStructure.iter_positions s use_all_models false = Ok l
        ∧ mapM Atom.get_position (PdbStructure.iter_atoms s use_all_models)
          = Ok l)
  ∧ (∃ l ls, PdbStructure.iter_positions s use_all_models true = Ok l
             ∧ mapM Atom.iter_positions
                 (PdbStructure.iter_atoms s use_all_models) = Ok ls
             ∧ l = concat ls).
Proof.
  intros [_ Hall]%load_wf.
  assert (Forall wf_model (iter_models s use_all_models)) as Hiter.
  { unfold iter_models, PdbStructure.__iter__.
    destruct use_all_models; [done|].
    destruct Hall; constructor; [done|constructor]. }
  assert (∀ ia, ∃ zs,
    PdbStructure.iter_positions s use_all_models ia = Ok zs
    ∧ (ls ← mapM (λ a, if ia then Atom.iter_positions a
                       else p ← Atom.get_position a; mret [p])
              (PdbStructure.iter_atoms s use_all_models);
       mret (concat ls)) = Ok zs) as Hpos.
  { intros ia.
    apply (mapM_concat_bind _ Model.iter_atoms
             (λ m, Model.iter_positions m ia) wf_model); [|done].
    intros m Hm. by apply Model_positions. }
  split.
  - destruct (Hpos false) as (l & Hl & Hat). exists l. split; [done|].
    by apply mapM_singletons.
  - destruct (Hpos true) as (l & Hl & Hat).
    apply concat_bind_Ok in Hat as (ls & Hls & <-). by exists (concat ls), ls.
Qed.
End well_formed_facts.

(** ** No coordinate record is lost *)

Lemma bind_length_insert {A B} (h : A → list B) (l : list A) (i : nat)
    (x y : A) (d : nat) :
  l !! i = Some x → length (h y) = (length (h x) + d)%nat →
  length (<[i := y]> l ≫= h) = (length (l ≫= h) + d)%nat.
Proof.
  revert i. induction l as [|z l IH]; intros i Hi Hy; [done|].
  destruct i as [|i]; simpl in Hi.
  - simplify_eq. change (<[0%nat := y]> (x :: l)) with (y :: l).
    rewrite !bind_cons, !length_app, Hy. lia.
  - change (<[S i := y]> (z :: l)) with (z :: <[i := y]> l).
    rewrite !bind_cons, !length_app, (IH i Hi Hy). lia.
Qed.

Lemma bind_Forall2_related {A B} (h : A → list B) (l l' : list A) :
  Forall2 (λ x y, h x = h y) l l' → l ≫= h = l' ≫= h.
Proof.
  induction 1 as [|x y l l' Hxy _ IH]; [done|].
  by rewrite !bind_cons, Hxy, IH.
Qed.

Lemma bind_snoc {A B} (h : A → list B) (l : list A) (x : A) :
  (l ++ [x]) ≫= h = (l ≫= h) ++ h x.
Proof. rewrite bind_app, bind_cons. by rewrite app_nil_r. Qed.

Lemma od_set_length_fresh {V} (k : ascii) (v : V) (d : list (ascii * V)) :
  od_get k d = None → length (od_set k v d) = S (length d).
Proof.
  induction d as [|[k' v'] d IH]; simpl; [done|].
  destruct (Ascii.eqb k k'); [done|]. intros Hd. simpl. by rewrite IH.
Qed.

Section counting_facts.
Context `{Externals}.
Import PdbStructure.

#[local] Transparent Atom__init__ assert.
#[local] Opaque _read_atom_number _read_residue_number to_float strip
  slice Atom._pdb_string String.rev get_by_symbol index py_int.

Lemma Atom__init___single_location pdb_line y0 w a y w' :
  Atom__init__ pdb_line y0 w = Ok (a, y, w') → single_location a.
Proof.
  unfold Atom__init__. unfold_M. intros Hr.
  repeat (case_match; simplify_eq/=; try done); by eexists.
Qed.

#[local] Opaque Atom__init__.

Lemma Residue_add_atom_count (r r' : Residue.t) (a : Atom.t) :
  single_location a → Residue._add_atom r a = Ok r' →
  length (residue_locations r') = S (length (residue_locations r)).
Proof.
  intros (loc & Hloc & Hali).
  unfold Residue._add_atom, Atom.get_alternate_location_indicator,
    Atom.location, Atom.get_location, assert, deref, od_mem,
    residue_locations.
  rewrite Hloc. simpl. rewrite Ascii.eqb_refl. simpl. unfold_M. rewrite Hali.
  intros Hr.
  repeat (case_match; simplify_eq/=; try done);
    first
      [ rewrite bind_snoc, length_app, Hloc; simpl; lia
      | match goal with
        | Ha2 : Residue.atoms r !! ?n = Some ?a2 |- _ =>
            rewrite (bind_length_insert _ _ n a2 _ 1%nat); [lia|done|];
            simpl; rewrite od_set_length_fresh; [lia|done]
        end ].
Qed.

Lemma residue_locations_set_flags (r r' : Residue.t) :
  Forall2 (λ x y, Atom.locations x = Atom.locations y)
    (Residue.atoms r) (Residue.atoms r') →
  residue_locations r' = residue_locations r.
Proof.
  intros Hrel. unfold residue_locations. symmetry.
  by apply bind_Forall2_related.
Qed.

Lemma Residue_finalize_count (r : Residue.t) :
  residue_locations (Residue._finalize r) = residue_locations r.
Proof.
  apply residue_locations_set_flags. apply Forall2_same_length_lookup. split.
  - symmetry. apply Residue_finalize_flags.
  - intros i x y Hx Hy. rewrite Residue_finalize_atom, Hx in Hy.
    by simplify_eq/=.
Qed.

Lemma new_residue_count (a : Atom.t) (r0 : Residue.t) :
  Chain.new_residue a = Ok r0 → residue_locations r0 = [].
Proof.
  unfold Chain.new_residue, Residue.__init__, Residue.set_name_with_spaces.
  unfold_M. intros Hr. by repeat (case_match; simplify_eq/=; try done).
Qed.

Lemma Chain_add_atom_count (c c' : Chain.t) (a : Atom.t) w w' :
  single_location a → Chain._add_atom c a w = Ok (c', w') →
  length (chain_locations c') = S (length (chain_locations c)).
Proof.
  intros Ha
    (c1 & k & cr & cr' & Hc1 & _ & Hcr & Hadd & ->)%Chain_add_atom_shape.
  assert (chain_locations c1 = chain_locations c) as <-.
  { destruct Hc1 as [->|(r0 & Hnew & ->)]; [done|].
    unfold chain_locations, Chain._add_residue. cbn [Chain.residues].
    rewrite bind_snoc.
    assert (residue_locations
              match Chain.residues c with
              | [] => Residue.set_is_first_in_chain true r0
              | _ :: _ => r0
              end = []) as ->; [|by rewrite app_nil_r].
    rewrite <- (new_residue_count _ _ Hnew). by destruct (Chain.residues c). }
  unfold chain_locations, Chain.set_residues. cbn [Chain.residues].
  rewrite (bind_length_insert _ _ k cr _ 1%nat); [lia|done|].
  rewrite (Residue_add_atom_count _ _ _ Ha Hadd). lia.
Qed.

Lemma Chain_finalize_count (c c' : Chain.t) :
  Chain._finalize c = Ok c' → chain_locations c' = chain_locations c.
Proof.
  intros Hfin. unfold chain_locations. symmetry.
  apply bind_Forall2_related, Forall2_same_length_lookup. split.
  - symmetry. by apply (Chain_finalize_residue c c' 0).
  - intros i x y Hx Hy.
    destruct (Chain_finalize_residue c c' i Hfin) as (Hi & _).
    rewrite Hi, Hx in Hy. injection Hy as <-.
    rewrite Residue_finalize_count. by repeat case_match.
Qed.

Lemma Model_add_atom_count (m m' : Model.t) (a : Atom.t) w w' :
  single_location a → Model._add_atom m a w = Ok (m', w') →
  length (model_locations m') = S (length (model_locations m)).
Proof.
  intros Ha
    (m1 & j & cc & cc' & w1 & Hm1 & _ & Hcc & _ & Hadd & ->)%Model_add_atom_shape.
  assert (model_locations m1 = model_locations m) as <-.
  { destruct Hm1 as [->| ->]; [done|].
    unfold model_locations, Model._add_chain. cbn [Model.chains].
    rewrite bind_snoc. by rewrite app_nil_r. }
  unfold model_locations, Model.set_chains. cbn [Model.chains].
  rewrite (bind_length_insert _ _ j cc _ 1%nat); [lia|done|].
  rewrite (Chain_add_atom_count _ _ _ _ _ Ha Hadd). lia.
Qed.

Lemma Model_finalize_count (m m' : Model.t) :
  Model._finalize m = Ok m' → model_locations m' = model_locations m.
Proof.
  unfold Model._finalize.
  destruct (mapM Chain._finalize (Model.chains m)) as [l|] eqn:Hl; [|done].
  intros [= <-]. apply mapM_Forall2 in Hl.
  unfold model_locations, Model.set_chains. cbn [Model.chains]. symmetry.
  apply bind_Forall2_related. eapply Forall2_impl; [exact Hl|].
  intros x y Hfin. simpl in Hfin. symmetry. by apply Chain_finalize_count.
Qed.

Lemma single_location_set_model_number (n : Z) (a : Atom.t) :
  single_location a → single_location (Atom.set_model_number n a).
Proof. done. Qed.

Lemma add_model_count (s : PdbStructure.t) (n : Z) :
  all_locations (_add_model s (Model.__init__ n)) = all_locations s.
Proof.
  unfold all_locations, _add_model. cbn [models].
  rewrite bind_snoc. by rewrite app_nil_r.
Qed.

#[local] Transparent PdbStructure._add_atom finalize_current_model
  open_pending_model Chain._add_ter_record.

Lemma PdbStructure_add_atom_count (s s' : PdbStructure.t) (a : Atom.t) w w' :
  single_location a → PdbStructure._add_atom s a w = Ok (s', w') →
  length (all_locations s') = S (length (all_locations s)).
Proof.
  intros Ha
    (s1 & i & cm & cm' & Hs1 & _ & Hcm & Hadd & ->)%PdbStructure_add_atom_shape.
  assert (all_locations s1 = all_locations s) as <-.
  { destruct Hs1 as [->|[_ ->]]; [done|]. apply add_model_count. }
  unfold all_locations, set_models. cbn [models].
  rewrite (bind_length_insert _ _ i cm _ 1%nat); [lia|done|].
  rewrite (Model_add_atom_count _ _ _ _ _
             (single_location_set_model_number _ _ Ha) Hadd). lia.
Qed.

Lemma insert_model_count (s : PdbStructure.t) (i : nat) (cm cm' : Model.t) :
  models s !! i = Some cm → model_locations cm' = model_locations cm →
  all_locations (set_models (<[i := cm']> (models s)) s) = all_locations s.
Proof.
  intros Hcm Heq. unfold all_locations, set_models. cbn [models]. symmetry.
  apply bind_Forall2_related.
  eapply Forall2_insert_related; [done|exact Hcm|done].
Qed.

Lemma finalize_current_model_count (s s' : PdbStructure.t) :
  finalize_current_model s = Ok s' → all_locations s' = all_locations s.
Proof.
  unfold finalize_current_model, attr, deref.
  destruct (_current_model s) as [i|]; [|done]. simpl.
  destruct (models s !! i) as [cm|] eqn:Hcm; [|done]. simpl.
  destruct (Model._finalize cm) as [cm'|] eqn:Hfin; [|done].
  intros [= <-]. apply insert_model_count with cm; [done|].
  by apply Model_finalize_count.
Qed.

Lemma PdbStructure_finalize_count (s s' : PdbStructure.t) :
  PdbStructure._finalize s = Ok s' → all_locations s' = all_locations s.
Proof.
  unfold PdbStructure._finalize.
  destruct (mapM Model._finalize (models s)) as [l|] eqn:Hl; [|done].
  intros [= <-]. apply mapM_Forall2 in Hl.
  unfold all_locations, set_models. cbn [models]. symmetry.
  apply bind_Forall2_related. eapply Forall2_impl; [exact Hl|].
  intros x y Hfin. simpl in Hfin. symmetry. by apply Model_finalize_count.
Qed.

Lemma open_pending_model_count st state st' :
  open_pending_model st state = Ok st' → all_locations st' = all_locations st.
Proof.
  unfold open_pending_model. destruct state as [[]|].
  - destruct (current_model st) as [cm|]; [|done]. intros [= <-].
    apply add_model_count.
  - by intros [= <-].
Qed.

Lemma all_locations_same_tree (st st' : PdbStructure.t) :
  same_tree st st' → all_locations st' = all_locations st.
Proof. intros (Hm & _). unfold all_locations. by rewrite Hm. Qed.

Lemma Chain_add_ter_record_count (cc cc' : Chain.t) :
  Chain._add_ter_record cc = Ok cc' → chain_locations cc' = chain_locations cc.
Proof.
  unfold Chain._add_ter_record. intros Hr.
  by apply Chain_finalize_count in Hr.
Qed.

#[local] Opaque open_pending_model PdbStructure._add_atom
  finalize_current_model Chain._add_ter_record read_connect.

(** One line of the loop: a coordinate record adds one Location, any
    other line none. *)
Lemma loop_body_count st state pdb_line w st' state' ctl w' :
  loop_body st state pdb_line w = Ok (st', state', ctl, w') →
  length (all_locations st')
  = (length (all_locations st)
     + if is_atom_line pdb_line then 1 else 0)%nat.
Proof.
  unfold loop_body.
  destruct (is_atom_line pdb_line) eqn:Hatom.
  { unfold_M. intros Hr.
    destruct (open_pending_model st state) as [st0|] eqn:Hop; [|done].
    apply open_pending_model_count in Hop.
    destruct (Atom__init__ _ _ _) as [[[a y] w1]|] eqn:Ha; [|done].
    pose proof (Atom__init___tree _ _ _ _ _ _ Ha) as (st1 & -> & Htree).
    pose proof (Atom__init___single_location _ _ _ _ _ _ Ha) as Hone.
    simpl in Hr.
    destruct (PdbStructure._add_atom st1 a w1) as [[st2 w2]|] eqn:Hadd;
      [|done].
    simplify_eq. rewrite (PdbStructure_add_atom_count _ _ _ _ _ Hone Hadd).
    rewrite (all_locations_same_tree _ _ Htree), Hop. lia. }
  rewrite Nat.add_0_r. intros Hr. f_equal. revert w Hr.
  destruct (find_at_0 pdb_line "MODEL").
  { unfold_M. intros w Hr.
    destruct (_current_model st) as [i|] eqn:Hi.
    - destruct (current_model st) as [cm|] eqn:Hcm; [|done].
      simpl in Hr. simplify_eq. apply (add_model_count st).
    - simpl in Hr. simplify_eq. apply (add_model_count st). }
  assert (∀ w (k : PdbStructure.t → M (PdbStructure.t * option load_state * control)),
    (∀ s0 w0, k s0 w0 = Ok (st', state', ctl, w') → s0 = st') →
    (self ← lift (finalize_current_model st); k self) w
    = Ok (st', state', ctl, w') → all_locations st' = all_locations st)
    as Hend.
  { intros w k Hk. unfold_M.
    destruct (finalize_current_model st) as [s0|] eqn:Hfin; [|done].
    intros <-%Hk. by apply finalize_current_model_count. }
  destruct (find_at_0 pdb_line "ENDMDL").
  { intros w. apply Hend. intros s0 w0. unfold_M.
    destruct (load_all_models s0); by intros [= <-]. }
  destruct (find_at_0 pdb_line "END").
  { intros w. apply Hend. intros s0 w0. unfold_M.
    destruct (load_all_models s0); by intros [= <-]. }
  clear Hend.
  destruct (is_ter_line pdb_line).
  { unfold deref. unfold_M. intros w Hr.
    repeat (case_match; simplify_eq/=; try done).
    match goal with
    | Hm : models st !! ?i = Some ?cm, Hc : Model.chains ?cm !! ?j = Some ?cc,
      Ht : Chain._add_ter_record ?cc = Ok ?cc' |- _ =>
        apply (insert_model_count st i cm); [done|];
        unfold model_locations, Model.set_chains; cbn [Model.chains];
        symmetry; apply bind_Forall2_related;
        eapply Forall2_insert_related; [done|exact Hc|];
        symmetry; by apply Chain_add_ter_record_count
    end. }
  destruct (find_at_0 pdb_line "CRYST1").
  { unfold_M. intros w Hr.
    by repeat (case_match; simplify_eq/=; try done). }
  destruct (find_at_0 pdb_line "CONECT").
  { unfold deref. unfold_M. intros w Hr.
    destruct (read_connect _ _ _ _) as [[[atoms st1] w1]|] eqn:Hrc; [|done].
    pose proof (read_connect_tree _ _ _ _ _ _ _ Hrc) as Htree.
    rewrite <- (all_locations_same_tree _ _ Htree).
    repeat (case_match; simplify_eq/=; try done).
    match goal with
    | Hm : models st1 !! ?i = Some ?cm |- _ =>
        by apply (insert_model_count st1 i cm)
    end. }
  unfold_M. by intros w [= <-].
Qed.

Lemma for_lines_count (lines : list string) :
  ∀ st state w st' rest w',
    for_lines st state lines w = Ok (st', rest, w') →
    ∃ read, lines = read ++ rest
      ∧ length (all_locations st')
        = (length (all_locations st)
           + length (List.filter is_atom_line read))%nat.
Proof.
  induction lines as [|l lines IH]; intros st state w st' rest w'.
  - simpl. unfold_M. intros [= <- <-]. exists []. split; [done|]. simpl. lia.
  - rewrite for_lines_cons.
    destruct (loop_body st state l w) as [[[[st1 state1] ctl] w1]|] eqn:Hb;
      [|done].
    apply loop_body_count in Hb. destruct ctl.
    + intros (read & -> & Hcount)%IH. exists (l :: read). split; [done|].
      rewrite Hcount, Hb. simpl. destruct (is_atom_line l); simpl; lia.
    + intros [= <- <-]. exists [l]. split; [done|].
      rewrite Hb. simpl. destruct (is_atom_line l); simpl; lia.
Qed.

(** The Locations that the atoms of a loaded Structure hold are as many
    as the coordinate records among the lines that were read: every
    ATOM or HETATM record is stored exactly once, as a new atom or as one
    more location of an atom of the same name. *)
Theorem loaded_locations_count (input : list string) (load_all : bool)
    (w : list warning) (s : PdbStructure.t) (rest : list string)
    (w' : list warning) :
  PdbStructure__init__ input load_all w = Ok (s, rest, w') →
  ∃ read, input = read ++ rest
    ∧ length (all_locations s) = length (List.filter is_atom_line read).
Proof.
  unfold PdbStructure__init__, _load. intros Hr.
  apply M_bind_Ok in Hr as ([st1 rest1] & w1 & Hfor & Hfin).
  apply for_lines_count in Hfor as (read & -> & Hcount).
  revert Hfin. unfold_M.
  destruct (PdbStructure._finalize st1) as [s1|] eqn:Hf; [|done].
  intros [= <- <-]. exists read. split; [done|].
  by rewrite (PdbStructure_finalize_count _ _ Hf), Hcount.
Qed.
End counting_facts.

(** ** The unit cell comes from the CRYST1 records *)

Lemma cryst1_not_earlier (l : string) :
  find_at_0 l "CRYST1" = true →
  is_atom_line l = false ∧ find_at_0 l "MODEL" = false
  ∧ find_at_0 l "ENDMDL" = false ∧ find_at_0 l "END" = false
  ∧ is_ter_line l = false.
Proof.
  unfold find_at_0, is_atom_line, is_ter_line.
  intros (s & -> & _)%prefix_cons_inv.
  unfold find_at_0. rewrite !prefix_cons_ne; [done | discriminate..].
Qed.

Section unit_cell_facts.
Context `{Externals}.
Import PdbStructure.

#[local] Transparent _read_atom_number _read_residue_number Atom__init__
  read_connect PdbStructure._add_atom finalize_current_model
  open_pending_model.
#[local] Opaque py_int hybrid36 _overflow_residue_check
  _check_overflow_eligibility table_get index.

Lemma _read_atom_number_cell num_str st w n y w' :
  _read_atom_number num_str (Some st) w = Ok (n, y, w') →
  ∃ st', y = Some st' ∧ unit_cell st' = unit_cell st.
Proof.
  unfold _read_atom_number, call. unfold_M. intros Hr.
  repeat (case_match; simplify_eq/=);
    by (eexists; split; [reflexivity|]).
Qed.

Lemma _read_residue_number_cell num_str st a w n y w' :
  _read_residue_number num_str (Some st) a w = Ok (n, y, w') →
  ∃ st', y = Some st' ∧ unit_cell st' = unit_cell st.
Proof.
  unfold _read_residue_number, call. unfold_M. intros Hr.
  repeat (case_match; simplify_eq/=);
    by (eexists; split; [reflexivity|]).
Qed.

#[local] Opaque _read_atom_number _read_residue_number to_float strip
  slice Atom._pdb_string String.rev assert get_by_symbol.

Lemma Atom__init___cell pdb_line st w a y w' :
  Atom__init__ pdb_line (Some st) w = Ok (a, y, w') →
  ∃ st', y = Some st' ∧ unit_cell st' = unit_cell st.
Proof.
  unfold Atom__init__. unfold_M. intros Hr.
  destruct (_read_atom_number _ _ _) as [[[n1 y1] w1]|] eqn:H1;
    [|discriminate].
  apply _read_atom_number_cell in H1 as (st1 & -> & Ht1).
  repeat (case_match; simplify_eq/=; try done);
    match goal with
    | Hq : _read_residue_number _ (Some _) _ _ = Ok _ |- _ =>
        apply _read_residue_number_cell in Hq as (st2 & ? & Ht2)
    end; simplify_eq;
    (eexists; split; [reflexivity|]);
    unfold unit_cell, get_unit_cell_lengths, get_unit_cell_angles in *;
    simpl in *; congruence.
Qed.

Lemma read_connect_cell pdb_line positions :
  ∀ st w l st' w',
    read_connect pdb_line positions st w = Ok (l, st', w') →
    unit_cell st' = unit_cell st.
Proof.
  induction positions as [|pos r IH]; intros st w l st' w' Hr; simpl in Hr.
  - unfold_M. by simplify_eq.
  - unfold_M.
    destruct (_read_atom_number _ _ _) as [[[n y] w1]|] eqn:H1; [|discriminate].
    apply _read_atom_number_cell in H1 as (st1 & -> & Ht1).
    destruct (read_connect _ _ _ _) as [[[l2 st2] w2]|] eqn:H2; [|discriminate].
    apply IH in H2. simpl in Hr. injection Hr as _ <- _.
    by rewrite H2.
Qed.

Lemma PdbStructure_add_atom_cell (s s' : PdbStructure.t) (a : Atom.t) w w' :
  PdbStructure._add_atom s a w = Ok (s', w') → unit_cell s' = unit_cell s.
Proof.
  intros (s1 & i & cm & cm' & Hs1 & _ & _ & _ & ->)%PdbStructure_add_atom_shape.
  by destruct Hs1 as [->|[_ ->]].
Qed.

Lemma finalize_current_model_cell (s s' : PdbStructure.t) :
  finalize_current_model s = Ok s' → unit_cell s' = unit_cell s.
Proof.
  unfold finalize_current_model, attr, deref. unfold_M. intros Hr.
  by repeat (case_match; simplify_eq/=; try done).
Qed.

Lemma open_pending_model_cell st state st' :
  open_pending_model st state = Ok st' → unit_cell st' = unit_cell st.
Proof.
  unfold open_pending_model. unfold_M. intros Hr.
  by repeat (case_match; simplify_eq/=; try done).
Qed.

Lemma PdbStructure_finalize_cell (s s' : PdbStructure.t) :
  PdbStructure._finalize s = Ok s' → unit_cell s' = unit_cell s.
Proof.
  unfold PdbStructure._finalize.
  destruct (mapM Model._finalize (models s)); [|done]. by intros [= <-].
Qed.

#[local] Opaque open_pending_model PdbStructure._add_atom Atom__init__
  finalize_current_model Chain._add_ter_record read_connect.

(** One line of the loop: a CRYST1 record sets both halves of the unit
    cell, any other line leaves them. *)
Lemma loop_body_cell st state pdb_line w st' state' ctl w' :
  loop_body st state pdb_line w = Ok (st', state', ctl, w') →
  if find_at_0 pdb_line "CRYST1"
  then ∃ lengths angles, unit_cell st' = (Some lengths, Some angles)
  else unit_cell st' = unit_cell st.
Proof.
  destruct (find_at_0 pdb_line "CRYST1") eqn:Hcryst.
  { destruct (cryst1_not_earlier _ Hcryst) as (Ha & Hm & He1 & He2 & Ht).
    unfold loop_body. rewrite Ha, Hm, He1, He2, Ht, Hcryst. unfold_M.
    intros Hr. repeat (case_match; simplify_eq/=; try done).
    by eexists _, _. }
  unfold loop_body. rewrite Hcryst.
  destruct (is_atom_line pdb_line).
  { unfold_M. intros Hr.
    destruct (open_pending_model st state) as [st0|] eqn:Hop; [|done].
    apply open_pending_model_cell in Hop.
    destruct (Atom__init__ _ _ _) as [[[a y] w1]|] eqn:Ha; [|done].
    apply Atom__init___cell in Ha as (st1 & -> & Hcell).
    simpl in Hr.
    destruct (PdbStructure._add_atom st1 a w1) as [[st2 w2]|] eqn:Hadd;
      [|done].
    assert (st2 = st') as <- by congruence.
    by rewrite (PdbStructure_add_atom_cell _ _ _ _ _ Hadd), Hcell. }
  destruct (find_at_0 pdb_line "MODEL").
  { unfold_M. intros Hr.
    by repeat (case_match; simplify_eq/=; try done). }
  assert (∀ (k : PdbStructure.t → M (PdbStructure.t * option load_state * control)),
    (∀ s0 w0, k s0 w0 = Ok (st', state', ctl, w') → s0 = st') →
    (self ← lift (finalize_current_model st); k self) w
    = Ok (st', state', ctl, w') → unit_cell st' = unit_cell st) as Hend.
  { intros k Hk. unfold_M.
    destruct (finalize_current_model st) as [s0|] eqn:Hfin; [|done].
    intros <-%Hk. by apply finalize_current_model_cell. }
  destruct (find_at_0 pdb_line "ENDMDL").
  { apply Hend. intros s0 w0. unfold_M.
    destruct (load_all_models s0); by intros [= <-]. }
  destruct (find_at_0 pdb_line "END").
  { apply Hend. intros s0 w0. unfold_M.
    destruct (load_all_models s0); by intros [= <-]. }
  clear Hend.
  destruct (is_ter_line pdb_line).
  { unfold deref. unfold_M. intros Hr.
    by repeat (case_match; simplify_eq/=; try done). }
  destruct (find_at_0 pdb_line "CONECT").
  { unfold deref. unfold_M. intros Hr.
    destruct (read_connect _ _ _ _) as [[[atoms st1] w1]|] eqn:Hrc; [|done].
    apply read_connect_cell in Hrc. rewrite <- Hrc.
    by repeat (case_match; simplify_eq/=; try done). }
  unfold_M. by intros [= <-].
Qed.

Lemma for_lines_cell (lines : list string) :
  ∀ st state w st' rest w',
    for_lines st state lines w = Ok (st', rest, w') →
    ∃ read, lines = read ++ rest
      ∧ (Forall (λ l, find_at_0 l "CRYST1" = false) read →
         unit_cell st' = unit_cell st)
      ∧ (Exists (λ l, find_at_0 l "CRYST1" = true) read →
         ∃ lengths angles, unit_cell st' = (Some lengths, Some angles)).
Proof.
  induction lines as [|l lines IH]; intros st state w st' rest w'.
  - simpl. unfold_M. intros [= <- <-]. exists []. split; [done|].
    split; [done|]. by intros ?%Exists_nil.
  - rewrite for_lines_cons.
    destruct (loop_body st state l w) as [[[[st1 state1] ctl] w1]|] eqn:Hb;
      [|done].
    apply loop_body_cell in Hb. destruct ctl.
    + intros (read & -> & Hnone & Hsome)%IH. exists (l :: read).
      split; [done|]. split.
      * intros [Hl Hread]%Forall_cons. rewrite Hl in Hb.
        rewrite (Hnone Hread). exact Hb.
      * intros [Hl|Hread]%Exists_cons; [|by apply Hsome].
        rewrite Hl in Hb. destruct Hb as (x & y & Hxy).
        destruct (decide (Exists (λ l0, find_at_0 l0 "CRYST1" = true) read))
          as [Hex|Hno]; [by apply Hsome|].
        rewrite Hnone; [by eexists _, _|].
        apply Forall_forall. intros z Hz.
        destruct (find_at_0 z "CRYST1") eqn:Hzc; [|done].
        destruct Hno. apply Exists_exists. by exists z.
    + intros [= <- <-]. exists [l]. split; [done|]. split.
      * intros [Hl _]%Forall_cons. by rewrite Hl in Hb.
      * intros [Hl|?%Exists_nil]%Exists_cons; [|done]. by rewrite Hl in Hb.
Qed.

(** A loaded Structure has a unit cell exactly when a CRYST1 record was
    among the lines read, and then it has both the lengths and the
    angles. *)
Theorem loaded_unit_cell (input : list string) (load_all : bool)
    (w : list warning) (s : PdbStructure.t) (rest : list string)
    (w' : list warning) :
  PdbStructure__init__ input load_all w = Ok (s, rest, w') →
  ∃ read, input = read ++ rest
    ∧ (Forall (λ l, find_at_0 l "CRYST1" = false) read →
       get_unit_cell_lengths s = None ∧ get_unit_cell_angles s = None)
    ∧ (Exists (λ l, find_at_0 l "CRYST1" = true) read →
       is_Some (get_unit_cell_lengths s) ∧ is_Some (get_unit_cell_angles s)).
Proof.
  unfold PdbStructure__init__, _load. intros Hr.
  apply M_bind_Ok in Hr as ([st1 rest1] & w1 & Hfor & Hfin).
  apply for_lines_cell in Hfor as (read & -> & Hnone & Hsome).
  revert Hfin. unfold_M.
  destruct (PdbStructure._finalize st1) as [s1|] eqn:Hf; [|done].
  intros [= <- <-]. exists read. split; [done|].
  apply PdbStructure_finalize_cell in Hf. split.
  - intros Hall. specialize (Hnone Hall). rewrite Hnone in Hf.
    by injection Hf as -> ->.
  - intros Hex. destruct (Hsome Hex) as (x & y & Hxy). rewrite Hxy in Hf.
    injection Hf as -> ->. by split; eexists.
Qed.
End unit_cell_facts.

(** ** Residues by number and insertion code *)

Lemma append_last_inj (s1 s2 : string) (c1 c2 : ascii) :
  s1 +:+ String c1 "" = s2 +:+ String c2 "" → s1 = s2 ∧ c1 = c2.
Proof.
  revert s2. induction s1 as [|a s1 IH]; intros [|b s2]; simpl.
  - by intros [= ->].
  - destruct s2; discriminate.
  - destruct s1; discriminate.
  - intros [= -> Hrest]. destruct (IH _ Hrest) as [-> ->]. done.
Qed.

Lemma to_int_not_nil (n : Z) :
  Z.to_int n ≠ Decimal.Pos Decimal.Nil ∧ Z.to_int n ≠ Decimal.Neg Decimal.Nil.
Proof.
  split; intros Hnil; pose proof (DecimalZ.of_to n) as Hn;
    rewrite Hnil in Hn; simpl in Hn; subst n; discriminate Hnil.
Qed.

Lemma str_of_Z_inj (n m : Z) : str_of_Z n = str_of_Z m → n = m.
Proof.
  unfold str_of_Z. intros Heq. apply DecimalZ.to_int_inj.
  destruct (to_int_not_nil n) as [Hn1 Hn2].
  destruct (to_int_not_nil m) as [Hm1 Hm2].
  pose proof (NilZero.isi _ Hn1 Hn2) as Hn.
  rewrite Heq, (NilZero.isi _ Hm1 Hm2) in Hn. by injection Hn.
Qed.

Section residue_key_facts.
Context `{Externals}.
Import PdbStructure.

Lemma num_icode_eqb (r : Residue.t) (n : Z) (ic : ascii) :
  String.eqb (num_icode r) (str_of_Z n +:+ String ic "") = true
  ↔ Residue.number r = n ∧ Residue.insertion_code r = ic.
Proof.
  rewrite String.eqb_eq. unfold num_icode. split.
  - intros [Hn%str_of_Z_inj Hc]%append_last_inj. done.
  - by intros [-> ->].
Qed.

(** In a chain of a loaded Structure, [get_residue] returns the first
    residue that has the number and the insertion code (the key, the
    number in decimal followed by the code, is the same for no other
    pair), and raises KeyError exactly when no residue has both. *)
Theorem loaded_get_residue_by_icode (input : list string) (load_all : bool)
    (w : list warning) (s : PdbStructure.t) (rest : list string)
    (w' : list warning) (k j : nat) (m : Model.t) (c : Chain.t) (n : Z)
    (ic : ascii) :
  PdbStructure__init__ input load_all w = Ok (s, rest, w') →
  models s !! k = Some m → Model.chains m !! j = Some c →
  (∀ r, Chain.get_residue c n ic = Ok r
        ↔ ∃ i, Chain.residues c !! i = Some r
               ∧ Residue.number r = n ∧ Residue.insertion_code r = ic
               ∧ ∀ i0 r0, (i0 < i)%nat → Chain.residues c !! i0 = Some r0 →
                   ¬ (Residue.number r0 = n ∧ Residue.insertion_code r0 = ic))
  ∧ (Chain.get_residue c n ic = Raise KeyError
     ↔ ∀ r, r ∈ Chain.residues c →
         ¬ (Residue.number r = n ∧ Residue.insertion_code r = ic)).
Proof.
  intros Hs%load_consistent Hm Hc.
  destruct (consistent_chain_in s k j m c Hs Hm Hc)
    as (_ & _ & _ & _ & Htbl).
  assert (∀ r, String.eqb (num_icode r) (str_of_Z n +:+ String ic "") = false
               ↔ ¬ (Residue.number r = n ∧ Residue.insertion_code r = ic))
    as Hnot.
  { intros r. rewrite <- num_icode_eqb. by destruct (String.eqb _ _). }
  unfold Chain.get_residue. split.
  - intros r. rewrite table_get_Ok. split.
    + intros (i & Hi & Hr). exists i. split; [done|].
      rewrite Htbl in Hi. apply find_first_Some in Hi as (x & Hx & Hfx & Hlt).
      simplify_eq. apply num_icode_eqb in Hfx as [Hn Hic].
      split; [done|]. split; [done|].
      intros i0 r0 Hi0 Hr0. apply Hnot. by apply (Hlt i0).
    + intros (i & Hr & Hn & Hic & Hlt). exists i. split; [|done].
      rewrite Htbl. apply find_first_Some. exists r. split; [done|].
      split; [by apply num_icode_eqb|].
      intros i0 r0 Hi0 Hr0. apply Hnot. by apply (Hlt i0).
  - rewrite table_get_KeyError.
    + rewrite Htbl, find_first_None, Forall_forall.
      split; intros Hno r Hr; apply Hnot; by apply Hno.
    + intros i Hi. rewrite Htbl in Hi.
      apply find_first_lt in Hi as (x & -> & _). by eexists.
Qed.
End residue_key_facts.

(** ** Writing a loaded Structure *)

Section write_loaded.
Context `{Externals}.
Import PdbStructure.

Lemma for_skip {A} (body : A → W unit) (l : list A) (st : wstate) :
  Forall (λ x, ∀ st0, body x st0 = (Ok tt, st0)) l →
  for_ l body st = (Ok tt, st).
Proof.
  induction 1 as [|x l Hx _ IH]; [done|]. simpl.
  unfold mbind, W_bind. by rewrite Hx.
Qed.

Lemma for_raises {A} (body : A → W unit) (pre post : list A) (x : A)
    (st : wstate) (e : exn) :
  Forall (λ x, ∀ st0, body x st0 = (Ok tt, st0)) pre →
  (∀ st0, ∃ st1, body x st0 = (Raise e, st1)) →
  ∃ st1, for_ (pre ++ x :: post) body st = (Raise e, st1).
Proof.
  intros Hpre Hx. induction Hpre as [|y pre Hy _ IH]; simpl.
  - destruct (Hx st) as [st1 Hst1]. exists st1.
    unfold mbind, W_bind. by rewrite Hst1.
  - unfold mbind, W_bind. rewrite Hy. exact IH.
Qed.

Lemma Model_write_raises (m : Model.t) (st : wstate) :
  wf_model m → Model.chains m ≠ [] →
  ∃ st1, Model.write m st = (Raise AttributeError, st1).
Proof.
  intros (_ & _ & Hall) Hne.
  destruct (Model.chains m) as [|c cs] eqn:Hm; [done|].
  apply Forall_cons in Hall as [[(k & _ & Hlt) Hres] _].
  destruct (Chain.residues c) as [|r rs] eqn:Hc; [simpl in Hlt; lia|].
  apply Forall_cons in Hres as [[_ Hatoms] _].
  destruct (Residue.atoms r) as [|a l] eqn:Hr; [done|].
  eexists. unfold Model.write. rewrite Hm. simpl.
  unfold Chain.write. rewrite Hc. simpl.
  unfold Residue.write. rewrite Hr. reflexivity.
Qed.

(** Writing a loaded Structure: when no model holds a chain, only the END
    line is printed; as soon as one model holds a chain, the call raises
    AttributeError. *)
Theorem loaded_write (input : list string) (load_all : bool)
    (w : list warning) (s : PdbStructure.t) (rest : list string)
    (w' : list warning) (st : wstate) :
  PdbStructure__init__ input load_all w = Ok (s, rest, w') →
  (Forall (λ m, Model.chains m = []) (models s) →
   PdbStructure.write s st
   = (Ok tt, {| val := val st; out := out st ++ ["END"] |}))
  ∧ (Exists (λ m, Model.chains m ≠ []) (models s) →
     ∃ st1, PdbStructure.write s st = (Raise AttributeError, st1)).
Proof.
  intros [_ Hall]%load_wf. unfold PdbStructure.write.
  set (body := λ model : Model.t, match Model.chains model with
                                   | [] => mret tt
                                   | _ :: _ => _
                                   end).
  split.
  - intros Hempty. unfold mbind, W_bind. rewrite for_skip; [done|].
    eapply Forall_impl; [exact Hempty|]. intros m Hm st0. unfold body.
    by rewrite Hm.
  - intros Hex.
    assert (∃ pre m post, models s = pre ++ m :: post
              ∧ Forall (λ m, Model.chains m = []) pre
              ∧ Model.chains m ≠ []) as (pre & m & post & Hs & Hpre & Hm).
    { clear -Hex. induction Hex as [m l Hm|m l _ IH].
      - by exists [], m, l.
      - destruct (Model.chains m) as [|c cs] eqn:Hc.
        + destruct IH as (pre & m' & post & -> & Hpre & Hm').
          exists (m :: pre), m', post. split; [done|].
          split; [by constructor|done].
        + exists [], m, l. split; [done|]. split; [constructor|].
          by rewrite Hc. }
    assert (wf_model m) as Hwf.
    { rewrite Hs in Hall. by apply Forall_app in Hall as [_ [? _]%Forall_cons]. }
    destruct (for_raises body pre post m st AttributeError) as [st1 Hst1].
    + eapply Forall_impl; [exact Hpre|]. intros x Hx st0. unfold body.
      by rewrite Hx.
    + intros st0. unfold body.
      destruct (Model.chains m) as [|c cs] eqn:Hc; [done|].
      unfold mbind, W_bind.
      destruct (1 <? Z.of_nat (length (models s))).
      * simpl.
        destruct (Model_write_raises m
                    {| val := val st0;
                       out := out st0
                              ++ ["MODEL     " +:+ fmt_d 4 (Model.number m)] |}
                    Hwf) as [st2 ->]; [by rewrite Hc|]. by eexists.
      * simpl. destruct (Model_write_raises m st0 Hwf) as [st2 ->];
          [by rewrite Hc|]. by eexists.
    + exists st1. unfold mbind, W_bind. rewrite <- Hs in Hst1.
      by rewrite Hst1.
Qed.
End write_loaded.

(** ** Properties of every residue of a loaded Structure *)

Section residue_invariant.
Context `{Externals}.
Import PdbStructure.
Variable P : Residue.t → Prop.
Hypothesis P_new : ∀ a r0 r1 r,
  single_location a → Chain.new_residue a = Ok r0 →
  r1 = r0 ∨ r1 = Residue.set_is_first_in_chain true r0 →
  Residue._add_atom r1 a = Ok r → P r.
Hypothesis P_add : ∀ r a r',
  single_location a → P r → Residue._add_atom r a = Ok r' → P r'.
Hypothesis P_first : ∀ r, P r → P (Residue.set_is_first_in_chain true r).
Hypothesis P_final : ∀ r, P r → P (Residue.set_is_final_in_chain true r).
Hypothesis P_finalize : ∀ r, P r → P (Residue._finalize r).

Lemma Chain_add_atom_residues (c c' : Chain.t) (a : Atom.t) w w' :
  single_location a → Forall P (Chain.residues c) →
  Chain._add_atom c a w = Ok (c', w') → Forall P (Chain.residues c').
Proof.
  intros Ha Hall
    (c1 & k & cr & cr' & Hc1 & Hcur & Hcr & Hadd & ->)%Chain_add_atom_shape.
  unfold Chain.set_residues. cbn [Chain.residues].
  destruct Hc1 as [->|(r0 & Hnew & ->)].
  - apply Forall_insert; [done|].
    eapply P_add; [done| |exact Hadd]. by eapply (Forall_lookup_1 _ _ _ _ Hall).
  - revert Hcur Hcr. unfold Chain._add_residue.
    cbn [Chain.residues Chain._current_residue].
    set (r1 := match Chain.residues c with
               | [] => Residue.set_is_first_in_chain true r0
               | _ => r0
               end).
    intros [= <-]. rewrite lookup_app_r, Nat.sub_diag by done.
    intros [= <-].
    assert (P cr') as Hcr'.
    { eapply (P_new a r0 r1); [done|done| |exact Hadd].
      subst r1. destruct (Chain.residues c); [by right|by left]. }
    apply Forall_lookup. intros i x Hx.
    destruct (decide (i = length (Chain.residues c))) as [->|Hne].
    + rewrite list_lookup_insert_eq in Hx
        by (rewrite length_app; simpl; lia).
      by simplify_eq.
    + rewrite list_lookup_insert_ne in Hx by done.
      apply lookup_snoc_Some in Hx as [[_ Hx]|[? _]]; [|done].
      by eapply (Forall_lookup_1 _ _ _ _ Hall).
Qed.

Lemma Chain_finalize_residues (c c' : Chain.t) :
  Forall P (Chain.residues c) → Chain._finalize c = Ok c' →
  Forall P (Chain.residues c').
Proof.
  intros Hall Hfin. apply Forall_lookup. intros i y Hy.
  destruct (Chain_finalize_residue c c' i Hfin) as (Hi & _).
  rewrite Hi in Hy.
  destruct (Chain.residues c !! i) as [x|] eqn:Hx; [|done].
  injection Hy as <-. pose proof (Forall_lookup_1 _ _ _ _ Hall Hx) as HPx.
  apply P_finalize. repeat case_match; auto.
Qed.

Lemma Model_add_atom_residues (m m' : Model.t) (a : Atom.t) w w' :
  single_location a → residues_of_model P m →
  Model._add_atom m a w = Ok (m', w') → residues_of_model P m'.
Proof.
  intros Ha Hall
    (m1 & j & cc & cc' & w1 & Hm1 & _ & Hcc & _ & Hadd & ->)%Model_add_atom_shape.
  assert (residues_of_model P m1) as Hall1.
  { destruct Hm1 as [->| ->]; [done|]. unfold residues_of_model. simpl.
    apply Forall_app. split; [done|]. by repeat constructor. }
  unfold residues_of_model, Model.set_chains. cbn [Model.chains].
  apply Forall_insert; [done|].
  eapply Chain_add_atom_residues; [done| |exact Hadd].
  by eapply (Forall_lookup_1 _ _ _ _ Hall1).
Qed.

Lemma Model_finalize_residues (m m' : Model.t) :
  residues_of_model P m → Model._finalize m = Ok m' →
  residues_of_model P m'.
Proof.
  intros Hall. unfold Model._finalize.
  destruct (mapM Chain._finalize (Model.chains m)) as [l|] eqn:Hl; [|done].
  intros [= <-]. apply mapM_Forall2 in Hl.
  unfold residues_of_model, Model.set_chains. cbn [Model.chains].
  apply Forall_lookup. intros i y Hy.
  destruct (Forall2_lookup_r _ _ _ _ _ Hl Hy) as (x & Hx & Hfin).
  eapply Chain_finalize_residues; [|exact Hfin].
  by eapply (Forall_lookup_1 _ _ _ _ Hall).
Qed.

Lemma add_model_residues (s : PdbStructure.t) (n : Z) :
  residues_of_structure P s →
  residues_of_structure P (_add_model s (Model.__init__ n)).
Proof.
  intros Hall. unfold residues_of_structure, _add_model. cbn [models].
  apply Forall_app. split; [done|]. by repeat constructor.
Qed.

Lemma PdbStructure_add_atom_residues (s s' : PdbStructure.t) (a : Atom.t)
    w w' :
  single_location a → residues_of_structure P s →
  PdbStructure._add_atom s a w = Ok (s', w') → residues_of_structure P s'.
Proof.
  intros Ha Hall
    (s1 & i & cm & cm' & Hs1 & _ & Hcm & Hadd & ->)%PdbStructure_add_atom_shape.
  assert (residues_of_structure P s1) as Hall1.
  { destruct Hs1 as [->|[_ ->]]; [done|]. by apply add_model_residues. }
  unfold residues_of_structure, set_models. cbn [models].
  apply Forall_insert; [done|].
  eapply Model_add_atom_residues; [|  |exact Hadd]; [done|].
  by eapply (Forall_lookup_1 _ _ _ _ Hall1).
Qed.

Lemma residues_same_tree (st st' : PdbStructure.t) :
  same_tree st st' → residues_of_structure P st →
  residues_of_structure P st'.
Proof. intros (Hm & _). unfold residues_of_structure. by rewrite Hm. Qed.

#[local] Transparent finalize_current_model open_pending_model
  Chain._add_ter_record.

Lemma finalize_current_model_residues (s s' : PdbStructure.t) :
  residues_of_structure P s → finalize_current_model s = Ok s' →
  residues_of_structure P s'.
Proof.
  intros Hall. unfold finalize_current_model, attr, deref.
  destruct (_current_model s) as [i|]; [|done]. simpl.
  destruct (models s !! i) as [cm|] eqn:Hcm; [|done]. simpl.
  destruct (Model._finalize cm) as [cm'|] eqn:Hfin; [|done].
  intros [= <-]. unfold residues_of_structure, set_models. cbn [models].
  apply Forall_insert; [done|].
  eapply Model_finalize_residues; [|exact Hfin].
  by eapply (Forall_lookup_1 _ _ _ _ Hall).
Qed.

Lemma PdbStructure_finalize_residues (s s' : PdbStructure.t) :
  residues_of_structure P s → PdbStructure._finalize s = Ok s' →
  residues_of_structure P s'.
Proof.
  intros Hall. unfold PdbStructure._finalize.
  destruct (mapM Model._finalize (models s)) as [l|] eqn:Hl; [|done].
  intros [= <-]. apply mapM_Forall2 in Hl.
  unfold residues_of_structure, set_models. cbn [models].
  apply Forall_lookup. intros i y Hy.
  destruct (Forall2_lookup_r _ _ _ _ _ Hl Hy) as (x & Hx & Hfin).
  eapply Model_finalize_residues; [|exact Hfin].
  by eapply (Forall_lookup_1 _ _ _ _ Hall).
Qed.

Lemma open_pending_model_residues st state st' :
  residues_of_structure P st → open_pending_model st state = Ok st' →
  residues_of_structure P st'.
Proof.
  intros Hall. unfold open_pending_model. destruct state as [[]|].
  - destruct (current_model st) as [cm|]; [|done]. intros [= <-].
    by apply add_model_residues.
  - by intros [= <-].
Qed.

Lemma Chain_add_ter_record_residues (cc cc' : Chain.t) :
  Forall P (Chain.residues cc) → Chain._add_ter_record cc = Ok cc' →
  Forall P (Chain.residues cc').
Proof.
  intros Hall. unfold Chain._add_ter_record.
  by apply (Chain_finalize_residues (Chain.set_has_ter_record true cc)).
Qed.

#[local] Opaque open_pending_model PdbStructure._add_atom Atom__init__
  finalize_current_model Chain._add_ter_record read_connect.

Lemma loop_body_residues st state pdb_line w st' state' ctl w' :
  residues_of_structure P st →
  loop_body st state pdb_line w = Ok (st', state', ctl, w') →
  residues_of_structure P st'.
Proof.
  intros Hs. unfold loop_body.
  destruct (is_atom_line pdb_line).
  { unfold_M. intros Hr.
    destruct (open_pending_model st state) as [st0|] eqn:Hop; [|done].
    apply open_pending_model_residues in Hop; [|done].
    destruct (Atom__init__ _ _ _) as [[[a y] w1]|] eqn:Ha; [|done].
    pose proof (Atom__init___tree _ _ _ _ _ _ Ha) as (st1 & -> & Htree).
    pose proof (Atom__init___single_location _ _ _ _ _ _ Ha) as Hone.
    simpl in Hr.
    destruct (PdbStructure._add_atom st1 a w1) as [[st2 w2]|] eqn:Hadd;
      [|done].
    assert (st2 = st') as <- by congruence.
    eapply PdbStructure_add_atom_residues; [exact Hone| |exact Hadd].
    by eapply residues_same_tree. }
  destruct (find_at_0 pdb_line "MODEL").
  { unfold_M. intros Hr.
    assert (∀ n, residues_of_structure P
                   (_reset_residue_numbers (_reset_atom_numbers
                      (_add_model st (Model.__init__ n))))) as Hnew.
    { intros n. by apply (add_model_residues st n). }
    destruct (_current_model st) as [i|] eqn:Hi.
    - destruct (current_model st) as [cm|] eqn:Hcm; [|done].
      simpl in Hr. simplify_eq. apply Hnew.
    - simpl in Hr. simplify_eq. apply Hnew. }
  assert (∀ (k : PdbStructure.t → M (PdbStructure.t * option load_state * control)),
    (∀ s0 w0, k s0 w0 = Ok (st', state', ctl, w') → s0 = st') →
    (self ← lift (finalize_current_model st); k self) w
    = Ok (st', state', ctl, w') → residues_of_structure P st') as Hend.
  { intros k Hk. unfold_M.
    destruct (finalize_current_model st) as [s0|] eqn:Hfin; [|done].
    intros <-%Hk. by eapply finalize_current_model_residues. }
  destruct (find_at_0 pdb_line "ENDMDL").
  { apply Hend. intros s0 w0. unfold_M.
    destruct (load_all_models s0); by intros [= <-]. }
  destruct (find_at_0 pdb_line "END").
  { apply Hend. intros s0 w0. unfold_M.
    destruct (load_all_models s0); by intros [= <-]. }
  clear Hend.
  destruct (is_ter_line pdb_line).
  { unfold deref. unfold_M. intros Hr.
    repeat (case_match; simplify_eq/=; try done).
    match goal with
    | Hm : models st !! ?i = Some ?cm, Hc : Model.chains ?cm !! ?j = Some ?cc,
      Ht : Chain._add_ter_record ?cc = Ok ?cc' |- _ =>
        assert (residues_of_model P cm) as Hcm
          by (by eapply (Forall_lookup_1 _ _ _ _ Hs));
        assert (Forall P (Chain.residues cc)) as Hcc
          by (by eapply (Forall_lookup_1 _ _ _ _ Hcm));
        pose proof (Chain_add_ter_record_residues _ _ Hcc Ht) as Hcc';
        apply (Forall_insert _ (models st) i); [exact Hs|];
        by apply (Forall_insert _ (Model.chains cm) j)
    end. }
  destruct (find_at_0 pdb_line "CRYST1").
  { unfold_M. intros Hr.
    by repeat (case_match; simplify_eq/=; try done). }
  destruct (find_at_0 pdb_line "CONECT").
  { unfold deref. unfold_M. intros Hr.
    destruct (read_connect _ _ _ _) as [[[atoms st1] w1]|] eqn:Hrc; [|done].
    pose proof (read_connect_tree _ _ _ _ _ _ _ Hrc) as Htree.
    assert (residues_of_structure P st1) as Hs1
      by by eapply residues_same_tree.
    repeat (case_match; simplify_eq/=; try done).
    match goal with
    | Hm : models st1 !! ?i = Some ?cm |- _ =>
        apply (Forall_insert _ (models st1) i); [exact Hs1|];
        by apply (Forall_lookup_1 _ _ _ _ Hs1 Hm)
    end. }
  unfold_M. by intros [= <-].
Qed.

Lemma for_lines_residues (lines : list string) :
  ∀ st state w st' rest w',
    residues_of_structure P st →
    for_lines st state lines w = Ok (st', rest, w') →
    residues_of_structure P st'.
Proof.
  induction lines as [|l lines IH]; intros st state w st' rest w' Hs.
  - simpl. unfold_M. by intros [= <-].
  - rewrite for_lines_cons.
    destruct (loop_body st state l w) as [[[[st1 state1] ctl] w1]|] eqn:Hb;
      [|done].
    apply loop_body_residues in Hb; [|done].
    destruct ctl; [by apply IH|]. by intros [= <-].
Qed.

Lemma load_residues input load_all w s rest w' :
  PdbStructure__init__ input load_all w = Ok (s, rest, w') →
  residues_of_structure P s.
Proof.
  unfold PdbStructure__init__, _load. intros Hr.
  apply M_bind_Ok in Hr as ([st1 rest1] & w1 & Hfor & Hfin).
  apply for_lines_residues in Hfor; [|constructor].
  revert Hfin. unfold_M.
  destruct (PdbStructure._finalize st1) as [s1|] eqn:Hf; [|done].
  intros [= <-]. by eapply PdbStructure_finalize_residues.
Qed.
End residue_invariant.

Lemma od_set_keeps_key {V} (k k' : ascii) (v : V) (d : list (ascii * V)) :
  is_Some (od_get k' d) → is_Some (od_get k' (od_set k v d)).
Proof.
  induction d as [|[k0 v0] d IH]; simpl; [by intros [? ?]|].
  destruct (Ascii.eqb k k0) eqn:Hk; simpl.
  - by destruct (Ascii.eqb k' k0).
  - destruct (Ascii.eqb k' k0); [done|]. exact IH.
Qed.

Section residue_name_facts.
Context `{Externals}.
Import PdbStructure.

#[local] Transparent assert.
#[local] Opaque strip.

Lemma named_new (a : Atom.t) (r0 r1 r : Residue.t) :
  single_location a → Chain.new_residue a = Ok r0 →
  r1 = r0 ∨ r1 = Residue.set_is_first_in_chain true r0 →
  Residue._add_atom r1 a = Ok r → named_after_first_atom r.
Proof.
  intros (loc & Hloc & Hali) Hnew Hr1.
  assert (Atom.get_alternate_location_indicator a
          = Ok (Atom.default_location_id a)) as Hget.
  { unfold Atom.get_alternate_location_indicator, Atom.location,
      Atom.get_location. rewrite Hloc. simpl. rewrite Ascii.eqb_refl. simpl.
    by rewrite Hali. }
  revert Hnew. unfold Chain.new_residue. rewrite Hget. simpl.
  unfold Residue.__init__, Residue.set_name_with_spaces. simpl.
  rewrite lookup_singleton_eq. simpl. intros [= <-].
  unfold Residue._add_atom. rewrite Hget. simpl.
  intros Hadd. exists a.
  destruct Hr1 as [->| ->]; revert Hadd; simpl;
    rewrite lookup_insert_eq, Z.eqb_refl, Ascii.eqb_refl; simpl;
    rewrite lookup_empty; intros [= <-];
    unfold Residue.get_name_with_spaces, Residue.get_name; simpl;
    rewrite lookup_insert_eq; simpl;
    (split; [done|]); (split; [done|]); (split; [done|]);
    rewrite Hloc; simpl; rewrite Ascii.eqb_refl; by eexists.
Qed.

Lemma Residue_name_ext (r r' : Residue.t) (alt_loc : option ascii) :
  Residue.locations r' = Residue.locations r →
  Residue.primary_location_id r' = Residue.primary_location_id r →
  Residue.get_name_with_spaces r' alt_loc
  = Residue.get_name_with_spaces r alt_loc
  ∧ Residue.get_name r' alt_loc = Residue.get_name r alt_loc.
Proof.
  intros Hl Hp. unfold Residue.get_name_with_spaces, Residue.get_name.
  by rewrite Hl, Hp.
Qed.

Lemma named_add (r : Residue.t) (a : Atom.t) (r' : Residue.t) :
  single_location a → named_after_first_atom r →
  Residue._add_atom r a = Ok r' → named_after_first_atom r'.
Proof.
  intros (loc & Hloc & Hali) (a0 & Hhead & Hnm & Hname & Hprim).
  assert (Atom.get_alternate_location_indicator a
          = Ok (Atom.default_location_id a)) as Hget.
  { unfold Atom.get_alternate_location_indicator, Atom.location,
      Atom.get_location. rewrite Hloc. simpl. rewrite Ascii.eqb_refl. simpl.
    by rewrite Hali. }
  (* the residue with the location of the atom added, if it is new *)
  set (r1 := match Residue.locations r !! Atom.default_location_id a with
             | None =>
                 Residue.set_locations
                   (<[Atom.default_location_id a :=
                        Residue.Location.__init__ (Atom.default_location_id a)
                          (Atom.residue_name_with_spaces a)]>
                      (Residue.locations r)) r
             | Some _ => r
             end).
  assert (Residue.get_name_with_spaces r1 None
          = Ok (Atom.residue_name_with_spaces a0)
          ∧ Residue.get_name r1 None
            = Ok (strip (Atom.residue_name_with_spaces a0))
          ∧ Residue.atoms r1 = Residue.atoms r
          ∧ Residue.primary_location_id r1 = Residue.primary_location_id r)
    as (Hnm1 & Hname1 & Hatoms1 & Hprim1).
  { subst r1.
    destruct (Residue.locations r !! Atom.default_location_id a) eqn:Hl;
      [done|].
    assert (Atom.default_location_id a ≠ Residue.primary_location_id r)
      as Hne.
    { intros Heq. revert Hnm. unfold Residue.get_name_with_spaces. simpl.
      by rewrite <- Heq, Hl. }
    revert Hnm Hname. unfold Residue.get_name_with_spaces, Residue.get_name.
    simpl. by rewrite lookup_insert_ne. }
  unfold Residue._add_atom. rewrite Hget. simpl. fold r1.
  unfold assert, deref, od_mem. unfold mbind, mret, result_bind, result_ret.
  destruct (Atom.residue_number a =? Residue.number r1); [|done].
  destruct (Ascii.eqb (Atom.insertion_code a) (Residue.insertion_code r1));
    [|done].
  assert (named_after_first_atom (Residue.use_new_atom r1 a)) as Hnew.
  { exists a0.
    destruct (Residue_name_ext r1 (Residue.use_new_atom r1 a) None
                eq_refl eq_refl) as [-> ->].
    split; [|by rewrite <- Hprim1 in Hprim].
    simpl. rewrite Hatoms1. by destruct (Residue.atoms r). }
  destruct (Residue.atoms_by_name r1 !! Atom.name_with_spaces a) as [i|];
    [|by intros [= <-]].
  destruct (Residue.atoms r1 !! i) as [old|] eqn:Hold; [|done].
  destruct (od_get (Atom.default_location_id a) (Atom.locations old));
    [by intros [= <-]|].
  intros [= <-]. rewrite Hloc. simpl. rewrite Hatoms1 in Hold.
  match goal with
  | |- named_after_first_atom (Residue.set_atoms ?l r1) =>
      destruct (Residue_name_ext r1 (Residue.set_atoms l r1) None
                  eq_refl eq_refl) as [Hx Hy]
  end.
  destruct i as [|i].
  - rewrite head_lookup in Hhead. rewrite Hhead in Hold.
    injection Hold as <-.
    exists (Atom.set_locations
              (od_set (Atom.default_location_id a) loc (Atom.locations a0))
              a0).
    rewrite Hx, Hy. split.
    { simpl. rewrite Hatoms1. by destruct (Residue.atoms r). }
    split; [done|]. split; [done|]. simpl. rewrite Hprim1.
    by apply od_set_keeps_key.
  - exists a0. rewrite Hx, Hy. split.
    { simpl. rewrite Hatoms1. by destruct (Residue.atoms r). }
    split; [done|]. split; [done|]. simpl. by rewrite Hprim1.
Qed.

Lemma named_finalize (r : Residue.t) :
  named_after_first_atom r → named_after_first_atom (Residue._finalize r).
Proof.
  intros (a0 & Hhead & Hnm & Hname & Hprim).
  pose proof (Residue_finalize_atom r 0) as H0.
  rewrite head_lookup in Hhead. rewrite Hhead in H0. simpl in H0.
  eexists. rewrite head_lookup. split; [exact H0|].
  assert (Residue.locations (Residue._finalize r) = Residue.locations r
          ∧ Residue.primary_location_id (Residue._finalize r)
            = Residue.primary_location_id r) as [Hl Hp].
  { unfold Residue._finalize. by destruct (Residue.atoms r). }
  unfold Residue.get_name_with_spaces, Residue.get_name in *. simpl.
  by rewrite Hl, Hp.
Qed.

(** Every residue of a loaded Structure has the residue name of its first
    atom, whatever names its other atoms carry, and iterating over the
    residue starts with that atom. *)
Theorem loaded_residue_name (input : list string) (load_all : bool)
    (w : list warning) (s : PdbStructure.t) (rest : list string)
    (w' : list warning) (k j i : nat) (m : Model.t) (c : Chain.t)
    (r : Residue.t) :
  PdbStructure__init__ input load_all w = Ok (s, rest, w') →
  models s !! k = Some m → Model.chains m !! j = Some c →
  Chain.residues c !! i = Some r →
  ∃ a0, head (Residue.atoms r) = Some a0
    ∧ Residue.name_with_spaces r = Ok (Atom.residue_name_with_spaces a0)
    ∧ Residue.get_name r None = Ok (strip (Atom.residue_name_with_spaces a0))
    ∧ head (Residue.__iter__ r) = Some a0.
Proof.
  intros Hload Hm Hc Hr.
  pose proof (load_residues named_after_first_atom named_new named_add
                (λ r H, H) (λ r H, H) named_finalize _ _ _ _ _ _ Hload)
    as Hall.
  pose proof (Forall_lookup_1 _ _ _ _ Hall Hm) as Hmod.
  pose proof (Forall_lookup_1 _ _ _ _ Hmod Hc) as Hch.
  destruct (Forall_lookup_1 _ _ _ _ Hch Hr)
    as (a0 & Hhead & Hnm & Hname & Hprim).
  exists a0. split; [done|]. split; [done|]. split; [done|].
  unfold Residue.__iter__, Residue.iter_atoms.
  destruct (Residue.atoms r) as [|x l]; [done|]. injection Hhead as ->.
  simpl.
  assert (existsb (λ loc2, bool_decide (loc2 ∈ [Residue.primary_location_id r]))
            (od_keys (Atom.locations a0)) = true) as ->; [|done].
  destruct Hprim as [v Hv]. clear -Hv.
  induction (Atom.locations a0) as [|[k0 v0] d IH]; [done|].
  simpl in *. destruct (Ascii.eqb (Residue.primary_location_id r) k0) eqn:Hk.
  - apply Ascii.eqb_eq in Hk as <-.
    rewrite bool_decide_eq_true_2; [done|]. by left.
  - rewrite (IH Hv). by rewrite orb_true_r.
Qed.
End residue_name_facts.

(** ** No CONECT record is lost *)

Lemma conect_not_earlier (l : string) :
  find_at_0 l "CONECT" = true →
  is_atom_line l = false ∧ find_at_0 l "MODEL" = false
  ∧ find_at_0 l "ENDMDL" = false ∧ find_at_0 l "END" = false
  ∧ is_ter_line l = false ∧ find_at_0 l "CRYST1" = false.
Proof.
  unfold find_at_0, is_atom_line, is_ter_line.
  intros (s & -> & (s2 & -> & _)%prefix_cons_inv)%prefix_cons_inv.
  unfold find_at_0. by cbn.
Qed.

Section connects_facts.
Context `{Externals}.
Import PdbStructure.

#[local] Transparent finalize_current_model open_pending_model
  Chain._add_ter_record.

Lemma Model_add_atom_connects (m m' : Model.t) (a : Atom.t) w w' :
  Model._add_atom m a w = Ok (m', w') → Model.connects m' = Model.connects m.
Proof.
  intros (m1 & j & cc & cc' & w1 & Hm1 & _ & _ & _ & _ & ->)%Model_add_atom_shape.
  by destruct Hm1 as [->| ->].
Qed.

Lemma Model_finalize_connects (m m' : Model.t) :
  Model._finalize m = Ok m' → Model.connects m' = Model.connects m.
Proof.
  unfold Model._finalize.
  destruct (mapM Chain._finalize (Model.chains m)); [|done]. by intros [= <-].
Qed.

Lemma add_model_connects (s : PdbStructure.t) (n : Z) :
  all_connects (_add_model s (Model.__init__ n)) = all_connects s.
Proof.
  unfold all_connects, _add_model. cbn [models].
  rewrite bind_snoc. by rewrite app_nil_r.
Qed.

Lemma insert_model_connects (s : PdbStructure.t) (i : nat) (cm cm' : Model.t) :
  models s !! i = Some cm → Model.connects cm' = Model.connects cm →
  all_connects (set_models (<[i := cm']> (models s)) s) = all_connects s.
Proof.
  intros Hcm Heq. unfold all_connects, set_models. cbn [models]. symmetry.
  apply bind_Forall2_related.
  eapply Forall2_insert_related; [done|exact Hcm|done].
Qed.

Lemma PdbStructure_add_atom_connects (s s' : PdbStructure.t) (a : Atom.t)
    w w' :
  PdbStructure._add_atom s a w = Ok (s', w') →
  all_connects s' = all_connects s.
Proof.
  intros (s1 & i & cm & cm' & Hs1 & _ & Hcm & Hadd & ->)%PdbStructure_add_atom_shape.
  assert (all_connects s1 = all_connects s) as <-.
  { destruct Hs1 as [->|[_ ->]]; [done|]. apply add_model_connects. }
  apply insert_model_connects with cm; [done|].
  by eapply Model_add_atom_connects.
Qed.

Lemma finalize_current_model_connects (s s' : PdbStructure.t) :
  finalize_current_model s = Ok s' → all_connects s' = all_connects s.
Proof.
  unfold finalize_current_model, attr, deref.
  destruct (_current_model s) as [i|]; [|done]. simpl.
  destruct (models s !! i) as [cm|] eqn:Hcm; [|done]. simpl.
  destruct (Model._finalize cm) as [cm'|] eqn:Hfin; [|done].
  intros [= <-]. apply insert_model_connects with cm; [done|].
  by apply Model_finalize_connects.
Qed.

Lemma PdbStructure_finalize_connects (s s' : PdbStructure.t) :
  PdbStructure._finalize s = Ok s' → all_connects s' = all_connects s.
Proof.
  unfold PdbStructure._finalize.
  destruct (mapM Model._finalize (models s)) as [l|] eqn:Hl; [|done].
  intros [= <-]. apply mapM_Forall2 in Hl.
  unfold all_connects, set_models. cbn [models]. symmetry.
  apply bind_Forall2_related. eapply Forall2_impl; [exact Hl|].
  intros x y Hfin. simpl in Hfin. symmetry. by apply Model_finalize_connects.
Qed.

Lemma open_pending_model_connects st state st' :
  open_pending_model st state = Ok st' → all_connects st' = all_connects st.
Proof.
  unfold open_pending_model. destruct state as [[]|].
  - destruct (current_model st) as [cm|]; [|done]. intros [= <-].
    apply add_model_connects.
  - by intros [= <-].
Qed.

Lemma all_connects_same_tree (st st' : PdbStructure.t) :
  same_tree st st' → all_connects st' = all_connects st.
Proof. intros (Hm & _). unfold all_connects. by rewrite Hm. Qed.

#[local] Opaque open_pending_model PdbStructure._add_atom Atom__init__
  finalize_current_model Chain._add_ter_record read_connect.

(** One line of the loop: a CONECT record adds one entry, any other line
    none. *)
Lemma loop_body_connects st state pdb_line w st' state' ctl w' :
  loop_body st state pdb_line w = Ok (st', state', ctl, w') →
  length (all_connects st')
  = (length (all_connects st)
     + if find_at_0 pdb_line "CONECT" then 1 else 0)%nat.
Proof.
  destruct (find_at_0 pdb_line "CONECT") eqn:Hconect.
  { destruct (conect_not_earlier _ Hconect) as (Ha & Hm & He1 & He2 & Ht & Hc).
    unfold loop_body. rewrite Ha, Hm, He1, He2, Ht, Hc, Hconect.
    unfold deref. unfold_M. intros Hr.
    destruct (read_connect _ _ _ _) as [[[atoms st1] w1]|] eqn:Hrc; [|done].
    pose proof (read_connect_tree _ _ _ _ _ _ _ Hrc) as Htree.
    rewrite <- (all_connects_same_tree _ _ Htree).
    repeat (case_match; simplify_eq/=; try done).
    match goal with
    | Hm : models st1 !! ?i = Some ?cm |- _ =>
        unfold all_connects, set_models; cbn [models];
        rewrite (bind_length_insert _ _ i cm _ 1%nat); [done|done|];
        simpl; rewrite length_app; simpl; lia
    end. }
  rewrite Nat.add_0_r. unfold loop_body. rewrite Hconect.
  intros Hr. f_equal. revert w Hr.
  destruct (is_atom_line pdb_line).
  { unfold_M. intros w Hr.
    destruct (open_pending_model st state) as [st0|] eqn:Hop; [|done].
    apply open_pending_model_connects in Hop.
    destruct (Atom__init__ _ _ _) as [[[a y] w1]|] eqn:Ha; [|done].
    pose proof (Atom__init___tree _ _ _ _ _ _ Ha) as (st1 & -> & Htree).
    simpl in Hr.
    destruct (PdbStructure._add_atom st1 a w1) as [[st2 w2]|] eqn:Hadd;
      [|done].
    assert (st2 = st') as <- by congruence.
    rewrite (PdbStructure_add_atom_connects _ _ _ _ _ Hadd).
    by rewrite (all_connects_same_tree _ _ Htree). }
  destruct (find_at_0 pdb_line "MODEL").
  { unfold_M. intros w Hr.
    destruct (_current_model st) as [i|] eqn:Hi.
    - destruct (current_model st) as [cm|] eqn:Hcm; [|done].
      simpl in Hr. simplify_eq. apply (add_model_connects st).
    - simpl in Hr. simplify_eq. apply (add_model_connects st). }
  assert (∀ w (k : PdbStructure.t → M (PdbStructure.t * option load_state * control)),
    (∀ s0 w0, k s0 w0 = Ok (st', state', ctl, w') → s0 = st') →
    (self ← lift (finalize_current_model st); k self) w
    = Ok (st', state', ctl, w') → all_connects st' = all_connects st)
    as Hend.
  { intros w k Hk. unfold_M.
    destruct (finalize_current_model st) as [s0|] eqn:Hfin; [|done].
    intros <-%Hk. by apply finalize_current_model_connects. }
  destruct (find_at_0 pdb_line "ENDMDL").
  { intros w. apply Hend. intros s0 w0. unfold_M.
    destruct (load_all_models s0); by intros [= <-]. }
  destruct (find_at_0 pdb_line "END").
  { intros w. apply Hend. intros s0 w0. unfold_M.
    destruct (load_all_models s0); by intros [= <-]. }
  clear Hend.
  destruct (is_ter_line pdb_line).
  { unfold deref. unfold_M. intros w Hr.
    repeat (case_match; simplify_eq/=; try done).
    match goal with
    | Hm : models st !! ?i = Some ?cm |- _ =>
        by apply (insert_model_connects st i cm)
    end. }
  destruct (find_at_0 pdb_line "CRYST1").
  { unfold_M. intros w Hr.
    by repeat (case_match; simplify_eq/=; try done). }
  unfold_M. by intros w [= <-].
Qed.

Lemma for_lines_connects (lines : list string) :
  ∀ st state w st' rest w',
    for_lines st state lines w = Ok (st', rest, w') →
    ∃ read, lines = read ++ rest
      ∧ length (all_connects st')
        = (length (all_connects st)
           + length (List.filter (λ l, find_at_0 l "CONECT") read))%nat.
Proof.
  induction lines as [|l lines IH]; intros st state w st' rest w'.
  - simpl. unfold_M. intros [= <- <-]. exists []. split; [done|]. simpl. lia.
  - rewrite for_lines_cons.
    destruct (loop_body st state l w) as [[[[st1 state1] ctl] w1]|] eqn:Hb;
      [|done].
    apply loop_body_connects in Hb. destruct ctl.
    + intros (read & -> & Hcount)%IH. exists (l :: read). split; [done|].
      rewrite Hcount, Hb. simpl. destruct (find_at_0 l "CONECT"); simpl; lia.
    + intros [= <- <-]. exists [l]. split; [done|].
      rewrite Hb. simpl. destruct (find_at_0 l "CONECT"); simpl; lia.
Qed.

(** The models of a loaded Structure hold one entry of bonded atoms for
    each CONECT record among the lines that were read. *)
Theorem loaded_connects_count (input : list string) (load_all : bool)
    (w : list warning) (s : PdbStructure.t) (rest : list string)
    (w' : list warning) :
  PdbStructure__init__ input load_all w = Ok (s, rest, w') →
  ∃ read, input = read ++ rest
    ∧ length (all_connects s)
      = length (List.filter (λ l, find_at_0 l "CONECT") read).
Proof.
  unfold PdbStructure__init__, _load. intros Hr.
  apply M_bind_Ok in Hr as ([st1 rest1] & w1 & Hfor & Hfin).
  apply for_lines_connects in Hfor as (read & -> & Hcount).
  revert Hfin. unfold_M.
  destruct (PdbStructure._finalize st1) as [s1|] eqn:Hf; [|done].
  intros [= <- <-]. exists read. split; [done|].
  by rewrite (PdbStructure_finalize_connects _ _ Hf), Hcount.
Qed.
End connects_facts.
(** ** Closed examples

    The statements above, applied to the input lines of [Inputs] under the
    concrete reading [Plain] of the imports. *)

Import Plain.

(** Evaluation of the closed left-hand side of an equation by the virtual
    machine; the remaining goal compares the value with the right-hand
    side. *)
Ltac vm_lhs :=
  match goal with
  | |- ?l = _ =>
      let v := eval vm_compute in l in
      transitivity v; [vm_cast_no_check (@eq_refl _ v)|]
  end.

(** A closed computation that returns, together with its value. *)
Ltac vm_returns :=
  match goal with
  | |- ∃ s rest w, ?l = Ok (s, rest, w) =>
      let v := eval vm_compute in l in
      match v with
      | Ok (?s, ?rest, ?w) =>
          exists s, rest, w; vm_cast_no_check (@eq_refl _ v)
      end
  end.

(** [int] skips blanks, tabs, line ends and the Latin-1 white space
    around a number, but not the separators 0x1c to 0x1f, which
    [str.strip] and [str.split] do skip; it accepts 4300 digits in base 10
    and no more. *)
Lemma py_int_white_space :
  py_int (String "028"%char "1") 10 = Raise ValueError
  ∧ py_int (String "009"%char "1 ") 10 = Ok 1
  ∧ py_int (String "160"%char "1") 10 = Ok 1
  ∧ strip (String "028"%char "1") = "1"
  ∧ split_0 (String "028"%char "1") = Ok "1"
  ∧ is_Ok (py_int (string_of_list_ascii (repeat "1"%char 4300)) 10) = true
  ∧ py_int (string_of_list_ascii (repeat "1"%char 4301)) 10
    = Raise ValueError
  ∧ is_Ok (py_int (string_of_list_ascii (repeat "f"%char 4301)) 16) = true.
Proof. repeat split; vm_compute; reflexivity. Qed.

(** C7, as stated, fails when the base-16 decoder is locked: after the
    residue tokens 9999 and 2710 the residue counter is past 9999, and the
    token A000 is read in base 16. *)
Lemma C7_counterexample :
  loaded [Inputs.atom_res_9999; Inputs.atom_res_2710; Inputs.atom_res_A000]
    true
    = Some Inputs.hex_locked_structure
  ∧ Residue.number <$> all_residues Inputs.hex_locked_structure
    = [9999; 10000; 40960]
  ∧ for_lines (at_start true) None
      [Inputs.atom_res_9999; Inputs.atom_res_2710] []
    = Ok (Inputs.hex_locked_state, [], [])
  ∧ residue_resolver Inputs.hex_locked_state = (10001, Some hex)
  ∧ _read_residue_number "A000" (Some Inputs.hex_locked_state) None []
    = Ok ((40960, Some Inputs.hex_locked_state), []).
Proof.
  split; [vm_lhs; reflexivity|]. split; [vm_lhs; reflexivity|].
  split; [vm_lhs; reflexivity|]. split; [reflexivity|].
  vm_lhs; reflexivity.
Qed.

Lemma C7_hybrid_decoder_witness :
  digit_value "A" = Some 10 ∧ base36_number "000" = Some 0
  ∧ Residue.number
      <$> all_residues
            (Inputs.structure_of [Inputs.atom_res_9999; Inputs.atom_res_A000])
    = [9999; 10000]
  ∧ 9999 < PdbStructure._next_residue_number Inputs.past_9999
  ∧ residue_num_function chimera "A000" None None = Ok 10000
  ∧ (∃ y', _read_residue_number "A000" (Some Inputs.past_9999) None []
           = Ok ((10000, Some y'), [])
           ∧ PdbStructure._residue_num_nondec_mode y' = Some chimera
           ∧ PdbStructure._next_residue_number y' = 10000)
  ∧ 9999 < PdbStructure._next_residue_number Inputs.hex_locked_state
  ∧ _read_residue_number "A000" (Some Inputs.hex_locked_state) None []
    = Ok ((40960, Some Inputs.hex_locked_state), []).
Proof.
  destruct (C7_hybrid_decoder (H := Plain.externals)) as (Hval & _ & _ & Hread).
  split; [reflexivity|]. split; [reflexivity|].
  split; [vm_lhs; reflexivity|]. split; [reflexivity|]. split; [|split].
  - exact (proj2 (Hval "A"%char "000" 10 0 None None eq_refl eq_refl
                    ltac:(discriminate))).
  - destruct (Hread Inputs.past_9999 None [] eq_refl) as (Hhybrid & _ & _).
    apply Hhybrid. left. reflexivity.
  - split; [reflexivity|].
    destruct (Hread Inputs.hex_locked_state None [] eq_refl)
      as (_ & Hhex & _).
    apply Hhex. reflexivity.
Defined.

Lemma C4_sequential_guess_residue_witness :
  let y := Inputs.one_atom_structure in
  loaded [Inputs.atom_N_ALA_1] true = Some y
  ∧ _overflow_residue_check "****" (Some y) (Some Inputs.the_CA_ALA_5) = Ok 1
  ∧ _overflow_residue_check "****" (Some y) (Some Inputs.the_CA_GLY_blank) = Ok 2
  ∧ _overflow_residue_check "****" (Some y) (Some Inputs.the_N_ALA_1) = Ok 2
  ∧ _overflow_residue_check "****" (Some Inputs.past_9999)
      (Some Inputs.the_N_ALA_1) = Ok 10000.
Proof.
  intros y. split; [vm_lhs; reflexivity|]. split; [|split; [|split]].
  - destruct (C4_sequential_guess_residue "****" y Inputs.the_CA_ALA_5)
      as (_ & _ & Hopen).
    edestruct Hopen as (_ & _ & Hsame); [reflexivity | reflexivity |].
    apply Hsame; reflexivity.
  - destruct (C4_sequential_guess_residue "****" y Inputs.the_CA_GLY_blank)
      as (_ & _ & Hopen).
    edestruct Hopen as (Hname & _ & _); [reflexivity | reflexivity |].
    apply Hname. discriminate.
  - destruct (C4_sequential_guess_residue "****" y Inputs.the_N_ALA_1)
      as (_ & _ & Hopen).
    edestruct Hopen as (_ & Hdup & _); [reflexivity | reflexivity |].
    apply Hdup; [reflexivity | eexists; reflexivity].
  - destruct (C4_sequential_guess_residue "****" Inputs.past_9999
               Inputs.the_N_ALA_1) as (_ & Hnone & _).
    apply Hnone. reflexivity.
Defined.

Lemma C3_serialization_raises_witness :
  let s := Inputs.gapped_structure in
  loaded Inputs.gapped_file true = Some s
  ∧ Atom.serial_number <$> all_atoms s = [1; 5; 9]
  ∧ PdbStructure.write s {| val := 0; out := [] |}
    = (Raise AttributeError, {| val := 1; out := [] |}).
Proof.
  intros s. split; [vm_lhs; reflexivity|]. split; [reflexivity|].
  eapply (C3_serialization_raises s _ _ _ _ _ _ _ {| val := 0; out := [] |});
    reflexivity.
Defined.

Lemma C8_two_model_file_witness :
  Forall (λ l, wf_record l = true) [Inputs.atom_N_ALA_1; Inputs.atom_CA_ALA_5]
  ∧ (∃ s w, PdbStructure__init__ Inputs.two_models true [] = Ok (s, [], w)
            ∧ PdbStructure.__len__ s = 2%nat)
  ∧ (∃ s w, PdbStructure__init__ Inputs.two_models false []
              = Ok (s, ["MODEL        2"; Inputs.atom_N_ALA_1;
                        Inputs.atom_CA_ALA_5; "ENDMDL"; "END"], w)
            ∧ PdbStructure.__len__ s = 1%nat).
Proof.
  assert (Forall (λ l, wf_record l = true)
            [Inputs.atom_N_ALA_1; Inputs.atom_CA_ALA_5]) as Hatoms
    by (repeat constructor; vm_lhs; reflexivity).
  split; [exact Hatoms|].
  exact (C8_two_model_file "MODEL        1" "ENDMDL" "MODEL        2"
           "ENDMDL" "END" [Inputs.atom_N_ALA_1; Inputs.atom_CA_ALA_5]
           [Inputs.atom_N_ALA_1; Inputs.atom_CA_ALA_5]
           eq_refl eq_refl eq_refl eq_refl eq_refl Hatoms Hatoms).
Defined.

(** C10, as stated, fails on a model opened by a model-start marker: an
    end-of-model marker that comes before any coordinate record then finds
    a current model, and the load returns a Structure of one empty model. *)
Lemma C10_counterexample :
  is_Ok (PdbStructure__init__ ["MODEL        1"; "ENDMDL"] true []) = true
  ∧ PdbStructure.__len__ <$> loaded ["MODEL        1"; "ENDMDL"] true
    = Some 1%nat.
Proof. split; vm_lhs; reflexivity. Qed.

Lemma C10_marker_without_model_or_chain_witness :
  PdbStructure__init__
    ["REMARK   1 EXAMPLE"; "ENDMDL"; Inputs.atom_N_ALA_1] true []
    = Raise AttributeError
  ∧ PdbStructure__init__ ["REMARK   1 EXAMPLE"; "END"] false []
    = Raise AttributeError
  ∧ PdbStructure__init__ ["MODEL        1"; "TER"; Inputs.atom_N_ALA_1] true []
    = Raise AttributeError.
Proof.
  split; [|split].
  - eapply (C10_marker_without_model_or_chain true ["REMARK   1 EXAMPLE"]
              [Inputs.atom_N_ALA_1] "ENDMDL").
    + eapply reaches_cons; [vm_lhs; reflexivity | apply reaches_nil].
    + repeat constructor.
    + left. split; [reflexivity | repeat constructor].
  - eapply (C10_marker_without_model_or_chain false ["REMARK   1 EXAMPLE"]
              [] "END").
    + eapply reaches_cons; [vm_lhs; reflexivity | apply reaches_nil].
    + repeat constructor.
    + left. split; [reflexivity | repeat constructor].
  - eapply (C10_marker_without_model_or_chain true ["MODEL        1"]
              [Inputs.atom_N_ALA_1] "TER").
    + eapply reaches_cons; [vm_lhs; reflexivity | apply reaches_nil].
    + repeat constructor.
    + right. reflexivity.
Defined.

(** C9, as stated, fails on a terminator line that carries the usual
    fields after the keyword: the line is acted upon. *)
Lemma C9_counterexample :
  String.words Inputs.ter_with_fields = ["TER"; "2"; "ALA"; "A"; "1"]
  ∧ loaded [Inputs.atom_N_ALA_1; Inputs.ter_with_fields] true
    = Some Inputs.terminated_structure
  ∧ chain_terminated Inputs.terminated_structure = true
  ∧ residue_resolver Inputs.terminated_structure = fresh
  ∧ chain_terminated Inputs.one_atom_structure = false
  ∧ residue_resolver Inputs.one_atom_structure = (2, None).
Proof.
  split; [reflexivity|]. split; [vm_lhs; reflexivity|].
  repeat split; reflexivity.
Qed.

Lemma C9_terminator_first_token_witness :
  find_at_0 Inputs.ter_with_fields "TER" = true
  ∧ split_0 Inputs.ter_with_fields = Ok "TER"
  ∧ (∃ st', loop_body Inputs.one_atom_state None Inputs.ter_with_fields []
              = Ok (st', None, Continue, [])
            ∧ chain_terminated st' = true ∧ residue_resolver st' = fresh)
  ∧ find_at_0 "TERMINUS" "TER" = true ∧ split_0 "TERMINUS" ≠ Ok "TER"
  ∧ loop_body Inputs.one_atom_state None "TERMINUS" []
    = Ok (Inputs.one_atom_state, None, Continue, [])
  ∧ find_at_0 " TER" "TER" = false ∧ split_0 " TER" = Ok "TER"
  ∧ loop_body Inputs.one_atom_state None " TER" []
    = Ok (Inputs.one_atom_state, None, Continue, []).
Proof.
  destruct (C9_terminator_first_token Inputs.one_atom_state None
              Inputs.ter_with_fields []) as (Hacted & _ & _).
  destruct (C9_terminator_first_token Inputs.one_atom_state None
              "TERMINUS" []) as (_ & Hlonger & _).
  destruct (C9_terminator_first_token Inputs.one_atom_state None
              " TER" []) as (_ & _ & Hlater).
  split; [reflexivity|]. split; [reflexivity|]. split; [|split; [|split]].
  - edestruct (Hacted eq_refl eq_refl 0%nat) as [Hbody Hter];
      [reflexivity | reflexivity | reflexivity | reflexivity | reflexivity |].
    eexists. split; [exact Hbody|]. split; vm_lhs; reflexivity.
  - reflexivity.
  - discriminate.
  - split; [apply Hlonger; [reflexivity|discriminate]|].
    split; [reflexivity|]. split; [reflexivity|].
    apply Hlater; reflexivity.
Defined.





(** C1. The resolver state is reset at the start of the load and by a
    model-start line, but a model opened by a coordinate record that
    follows an end-of-model marker does not begin with fresh counters and
    modes.  In the input below the first model locks the base-16 decoder at
    serial 186a0; the record that opens the second model is still read in
    base 16, so that its serial 10 becomes 16.  With a MODEL line before
    it, the same record is read as 10. *)
Theorem C1_implicit_model_keeps_resolvers :
  loaded Inputs.implicit_second_model true = Some Inputs.implicit_structure
  ∧ PdbStructure.__len__ Inputs.implicit_structure = 2%nat
  ∧ Atom.serial_number <$> all_atoms Inputs.implicit_structure
    = [99999; 100000; 16]
  ∧ loaded Inputs.explicit_second_model true = Some Inputs.explicit_structure
  ∧ Atom.serial_number <$> all_atoms Inputs.explicit_structure
    = [99999; 100000; 10]
  ∧ for_lines (at_start true) None
      [Inputs.atom_99999; Inputs.atom_186a0; "ENDMDL"] []
    = Ok (Inputs.before_second_model, [], [])
  ∧ (∃ st, open_pending_model Inputs.before_second_model (Some NEW_MODEL)
           = Ok st
           ∧ PdbStructure.__len__ st = 2%nat
           ∧ atom_resolver st = (100001, Some hex)
           ∧ residue_resolver st = (2, None)).
Proof.
  split; [vm_lhs; reflexivity|]. split; [reflexivity|].
  split; [vm_lhs; reflexivity|]. split; [vm_lhs; reflexivity|].
  split; [vm_lhs; reflexivity|]. split; [vm_lhs; reflexivity|].
  eexists. split; [vm_lhs; reflexivity|]. repeat split; reflexivity.
Qed.

Lemma C2_default_selector_raises_witness :
  let st := {| val := 7; out := [] |} in
  Atom.write Inputs.the_CA_ALA_altB (Some "*") st = (Raise AttributeError, st)
  ∧ ∃ lines,
      Atom.write Inputs.the_CA_ALA_altB (Some "AB") st
        = (Ok tt, {| val := 9; out := lines |})
      ∧ length lines = 2%nat.
Proof.
  intros st.
  destruct (C2_default_selector_raises Inputs.the_CA_ALA_altB st)
    as [Hstar Hids].
  split; [exact Hstar|].
  destruct (Hids "AB") as (lines & Hrun & Hlen);
    [discriminate | discriminate | intros v c; reflexivity |].
  exists lines. split; [exact Hrun | exact Hlen].
Defined.

(** ** Closed examples of the further properties *)

Lemma decimal_atom_token_witness :
  _read_atom_number "   42"
    (Some (PdbStructure.set_atom_numbers None 100000 (at_start true))) []
  = Ok (42, Some (PdbStructure.set_atom_numbers None 100000 (at_start true)),
        []).
Proof. apply decimal_atom_token; reflexivity. Defined.

Lemma decimal_residue_token_witness :
  _read_residue_number "2710"
    (Some (PdbStructure.set_residue_numbers None 10000 (at_start true)))
    None []
  = Ok (10000,
        Some (PdbStructure.set_residue_numbers (Some hex) 10000
                (at_start true)), [])
  ∧ _read_residue_number "2710" (Some (at_start true)) None []
    = Ok (2710, Some (at_start true), []).
Proof.
  split.
  - exact (decimal_residue_token "2710" 2710
             (PdbStructure.set_residue_numbers None 10000 (at_start true))
             None [] eq_refl eq_refl).
  - exact (decimal_residue_token "2710" 2710 (at_start true) None []
             eq_refl eq_refl).
Defined.

Lemma wf_structure_at_start (load_all : bool) :
  wf_structure (at_start load_all).
Proof. split; [intros i [=]|constructor]. Qed.

Lemma Atom__init___returns_iff_witness :
  is_Ok (Atom__init__ Inputs.atom_N_ALA_1 (Some (at_start true)) []) = true
  ↔ wf_record Inputs.atom_N_ALA_1 = true.
Proof.
  apply Atom__init___returns_iff; [reflexivity|].
  apply wf_structure_at_start.
Defined.

Lemma Atom__init___counters_witness :
  ∃ a st' w',
    Atom__init__ Inputs.atom_CA_ALA_5 (Some (at_start true)) []
    = Ok (a, Some st', w')
    ∧ PdbStructure._next_atom_number st' = Atom.serial_number a + 1
    ∧ PdbStructure._next_residue_number st' = Atom.residue_number a + 1.
Proof.
  assert (∃ a y w', Atom__init__ Inputs.atom_CA_ALA_5 (Some (at_start true)) []
                    = Ok (a, y, w')) as (a & y & w' & Hr) by vm_returns.
  destruct (Atom__init___counters _ _ _ _ _ _ Hr)
    as (st' & -> & Hn & Hrn & _).
  exists a, st', w'. split; [exact Hr|]. split; [exact Hn|exact Hrn].
Defined.

Lemma unrecognized_line_ignored_witness :
  outcome (PdbStructure__init__
             ([Inputs.atom_N_ALA_1] ++ "REMARK   1 EXAMPLE"
              :: [Inputs.atom_CA_ALA_5; "END"]) true [])
  = outcome (PdbStructure__init__
               ([Inputs.atom_N_ALA_1] ++ [Inputs.atom_CA_ALA_5; "END"])
               true []).
Proof. apply unrecognized_line_ignored. reflexivity. Defined.

Lemma first_model_only_reads_to_first_end_witness :
  outcome (PdbStructure__init__
             ([Inputs.atom_N_ALA_1] ++ "ENDMDL"
              :: ["MODEL        2"; Inputs.atom_CA_ALA_5; "junk"]) false [])
  = outcome (PdbStructure__init__ ([Inputs.atom_N_ALA_1] ++ ["ENDMDL"])
               false []).
Proof. apply first_model_only_reads_to_first_end. reflexivity. Defined.

Lemma Atom_read_back_witness :
  Atom._pdb_string Inputs.the_N_ALA_1 (Some 7) (Some " "%char)
  = Ok Inputs.line_7_of_N_ALA_1
  ∧ ∃ a' y w',
      Atom__init__ Inputs.line_7_of_N_ALA_1 (Some (at_start true)) [] = Ok (a', y, w')
      ∧ Atom.serial_number a' = 7
      ∧ Atom.name_with_spaces a' = " N  "
      ∧ Atom.residue_number a' = 1
      ∧ Atom.residue_name_with_spaces a' = "ALA".
Proof.
  assert (Atom._pdb_string Inputs.the_N_ALA_1 (Some 7) (Some " "%char)
          = Ok Inputs.line_7_of_N_ALA_1) as Hline by (vm_lhs; reflexivity).
  split; [exact Hline|].
  assert (∃ a' y w', Atom__init__ Inputs.line_7_of_N_ALA_1 (Some (at_start true)) []
                     = Ok (a', y, w')) as (a' & y & w' & Hr) by vm_returns.
  exists a', y, w'. split; [exact Hr|].
  destruct (Atom_read_back Inputs.the_N_ALA_1 7 " " Inputs.line_7_of_N_ALA_1
              (at_start true) [] a' y w' Hline)
    as (Hs & Hn & _ & _ & Hrn & _ & Hres);
    [vm_compute; lia | vm_compute; lia | reflexivity | vm_compute; lia
    | reflexivity | reflexivity | simpl; lia | exact Hr |].
  split; [exact Hs|]. split; [exact Hn|]. split; [exact Hrn|].
  apply Hres. left. reflexivity.
Defined.

(** A closed computation that returns, together with its value. *)
Ltac vm_value :=
  match goal with
  | |- ∃ x, ?l = Ok x =>
      let v := eval vm_compute in l in
      match v with
      | Ok ?x => exists x; vm_cast_no_check (@eq_refl _ v)
      end
  end.

Lemma Residue_added_location_has_no_name_witness :
  ∃ self',
    Residue._add_atom Inputs.residue_N_ALA_altA Inputs.the_CA_GLY_altB
    = Ok self'
    ∧ Residue.get_name_with_spaces self' (Some "B"%char)
      = Raise AttributeError
    ∧ Residue.get_name self' (Some "B"%char) = Raise AttributeError.
Proof.
  assert (∃ self',
    Residue._add_atom Inputs.residue_N_ALA_altA Inputs.the_CA_GLY_altB
    = Ok self') as [self' Hadd] by vm_value.
  exists self'. split; [exact Hadd|].
  destruct (Residue_added_location_has_no_name
              Inputs.residue_N_ALA_altA self' Inputs.the_CA_GLY_altB "B")
    as (Hn & Hn' & _); [reflexivity | reflexivity | exact Hadd |].
  split; [exact Hn|exact Hn'].
Defined.

Lemma finalize_idempotent_witness :
  PdbStructure._finalize Inputs.one_atom_structure
  = Ok Inputs.one_atom_structure.
Proof.
  apply (finalize_idempotent Inputs.one_atom_state).
  vm_lhs. reflexivity.
Defined.

Lemma Chain_finalize_flags_witness :
  ∃ c', Chain._finalize Inputs.chain_N_ALA_blank = Ok c'
    ∧ (∃ r, head (Chain.residues c') = Some r
            ∧ Residue.is_first_in_chain r = true)
    ∧ (∃ r, last (Chain.residues c') = Some r
            ∧ Residue.is_final_in_chain r = true).
Proof.
  assert (∃ c', Chain._finalize Inputs.chain_N_ALA_blank = Ok c')
    as [c' Hc] by vm_value.
  exists c'. split; [exact Hc|].
  destruct (Chain_finalize_flags _ _ Hc) as (Hfirst & Hlast & _).
  split; [exact Hfirst|exact Hlast].
Defined.

Lemma loaded_models_numbered_witness :
  (∀ k m, PdbStructure.models Inputs.two_models_structure !! k = Some m →
     Model.number m = Z.of_nat k
     ∧ PdbStructure.get_model Inputs.two_models_structure (Z.of_nat k) = Ok m)
  ∧ (∀ n, n < 0
          ∨ Z.of_nat (length (PdbStructure.models Inputs.two_models_structure))
            ≤ n →
       PdbStructure.get_model Inputs.two_models_structure n = Raise KeyError).
Proof.
  apply (loaded_models_numbered Inputs.two_models true [] _ [] []).
  vm_lhs. reflexivity.
Defined.

Lemma loaded_get_chain_first_witness :
  ∃ m c, PdbStructure.models Inputs.split_chain_structure !! 0%nat = Some m
    ∧ Model.chains m !! 0%nat = Some c
    ∧ length (Model.chains m) = 2%nat
    ∧ Model.get_chain m "A" = Ok c.
Proof.
  eexists _, _. split; [reflexivity|]. split; [reflexivity|].
  split; [reflexivity|].
  destruct (loaded_get_chain_first Inputs.split_chain_file true []
              Inputs.split_chain_structure [] [] 0 _ "A"
              ltac:(vm_lhs; reflexivity) eq_refl) as [Hiff _].
  apply Hiff.
  exists 0%nat. split; [reflexivity|]. split; [reflexivity|]. lia.
Defined.

Lemma loaded_get_residue_first_witness :
  ∃ m c r, PdbStructure.models Inputs.renamed_residue_structure !! 0%nat
           = Some m
    ∧ Model.chains m !! 0%nat = Some c
    ∧ Residue.number <$> Chain.residues c = [1; 1]
    ∧ Chain.residues c !! 0%nat = Some r
    ∧ Chain.__getitem__ c 1 = Ok r.
Proof.
  eexists _, _, _. split; [reflexivity|]. split; [reflexivity|].
  split; [reflexivity|]. split; [reflexivity|].
  destruct (loaded_get_residue_first Inputs.renamed_residue_file true []
              Inputs.renamed_residue_structure [] _ 0 0 _ _ 1
              ltac:(vm_lhs; reflexivity) eq_refl eq_refl) as [Hiff _].
  apply Hiff.
  exists 0%nat. split; [reflexivity|]. split; [reflexivity|]. lia.
Defined.

Lemma loaded_get_atom_last_witness :
  ∃ m c r a, PdbStructure.models Inputs.duplicate_atom_structure !! 0%nat
             = Some m
    ∧ Model.chains m !! 0%nat = Some c
    ∧ Chain.residues c !! 0%nat = Some r
    ∧ Atom.name <$> Residue.atoms r = ["CA"; "CA"]
    ∧ Residue.atoms r !! 1%nat = Some a
    ∧ Residue.get_atom r "CA" = Ok a.
Proof.
  eexists _, _, _, _. split; [reflexivity|]. split; [reflexivity|].
  split; [reflexivity|]. split; [reflexivity|]. split; [reflexivity|].
  destruct (loaded_get_atom_last
              [Inputs.atom_CA_ALA_altA; Inputs.atom_CA_ALA_altA_again] true []
              Inputs.duplicate_atom_structure [] _ 0 0 0 _ _ _ "CA"
              ltac:(vm_lhs; reflexivity) eq_refl eq_refl eq_refl)
    as [Hiff _].
  apply Hiff.
  exists 1%nat. split; [reflexivity|]. split; [by left|].
  intros [|[|q]] b Hq Hb; [lia|lia|done].
Defined.

Lemma loaded_atoms_placed_witness :
  ∃ m c r a, PdbStructure.models Inputs.two_models_structure !! 1%nat = Some m
    ∧ Model.chains m !! 0%nat = Some c
    ∧ Chain.residues c !! 0%nat = Some r
    ∧ Residue.atoms r !! 1%nat = Some a
    ∧ Atom.model_number a = Some 1 ∧ Atom.chain_id a = "A"%char
    ∧ Atom.residue_number a = 1.
Proof.
  eexists _, _, _, _. split; [reflexivity|]. split; [reflexivity|].
  split; [reflexivity|]. split; [reflexivity|].
  destruct (loaded_atoms_placed Inputs.two_models true []
              Inputs.two_models_structure [] [] 1 0 0 _ _ _ _
              ltac:(vm_lhs; reflexivity) eq_refl eq_refl eq_refl
              ltac:(apply list_elem_of_lookup_2 with 1%nat; reflexivity))
    as (Hm & Hc & Hr & _).
  split; [exact Hm|]. split; [exact Hc|exact Hr].
Defined.

Lemma loaded_nothing_empty_witness :
  ∃ m c, PdbStructure.models Inputs.split_chain_structure !! 0%nat = Some m
    ∧ Model.chains m !! 1%nat = Some c
    ∧ Chain.residues c ≠ []
    ∧ ∀ r, r ∈ Chain.residues c → Residue.atoms r ≠ [].
Proof.
  eexists _, _. split; [reflexivity|]. split; [reflexivity|].
  exact (loaded_nothing_empty Inputs.split_chain_file true []
           Inputs.split_chain_structure [] [] 0 1 _ _
           ltac:(vm_lhs; reflexivity) eq_refl eq_refl).
Defined.

Lemma loaded_positions_witness :
  (∃ l, PdbStructure.iter_positions Inputs.two_models_structure true false
        = Ok l
        ∧ mapM Atom.get_position
            (PdbStructure.iter_atoms Inputs.two_models_structure true)
          = Ok l)
  ∧ (∃ l ls, PdbStructure.iter_positions Inputs.two_models_structure true true
             = Ok l
             ∧ mapM Atom.iter_positions
                 (PdbStructure.iter_atoms Inputs.two_models_structure true)
               = Ok ls
             ∧ l = concat ls).
Proof.
  apply (loaded_positions Inputs.two_models true [] _ [] []).
  vm_lhs. reflexivity.
Defined.

Lemma loaded_locations_count_witness :
  ∃ read, Inputs.merged_locations_file = read ++ []
    ∧ length (all_locations Inputs.merged_locations_structure)
      = length (List.filter is_atom_line read).
Proof.
  apply (loaded_locations_count Inputs.merged_locations_file true []
           Inputs.merged_locations_structure [] []).
  vm_lhs. reflexivity.
Defined.

Lemma loaded_unit_cell_witness :
  is_Some (PdbStructure.get_unit_cell_lengths Inputs.cell_structure)
  ∧ is_Some (PdbStructure.get_unit_cell_angles Inputs.cell_structure).
Proof.
  destruct (loaded_unit_cell Inputs.cell_file true []
              Inputs.cell_structure [] [] ltac:(vm_lhs; reflexivity))
    as (read & Hread & _ & Hsome).
  apply Hsome. rewrite app_nil_r in Hread. subst read.
  apply Exists_cons_hd. reflexivity.
Defined.

Lemma loaded_get_residue_by_icode_witness :
  ∃ m c r, PdbStructure.models Inputs.insertion_code_structure !! 0%nat
           = Some m
    ∧ Model.chains m !! 0%nat = Some c
    ∧ Residue.number <$> Chain.residues c = [1; 1]
    ∧ Chain.residues c !! 1%nat = Some r
    ∧ Chain.get_residue c 1 "A" = Ok r.
Proof.
  eexists _, _, _. split; [reflexivity|]. split; [reflexivity|].
  split; [reflexivity|]. split; [reflexivity|].
  destruct (loaded_get_residue_by_icode Inputs.insertion_code_file true []
              Inputs.insertion_code_structure [] _ 0 0 _ _ 1 "A"
              ltac:(vm_lhs; reflexivity) eq_refl eq_refl) as [Hiff _].
  apply Hiff.
  exists 1%nat. split; [reflexivity|]. split; [reflexivity|].
  split; [reflexivity|].
  intros [|[|i0]] r0 Hi0 Hr0; [|lia|lia].
  injection Hr0 as <-. by intros [_ [=]].
Defined.

Lemma loaded_write_witness :
  PdbStructure.write Inputs.empty_model_structure {| val := 0; out := [] |}
  = (Ok tt, {| val := 0; out := ["END"] |})
  ∧ ∃ st1,
      PdbStructure.write Inputs.one_atom_structure {| val := 0; out := [] |}
      = (Raise AttributeError, st1).
Proof.
  split.
  - apply (proj1 (loaded_write Inputs.empty_model_file true []
                    Inputs.empty_model_structure [] []
                    {| val := 0; out := [] |}
                    ltac:(vm_lhs; reflexivity))).
    repeat constructor.
  - apply (proj2 (loaded_write [Inputs.atom_N_ALA_1] true []
                    Inputs.one_atom_structure [] []
                    {| val := 0; out := [] |}
                    ltac:(vm_lhs; reflexivity))).
    apply Exists_cons_hd. discriminate.
Defined.

Lemma loaded_residue_name_witness :
  ∃ m c r, PdbStructure.models Inputs.same_indicator_structure !! 0%nat
           = Some m
    ∧ Model.chains m !! 0%nat = Some c
    ∧ Chain.residues c !! 0%nat = Some r
    ∧ Atom.residue_name_with_spaces <$> Residue.atoms r = ["ALA"; "GLY"]
    ∧ Residue.name_with_spaces r = Ok "ALA".
Proof.
  eexists _, _, _. split; [reflexivity|]. split; [reflexivity|].
  split; [reflexivity|]. split; [reflexivity|].
  destruct (loaded_residue_name
              [Inputs.atom_N_ALA_altA; Inputs.atom_CA_GLY_altA] true []
              Inputs.same_indicator_structure [] _ 0 0 0 _ _ _
              ltac:(vm_lhs; reflexivity) eq_refl eq_refl eq_refl)
    as (a0 & Hhead & Hnm & _).
  injection Hhead as <-. exact Hnm.
Defined.

Lemma loaded_connects_count_witness :
  all_connects Inputs.bonded_structure = [[1; 2]]
  ∧ ∃ read, Inputs.bonded_file = read ++ []
      ∧ length (all_connects Inputs.bonded_structure)
        = length (List.filter (λ l, find_at_0 l "CONECT") read).
Proof.
  split; [reflexivity|].
  exact (loaded_connects_count Inputs.bonded_file true []
           Inputs.bonded_structure [] _ ltac:(vm_lhs; reflexivity)).
Defined.
